(** * Risk aggregation of the job-posting fraud detector

    A shallow embedding of [backend/app]: the internal data model
    ([models/internal.py], [models/request.py], [models/response.py]), the
    four analyzers ([analyzers/*.py]) and the coordinating service
    ([services/job_analysis_service.py]), followed by the properties the
    specification states about them.

    Conventions of the embedding.
    - A Python [float] is read at two levels.  Where a result depends on
      the rounding of the float operations (the order of the sort keys
      [severity * confidence], the integer that [round] makes of the
      adjusted score) it is an IEEE 754 binary64 number ([Binary64.t]),
      every operation rounded as the processor rounds it.  Elsewhere it
      is the rational ([Q]) that the decimal literals of the source and the
      exact operations give: the properties stated at that level are
      ranges, comparisons with a literal and relations between two runs of
      one computation.
    - A Python [int] is a [Z] (or a [nat] where it is a length or a count).
    - A Python [str] is a [string] whose characters are the code points
      below 256; [str.lower], [str.isspace] and [str.split] are the Python
      ones on that range.
    - A raised exception is [None] in the [option] monad.
    - The [re] module and [urllib.parse] are not part of the repository:
      the text, email and URL analyzers take the answers of their compiled
      patterns and of [urlparse] as parameters of a [Section]. *)

From Stdlib Require Import ZArith QArith Qround Qminmax Lia Lqa.
From Stdlib Require Import List String Ascii Bool Permutation Sorted.
From Stdlib Require Import DecimalString.
From Stdlib Require Import Floats.SpecFloat.
Import ListNotations.

(** ** Exceptions

    A computation that may raise is an [option]; [x <- e ;; k] goes on with
    the value of [e] or raises what [e] raises. *)

Notation "x <- e ;; k" :=
  (match e with Some x => k | None => None end)
    (at level 61, e at next level, right associativity, only parsing).

(** ** Python numbers *)

Module PyNum.

Open Scope Q_scope.

Definition Qlt_bool (x y : Q) : bool := negb (Qle_bool y x).

(** [max(a, b)]: the first argument unless the second is strictly greater. *)
Definition max2 (a b : Q) : Q := if Qlt_bool a b then b else a.

(** [min(a, b)]: the first argument unless the second is strictly smaller. *)
Definition min2 (a b : Q) : Q := if Qlt_bool b a then b else a.

Definition Zmax2 (a b : Z) : Z := if (a <? b)%Z then b else a.
Definition Zmin2 (a b : Z) : Z := if (b <? a)%Z then b else a.

(** [max(iterable)]: the first maximal item; [ValueError] on an empty one. *)
Definition max_of (l : list Q) : option Q :=
  match l with
  | [] => None
  | x :: r => Some (fold_left max2 r x)
  end.

(** [sum(iterable)], from the integer 0, left to right. *)
Definition sum (l : list Q) : Q := fold_left Qplus l 0.

(** [a / b]: [ZeroDivisionError] when the divisor is zero. *)
Definition div (a b : Q) : option Q :=
  if Qeq_bool b 0 then None else Some (a / b).

(** [round(x)] of a float: the nearest integer, a tie going to the even
    one. *)
Definition round (x : Q) : Z :=
  let f := Qfloor x in
  match Qcompare (x - inject_Z f) (1 # 2) with
  | Lt => f
  | Gt => (f + 1)%Z
  | Eq => if Z.even f then f else (f + 1)%Z
  end.

(** [int(x)] of a float: truncation towards zero. *)
Definition int_of (x : Q) : Z := Z.quot (Qnum x) (Zpos (Qden x)).

(** [sum] of a list of booleans, as in [sum([has_email, has_url, ...])]. *)
Definition count_true (l : list bool) : Z :=
  fold_left (fun acc (b : bool) => if b then (acc + 1)%Z else acc) l 0%Z.

End PyNum.

(** ** Python strings *)

Module PyStr.

Open Scope string_scope.

(** [c.isspace()] for a code point below 256: TAB..CR, FS..US, SPACE,
    NEL and NBSP. *)
Definition isspace (c : ascii) : bool :=
  let n := N_of_ascii c in
  (((9 <=? n) && (n <=? 13)) || ((28 <=? n) && (n <=? 32))
   || (n =? 133) || (n =? 160))%N.

(** [c.lower()] for a code point below 256: A..Z and the capital letters
    of Latin-1 (U+00C0..U+00DE but the multiplication sign). *)
Definition lower_char (c : ascii) : ascii :=
  let n := N_of_ascii c in
  if (((65 <=? n) && (n <=? 90))
      || ((192 <=? n) && (n <=? 222) && negb (n =? 215)))%N
  then ascii_of_N (n + 32) else c.

Fixpoint lower (s : string) : string :=
  match s with
  | EmptyString => EmptyString
  | String c r => String (lower_char c) (lower r)
  end.

(** [needle in hay]. *)
Fixpoint contains (needle hay : string) : bool :=
  prefix needle hay
  || match hay with
     | EmptyString => false
     | String _ r => contains needle r
     end.

Fixpoint lstrip (s : string) : string :=
  match s with
  | EmptyString => EmptyString
  | String c r => if isspace c then lstrip r else s
  end.

Fixpoint rstrip (s : string) : string :=
  match s with
  | EmptyString => EmptyString
  | String c r =>
      match rstrip r with
      | EmptyString => if isspace c then EmptyString else String c EmptyString
      | r' => String c r'
      end
  end.

(** [s.strip()]. *)
Definition strip (s : string) : string := rstrip (lstrip s).

(** [bool(s)]: a string is true when it is not empty. *)
Definition truthy (s : string) : bool :=
  match s with EmptyString => false | String _ _ => true end.

(** [s.split()]: the maximal runs of characters that are not white
    space.  [cur] is the run being read, in reverse. *)
Fixpoint split_aux (s : string) (cur : list ascii) : list string :=
  let flush (k : list string) :=
    match cur with
    | [] => k
    | _ => string_of_list_ascii (rev cur) :: k
    end in
  match s with
  | EmptyString => flush []
  | String c r =>
      if isspace c then flush (split_aux r []) else split_aux r (c :: cur)
  end.

Definition split (s : string) : list string := split_aux s [].

(** [sep.join(items)]. *)
Fixpoint join (sep : string) (items : list string) : string :=
  match items with
  | [] => EmptyString
  | [x] => x
  | x :: r => x ++ sep ++ join sep r
  end.

(** [s.replace(old, new)] for a one-character [old]. *)
Fixpoint replace_char (old new : ascii) (s : string) : string :=
  match s with
  | EmptyString => EmptyString
  | String c r =>
      String (if Ascii.eqb c old then new else c) (replace_char old new r)
  end.

(** [str(n)] of a non-negative integer. *)
Definition of_nat (n : nat) : string := NilEmpty.string_of_uint (Nat.to_uint n).

(** [x in items] for a list (or a set) of strings. *)
Definition mem (x : string) (items : list string) : bool :=
  existsb (String.eqb x) items.

(** [s.endswith(suffix)]. *)
Definition endswith (s suffix : string) : bool :=
  prefix (string_of_list_ascii (rev (list_ascii_of_string suffix)))
         (string_of_list_ascii (rev (list_ascii_of_string s))).

(** [s.count(c)] for a one-character [c]. *)
Fixpoint count_char (c : ascii) (s : string) : nat :=
  match s with
  | EmptyString => 0
  | String d r => (if Ascii.eqb d c then 1 else 0) + count_char c r
  end.

(** [c.isdigit()] for a code point below 256: 0..9 and the superscripts
    two, three and one. *)
Definition isdigit_char (c : ascii) : bool :=
  let n := N_of_ascii c in
  (((48 <=? n) && (n <=? 57)) || (n =? 178) || (n =? 179) || (n =? 185))%N.

(** [s.isdigit()]: every character is a digit and there is at least
    one. *)
Definition isdigit (s : string) : bool :=
  truthy s && forallb isdigit_char (list_ascii_of_string s).

(** [s.split(c)] for a one-character separator: always at least one
    piece. *)
Fixpoint split_on_aux (c : ascii) (s : string) (cur : list ascii) : list string :=
  match s with
  | EmptyString => [string_of_list_ascii (rev cur)]
  | String d r =>
      if Ascii.eqb d c
      then string_of_list_ascii (rev cur) :: split_on_aux c r []
      else split_on_aux c r (d :: cur)
  end.

Definition split_on (c : ascii) (s : string) : list string := split_on_aux c s [].

End PyStr.


(** ** Python floats, bit for bit

    Where the outcome of a computation depends on the rounding of a float
    operation (the order of two sort keys, the integer next to a product),
    the float is an IEEE 754 binary64 number: a [spec_float] of the
    Standard Library with a mantissa of 53 bits, every operation rounded to
    the nearest number, a tie going to the even mantissa. *)

Module Binary64.

Open Scope Z_scope.

Definition prec : Z := 53.
Definition emax : Z := 1024.

Definition t : Type := spec_float.

(** [0.0], and the float of the integer [0]. *)
Definition zero : t := S754_zero false.

(** The float of an [int] in [n * x], [n + x] and [x / n]: the number
    nearest to [n], which is [n] itself below 2^53.  (Python raises
    [OverflowError] for an integer beyond the range of the floats; the
    integers converted here are severities, bonuses and lengths.) *)
Definition of_Z (n : Z) : t := binary_normalize prec emax n 0 false.

(** The number nearest to a rational: the float that Python reads from a
    decimal literal of that value, and the float itself when the rational is
    the value of one. *)
Definition of_Q (q : Q) : t :=
  match Qnum q with
  | Z0 => zero
  | Zpos n =>
      let '(m, e, l) :=
        SFdiv_core_binary prec emax (Zpos n) 0 (Zpos (Qden q)) 0 in
      binary_round_aux prec emax false m e l
  | Zneg n =>
      let '(m, e, l) :=
        SFdiv_core_binary prec emax (Zpos n) 0 (Zpos (Qden q)) 0 in
      binary_round_aux prec emax true m e l
  end.

Definition add (a b : t) : t := SFadd prec emax a b.
Definition sub (a b : t) : t := SFsub prec emax a b.
Definition mul (a b : t) : t := SFmul prec emax a b.

(** [a / b]: [ZeroDivisionError] when the divisor is zero. *)
Definition div (a b : t) : option t :=
  match b with
  | S754_zero _ => None
  | _ => Some (SFdiv prec emax a b)
  end.

(** [a / n] for an [int] [n]: the integer is made a float first, and only
    the integer 0 gives the float zero. *)
Definition div_int (a : t) (n : Z) : option t :=
  if n =? 0 then None else Some (SFdiv prec emax a (of_Z n)).

(** [a < b]; false when one of them is not a number. *)
Definition ltb (a b : t) : bool := SFltb a b.

(** [max(a, b)]: the first argument unless the second is strictly greater. *)
Definition max2 (a b : t) : t := if ltb a b then b else a.

(** [min(a, b)]: the first argument unless the second is strictly smaller. *)
Definition min2 (a b : t) : t := if ltb b a then b else a.

(** [max(iterable)]: the first maximal item; [ValueError] on an empty one. *)
Definition max_of (l : list t) : option t :=
  match l with
  | [] => None
  | x :: r => Some (fold_left max2 r x)
  end.

(** The sum of the floats from left to right, each addition rounded. *)
Definition sum_left (l : list t) : t := fold_left add l zero.

(** The value of a float.  An infinity is given the value 2^1024, beyond
    every finite float, so that the order of the values is the order of the
    floats; what is not a number has no place in that order and is given
    0. *)
Definition to_Q (x : t) : Q :=
  match x with
  | S754_zero _ => 0%Q
  | S754_infinity s =>
      if s then (- inject_Z (2 ^ 1024))%Q else inject_Z (2 ^ 1024)
  | S754_nan => 0%Q
  | S754_finite s m e =>
      let v :=
        match e with
        | Zneg k => (Zpos m # 2 ^ k)%Q
        | _ => inject_Z (Zpos m * 2 ^ e)
        end in
      if s then (- v)%Q else v
  end.

(** [round(x)]: the integer nearest to the value of the float, a tie going
    to the even one; [OverflowError] on an infinity and [ValueError] on
    what is not a number. *)
Definition round (x : t) : option Z :=
  match x with
  | S754_zero _ => Some 0
  | S754_finite _ _ _ => Some (PyNum.round (to_Q x))
  | S754_infinity _ | S754_nan => None
  end.

End Binary64.

(** ** The data model ([models/internal.py], [models/request.py],
    [models/response.py]) *)

Inductive RiskCategory : Type :=
| TEXT_ANALYSIS
| EMAIL_VALIDATION
| URL_VALIDATION
| PLATFORM_CREDIBILITY
| GENERAL.

Definition RiskCategory_eqb (a b : RiskCategory) : bool :=
  match a, b with
  | TEXT_ANALYSIS, TEXT_ANALYSIS
  | EMAIL_VALIDATION, EMAIL_VALIDATION
  | URL_VALIDATION, URL_VALIDATION
  | PLATFORM_CREDIBILITY, PLATFORM_CREDIBILITY
  | GENERAL, GENERAL => true
  | _, _ => false
  end.

(** [for category in RiskCategory]: the members in definition order. *)
Definition RiskCategory_members : list RiskCategory :=
  [TEXT_ANALYSIS; EMAIL_VALIDATION; URL_VALIDATION; PLATFORM_CREDIBILITY; GENERAL].

Module RiskFactor.
Record t : Type := Build {
  category : RiskCategory;
  severity : Z;
  description : string;
  confidence : Q
}.

(** The field constraints of the model: [ge=0, le=100] on the severity,
    [ge=0.0, le=1.0] on the confidence. *)
Definition valid (f : t) : Prop :=
  (0 <= severity f <= 100)%Z /\ (0 <= confidence f <= 1)%Q.

(** The exact product of the severity and the confidence. *)
Definition weighted (f : t) : Q := inject_Z (severity f) * confidence f.

(** [f.confidence], the float of the field. *)
Definition confidence64 (f : t) : Binary64.t := Binary64.of_Q (confidence f).

(** [f.severity * f.confidence], the float that the service computes: the
    product of the two fields, rounded to the nearest float. *)
Definition product (f : t) : Binary64.t :=
  Binary64.mul (Binary64.of_Z (severity f)) (confidence64 f).

(** The key of [sorted(..., key=lambda f: f.severity * f.confidence)], by
    its value. *)
Definition sort_key (f : t) : Q := Binary64.to_Q (product f).
End RiskFactor.

Module AnalysisResult.
Record t : Type := Build {
  risk_factors : list RiskFactor.t;
  confidence : Q;
  analyzer_name : string
}.

Definition valid (r : t) : Prop :=
  Forall RiskFactor.valid (risk_factors r) /\ (0 <= confidence r <= 1)%Q.
End AnalysisResult.

Module JobAnalysisRequest.
(** [company_url] and [recruiter_email] are [Optional[str]]. *)
Record t : Type := Build {
  job_text : string;
  company_url : option string;
  recruiter_email : option string;
  platform_source : string
}.
End JobAnalysisRequest.

Inductive VerdictEnum : Type := SAFE | CAUTION | HIGH_RISK.

Inductive ConfidenceEnum : Type := High | Medium | Low.

Module JobAnalysisResponse.
Record t : Type := Build {
  risk_score : Z;
  flags : list string;
  verdict : VerdictEnum;
  confidence : ConfidenceEnum
}.
End JobAnalysisResponse.

(** A Python [dict] with string keys, in insertion order. *)
Module Dict.
Definition t (V : Type) : Type := list (string * V).

Fixpoint get {V : Type} (d : t V) (k : string) : option V :=
  match d with
  | [] => None
  | (k', v) :: r => if String.eqb k k' then Some v else get r k
  end.

Definition values {V : Type} (d : t V) : list V := map snd d.
End Dict.

(** [bool(x and x.strip())] for an [Optional[str]]: the field is given and
    is not blank. *)
Definition present (x : option string) : bool :=
  match x with
  | None => false
  | Some s => PyStr.truthy s && PyStr.truthy (PyStr.strip s)
  end.

(** [not x or not x.strip()]. *)
Definition blank (x : option string) : bool := negb (present x).

(** [sorted(items, key=key, reverse=True)]: a stable sort, the largest key
    first.  [insert_desc] puts [x] in front of the first item whose key is
    not greater than the key of [x], so that items of equal keys keep the
    order they had. *)
Fixpoint insert_desc {A : Type} (key : A -> Q) (x : A) (l : list A) : list A :=
  match l with
  | [] => [x]
  | y :: r =>
      if PyNum.Qlt_bool (key x) (key y)
      then y :: insert_desc key x r
      else x :: l
  end.

Definition sorted_desc {A : Type} (key : A -> Q) (l : list A) : list A :=
  fold_right (insert_desc key) [] l.

(** ** The text analyzer ([analyzers/text_analyzer.py]) *)

Module TextAnalyzer.

Import PyNum.
Open Scope string_scope.

(** [self.fraud_keywords], in insertion order. *)
Definition fraud_keywords : list (string * list string) :=
  [ ("personal_info_requests",
     [ "ssn"; "social security"; "bank account"; "routing number";
       "credit card"; "personal information"; "id copy"; "passport copy";
       "driver license"; "birth certificate"; "tax information" ]);
    ("financial_requests",
     [ "processing fee"; "training fee"; "equipment fee"; "startup cost";
       "registration fee"; "background check fee"; "send money";
       "wire transfer"; "western union"; "moneygram"; "cash advance";
       "money transfer"; "transfer funds"; "transfer money" ]);
    ("urgency_pressure",
     [ "immediate start"; "urgent hiring"; "start immediately"; "asap";
       "quick hire"; "fast hiring"; "limited time"; "act now";
       "don't wait"; "hurry"; "expires soon"; "today only" ]);
    ("unrealistic_promises",
     [ "no experience required"; "guaranteed income"; "easy money";
       "work from home guaranteed"; "make money fast"; "get rich quick";
       "high pay no experience"; "earn thousands weekly"; "instant success" ]);
    ("vague_descriptions",
     [ "various duties"; "other duties as assigned"; "miscellaneous tasks";
       "general office work"; "data entry"; "customer service representative";
       "administrative assistant"; "personal assistant" ]);
    ("communication_red_flags",
     [ "whatsapp"; "telegram"; "text message"; "sms only";
       "contact via text"; "message me"; "call this number";
       "email me directly"; "respond asap" ]) ].

(** The keys of [self.suspicious_patterns], in insertion order.  The
    compiled patterns are
    - [excessive_caps]: five or more capital letters in a row,
    - [excessive_exclamation]: two or more exclamation marks in a row,
    - [phone_in_description]: a ten-digit phone number,
    - [email_in_description]: an email address,
    - [money_amounts]: a dollar amount,
    - [unrealistic_salary]: a dollar amount of 5000 or more per week or day,
    - [poor_grammar]: there/their/they're twice on a line,
    - [multiple_currencies]: a currency symbol,
    - [instant_keywords]: instant, immediate, now, today or asap as a word. *)
Inductive pattern_name : Type :=
| excessive_caps
| excessive_exclamation
| phone_in_description
| email_in_description
| money_amounts
| unrealistic_salary
| poor_grammar
| multiple_currencies
| instant_keywords.

Definition suspicious_patterns : list pattern_name :=
  [ excessive_caps; excessive_exclamation; phone_in_description;
    email_in_description; money_amounts; unrealistic_salary; poor_grammar;
    multiple_currencies; instant_keywords ].

(** [self.legitimate_indicators]. *)
Definition legitimate_indicators : list (string * list string) :=
  [ ("specific_skills",
     [ "python"; "java"; "javascript"; "sql"; "aws"; "docker";
       "kubernetes"; "react"; "angular"; "node.js"; "git";
       "agile"; "scrum"; "ci/cd"; "devops" ]);
    ("professional_terms",
     [ "bachelor's degree"; "master's degree"; "certification";
       "experience required"; "qualifications"; "responsibilities";
       "requirements"; "preferred qualifications" ]);
    ("company_benefits",
     [ "health insurance"; "401k"; "dental"; "vision"; "pto";
       "paid time off"; "retirement plan"; "stock options" ]) ].

(** [severity_mapping.get(category, 50)] of [_check_fraud_keywords]. *)
Definition keyword_severity (category : string) : Z :=
  if String.eqb category "personal_info_requests" then 100
  else if String.eqb category "financial_requests" then 98
  else if String.eqb category "urgency_pressure" then 65
  else if String.eqb category "unrealistic_promises" then 75
  else if String.eqb category "vague_descriptions" then 30
  else if String.eqb category "communication_red_flags" then 55
  else 50.

(** The body of the loop of [_check_fraud_keywords] for one category: the
    risk factor it appends, if any. *)
Definition keyword_factor (job_text_lower : string)
           (entry : string * list string) : list RiskFactor.t :=
  let (category, keywords) := entry in
  let matches := filter (fun keyword => PyStr.contains keyword job_text_lower)
                        keywords in
  match matches with
  | [] => []
  | _ :: _ =>
      let base_severity := keyword_severity category in
      let severity :=
        Zmin2 100 (base_severity + (Z.of_nat (List.length matches) - 1) * 5) in
      let confidence :=
        if PyStr.mem category ["personal_info_requests"; "financial_requests"]
        then 9 # 10 else 8 # 10 in
      [ RiskFactor.Build TEXT_ANALYSIS severity
          ("Contains " ++ PyStr.replace_char "_" " " category
             ++ " keywords: " ++ PyStr.join ", " (firstn 3 matches))
          confidence ]
  end.

(** [_check_fraud_keywords]: the list [risk_factors] after the call (the
    returned number of matches is not used by the caller). *)
Definition _check_fraud_keywords (job_text_lower : string)
           (risk_factors : list RiskFactor.t) : list RiskFactor.t :=
  (risk_factors ++ flat_map (keyword_factor job_text_lower) fraud_keywords)%list.

(** [severity_mapping.get(pattern_name, 30)] of
    [_check_suspicious_patterns]. *)
Definition pattern_severity (p : pattern_name) : Z :=
  match p with
  | excessive_caps => 15
  | excessive_exclamation => 20
  | phone_in_description => 40
  | email_in_description => 35
  | money_amounts => 15
  | unrealistic_salary => 90
  | poor_grammar => 20
  | multiple_currencies => 30
  | instant_keywords => 45
  end.

Definition pattern_description (p : pattern_name) (n : nat) : string :=
  match p with
  | excessive_caps =>
      "Excessive use of capital letters (" ++ PyStr.of_nat n ++ " instances)"
  | excessive_exclamation =>
      "Multiple exclamation marks (" ++ PyStr.of_nat n ++ " instances)"
  | phone_in_description =>
      "Phone numbers in job description (" ++ PyStr.of_nat n ++ " found)"
  | email_in_description =>
      "Email addresses in job description (" ++ PyStr.of_nat n ++ " found)"
  | money_amounts =>
      "Specific dollar amounts mentioned (" ++ PyStr.of_nat n ++ " instances)"
  | unrealistic_salary =>
      "Unrealistic salary promises detected (" ++ PyStr.of_nat n ++ " instances)"
  | poor_grammar =>
      "Potential grammar issues detected (" ++ PyStr.of_nat n ++ " instances)"
  | multiple_currencies =>
      "Multiple currency symbols used (" ++ PyStr.of_nat n ++ " instances)"
  | instant_keywords =>
      "Urgency/instant keywords detected (" ++ PyStr.of_nat n ++ " instances)"
  end.

Definition is_unrealistic_salary (p : pattern_name) : bool :=
  match p with unrealistic_salary => true | _ => false end.

(** [_check_legitimate_indicators]: the number of indicators found. *)
Definition _check_legitimate_indicators (job_text_lower : string) : Z :=
  fold_left
    (fun legitimacy_score (entry : string * list string) =>
       fold_left
         (fun score indicator =>
            if PyStr.contains indicator job_text_lower
            then (score + 1)%Z else score)
         (snd entry) legitimacy_score)
    legitimate_indicators 0%Z.

(** [_check_content_quality]: the list [risk_factors] after the call. *)
Definition _check_content_quality (job_text : string)
           (risk_factors : list RiskFactor.t) : list RiskFactor.t :=
  let words := PyStr.split job_text in
  let risk_factors :=
    if (List.length words <? 20)%nat
    then (risk_factors ++
          [ RiskFactor.Build TEXT_ANALYSIS 70
              ("Very short job description ("
                 ++ PyStr.of_nat (List.length words) ++ " words)")
              (9 # 10) ])%list
    else if (1000 <? List.length words)%nat
    then (risk_factors ++
          [ RiskFactor.Build TEXT_ANALYSIS 40
              ("Unusually long job description ("
                 ++ PyStr.of_nat (List.length words) ++ " words)")
              (6 # 10) ])%list
    else risk_factors in
  let requirement_keywords :=
    [ "experience"; "skill"; "requirement"; "qualification";
      "must have"; "should have" ] in
  let has_requirements :=
    existsb (fun keyword => PyStr.contains keyword (PyStr.lower job_text))
            requirement_keywords in
  if negb has_requirements
  then (risk_factors ++
        [ RiskFactor.Build TEXT_ANALYSIS 50
            "No specific requirements or qualifications mentioned"
            (7 # 10) ])%list
  else risk_factors.

Definition _calculate_confidence (job_text : string)
           (risk_factor_count : nat) : Q :=
  let base_confidence := 7 # 10 in
  let word_count := List.length (PyStr.split job_text) in
  let base_confidence :=
    if (50 <? word_count)%nat then base_confidence + (1 # 10)
    else base_confidence in
  let base_confidence :=
    if (100 <? word_count)%nat then base_confidence + (1 # 10)
    else base_confidence in
  let base_confidence :=
    if (0 <? risk_factor_count)%nat
    then base_confidence
         + min2 (2 # 10) (inject_Z (Z.of_nat risk_factor_count) * (5 # 100))
    else base_confidence in
  min2 1 base_confidence.

Section WithPatterns.

(** [pattern.findall(job_text)] for the compiled pattern of that name. *)
Variable findall : pattern_name -> string -> list string.

(** The body of the loop of [_check_suspicious_patterns]. *)
Definition pattern_factor (job_text : string) (p : pattern_name)
  : list RiskFactor.t :=
  let matches := findall p job_text in
  match matches with
  | [] => []
  | _ :: _ =>
      let base_severity := pattern_severity p in
      let severity :=
        Zmin2 100 (base_severity + (Z.of_nat (List.length matches) - 1) * 10) in
      let confidence := if is_unrealistic_salary p then 9 # 10 else 7 # 10 in
      [ RiskFactor.Build TEXT_ANALYSIS severity
          (pattern_description p (List.length matches)) confidence ]
  end.

(** [_check_suspicious_patterns]: the list [risk_factors] after the
    call. *)
Definition _check_suspicious_patterns (job_text : string)
           (risk_factors : list RiskFactor.t) : list RiskFactor.t :=
  (risk_factors ++ flat_map (pattern_factor job_text) suspicious_patterns)%list.

Definition analyze (job_text : string) : AnalysisResult.t :=
  if negb (PyStr.truthy job_text) || negb (PyStr.truthy (PyStr.strip job_text))
  then
    AnalysisResult.Build
      [ RiskFactor.Build TEXT_ANALYSIS 100 "Job text is empty or missing" 1 ]
      1 "TextAnalyzer"
  else
    let job_text_lower := PyStr.lower job_text in
    let risk_factors := [] in
    let risk_factors := _check_fraud_keywords job_text_lower risk_factors in
    let risk_factors := _check_suspicious_patterns job_text risk_factors in
    let risk_factors := _check_content_quality job_text risk_factors in
    let legitimacy_bonus := _check_legitimate_indicators job_text_lower in
    let confidence :=
      _calculate_confidence job_text (List.length risk_factors) in
    AnalysisResult.Build risk_factors confidence "TextAnalyzer".

End WithPatterns.

End TextAnalyzer.

(** ** The email analyzer ([analyzers/email_analyzer.py]) *)

Module EmailAnalyzer.

Import PyNum.
Open Scope string_scope.

(** The compiled patterns of the analyzer: [self.email_pattern], the four
    entries of [self.suspicious_patterns], the [random_domains] entry of
    [self.suspicious_domain_patterns], and the four patterns of
    [highly_unprofessional_patterns] (finance words, urgency words, three
    x in a row, six digits in a row). *)
Inductive regex : Type :=
| email_pattern
| temp_email
| random_chars
| numbers_only
| suspicious_tlds
| random_domains
| finance_username
| urgency_username
| triple_x_username
| long_number_username.

Definition suspicious_patterns : list regex :=
  [ temp_email; random_chars; numbers_only; suspicious_tlds ].

Definition highly_unprofessional_patterns : list regex :=
  [ finance_username; urgency_username; triple_x_username;
    long_number_username ].

(** [self.trusted_domains['major_providers']]. *)
Definition major_providers : list string :=
  [ "gmail.com"; "yahoo.com"; "hotmail.com"; "outlook.com";
    "aol.com"; "icloud.com"; "protonmail.com"; "zoho.com" ].

Definition disposable_domains : list string :=
  [ "10minutemail.com"; "tempmail.org"; "guerrillamail.com";
    "mailinator.com"; "throwaway.email"; "temp-mail.org";
    "fakeinbox.com"; "dispostable.com"; "yopmail.com" ].

(** [self.suspicious_domain_patterns['very_new_tlds']]. *)
Definition very_new_tlds : list string :=
  [ ".tk"; ".ml"; ".ga"; ".cf"; ".click"; ".download"; ".zip" ].

(** [self.suspicious_domain_patterns['typosquatting']]. *)
Definition typosquatting : list string :=
  [ "gmai1.com"; "yaho0.com"; "hotmai1.com"; "outlok.com" ].

Definition pattern_severity (p : regex) : Z :=
  match p with
  | temp_email => 85
  | random_chars => 60
  | numbers_only => 40
  | suspicious_tlds => 70
  | _ => 50
  end.

Definition pattern_description (p : regex) : string :=
  match p with
  | temp_email => "Uses temporary/disposable email service"
  | random_chars => "Username appears to be randomly generated"
  | numbers_only => "Username contains only numbers"
  | suspicious_tlds => "Uses suspicious top-level domain"
  | _ => "Suspicious pattern"
  end.

(** [_check_disposable_email]: the list [risk_factors] after the call. *)
Definition _check_disposable_email (domain : string)
           (risk_factors : list RiskFactor.t) : list RiskFactor.t :=
  let disposable_keywords :=
    [ "temp"; "throw"; "disposable"; "fake"; "10min"; "guerrilla" ] in
  match find (fun keyword => PyStr.contains keyword domain)
             disposable_keywords with
  | Some keyword =>
      (risk_factors ++
       [ RiskFactor.Build EMAIL_VALIDATION 70
           ("Domain contains disposable email indicator: '" ++ keyword ++ "'")
           (7 # 10) ])%list
  | None => risk_factors
  end.

Section WithRe.

(** [pattern.match(s)] and [pattern.search(s)] (or [re.search(pattern,
    s)]) found a match. *)
Variable re_match : regex -> string -> bool.
Variable re_search : regex -> string -> bool.

(** [_validate_email_format]: the returned flag and the list
    [risk_factors] after the call. *)
Definition _validate_email_format (email : string)
           (risk_factors : list RiskFactor.t)
  : option (bool * list RiskFactor.t) :=
  if negb (re_match email_pattern email)
  then Some (false,
             (risk_factors ++
              [ RiskFactor.Build EMAIL_VALIDATION 90
                  "Invalid email format" 1 ])%list)
  else if negb (PyStr.count_char "@" email =? 1)%nat
  then Some (false,
             (risk_factors ++
              [ RiskFactor.Build EMAIL_VALIDATION 95
                  "Email contains multiple @ symbols" 1 ])%list)
  else
    match PyStr.split_on "@" email with
    | [username; domain] =>
        if (String.length username <? 1)%nat
        then Some (false,
                   (risk_factors ++
                    [ RiskFactor.Build EMAIL_VALIDATION 100
                        "Email username is empty" 1 ])%list)
        else
          let risk_factors :=
            if (64 <? String.length username)%nat
            then (risk_factors ++
                  [ RiskFactor.Build EMAIL_VALIDATION 60
                      "Email username exceeds recommended length"
                      (8 # 10) ])%list
            else risk_factors in
          let risk_factors :=
            if (253 <? String.length domain)%nat
            then (risk_factors ++
                  [ RiskFactor.Build EMAIL_VALIDATION 70
                      "Email domain exceeds maximum length"
                      (9 # 10) ])%list
            else risk_factors in
          Some (true, risk_factors)
    | _ => None
    end.

(** The body of the loop of [_check_suspicious_patterns]. *)
Definition pattern_factor (email : string) (p : regex) : list RiskFactor.t :=
  if re_search p email
  then [ RiskFactor.Build EMAIL_VALIDATION (pattern_severity p)
           (pattern_description p) (8 # 10) ]
  else [].

Definition _check_suspicious_patterns (email : string)
           (risk_factors : list RiskFactor.t) : list RiskFactor.t :=
  (risk_factors ++ flat_map (pattern_factor email) suspicious_patterns)%list.

Definition _check_domain_reputation (domain : string)
           (risk_factors : list RiskFactor.t) : list RiskFactor.t :=
  if PyStr.mem domain disposable_domains
  then (risk_factors ++
        [ RiskFactor.Build EMAIL_VALIDATION 80
            "Uses known disposable email domain" (9 # 10) ])%list
  else
    let risk_factors :=
      if PyStr.mem domain typosquatting
      then (risk_factors ++
            [ RiskFactor.Build EMAIL_VALIDATION 75
                "Domain appears to be typosquatting a legitimate service"
                (8 # 10) ])%list
      else risk_factors in
    let risk_factors :=
      match find (fun suspicious_tld => PyStr.endswith domain suspicious_tld)
                 very_new_tlds with
      | Some suspicious_tld =>
          (risk_factors ++
           [ RiskFactor.Build EMAIL_VALIDATION 50
               ("Uses potentially suspicious TLD: " ++ suspicious_tld)
               (6 # 10) ])%list
      | None => risk_factors
      end in
    if re_match random_domains domain
    then (risk_factors ++
          [ RiskFactor.Build EMAIL_VALIDATION 55
              "Domain name appears randomly generated" (7 # 10) ])%list
    else risk_factors.

Definition _check_suspicious_email_characteristics (email domain : string)
           (risk_factors : list RiskFactor.t) : option (list RiskFactor.t) :=
  username <- nth_error (PyStr.split_on "@" email) 0 ;;
  let risk_factors :=
    if PyStr.mem domain major_providers
    then
      let suspicious_keywords :=
        [ "money"; "cash"; "urgent"; "immediate"; "quick"; "easy";
          "guaranteed" ] in
      if existsb (fun keyword => PyStr.contains keyword (PyStr.lower username))
                 suspicious_keywords
      then (risk_factors ++
            [ RiskFactor.Build EMAIL_VALIDATION 60
                "Personal email with finance/urgency keywords"
                (7 # 10) ])%list
      else risk_factors
    else risk_factors in
  Some
    (if existsb (fun pattern => re_search pattern username)
                highly_unprofessional_patterns
     then (risk_factors ++
           [ RiskFactor.Build EMAIL_VALIDATION 50
               "Email username contains suspicious keywords"
               (7 # 10) ])%list
     else risk_factors).

Definition _calculate_confidence (email : string) (format_valid : bool)
           (risk_factor_count : nat) : option Q :=
  let base_confidence := 8 # 10 in
  base_confidence <-
    (if negb format_valid then Some (9 # 10)
     else
       base_confidence <-
         (if PyStr.contains "@" email
          then
            domain <- nth_error (PyStr.split_on "@" email) 1 ;;
            Some (if (0 <? String.length domain)%nat
                  then base_confidence + (1 # 10) else base_confidence)
          else Some base_confidence) ;;
       Some (if (0 <? risk_factor_count)%nat
             then base_confidence
                  + min2 (1 # 10)
                         (inject_Z (Z.of_nat risk_factor_count) * (2 # 100))
             else base_confidence)) ;;
  Some (min2 1 base_confidence).

(** An empty email is neutral. *)
Definition neutral : AnalysisResult.t :=
  AnalysisResult.Build [] 1 "EmailAnalyzer".

Definition analyze (recruiter_email : option string)
  : option AnalysisResult.t :=
  match recruiter_email with
  | None => Some neutral
  | Some given =>
      if negb (PyStr.truthy given) || negb (PyStr.truthy (PyStr.strip given))
      then Some neutral
      else
        let email := PyStr.lower (PyStr.strip given) in
        let risk_factors := [] in
        validated <- _validate_email_format email risk_factors ;;
        let (format_valid, risk_factors) := validated in
        risk_factors <-
          (if format_valid
           then
             domain <- nth_error (PyStr.split_on "@" email) 1 ;;
             let risk_factors := _check_suspicious_patterns email risk_factors in
             let risk_factors := _check_domain_reputation domain risk_factors in
             let risk_factors := _check_disposable_email domain risk_factors in
             _check_suspicious_email_characteristics email domain risk_factors
           else Some risk_factors) ;;
        confidence <-
          _calculate_confidence email format_valid (List.length risk_factors) ;;
        Some (AnalysisResult.Build risk_factors confidence "EmailAnalyzer")
  end.

End WithRe.

End EmailAnalyzer.

(** ** The URL analyzer ([analyzers/url_analyzer.py]) *)

Module URLAnalyzer.

Import PyNum.
Open Scope string_scope.

(** The compiled patterns of the analyzer: [self.url_pattern], the six
    entries of [self.suspicious_patterns] and the [suspicious_tld_pattern]
    of [_check_suspicious_domain_characteristics]. *)
Inductive regex : Type :=
| url_pattern
| ip_address
| suspicious_tlds
| url_shorteners
| excessive_subdomains
| suspicious_keywords
| random_domains
| suspicious_tld_pattern.

Definition suspicious_patterns : list regex :=
  [ ip_address; suspicious_tlds; url_shorteners; excessive_subdomains;
    suspicious_keywords; random_domains ].

(** What the service reads of the result of [urlparse]: [port] is [None]
    when reading the attribute raises [ValueError], [Some None] when the
    URL has no port. *)
Record ParseResult : Type := {
  scheme : string;
  netloc : string;
  port : option (option Z)
}.

(** [self.suspicious_domains], in insertion order. *)
Definition suspicious_domains : list (string * list string) :=
  [ ("typosquatting",
     [ "gooogle.com"; "microsooft.com"; "amazoon.com"; "facebok.com";
       "linkedinn.com"; "appple.com"; "netflixx.com" ]);
    ("generic_suspicious",
     [ "example.com"; "test.com"; "demo.com"; "temp.com";
       "fake.com"; "scam.com"; "phishing.com" ]) ].

Definition suspicious_ports : list Z :=
  [ 8080; 8000; 3000; 4000; 5000; 9000; 9999 ]%Z.

Definition pattern_severity (p : regex) : Z :=
  match p with
  | ip_address => 70
  | suspicious_tlds => 60
  | url_shorteners => 75
  | excessive_subdomains => 55
  | suspicious_keywords => 65
  | random_domains => 50
  | _ => 50
  end.

Definition pattern_description (p : regex) : string :=
  match p with
  | ip_address => "Uses IP address instead of domain name"
  | suspicious_tlds => "Uses suspicious top-level domain"
  | url_shorteners => "Uses URL shortening service"
  | excessive_subdomains => "Has excessive number of subdomains"
  | suspicious_keywords => "Contains suspicious keywords in domain"
  | random_domains => "Domain appears randomly generated"
  | _ => "Suspicious pattern"
  end.

(** [severity_map.get(category, 70)] of
    [_check_suspicious_domain_characteristics]. *)
Definition domain_severity (category : string) : Z :=
  if String.eqb category "typosquatting" then 85
  else if String.eqb category "generic_suspicious" then 90
  else 70.

(** [_check_url_shorteners]: the list [risk_factors] after the call. *)
Definition _check_url_shorteners (url : string)
           (risk_factors : list RiskFactor.t) : list RiskFactor.t :=
  let shortener_services :=
    [ "bit.ly"; "tinyurl.com"; "t.co"; "goo.gl"; "short.link";
      "ow.ly"; "is.gd"; "buff.ly"; "rebrand.ly"; "cutt.ly" ] in
  let url_lower := PyStr.lower url in
  match find (fun service => PyStr.contains service url_lower)
             shortener_services with
  | Some service =>
      (risk_factors ++
       [ RiskFactor.Build URL_VALIDATION 70
           ("Uses URL shortening service (" ++ service ++ ")")
           (8 # 10) ])%list
  | None => risk_factors
  end.

(** [_check_suspicious_ports]; reading [parsed_url.port] may raise. *)
Definition _check_suspicious_ports (parsed_url : ParseResult)
           (risk_factors : list RiskFactor.t) : option (list RiskFactor.t) :=
  read <- port parsed_url ;;
  match read with
  | None => Some risk_factors
  | Some number =>
      if negb (number =? 0)%Z && existsb (Z.eqb number) suspicious_ports
      then Some
             (risk_factors ++
              [ RiskFactor.Build URL_VALIDATION 45
                  ("Uses potentially suspicious port number: "
                     ++ PyStr.of_nat (Z.to_nat number))
                  (6 # 10) ])%list
      else Some risk_factors
  end.

Section WithRe.

(** [pattern.match(s)] and [pattern.search(s)] found a match. *)
Variable re_match : regex -> string -> bool.
Variable re_search : regex -> string -> bool.

(** [urlparse(url)]; [None] when it raises. *)
Variable urlparse : string -> option ParseResult.

(** [_validate_url_format]: the returned flag and the list
    [risk_factors] after the call.  The [try] block catches every
    exception. *)
Definition _validate_url_format (url : string)
           (risk_factors : list RiskFactor.t) : bool * list RiskFactor.t :=
  if negb (re_match url_pattern url)
  then (false,
        (risk_factors ++
         [ RiskFactor.Build URL_VALIDATION 90 "Invalid URL format" 1 ])%list)
  else
    match urlparse url with
    | Some parsed =>
        if negb (PyStr.truthy (scheme parsed))
           || negb (PyStr.mem (scheme parsed) ["http"; "https"])
        then (false,
              (risk_factors ++
               [ RiskFactor.Build URL_VALIDATION 80
                   "Missing or invalid URL scheme (http/https)"
                   (9 # 10) ])%list)
        else if negb (PyStr.truthy (netloc parsed))
        then (false,
              (risk_factors ++
               [ RiskFactor.Build URL_VALIDATION 95
                   "Missing domain in URL" 1 ])%list)
        else if (2000 <? String.length url)%nat
        then (true,
              (risk_factors ++
               [ RiskFactor.Build URL_VALIDATION 50
                   "URL is unusually long" (7 # 10) ])%list)
        else (true, risk_factors)
    | None =>
        (false,
         (risk_factors ++
          [ RiskFactor.Build URL_VALIDATION 85
              "URL cannot be parsed properly" (9 # 10) ])%list)
    end.

(** The body of the loop of [_check_suspicious_patterns]. *)
Definition pattern_factor (url : string) (p : regex) : list RiskFactor.t :=
  if re_search p url
  then [ RiskFactor.Build URL_VALIDATION (pattern_severity p)
           (pattern_description p) (8 # 10) ]
  else [].

Definition _check_suspicious_patterns (url : string)
           (risk_factors : list RiskFactor.t) : list RiskFactor.t :=
  (risk_factors ++ flat_map (pattern_factor url) suspicious_patterns)%list.

Definition _check_suspicious_domain_characteristics
           (parsed_url : ParseResult) (risk_factors : list RiskFactor.t)
  : option (list RiskFactor.t) :=
  let domain := PyStr.lower (netloc parsed_url) in
  domain <-
    (if PyStr.contains ":" domain
     then nth_error (PyStr.split_on ":" domain) 0
     else Some domain) ;;
  match find (fun entry : string * list string => PyStr.mem domain (snd entry))
             suspicious_domains with
  | Some (category, _) =>
      Some
        (risk_factors ++
         [ RiskFactor.Build URL_VALIDATION (domain_severity category)
             ("Domain is known to be suspicious (" ++ category ++ ")")
             (9 # 10) ])%list
  | None =>
      let domain_parts := PyStr.split_on "." domain in
      first_part <- nth_error domain_parts 0 ;;
      let risk_factors :=
        if (2 <=? List.length domain_parts)%nat && PyStr.isdigit first_part
        then (risk_factors ++
              [ RiskFactor.Build URL_VALIDATION 70
                  "Domain name consists only of numbers" (8 # 10) ])%list
        else risk_factors in
      let risk_factors :=
        if (4 <? PyStr.count_char "-" first_part)%nat
        then (risk_factors ++
              [ RiskFactor.Build URL_VALIDATION 50
                  "Domain contains excessive hyphens" (7 # 10) ])%list
        else risk_factors in
      Some
        (if re_match suspicious_tld_pattern domain
         then (risk_factors ++
               [ RiskFactor.Build URL_VALIDATION 65
                   "Random domain with suspicious TLD" (8 # 10) ])%list
         else risk_factors)
  end.

(** [_calculate_confidence]; an exception of [urlparse] is passed
    over. *)
Definition _calculate_confidence (url : string) (format_valid : bool)
           (risk_factor_count : nat) : Q :=
  let base_confidence := 8 # 10 in
  let base_confidence :=
    if negb format_valid then 9 # 10
    else
      let base_confidence :=
        match urlparse url with
        | Some parsed =>
            if PyStr.truthy (netloc parsed) && PyStr.truthy (scheme parsed)
            then base_confidence + (1 # 10) else base_confidence
        | None => base_confidence
        end in
      if (0 <? risk_factor_count)%nat
      then base_confidence
           + min2 (1 # 10)
                  (inject_Z (Z.of_nat risk_factor_count) * (2 # 100))
      else base_confidence in
  min2 1 base_confidence.

(** An empty URL is neutral. *)
Definition neutral : AnalysisResult.t :=
  AnalysisResult.Build [] 1 "URLAnalyzer".

Definition analyze (company_url : option string) : option AnalysisResult.t :=
  match company_url with
  | None => Some neutral
  | Some given =>
      if negb (PyStr.truthy given) || negb (PyStr.truthy (PyStr.strip given))
      then Some neutral
      else
        let url := PyStr.strip given in
        let risk_factors := [] in
        let (format_valid, risk_factors) :=
          _validate_url_format url risk_factors in
        risk_factors <-
          (if format_valid
           then
             parsed_url <- urlparse url ;;
             let risk_factors := _check_suspicious_patterns url risk_factors in
             risk_factors <-
               _check_suspicious_domain_characteristics parsed_url risk_factors ;;
             let risk_factors := _check_url_shorteners url risk_factors in
             _check_suspicious_ports parsed_url risk_factors
           else Some risk_factors) ;;
        let confidence :=
          _calculate_confidence url format_valid (List.length risk_factors) in
        Some (AnalysisResult.Build risk_factors confidence "URLAnalyzer")
  end.

End WithRe.

End URLAnalyzer.

(** ** The platform analyzer ([analyzers/platform_analyzer.py]) *)

Module PlatformAnalyzer.

Import PyNum.
Open Scope string_scope.

(** [self.all_platforms]: the three tiers of [self.platform_credibility]
    flattened, in insertion order. *)
Definition all_platforms : Dict.t Z :=
  [ ("linkedin.com", 95); ("indeed.com", 90); ("glassdoor.com", 92);
    ("monster.com", 88); ("careerbuilder.com", 87); ("ziprecruiter.com", 85);
    ("dice.com", 90); ("stackoverflow.com", 93); ("github.com", 92);
    ("angel.co", 88); ("wellfound.com", 88);
    ("craigslist.org", 70); ("facebook.com", 75); ("twitter.com", 72);
    ("reddit.com", 73); ("upwork.com", 78); ("freelancer.com", 76);
    ("fiverr.com", 74); ("flexjobs.com", 82); ("remote.co", 80);
    ("weworkremotely.com", 81); ("remoteok.io", 79); ("joblist.com", 75);
    ("xing.com", 77); ("seek.com", 78); ("chrome", 85); ("firefox", 85);
    ("safari", 85); ("edge", 85);
    ("telegram.org", 55); ("whatsapp.com", 50); ("instagram.com", 60);
    ("tiktok.com", 45); ("snapchat.com", 40); ("discord.com", 58);
    ("slack.com", 65); ("email", 60); ("sms", 45); ("phone", 55) ]%Z.

Definition in_all_platforms (platform : string) : bool :=
  match Dict.get all_platforms platform with Some _ => true | None => false end.

(** One entry of [self.platform_risk_patterns]. *)
Record risk_pattern : Type := {
  platforms : list string;
  risk_multiplier : Q;
  description : string
}.

(** [self.platform_risk_patterns], in insertion order: social media,
    messaging apps, unverified contact, freelance platforms. *)
Definition platform_risk_patterns : list risk_pattern :=
  [ {| platforms := [ "facebook.com"; "twitter.com"; "instagram.com";
                      "tiktok.com"; "snapchat.com" ];
       risk_multiplier := 13 # 10;
       description := "Social media platforms have higher fraud risk" |};
    {| platforms := [ "telegram.org"; "whatsapp.com"; "discord.com" ];
       risk_multiplier := 15 # 10;
       description := "Messaging apps are commonly used for scams" |};
    {| platforms := [ "email"; "sms"; "phone" ];
       risk_multiplier := 12 # 10;
       description := "Direct contact methods lack platform verification" |};
    {| platforms := [ "upwork.com"; "freelancer.com"; "fiverr.com" ];
       risk_multiplier := 11 # 10;
       description := "Freelance platforms may have less employer verification" |} ].

(** The patterns of [self.platform_patterns] are alternatives of literal
    texts, some of them between [^] and [$], compiled with
    [re.IGNORECASE]. *)
Inductive alternative : Type :=
| Whole (text : string)    (* ^text$ *)
| Part (text : string).    (* text *)

(** [pattern.search(s)] found a match.  Without [re.MULTILINE], [^] is
    the start of the string and [$] its end or the place in front of a
    last line feed. *)
Definition search (pattern : list alternative) (s : string) : bool :=
  let folded := PyStr.lower s in
  existsb
    (fun a =>
       match a with
       | Whole text =>
           String.eqb folded text
           || String.eqb folded (text ++ String (ascii_of_nat 10) EmptyString)
       | Part text => PyStr.contains text folded
       end)
    pattern.

(** [self.platform_patterns], in insertion order, each with the value of
    [pattern_to_platform] for its key. *)
Definition platform_patterns : list (string * list alternative * string) :=
  [ ("linkedin", [ Part "linkedin.com"; Part "linkedin" ], "linkedin.com");
    ("indeed", [ Part "indeed.com"; Part "indeed" ], "indeed.com");
    ("glassdoor", [ Part "glassdoor.com"; Part "glassdoor" ], "glassdoor.com");
    ("monster", [ Part "monster.com"; Part "monster" ], "monster.com");
    ("craigslist", [ Part "craigslist.org"; Part "craigslist" ], "craigslist.org");
    ("facebook", [ Part "facebook.com"; Part "facebook"; Part "fb.com" ],
     "facebook.com");
    ("twitter", [ Part "twitter.com"; Part "twitter"; Part "x.com" ],
     "twitter.com");
    ("telegram", [ Part "telegram.org"; Part "telegram"; Part "t.me" ],
     "telegram.org");
    ("whatsapp", [ Part "whatsapp.com"; Part "whatsapp" ], "whatsapp.com");
    ("email", [ Whole "email"; Whole "e-mail"; Part "email contact";
                Part "direct email" ], "email");
    ("sms", [ Whole "sms"; Whole "text"; Part "text message";
              Part "phone text" ], "sms");
    ("phone", [ Whole "phone"; Part "phone call"; Part "telephone";
                Part "direct call" ], "phone");
    ("chrome", [ Whole "chrome"; Part "chrome extension";
                 Part "browser extension" ], "chrome");
    ("firefox", [ Whole "firefox"; Part "firefox extension" ], "firefox");
    ("safari", [ Whole "safari"; Part "safari extension" ], "safari");
    ("edge", [ Whole "edge"; Part "edge extension" ], "edge") ].

Definition append_if (condition : bool) (factor : RiskFactor.t)
           (risk_factors : list RiskFactor.t) : list RiskFactor.t :=
  if condition then (risk_factors ++ [factor])%list else risk_factors.

(** [_get_platform_credibility]: the list [risk_factors] after the call
    (the returned score is not used by the caller). *)
Definition _get_platform_credibility (normalized_platform : string)
           (risk_factors : list RiskFactor.t) : list RiskFactor.t :=
  match Dict.get all_platforms normalized_platform with
  | None =>
      (risk_factors ++
       [ RiskFactor.Build PLATFORM_CREDIBILITY 60
           "Platform is not recognized or well-known" (7 # 10) ])%list
  | Some credibility_score =>
      if (credibility_score <? 50)%Z
      then (risk_factors ++
            [ RiskFactor.Build PLATFORM_CREDIBILITY 80
                "Platform is known for high fraud rates" (9 # 10) ])%list
      else if (credibility_score <? 70)%Z
      then (risk_factors ++
            [ RiskFactor.Build PLATFORM_CREDIBILITY 50
                "Platform has lower credibility rating" (8 # 10) ])%list
      else if (credibility_score <? 85)%Z
      then (risk_factors ++
            [ RiskFactor.Build PLATFORM_CREDIBILITY 25
                "Platform has moderate credibility rating" (6 # 10) ])%list
      else risk_factors
  end.

(** The body of the loop of [_check_platform_risk_patterns]. *)
Definition risk_pattern_factor (normalized_platform : string)
           (risk_data : risk_pattern) : list RiskFactor.t :=
  if PyStr.mem normalized_platform (platforms risk_data)
  then
    let base_severity := 40 in
    let adjusted_severity :=
      Zmin2 100 (int_of (base_severity * risk_multiplier risk_data)) in
    [ RiskFactor.Build PLATFORM_CREDIBILITY adjusted_severity
        (description risk_data) (8 # 10) ]
  else [].

Definition _check_platform_risk_patterns (normalized_platform : string)
           (risk_factors : list RiskFactor.t) : list RiskFactor.t :=
  (risk_factors
     ++ flat_map (risk_pattern_factor normalized_platform)
                 platform_risk_patterns)%list.

Definition _check_suspicious_indicators
           (normalized_platform original_platform : string)
           (risk_factors : list RiskFactor.t) : list RiskFactor.t :=
  let messaging_platforms := [ "telegram"; "whatsapp"; "discord"; "sms" ] in
  let risk_factors :=
    append_if (PyStr.mem normalized_platform messaging_platforms)
      (RiskFactor.Build PLATFORM_CREDIBILITY 70
         "Contact only through messaging apps (red flag)" (8 # 10))
      risk_factors in
  let social_platforms :=
    [ "facebook"; "twitter"; "instagram"; "tiktok"; "snapchat" ] in
  let risk_factors :=
    append_if (PyStr.mem normalized_platform social_platforms)
      (RiskFactor.Build PLATFORM_CREDIBILITY 65
         "Job posting only on social media platforms" (7 # 10))
      risk_factors in
  let unverified_platforms := [ "email"; "sms"; "phone"; "craigslist" ] in
  let risk_factors :=
    append_if (PyStr.mem normalized_platform unverified_platforms)
      (RiskFactor.Build PLATFORM_CREDIBILITY 55
         "Platform lacks employer verification processes" (6 # 10))
      risk_factors in
  let vague_patterns := [ "website"; "online"; "internet"; "web"; "site" ] in
  append_if
    (existsb (fun pattern => PyStr.contains pattern (PyStr.lower original_platform))
             vague_patterns
     && (List.length (PyStr.split original_platform) <=? 2)%nat)
    (RiskFactor.Build PLATFORM_CREDIBILITY 45
       "Platform description is vague or non-specific" (6 # 10))
    risk_factors.

Definition _apply_platform_risk_adjustments (normalized_platform : string)
           (risk_factors : list RiskFactor.t) : list RiskFactor.t :=
  let high_risk_platforms := [ "telegram"; "whatsapp"; "tiktok"; "snapchat" ] in
  if PyStr.mem normalized_platform high_risk_platforms
  then
    let has_high_risk_warning :=
      existsb
        (fun factor =>
           (70 <=? RiskFactor.severity factor)%Z
           && PyStr.contains "high fraud"
                (PyStr.lower (RiskFactor.description factor)))
        risk_factors in
    append_if (negb has_high_risk_warning)
      (RiskFactor.Build PLATFORM_CREDIBILITY 75
         "Platform is associated with higher fraud rates" (8 # 10))
      risk_factors
  else risk_factors.

Definition _calculate_confidence (normalized_platform : string)
           (risk_factor_count : nat) : Q :=
  let base_confidence := 8 # 10 in
  let base_confidence :=
    if in_all_platforms normalized_platform
    then base_confidence + (1 # 10) else base_confidence in
  let base_confidence :=
    if (0 <? risk_factor_count)%nat
    then base_confidence
         + min2 (1 # 10) (inject_Z (Z.of_nat risk_factor_count) * (2 # 100))
    else base_confidence in
  let base_confidence :=
    if existsb (fun entry : string * list alternative * string =>
                  search (snd (fst entry)) normalized_platform)
               platform_patterns
    then base_confidence + (5 # 100) else base_confidence in
  min2 1 base_confidence.

Section WithRe.

(** The first group of the match of the domain pattern of
    [_normalize_platform_name] searched in the platform name, [None]
    when there is no match. *)
Variable domain_match : string -> option string.

Definition _normalize_platform_name (platform : string) : string :=
  if in_all_platforms platform then platform
  else
    let extracted :=
      if PyStr.contains "." platform
         && (PyStr.contains "http" platform || PyStr.contains "www" platform)
      then
        match domain_match platform with
        | Some group =>
            let extracted_domain := PyStr.lower group in
            if in_all_platforms extracted_domain
            then Some extracted_domain else None
        | None => None
        end
      else None in
    match extracted with
    | Some extracted_domain => extracted_domain
    | None =>
        match find (fun entry : string * list alternative * string =>
                      search (snd (fst entry)) platform)
                   platform_patterns with
        | Some (_, _, platform_name) => platform_name
        | None => PyStr.lower platform
        end
    end.

Definition analyze (platform_source : string) : AnalysisResult.t :=
  if negb (PyStr.truthy platform_source)
     || negb (PyStr.truthy (PyStr.strip platform_source))
  then
    AnalysisResult.Build
      [ RiskFactor.Build PLATFORM_CREDIBILITY 100
          "Platform source is empty or missing" 1 ]
      1 "PlatformAnalyzer"
  else
    let platform := PyStr.lower (PyStr.strip platform_source) in
    let risk_factors := [] in
    let normalized_platform := _normalize_platform_name platform in
    let risk_factors :=
      _get_platform_credibility normalized_platform risk_factors in
    let risk_factors :=
      _check_platform_risk_patterns normalized_platform risk_factors in
    let risk_factors :=
      _check_suspicious_indicators normalized_platform platform risk_factors in
    let risk_factors :=
      _apply_platform_risk_adjustments normalized_platform risk_factors in
    let confidence :=
      _calculate_confidence normalized_platform (List.length risk_factors) in
    AnalysisResult.Build risk_factors confidence "PlatformAnalyzer".

End WithRe.

End PlatformAnalyzer.

(** ** The coordinating service ([services/job_analysis_service.py]) *)

Module JobAnalysisService.

Import PyNum.
Open Scope Q_scope.
Open Scope string_scope.

(** [self.category_weights], in insertion order. *)
Definition category_weights : list (RiskCategory * Q) :=
  [ (TEXT_ANALYSIS, 70 # 100);
    (EMAIL_VALIDATION, 12 # 100);
    (URL_VALIDATION, 10 # 100);
    (PLATFORM_CREDIBILITY, 8 # 100) ].

(** [self.verdict_thresholds]. *)
Definition verdict_threshold_safe : Z := 30.
Definition verdict_threshold_caution : Z := 65.
Definition verdict_threshold_high_risk : Z := 100.

(** The loop that fills [all_risk_factors] from
    [analysis_results.values()]. *)
Definition collect_risk_factors (analysis_results : Dict.t AnalysisResult.t)
  : list RiskFactor.t :=
  flat_map AnalysisResult.risk_factors (Dict.values analysis_results).

(** The body of [for category in RiskCategory]: the pair
    [(category_scores[category], category_confidences[category])]. *)
Definition score_category (all_risk_factors : list RiskFactor.t)
           (category : RiskCategory) : option (Q * Q) :=
  let category_factors :=
    filter (fun f => RiskCategory_eqb (RiskFactor.category f) category)
           all_risk_factors in
  match category_factors with
  | [] => Some (0, 0)
  | _ :: _ =>
      if RiskCategory_eqb category TEXT_ANALYSIS
         && (5 <? List.length category_factors)%nat
      then
        let sorted_factors := sorted_desc RiskFactor.weighted category_factors in
        let top_factors := firstn 3 sorted_factors in
        max_weighted_severity <- max_of (map RiskFactor.weighted top_factors) ;;
        max_confidence <- max_of (map RiskFactor.confidence top_factors) ;;
        Some (max_weighted_severity, max_confidence)
      else
        let total_weighted_severity :=
          sum (map RiskFactor.weighted category_factors) in
        let total_confidence :=
          sum (map RiskFactor.confidence category_factors) in
        if Qlt_bool 0 total_confidence
        then
          score <- div total_weighted_severity total_confidence ;;
          mean <- div total_confidence
                      (inject_Z (Z.of_nat (List.length category_factors))) ;;
          Some (score, min2 1 mean)
        else Some (0, 0)
  end.

(** [category_scores] and [category_confidences], one entry per member of
    [RiskCategory]. *)
Fixpoint score_categories (all_risk_factors : list RiskFactor.t)
         (categories : list RiskCategory)
  : option (list (RiskCategory * (Q * Q))) :=
  match categories with
  | [] => Some []
  | category :: rest =>
      entry <- score_category all_risk_factors category ;;
      entries <- score_categories all_risk_factors rest ;;
      Some ((category, entry) :: entries)
  end.

Fixpoint lookup_category (d : list (RiskCategory * (Q * Q)))
         (category : RiskCategory) : option (Q * Q) :=
  match d with
  | [] => None
  | (c, v) :: r => if RiskCategory_eqb category c then Some v
                   else lookup_category r category
  end.

(** The loop over [self.category_weights.items()]: the pair
    [(weighted_score, total_weight)]. *)
Definition blend (scores : list (RiskCategory * (Q * Q))) : Q * Q :=
  fold_left
    (fun (acc : Q * Q) (item : RiskCategory * Q) =>
       let (weighted_score, total_weight) := acc in
       let (category, weight) := item in
       match lookup_category scores category with
       | Some (score, confidence) =>
           let adjusted_weight := weight * confidence in
           (weighted_score + score * adjusted_weight,
            total_weight + adjusted_weight)
       | None => acc
       end)
    category_weights (0, 0).

(** The normalisation of the weighted score by the total weight: the value
    of [base_score] before the professional bonus. *)
Definition normalize (blended : Q * Q) : option Q :=
  let (weighted_score, total_weight) := blended in
  if Qlt_bool 0 total_weight
  then div weighted_score total_weight
  else Some 0.

Definition structure_indicators : list string :=
  [ "responsibilities:"; "requirements:"; "qualifications:";
    "about the role:"; "job description:"; "duties include:";
    "we are looking for:"; "the ideal candidate:"; "about us:";
    "what you'll do:"; "what we offer:"; "benefits:"; "perks:";
    "key responsibilities:"; "required skills:"; "preferred qualifications:" ].

Definition professional_terms : list string :=
  [ "bachelor's degree"; "master's degree"; "years of experience";
    "proven track record"; "strong communication skills"; "team player";
    "competitive salary"; "benefits package"; "equal opportunity employer";
    "professional development"; "career growth"; "health insurance";
    "401k"; "pto"; "paid time off"; "work-life balance"; "remote work";
    "hybrid work"; "flexible schedule"; "mentorship"; "training" ].

Definition technical_skills : list string :=
  [ "python"; "java"; "javascript"; "sql"; "aws"; "docker"; "kubernetes";
    "react"; "angular"; "node.js"; "git"; "agile"; "scrum"; "devops";
    "machine learning"; "data analysis"; "project management"; "html";
    "css"; "typescript"; "mongodb"; "postgresql"; "redis"; "api";
    "microservices"; "ci/cd"; "jenkins"; "terraform"; "ansible" ].

(** [sum(1 for item in items if item in text)]. *)
Definition count_in (items : list string) (text : string) : Z :=
  Z.of_nat (List.length (filter (fun item => PyStr.contains item text) items)).

Definition _calculate_professional_bonus (job_text : string) : Z :=
  if negb (PyStr.truthy job_text) then 0%Z
  else
    let bonus := 0%Z in
    let text_lower := PyStr.lower job_text in
    let structure_count := count_in structure_indicators text_lower in
    let bonus :=
      if (3 <=? structure_count)%Z then (bonus + 10)%Z
      else if (2 <=? structure_count)%Z then (bonus + 7)%Z
      else if (1 <=? structure_count)%Z then (bonus + 4)%Z
      else bonus in
    let professional_count := count_in professional_terms text_lower in
    let bonus :=
      if (5 <=? professional_count)%Z then (bonus + 8)%Z
      else if (3 <=? professional_count)%Z then (bonus + 5)%Z
      else if (1 <=? professional_count)%Z then (bonus + 2)%Z
      else bonus in
    let technical_count := count_in technical_skills text_lower in
    let bonus :=
      if (4 <=? technical_count)%Z then (bonus + 7)%Z
      else if (2 <=? technical_count)%Z then (bonus + 4)%Z
      else if (1 <=? technical_count)%Z then (bonus + 2)%Z
      else bonus in
    let word_count := Z.of_nat (List.length (PyStr.split job_text)) in
    let bonus :=
      if (200 <=? word_count)%Z then (bonus + 5)%Z
      else if (100 <=? word_count)%Z then (bonus + 3)%Z
      else if (50 <=? word_count)%Z then (bonus + 1)%Z
      else bonus in
    Zmin2 25 bonus.

(** [any(f.severity >= 70 for f in factors)]. *)
Definition any_high_risk (factors : list RiskFactor.t) : bool :=
  existsb (fun f => (70 <=? RiskFactor.severity f)%Z) factors.

(** The risk factors of [analysis_results.get(key, default)] with a
    default of no risk factors. *)
Definition factors_or_empty (analysis_results : Dict.t AnalysisResult.t)
           (key : string) : list RiskFactor.t :=
  match Dict.get analysis_results key with
  | Some r => AnalysisResult.risk_factors r
  | None => []
  end.

Definition _calculate_confidence_level
           (analysis_results : Dict.t AnalysisResult.t)
           (request : JobAnalysisRequest.t) : ConfidenceEnum :=
  let has_email := present (JobAnalysisRequest.recruiter_email request) in
  let has_url := present (JobAnalysisRequest.company_url request) in
  let has_platform :=
    present (Some (JobAnalysisRequest.platform_source request)) in
  let metadata_completeness :=
    inject_Z (count_true [has_email; has_url; has_platform]) / 3 in
  let text_result := Dict.get analysis_results "text" in
  let text_confidence :=
    match text_result with
    | Some r => AnalysisResult.confidence r
    | None => 5 # 10
    end in
  let text_factors :=
    match text_result with
    | Some r => AnalysisResult.risk_factors r
    | None => []
    end in
  let email_factors := factors_or_empty analysis_results "email" in
  let url_factors := factors_or_empty analysis_results "url" in
  let high_risk_text := any_high_risk text_factors in
  let high_risk_metadata := any_high_risk (email_factors ++ url_factors)%list in
  if Qle_bool (67 # 100) metadata_completeness
     && Qle_bool (8 # 10) text_confidence
     && (negb (high_risk_text && negb high_risk_metadata)
         && negb (high_risk_metadata && negb high_risk_text))
  then High
  else if Qle_bool (7 # 10) text_confidence
          && (50 <=? List.length (PyStr.split (JobAnalysisRequest.job_text request)))%nat
  then Medium
  else Low.

(** The body of the loop of [_get_platform_risk_multiplier]. *)
Definition multiplier_step (multiplier : Q) (factor : RiskFactor.t) : Q :=
  let d := PyStr.lower (RiskFactor.description factor) in
  if PyStr.contains "high fraud" d then max2 multiplier (14 # 10)
  else if PyStr.contains "messaging apps" d then max2 multiplier (13 # 10)
  else if PyStr.contains "social media" d then max2 multiplier (12 # 10)
  else if PyStr.contains "lower credibility" d then max2 multiplier (11 # 10)
  else multiplier.

Definition _get_platform_risk_multiplier
           (platform_result : option AnalysisResult.t) : Q :=
  match platform_result with
  | None => 1
  | Some r =>
      match AnalysisResult.risk_factors r with
      | [] => 1
      | factors => fold_left multiplier_step factors 1
      end
  end.

Definition _calculate_overall_risk_score_with_confidence
           (analysis_results : Dict.t AnalysisResult.t)
           (request : JobAnalysisRequest.t) : option (Z * ConfidenceEnum) :=
  let all_risk_factors := collect_risk_factors analysis_results in
  scores <- score_categories all_risk_factors RiskCategory_members ;;
  base_score <- normalize (blend scores) ;;
  let text_result := Dict.get analysis_results "text" in
  let base_score :=
    match text_result with
    | Some _ =>
        let professional_bonus :=
          _calculate_professional_bonus (JobAnalysisRequest.job_text request) in
        max2 0 (base_score - inject_Z professional_bonus)
    | None => base_score
    end in
  let platform_multiplier :=
    _get_platform_risk_multiplier (Dict.get analysis_results "platform") in
  let adjusted_score := base_score * platform_multiplier in
  let confidence_level := _calculate_confidence_level analysis_results request in
  let final_score := Zmax2 0 (Zmin2 100 (round adjusted_score)) in
  Some (final_score, confidence_level).

Definition _determine_verdict (risk_score : Z) : VerdictEnum :=
  if (risk_score <=? verdict_threshold_safe)%Z then SAFE
  else if (risk_score <=? verdict_threshold_caution)%Z then CAUTION
  else HIGH_RISK.

(** The loop of [_generate_flags] over the sorted risk factors; [flags] is
    the list built so far and [seen_descriptions] the set next to it. *)
Fixpoint flags_loop (factors : list RiskFactor.t)
         (flags seen_descriptions : list string) : list string :=
  match factors with
  | [] => flags
  | factor :: rest =>
      let d := RiskFactor.description factor in
      if negb (PyStr.mem d seen_descriptions)
      then
        let flags := (flags ++ [d])%list in
        let seen_descriptions := d :: seen_descriptions in
        if (8 <=? List.length flags)%nat then flags
        else flags_loop rest flags seen_descriptions
      else flags_loop rest flags seen_descriptions
  end.

Definition _generate_flags (analysis_results : Dict.t AnalysisResult.t)
  : list string :=
  let all_risk_factors := collect_risk_factors analysis_results in
  let all_risk_factors := sorted_desc RiskFactor.sort_key all_risk_factors in
  flags_loop all_risk_factors [] [].


(** ** The score in floating point

    [_calculate_overall_risk_score_with_confidence] once more, with every
    float operation of the source rounded to binary64: the products
    [severity * confidence], the two sums and the two quotients of a
    category, the weighted sum over the categories and its quotient, the
    subtraction of the bonus and the product with the platform multiplier.

    The built-in [sum] is a parameter of the section.  CPython adds the
    floats from left to right up to version 3.11 ([Binary64.sum_left]) and
    carries a compensation of the rounding errors from 3.12 on; what is
    stated about the score holds for either. *)

Module Rounded.

Section WithSum.

Variable sum : list Binary64.t -> Binary64.t.

(** [self.category_weights], in insertion order. *)
Definition category_weights : list (RiskCategory * Binary64.t) :=
  [ (TEXT_ANALYSIS, Binary64.of_Q (70 # 100));
    (EMAIL_VALIDATION, Binary64.of_Q (12 # 100));
    (URL_VALIDATION, Binary64.of_Q (10 # 100));
    (PLATFORM_CREDIBILITY, Binary64.of_Q (8 # 100)) ].

(** The body of [for category in RiskCategory]: the pair
    [(category_scores[category], category_confidences[category])]. *)
Definition score_category (all_risk_factors : list RiskFactor.t)
           (category : RiskCategory) : option (Binary64.t * Binary64.t) :=
  let category_factors :=
    filter (fun f => RiskCategory_eqb (RiskFactor.category f) category)
           all_risk_factors in
  match category_factors with
  | [] => Some (Binary64.zero, Binary64.zero)
  | _ :: _ =>
      if RiskCategory_eqb category TEXT_ANALYSIS
         && (5 <? List.length category_factors)%nat
      then
        let sorted_factors := sorted_desc RiskFactor.sort_key category_factors in
        let top_factors := firstn 3 sorted_factors in
        max_weighted_severity <-
          Binary64.max_of (map RiskFactor.product top_factors) ;;
        max_confidence <-
          Binary64.max_of (map RiskFactor.confidence64 top_factors) ;;
        Some (max_weighted_severity, max_confidence)
      else
        let total_weighted_severity :=
          sum (map RiskFactor.product category_factors) in
        let total_confidence :=
          sum (map RiskFactor.confidence64 category_factors) in
        if Binary64.ltb Binary64.zero total_confidence
        then
          score <- Binary64.div total_weighted_severity total_confidence ;;
          mean <- Binary64.div_int total_confidence
                    (Z.of_nat (List.length category_factors)) ;;
          Some (score, Binary64.min2 (Binary64.of_Q 1) mean)
        else Some (Binary64.zero, Binary64.zero)
  end.

(** [category_scores] and [category_confidences], one entry per member of
    [RiskCategory]. *)
Fixpoint score_categories (all_risk_factors : list RiskFactor.t)
         (categories : list RiskCategory)
  : option (list (RiskCategory * (Binary64.t * Binary64.t))) :=
  match categories with
  | [] => Some []
  | category :: rest =>
      entry <- score_category all_risk_factors category ;;
      entries <- score_categories all_risk_factors rest ;;
      Some ((category, entry) :: entries)
  end.

Fixpoint lookup_category (d : list (RiskCategory * (Binary64.t * Binary64.t)))
         (category : RiskCategory) : option (Binary64.t * Binary64.t) :=
  match d with
  | [] => None
  | (c, v) :: r => if RiskCategory_eqb category c then Some v
                   else lookup_category r category
  end.

(** The loop over [self.category_weights.items()]: the pair
    [(weighted_score, total_weight)]. *)
Definition blend (scores : list (RiskCategory * (Binary64.t * Binary64.t)))
  : Binary64.t * Binary64.t :=
  fold_left
    (fun (acc : Binary64.t * Binary64.t) (item : RiskCategory * Binary64.t) =>
       let (weighted_score, total_weight) := acc in
       let (category, weight) := item in
       match lookup_category scores category with
       | Some (score, confidence) =>
           let adjusted_weight := Binary64.mul weight confidence in
           (Binary64.add weighted_score (Binary64.mul score adjusted_weight),
            Binary64.add total_weight adjusted_weight)
       | None => acc
       end)
    category_weights (Binary64.zero, Binary64.zero).

(** The normalisation of the weighted score by the total weight: the value
    of [base_score] before the professional bonus. *)
Definition normalize (blended : Binary64.t * Binary64.t) : option Binary64.t :=
  let (weighted_score, total_weight) := blended in
  if Binary64.ltb Binary64.zero total_weight
  then Binary64.div weighted_score total_weight
  else Some Binary64.zero.

(** The body of the loop of [_get_platform_risk_multiplier]. *)
Definition multiplier_step (multiplier : Binary64.t) (factor : RiskFactor.t)
  : Binary64.t :=
  let d := PyStr.lower (RiskFactor.description factor) in
  if PyStr.contains "high fraud" d
  then Binary64.max2 multiplier (Binary64.of_Q (14 # 10))
  else if PyStr.contains "messaging apps" d
  then Binary64.max2 multiplier (Binary64.of_Q (13 # 10))
  else if PyStr.contains "social media" d
  then Binary64.max2 multiplier (Binary64.of_Q (12 # 10))
  else if PyStr.contains "lower credibility" d
  then Binary64.max2 multiplier (Binary64.of_Q (11 # 10))
  else multiplier.

Definition _get_platform_risk_multiplier
           (platform_result : option AnalysisResult.t) : Binary64.t :=
  match platform_result with
  | None => Binary64.of_Q 1
  | Some r =>
      match AnalysisResult.risk_factors r with
      | [] => Binary64.of_Q 1
      | factors => fold_left multiplier_step factors (Binary64.of_Q 1)
      end
  end.

Definition _calculate_overall_risk_score_with_confidence
           (analysis_results : Dict.t AnalysisResult.t)
           (request : JobAnalysisRequest.t) : option (Z * ConfidenceEnum) :=
  let all_risk_factors := collect_risk_factors analysis_results in
  scores <- score_categories all_risk_factors RiskCategory_members ;;
  base_score <- normalize (blend scores) ;;
  let text_result := Dict.get analysis_results "text" in
  let base_score :=
    match text_result with
    | Some _ =>
        let professional_bonus :=
          _calculate_professional_bonus (JobAnalysisRequest.job_text request) in
        Binary64.max2 Binary64.zero
          (Binary64.sub base_score (Binary64.of_Z professional_bonus))
    | None => base_score
    end in
  let platform_multiplier :=
    _get_platform_risk_multiplier (Dict.get analysis_results "platform") in
  let adjusted_score := Binary64.mul base_score platform_multiplier in
  let confidence_level := _calculate_confidence_level analysis_results request in
  rounded <- Binary64.round adjusted_score ;;
  let final_score := Zmax2 0 (Zmin2 100 rounded) in
  Some (final_score, confidence_level).

End WithSum.

End Rounded.
Section WithAnalyzers.

(** The answers of the compiled patterns and of [urlparse] that the
    four analyzers read. *)
Variable text_findall : TextAnalyzer.pattern_name -> string -> list string.
Variable email_match email_search : EmailAnalyzer.regex -> string -> bool.
Variable url_match url_search : URLAnalyzer.regex -> string -> bool.
Variable urlparse : string -> option URLAnalyzer.ParseResult.
Variable domain_match : string -> option string.

Definition _run_all_analyzers (request : JobAnalysisRequest.t)
  : option (Dict.t AnalysisResult.t) :=
  let text := TextAnalyzer.analyze text_findall
                (JobAnalysisRequest.job_text request) in
  email <- EmailAnalyzer.analyze email_match email_search
             (JobAnalysisRequest.recruiter_email request) ;;
  url <- URLAnalyzer.analyze url_match url_search urlparse
           (JobAnalysisRequest.company_url request) ;;
  let platform := PlatformAnalyzer.analyze domain_match
                    (JobAnalysisRequest.platform_source request) in
  Some [ ("text", text); ("email", email); ("url", url);
         ("platform", platform) ].

(** [analyze_job_posting]; the explanation, a text built from the other
    four fields and the risk factors, is left out of the response. *)
Definition analyze_job_posting (request : JobAnalysisRequest.t)
  : option JobAnalysisResponse.t :=
  analysis_results <- _run_all_analyzers request ;;
  scored <- _calculate_overall_risk_score_with_confidence
              analysis_results request ;;
  let (risk_score, confidence_level) := scored in
  let verdict := _determine_verdict risk_score in
  let flags := _generate_flags analysis_results in
  Some (JobAnalysisResponse.Build risk_score flags verdict confidence_level).

End WithAnalyzers.

End JobAnalysisService.


(** ** The statements of the specification

    The definitions of this module follow the words of the specification;
    the properties below compare them with the code. *)

Module Spec.

Import PyNum.
Open Scope Q_scope.
Open Scope string_scope.

(** The four results of a request, keyed as [_run_all_analyzers] keys
    them. *)
Definition results (text email url platform : AnalysisResult.t)
  : Dict.t AnalysisResult.t :=
  [ ("text", text); ("email", email); ("url", url); ("platform", platform) ].

(** "Metadata completeness = fraction of {email, url, platform} fields that
    are non-empty (0, 1/3, 2/3, 1)." *)
Definition present_fields (request : JobAnalysisRequest.t) : list bool :=
  filter (fun b : bool => b)
    [ present (JobAnalysisRequest.recruiter_email request);
      present (JobAnalysisRequest.company_url request);
      present (Some (JobAnalysisRequest.platform_source request)) ].

Definition completeness (request : JobAnalysisRequest.t) : Q :=
  inject_Z (Z.of_nat (List.length (present_fields request))) / 3.

(** The confidence of the text analyzer as the service reads it. *)
Definition text_confidence (analysis_results : Dict.t AnalysisResult.t) : Q :=
  match Dict.get analysis_results "text" with
  | Some r => AnalysisResult.confidence r
  | None => 5 # 10
  end.

(** "Contradictory = one side (text vs. email/url findings) has a finding
    with severity >= 70 while the other side has none >= 70." *)
Definition has_severe (factors : list RiskFactor.t) : bool :=
  existsb (fun f => (70 <=? RiskFactor.severity f)%Z) factors.

Definition contradictory (analysis_results : Dict.t AnalysisResult.t) : bool :=
  let text := JobAnalysisService.factors_or_empty analysis_results "text" in
  let metadata :=
    (JobAnalysisService.factors_or_empty analysis_results "email"
       ++ JobAnalysisService.factors_or_empty analysis_results "url")%list in
  (has_severe text && negb (has_severe metadata))
  || (has_severe metadata && negb (has_severe text)).

(** "High iff completeness >= 2/3 AND text-analyzer confidence >= 0.8 AND
    signals are not contradictory." *)
Definition high_as_stated (analysis_results : Dict.t AnalysisResult.t)
           (request : JobAnalysisRequest.t) : Prop :=
  2 # 3 <= completeness request
  /\ 8 # 10 <= text_confidence analysis_results
  /\ contradictory analysis_results = false.

(** What the code asks for instead of a completeness of 2/3: every one of
    the three fields. *)
Definition all_fields_present (request : JobAnalysisRequest.t) : Prop :=
  present (JobAnalysisRequest.recruiter_email request) = true
  /\ present (JobAnalysisRequest.company_url request) = true
  /\ present (Some (JobAnalysisRequest.platform_source request)) = true.

(** A tiered bonus: the points of the highest tier whose threshold the
    count reaches, 0 below the first tier. *)
Fixpoint tier (tiers : list (Z * Z)) (count : Z) : Z :=
  match tiers with
  | [] => 0
  | (threshold, points) :: higher =>
      if (threshold <=? count)%Z
      then Z.max points (tier higher count)
      else 0
  end.

(** "Structural 1/2/>=3 matches -> 4/7/10 points; professional terms
    1/3-4/>=5 -> 2/5/8; technical skills 1/2-3/>=4 -> 2/4/7; length
    >=50/>=100/>=200 words -> 1/3/5." *)
Definition structural_tiers : list (Z * Z) := [ (1, 4); (2, 7); (3, 10) ]%Z.
Definition professional_tiers : list (Z * Z) := [ (1, 2); (3, 5); (5, 8) ]%Z.
Definition technical_tiers : list (Z * Z) := [ (1, 2); (2, 4); (4, 7) ]%Z.
Definition length_tiers : list (Z * Z) := [ (50, 1); (100, 3); (200, 5) ]%Z.

(** "Sum bonuses, cap total at 25." *)
Definition professionalism_offset (job_text : string) : Z :=
  let text := PyStr.lower job_text in
  Z.min 25
    (tier structural_tiers
          (JobAnalysisService.count_in JobAnalysisService.structure_indicators text)
     + tier professional_tiers
            (JobAnalysisService.count_in JobAnalysisService.professional_terms text)
     + tier technical_tiers
            (JobAnalysisService.count_in JobAnalysisService.technical_skills text)
     + tier length_tiers (Z.of_nat (List.length (PyStr.split job_text))))%Z.




(** [m] is the greatest item of [items]. *)
Definition greatest (items : list Q) (m : Q) : Prop :=
  In m items /\ forall x, In x items -> x <= m.


(** "Confidence-weighted average of severity across all findings in the
    category (sum(severity x confidence) / sum(confidence))". *)
Definition weighted_average (findings : list RiskFactor.t) : Q :=
  sum (map RiskFactor.weighted findings)
  / sum (map RiskFactor.confidence findings).


(** "Deduplicate by exact description string": a finding is kept when no
    finding in front of it (and no description of [earlier]) has its
    description. *)
Fixpoint dedup (factors : list RiskFactor.t) (earlier : list string)
  : list RiskFactor.t :=
  match factors with
  | [] => []
  | f :: rest =>
      if PyStr.mem (RiskFactor.description f) earlier
      then dedup rest earlier
      else f :: dedup rest (RiskFactor.description f :: earlier)
  end.

(** "Sort descending by severity x confidence": every item is followed by
    items of keys that are not greater.  The key is the product that the
    program computes, [RiskFactor.sort_key]. *)
Definition descending (factors : list RiskFactor.t) : Prop :=
  StronglySorted
    (fun a b => RiskFactor.sort_key b <= RiskFactor.sort_key a) factors.

(** "Stable sort - ties keep category-then-detection order": the items of
    one key come in the order they had. *)
Definition stable (sorted original : list RiskFactor.t) : Prop :=
  forall key : Q,
    filter (fun f => Qeq_bool (RiskFactor.sort_key f) key) sorted
    = filter (fun f => Qeq_bool (RiskFactor.sort_key f) key) original.

End Spec.

(** ** Concrete requests

    The inputs at which the statements are tried.  The pattern answers
    given with a request are the ones of [re] and [urlparse] on the texts of
    that request. *)

Module Examples.

Open Scope string_scope.

(** A job posting of 118 words in which no fraud keyword occurs and no
    pattern of the text analyzer matches. *)
Definition plain_posting : string :=
  "We are hiring a software engineer to join our platform team. "
  ++ "The role involves building backend services in Python and "
  ++ "SQL, reviewing code from colleagues, and improving the "
  ++ "reliability of our deployment pipeline. Candidates should "
  ++ "have five years of experience with distributed systems and a "
  ++ "solid understanding of testing practices. You will work "
  ++ "closely with product managers and designers to plan "
  ++ "features, estimate effort, and deliver improvements on a "
  ++ "regular schedule. We value clear writing, careful debugging, "
  ++ "and a willingness to mentor junior engineers. The position "
  ++ "is based in our downtown office with the option to work "
  ++ "remotely two days per week. Compensation includes a salary "
  ++ "in line with the market, health coverage, and a generous "
  ++ "vacation policy.".

(** No pattern of the text analyzer matches. *)
Definition no_findall (p : TextAnalyzer.pattern_name) (s : string)
  : list string := [].

(** No pattern of the email analyzer matches. *)
Definition no_email_pattern (p : EmailAnalyzer.regex) (s : string) : bool :=
  false.

(** The URL has the shape of a URL. *)
Definition url_shape_only (p : URLAnalyzer.regex) (s : string) : bool :=
  match p with
  | URLAnalyzer.url_pattern => true
  | _ => false
  end.

(** No suspicious pattern of the URL analyzer is found. *)
Definition no_url_pattern (p : URLAnalyzer.regex) (s : string) : bool := false.

(** [urlparse("https://acme.co")]. *)
Definition parse_acme (url : string) : option URLAnalyzer.ParseResult :=
  Some {| URLAnalyzer.scheme := "https";
          URLAnalyzer.netloc := "acme.co";
          URLAnalyzer.port := Some None |}.

(** The platform name has no dot: the domain pattern is not tried. *)
Definition no_domain (platform : string) : option string := None.

(** A company URL and a platform, no recruiter email: two fields out of
    three. *)
Definition two_fields_request : JobAnalysisRequest.t :=
  JobAnalysisRequest.Build plain_posting (Some "https://acme.co") None "chrome".

(** What the four analyzers return on [two_fields_request]: no finding,
    and the confidences 0.9 (more than 100 words), 1.0 (no email), 0.9 (a
    URL with a scheme and a domain) and 0.95 (a known platform with a
    pattern of its own). *)
Definition two_fields_results : Dict.t AnalysisResult.t :=
  Spec.results
    (AnalysisResult.Build [] ((7 # 10) + (1 # 10) + (1 # 10))%Q "TextAnalyzer")
    (AnalysisResult.Build [] 1 "EmailAnalyzer")
    (AnalysisResult.Build [] ((8 # 10) + (1 # 10))%Q "URLAnalyzer")
    (AnalysisResult.Build [] ((8 # 10) + (1 # 10) + (5 # 100))%Q
       "PlatformAnalyzer").

(** [urlparse("https://example.com")]. *)
Definition parse_example (url : string) : option URLAnalyzer.ParseResult :=
  Some {| URLAnalyzer.scheme := "https";
          URLAnalyzer.netloc := "example.com";
          URLAnalyzer.port := Some None |}.

(** The posting [plain_posting] with the company URL https://example.com,
    on a platform. *)
Definition example_com_request (platform_source : string)
  : JobAnalysisRequest.t :=
  JobAnalysisRequest.Build plain_posting (Some "https://example.com") None
                           platform_source.

(** Six findings of the text category, in detection order. *)
Definition six_findings : list RiskFactor.t :=
  [ RiskFactor.Build TEXT_ANALYSIS 100
      "Contains personal info requests keywords: ssn" (9 # 10);
    RiskFactor.Build TEXT_ANALYSIS 65
      "Contains urgency pressure keywords: asap" (8 # 10);
    RiskFactor.Build TEXT_ANALYSIS 20
      "Multiple exclamation marks (1 instances)" (7 # 10);
    RiskFactor.Build TEXT_ANALYSIS 45
      "Urgency/instant keywords detected (1 instances)" (7 # 10);
    RiskFactor.Build TEXT_ANALYSIS 70
      "Very short job description (12 words)" (9 # 10);
    RiskFactor.Build TEXT_ANALYSIS 50
      "No specific requirements or qualifications mentioned" (7 # 10) ].

End Examples.

(** ** The shapes of the findings of an analyzer

    What the score of a category reads of its findings is the list of
    their severities and confidences.  The findings of the email and URL
    analyzers are appended by a fixed sequence of tests, so that the list
    they return has one of finitely many shapes. *)

Module Shape.

Import PyNum.
Open Scope Q_scope.

Definition t : Type := list (Z * Q).

Definition of_factors (factors : list RiskFactor.t) : t :=
  map (fun f => (RiskFactor.severity f, RiskFactor.confidence f)) factors.

(** A single finding. *)
Definition one (severity : Z) (confidence : Q) : t :=
  [ (severity, confidence) ].

(** One test that appends a finding or does not. *)
Definition optional (severity : Z) (confidence : Q) : list t :=
  [ []; one severity confidence ].

(** The lists got by taking one alternative of every slot, in order. *)
Fixpoint choices (slots : list (list t)) : list t :=
  match slots with
  | [] => [ [] ]
  | alternatives :: rest =>
      flat_map (fun a => map (app a) (choices rest)) alternatives
  end.

(** The shapes of the findings of [EmailAnalyzer.analyze]: one finding
    when the format is refused; otherwise the two length tests, the four
    suspicious patterns, the domain reputation (a disposable domain alone,
    or typosquatting, a suspicious TLD and a random-looking domain), the
    disposable keyword, and the two tests on the user name. *)
Definition email_shapes : list t :=
  [ one 90 1; one 95 1; one 100 1 ]
    ++ choices
         [ optional 60 (8 # 10); optional 70 (9 # 10);
           optional 85 (8 # 10); optional 60 (8 # 10);
           optional 40 (8 # 10); optional 70 (8 # 10);
           one 80 (9 # 10)
             :: choices [ optional 75 (8 # 10); optional 50 (6 # 10);
                          optional 55 (7 # 10) ];
           optional 70 (7 # 10);
           optional 60 (7 # 10); optional 50 (7 # 10) ].

(** The shapes of the findings of [URLAnalyzer.analyze]: one finding when
    the format is refused; otherwise the length test, the six suspicious
    patterns, the domain (a known suspicious domain alone, or a numeric
    name, many hyphens and a random name with a suspicious TLD), the URL
    shortener and the port. *)
Definition url_shapes : list t :=
  [ one 90 1; one 80 (9 # 10); one 95 1; one 85 (9 # 10) ]
    ++ choices
         [ optional 50 (7 # 10);
           optional 70 (8 # 10); optional 60 (8 # 10); optional 75 (8 # 10);
           optional 55 (8 # 10); optional 65 (8 # 10); optional 50 (8 # 10);
           one 85 (9 # 10) :: one 90 (9 # 10)
             :: choices [ optional 70 (8 # 10); optional 50 (7 # 10);
                          optional 65 (8 # 10) ];
           optional 70 (8 # 10);
           optional 45 (6 # 10) ].

(** A step of an analyzer that takes the list [before] to the list [after]
    appends findings of the given category whose shape is one of the
    choices of [slots]. *)
Definition adds (slots : list (list t)) (category : RiskCategory)
           (before after : list RiskFactor.t) : Prop :=
  exists new,
    after = (before ++ new)%list
    /\ In (of_factors new) (choices slots)
    /\ Forall (fun f => RiskFactor.category f = category) new.

(** What the score reads of a finding of an analyzer: its category, a
    severity from 0 to 100 and a confidence from 0.6 to 1. *)
Definition sound (category : RiskCategory) (f : RiskFactor.t) : Prop :=
  RiskFactor.category f = category
  /\ (0 <= RiskFactor.severity f <= 100)%Z
  /\ 6 # 10 <= RiskFactor.confidence f <= 1.

(** The score and the confidence of a category of such findings: both 0
    without findings, a score from 0 to 100 and a confidence from 0.6 to 1
    with findings. *)
Definition entry_ok (score confidence : Q) : Prop :=
  (score == 0 /\ confidence == 0)
  \/ (0 <= score <= 100 /\ 6 # 10 <= confidence <= 1).

(** Every severity is from 0 to 100 and every confidence from 0.6 to 1. *)
Definition bounded (shape : t) : bool :=
  forallb
    (fun p : Z * Q =>
       (0 <=? fst p)%Z && (fst p <=? 100)%Z
       && Qle_bool (6 # 10) (snd p) && Qle_bool (snd p) 1)
    shape.

(** The score and the confidence of a category whose findings have this
    shape, by the weighted average. *)
Definition entry (shape : t) : Q * Q :=
  let total := sum (map snd shape) in
  (sum (map (fun p : Z * Q => inject_Z (fst p) * snd p) shape) / total,
   min2 1 (total / inject_Z (Z.of_nat (List.length shape)))).

(** The condition under which a category of the given weight, alone with
    findings, does not fall below 25 by more than the platform multiplier
    of 1.3 makes up for, once the platform findings of score 55 and
    effective weight 0.064 are blended in. *)
Definition alone_ok (weight : Q) (shape : t) : bool :=
  match shape with
  | [] => true
  | _ :: _ =>
      let (score, confidence) := entry shape in
      Qle_bool ((score - 25) * ((64 # 1000) - (3 # 10) * (weight * confidence)))
               (2496 # 1000)
  end.

End Shape.

(** * Further parts of the backend

    The validators and the methods of the data models, the explanation
    text of the service, the multiplier of the platform analyzer, and the
    rate-limiting and metrics middleware ([middleware/*.py]).  A reading
    of the clock ([time.time()]) is a parameter of the function that
    reads it. *)

(** ** More of Python *)

Module PyMore.

Import PyNum.
Open Scope string_scope.

(** [str(z)] of an integer. *)
Definition of_int (z : Z) : string :=
  if (z <? 0)%Z then "-" ++ PyStr.of_nat (Z.to_nat (- z))
  else PyStr.of_nat (Z.to_nat z).

(** [min(iterable)]: the first minimal item; [ValueError] on an empty
    one. *)
Definition min_of (l : list Q) : option Q :=
  match l with
  | [] => None
  | x :: r => Some (fold_left min2 r x)
  end.

(** [round(x, 2)] of a float. *)
Definition round2 (x : Q) : Q := inject_Z (round (x * 100)) / 100.

(** [items[-n:]] for a positive [n]. *)
Definition last_n {A : Type} (n : nat) (items : list A) : list A :=
  skipn (List.length items - n) items.

(** The last character of a string. *)
Fixpoint last_char (s : string) : option ascii :=
  match s with
  | EmptyString => None
  | String c r =>
      match last_char r with
      | Some d => Some d
      | None => Some c
      end
  end.

(** A string that starts, or ends, with a character that is not white
    space. *)
Definition starts_ok (s : string) : bool :=
  match s with
  | EmptyString => false
  | String c _ => negb (PyStr.isspace c)
  end.

Definition ends_ok (s : string) : bool :=
  match last_char s with
  | Some c => negb (PyStr.isspace c)
  | None => false
  end.

(** A string [strip] leaves as it is and that is not empty. *)
Definition tidy (s : string) : bool := starts_ok s && ends_ok s.

End PyMore.

(** A Python [dict] in insertion order, for any type of keys. *)
Module PyDict.

Section Keyed.

Variables K V : Type.
Variable eqb : K -> K -> bool.

(** [d.get(k)]. *)
Fixpoint get (d : list (K * V)) (k : K) : option V :=
  match d with
  | [] => None
  | (k', v) :: r => if eqb k k' then Some v else get r k
  end.

(** [k in d]. *)
Definition has (d : list (K * V)) (k : K) : bool :=
  match get d k with Some _ => true | None => false end.

(** [d[k] = v]: a key that is there keeps its place. *)
Fixpoint set (d : list (K * V)) (k : K) (v : V) : list (K * V) :=
  match d with
  | [] => [(k, v)]
  | (k', v') :: r =>
      if eqb k k' then (k', v) :: r else (k', v') :: set r k v
  end.

End Keyed.

Arguments get {K V} eqb d k.
Arguments has {K V} eqb d k.
Arguments set {K V} eqb d k v.

End PyDict.

(** ** The validators and methods of the data models *)

(** [RiskFactor] ([models/internal.py]). *)
Module RiskFactorValidators.

(** [validate_description]; [ValueError] is [None]. *)
Definition validate_description (v : string) : option string :=
  if negb (PyStr.truthy v) || negb (PyStr.truthy (PyStr.strip v))
  then None
  else Some (PyStr.strip v).

(** A risk factor with a tidy description: one the validator returns as
    it is. *)
Definition worded (f : RiskFactor.t) : Prop :=
  PyMore.tidy (RiskFactor.description f) = true.

(** The fields of [f] are in the ranges [RiskFactor(...)] requires of a
    severity and of a confidence, and the validator keeps the description
    as it is given.  (The limit of 500 characters on a description is
    [RiskFactorValidators.fits].) *)
Definition constructs (f : RiskFactor.t) : Prop :=
  RiskFactor.valid f
  /\ validate_description (RiskFactor.description f)
     = Some (RiskFactor.description f).

(** The constraint [min_length=1, max_length=500] of the field
    [description], and its upper limit alone. *)
Definition fits (f : RiskFactor.t) : Prop :=
  (1 <= String.length (RiskFactor.description f) <= 500)%nat.

Definition brief (f : RiskFactor.t) : Prop :=
  (String.length (RiskFactor.description f) <= 500)%nat.

End RiskFactorValidators.

(** [AnalysisResult] ([models/internal.py]). *)
Module AnalysisResultMethods.

Import PyNum.
Open Scope Q_scope.

Definition validate_analyzer_name (v : string) : option string :=
  if negb (PyStr.truthy v) || negb (PyStr.truthy (PyStr.strip v))
  then None
  else Some (PyStr.strip v).

(** [get_max_severity]: [max] is reached with one risk factor at
    least. *)
Definition get_max_severity (self : AnalysisResult.t) : Z :=
  match AnalysisResult.risk_factors self with
  | [] => 0%Z
  | factor :: rest =>
      fold_left Zmax2 (map RiskFactor.severity rest)
                (RiskFactor.severity factor)
  end.

Definition get_weighted_severity (self : AnalysisResult.t) : option Q :=
  match AnalysisResult.risk_factors self with
  | [] => Some 0
  | _ :: _ =>
      let total_weighted :=
        sum (map RiskFactor.weighted (AnalysisResult.risk_factors self)) in
      let total_confidence :=
        sum (map RiskFactor.confidence (AnalysisResult.risk_factors self)) in
      if Qeq_bool total_confidence 0 then Some 0
      else div total_weighted total_confidence
  end.

(** [AnalysisResult(...)] with the fields of [r]: the risk factors are
    as above, the confidence is in its range and the validator keeps the
    name as it is given. *)
Definition constructs (r : AnalysisResult.t) : Prop :=
  Forall RiskFactorValidators.constructs (AnalysisResult.risk_factors r)
  /\ 0 <= AnalysisResult.confidence r <= 1
  /\ validate_analyzer_name (AnalysisResult.analyzer_name r)
     = Some (AnalysisResult.analyzer_name r).

End AnalysisResultMethods.

(** [JobAnalysisRequest] ([models/request.py]). *)
Module JobAnalysisRequestValidators.

Open Scope string_scope.

Definition validate_job_text (v : string) : option string :=
  if negb (PyStr.truthy v) || negb (PyStr.truthy (PyStr.strip v))
  then None
  else Some (PyStr.strip v).

Definition validate_platform_source (v : string) : option string :=
  if negb (PyStr.truthy v) || negb (PyStr.truthy (PyStr.strip v))
  then None
  else Some (PyStr.strip v).

Section WithRe.

(** [url_pattern.match(v)] and [email_pattern.match(v)] found a match,
    for the patterns compiled in the two validators. *)
Variable url_pattern_match : string -> bool.
Variable email_pattern_match : string -> bool.

(** [validate_company_url]: [Some None] is the returned [None]. *)
Definition validate_company_url (v : option string)
  : option (option string) :=
  match v with
  | None => Some None
  | Some v =>
      if String.eqb (PyStr.strip v) "" then Some None
      else
        let v := PyStr.strip v in
        if negb (url_pattern_match v) then None
        else Some (Some v)
  end.

Definition validate_recruiter_email (v : option string)
  : option (option string) :=
  match v with
  | None => Some None
  | Some v =>
      if String.eqb (PyStr.strip v) "" then Some None
      else
        let v := PyStr.lower (PyStr.strip v) in
        if negb (email_pattern_match v) then None
        else Some (Some v)
  end.

End WithRe.

End JobAnalysisRequestValidators.

(** [JobAnalysisResponse] ([models/response.py]). *)
Module JobAnalysisResponseValidators.

(** [validate_flags], for a list of strings. *)
Definition validate_flags (v : list string) : list string :=
  flat_map
    (fun flag =>
       if PyStr.truthy (PyStr.strip flag) then [PyStr.strip flag] else [])
    v.

Definition validate_explanation (v : string) : option string :=
  if negb (PyStr.truthy v) || negb (PyStr.truthy (PyStr.strip v))
  then None
  else Some (PyStr.strip v).

(** [JobAnalysisResponse(...)] with the fields of [response] and the
    explanation raises no validation error and keeps the flags and the
    explanation as they are given. *)
Definition constructs (response : JobAnalysisResponse.t)
           (explanation : string) : Prop :=
  (0 <= JobAnalysisResponse.risk_score response <= 100)%Z
  /\ validate_flags (JobAnalysisResponse.flags response)
     = JobAnalysisResponse.flags response
  /\ validate_explanation explanation = Some explanation.

End JobAnalysisResponseValidators.

(** ** The explanation of the service
    ([services/job_analysis_service.py]) *)

Module JobAnalysisServiceExplanation.

Import PyNum.
Open Scope string_scope.

(** The strings [_calculate_confidence_level] returns. *)
Definition confidence_value (confidence_level : ConfidenceEnum) : string :=
  match confidence_level with
  | High => "High"
  | Medium => "Medium"
  | Low => "Low"
  end.

(** One of the four blocks of [_get_category_insights]: the list
    [insights] after the block for the analyzer of that key. *)
Definition insight (analysis_results : Dict.t AnalysisResult.t)
           (key text : string) (insights : list string) : list string :=
  match Dict.get analysis_results key with
  | Some result =>
      match AnalysisResult.risk_factors result with
      | [] => insights
      | _ :: _ =>
          let high_severity_factors :=
            filter (fun f => (60 <=? RiskFactor.severity f)%Z)
                   (AnalysisResult.risk_factors result) in
          match high_severity_factors with
          | [] => insights
          | _ :: _ => (insights ++ [text])%list
          end
      end
  | None => insights
  end.

Definition _get_category_insights
           (analysis_results : Dict.t AnalysisResult.t) : string :=
  let insights := [] in
  let insights :=
    insight analysis_results "text"
      "the job description contains suspicious elements" insights in
  let insights :=
    insight analysis_results "email"
      "the recruiter email raises credibility concerns" insights in
  let insights :=
    insight analysis_results "url"
      "the company URL appears questionable" insights in
  let insights :=
    insight analysis_results "platform"
      "the platform source has credibility issues" insights in
  match insights with
  | [] => ""
  | [only] => "Specifically, " ++ only ++ "."
  | [first; second] =>
      "Specifically, " ++ first ++ " and " ++ second ++ "."
  | _ =>
      "Specifically, " ++ PyStr.join ", " (removelast insights)
        ++ ", and " ++ last insights "" ++ "."
  end.

(** The opening statement, by verdict. *)
Definition opening (risk_score : Z) (verdict : VerdictEnum)
           (confidence_level : ConfidenceEnum) : string :=
  let level := PyStr.lower (confidence_value confidence_level) in
  match verdict with
  | SAFE =>
      "This job posting appears legitimate with a low risk score of "
        ++ PyMore.of_int risk_score ++ " (" ++ level ++ " confidence)."
  | CAUTION =>
      "This job posting shows some concerning signs with a moderate risk score of "
        ++ PyMore.of_int risk_score ++ " (" ++ level ++ " confidence)."
  | HIGH_RISK =>
      "This job posting has significant red flags with a high risk score of "
        ++ PyMore.of_int risk_score ++ " (" ++ level ++ " confidence)."
  end.

(** The sentence on the top risk factors, none when there is no risk
    factor. *)
Definition concerns_sentence (all_risk_factors : list RiskFactor.t)
  : list string :=
  match all_risk_factors with
  | [] => []
  | _ :: _ =>
      let top_factors := firstn 3 all_risk_factors in
      match top_factors with
      | [only] =>
          [ "The main concern is: "
              ++ PyStr.lower (RiskFactor.description only) ++ "." ]
      | _ =>
          let concerns :=
            map (fun factor => PyStr.lower (RiskFactor.description factor))
                top_factors in
          match concerns with
          | [first; second] =>
              [ "Key concerns include: " ++ first ++ " and " ++ second
                  ++ "." ]
          | _ =>
              [ "Key concerns include: "
                  ++ PyStr.join ", " (removelast concerns)
                  ++ ", and " ++ last concerns "" ++ "." ]
          end
      end
  end.

(** The recommendation, by verdict. *)
Definition recommendation (verdict : VerdictEnum) : string :=
  match verdict with
  | SAFE =>
      "The job posting meets standard legitimacy criteria, but always verify details independently."
  | CAUTION =>
      "Exercise caution and verify company details before proceeding with any application."
  | HIGH_RISK =>
      "Strong recommendation to avoid this opportunity and report if encountered on job platforms."
  end.

Definition _generate_explanation
           (analysis_results : Dict.t AnalysisResult.t) (risk_score : Z)
           (verdict : VerdictEnum) (confidence_level : ConfidenceEnum)
  : string :=
  let all_risk_factors :=
    JobAnalysisService.collect_risk_factors analysis_results in
  let all_risk_factors := sorted_desc RiskFactor.sort_key all_risk_factors in
  let explanation_parts := [ opening risk_score verdict confidence_level ] in
  let explanation_parts :=
    (explanation_parts ++ concerns_sentence all_risk_factors)%list in
  let category_insights := _get_category_insights analysis_results in
  let explanation_parts :=
    if PyStr.truthy category_insights
    then (explanation_parts ++ [category_insights])%list
    else explanation_parts in
  let explanation_parts :=
    (explanation_parts ++ [recommendation verdict])%list in
  PyStr.join " " explanation_parts.

Section WithAnalyzers.

Variable text_findall : TextAnalyzer.pattern_name -> string -> list string.
Variable email_match email_search : EmailAnalyzer.regex -> string -> bool.
Variable url_match url_search : URLAnalyzer.regex -> string -> bool.
Variable urlparse : string -> option URLAnalyzer.ParseResult.
Variable domain_match : string -> option string.

(** The explanation [analyze_job_posting] puts in its response. *)
Definition explanation_of (request : JobAnalysisRequest.t) : option string :=
  analysis_results <-
    JobAnalysisService._run_all_analyzers text_findall email_match
      email_search url_match url_search urlparse domain_match request ;;
  scored <-
    JobAnalysisService._calculate_overall_risk_score_with_confidence
      analysis_results request ;;
  let (risk_score, confidence_level) := scored in
  let verdict := JobAnalysisService._determine_verdict risk_score in
  Some (_generate_explanation analysis_results risk_score verdict
          confidence_level).

End WithAnalyzers.

End JobAnalysisServiceExplanation.

(** ** The multiplier of the platform analyzer
    ([analyzers/platform_analyzer.py]) *)

Module PlatformAnalyzerMultiplier.

Import PyNum.
Open Scope string_scope.

Section WithRe.

(** The domain pattern of [_normalize_platform_name], as in
    [PlatformAnalyzer]. *)
Variable domain_match : string -> option string.

Definition get_platform_risk_multiplier (platform_source : string) : Q :=
  if negb (PyStr.truthy platform_source) then 1
  else
    let normalized_platform :=
      PlatformAnalyzer._normalize_platform_name domain_match
        (PyStr.lower (PyStr.strip platform_source)) in
    match find (fun risk_data =>
                  PyStr.mem normalized_platform
                            (PlatformAnalyzer.platforms risk_data))
               PlatformAnalyzer.platform_risk_patterns with
    | Some risk_data => PlatformAnalyzer.risk_multiplier risk_data
    | None =>
        let credibility_score :=
          match Dict.get PlatformAnalyzer.all_platforms normalized_platform with
          | Some score => score
          | None => 50%Z
          end in
        if (90 <=? credibility_score)%Z then 8 # 10
        else if (80 <=? credibility_score)%Z then 9 # 10
        else if (credibility_score <? 50)%Z then 14 # 10
        else if (credibility_score <? 70)%Z then 12 # 10
        else 1
    end.

End WithRe.

End PlatformAnalyzerMultiplier.

(** ** The rate-limiting middleware ([middleware/rate_limiting.py]) *)

(** What the middleware reads of a request: the path of its URL, the
    headers [X-Forwarded-For] and [X-Real-IP] ([None] when the header is
    not there) and [request.client.host] ([None] when [request.client] is
    [None]). *)
Module Request.
Record t : Type := Build {
  path : string;
  forwarded_for : option string;
  real_ip : option string;
  client_host : option string
}.
End Request.

Module RateLimitingMiddleware.

Import PyNum.
Open Scope Q_scope.
Open Scope string_scope.

(** A value of [self.request_counts]: a dictionary with the two keys
    ["minute"] and ["hour"], each one a list of times. *)
Record client_data : Type := {
  minute : list Q;
  hour : list Q
}.

(** The middleware: its three settings, [self.request_counts] and
    [self.last_cleanup]. *)
Record t : Type := Build {
  requests_per_minute : Z;
  requests_per_hour : Z;
  cleanup_interval : Z;
  request_counts : list (string * client_data);
  last_cleanup : Q
}.

(** [__init__] when the clock reads [now]. *)
Definition __init__ (requests_per_minute requests_per_hour cleanup_interval : Z)
           (now : Q) : t :=
  Build requests_per_minute requests_per_hour cleanup_interval [] now.

Definition with_counts (self : t) (counts : list (string * client_data)) : t :=
  Build (requests_per_minute self) (requests_per_hour self)
        (cleanup_interval self) counts (last_cleanup self).

(** The value of [x] under [if x:], for a header or a message that may
    be [None]: nothing when it is [None] or empty. *)
Definition nonempty (x : option string) : option string :=
  match x with
  | Some s => if PyStr.truthy s then Some s else None
  | None => None
  end.

Definition _get_client_ip (request : Request.t) : option string :=
  match nonempty (Request.forwarded_for request) with
  | Some forwarded_for =>
      first <- nth_error (PyStr.split_on "," forwarded_for) 0 ;;
      Some (PyStr.strip first)
  | None =>
      match nonempty (Request.real_ip request) with
      | Some real_ip => Some real_ip
      | None =>
          match Request.client_host request with
          | Some host => Some host
          | None => Some "unknown"
          end
      end
  end.

(** The times of a list later than a cutoff. *)
Definition later_than (cutoff : Q) (times : list Q) : list Q :=
  filter (fun timestamp => Qlt_bool cutoff timestamp) times.

(** The body of the loop of [_cleanup_old_entries] for one key of
    [self.request_counts]: the entry that is left for it, if any. *)
Definition cleanup_client (cutoff_time_minute cutoff_time_hour : Q)
           (entry : string * client_data) : list (string * client_data) :=
  let (client_ip, client_data) := entry in
  let client_data :=
    {| minute := later_than cutoff_time_minute (minute client_data);
       hour := later_than cutoff_time_hour (hour client_data) |} in
  match minute client_data, hour client_data with
  | [], [] => []
  | _, _ => [(client_ip, client_data)]
  end.

(** [_cleanup_old_entries] when the clock reads [current_time]. *)
Definition _cleanup_old_entries (self : t) (current_time : Q) : t :=
  if Qlt_bool (current_time - last_cleanup self)
              (inject_Z (cleanup_interval self))
  then self
  else
    let cutoff_time_minute := current_time - 60 in
    let cutoff_time_hour := current_time - 3600 in
    Build (requests_per_minute self) (requests_per_hour self)
          (cleanup_interval self)
          (flat_map (cleanup_client cutoff_time_minute cutoff_time_hour)
                    (request_counts self))
          current_time.

(** [if client_ip not in self.request_counts: ...]: the dictionary with
    an entry for the client. *)
Definition with_client (counts : list (string * client_data))
           (client_ip : string) : list (string * client_data) :=
  if negb (PyDict.has String.eqb counts client_ip)
  then PyDict.set String.eqb counts client_ip {| minute := []; hour := [] |}
  else counts.

(** [_is_rate_limited] when the clock reads [current_time]: the
    middleware after the call and the returned message. *)
Definition _is_rate_limited (self : t) (client_ip : string)
           (current_time : Q) : option (t * option string) :=
  let self := with_counts self (with_client (request_counts self) client_ip) in
  client_data <- PyDict.get String.eqb (request_counts self) client_ip ;;
  let minute_cutoff := current_time - 60 in
  let recent_minute_requests := later_than minute_cutoff (minute client_data) in
  if (requests_per_minute self
        <=? Z.of_nat (List.length recent_minute_requests))%Z
  then Some (self,
             Some ("Rate limit exceeded: "
                     ++ PyMore.of_int (requests_per_minute self)
                     ++ " requests per minute"))
  else
    let hour_cutoff := current_time - 3600 in
    let recent_hour_requests := later_than hour_cutoff (hour client_data) in
    if (requests_per_hour self
          <=? Z.of_nat (List.length recent_hour_requests))%Z
    then Some (self,
               Some ("Rate limit exceeded: "
                       ++ PyMore.of_int (requests_per_hour self)
                       ++ " requests per hour"))
    else Some (self, None).

(** [_record_request] when the clock reads [current_time]. *)
Definition _record_request (self : t) (client_ip : string)
           (current_time : Q) : option t :=
  let counts := with_client (request_counts self) client_ip in
  client_data <- PyDict.get String.eqb counts client_ip ;;
  let client_data :=
    {| minute := (minute client_data ++ [current_time])%list;
       hour := (hour client_data ++ [current_time])%list |} in
  Some (with_counts self (PyDict.set String.eqb counts client_ip client_data)).

(** What [dispatch] answers: the response of the next handler, or the
    response 429 with its detail. *)
Inductive outcome : Type :=
| call_next
| too_many_requests (detail : string).

(** The three readings of the clock of one call of [dispatch], in the
    order in which they are made: in [_cleanup_old_entries], in
    [_is_rate_limited] and in [_record_request]. *)
Record readings : Type := {
  at_cleanup : Q;
  at_check : Q;
  at_record : Q
}.

Definition dispatch (self : t) (request : Request.t) (clock : readings)
  : option (t * outcome) :=
  if PyStr.mem (Request.path request) [ "/"; "/health"; "/api/v1/health" ]
  then Some (self, call_next)
  else
    let self := _cleanup_old_entries self (at_cleanup clock) in
    client_ip <- _get_client_ip request ;;
    checked <- _is_rate_limited self client_ip (at_check clock) ;;
    let (self, rate_limit_error) := checked in
    match nonempty rate_limit_error with
    | Some detail => Some (self, too_many_requests detail)
    | None =>
        self <- _record_request self client_ip (at_record clock) ;;
        Some (self, call_next)
    end.

End RateLimitingMiddleware.

(** A run of the rate-limiting middleware over the requests of a server,
    one after the other. *)
Module RateLimitingRun.

Import PyNum RateLimitingMiddleware.
Open Scope Q_scope.

(** A request and the readings of the clock while it is dispatched. *)
Record arrival : Type := {
  request : Request.t;
  clock : readings
}.

(** The answers to the requests, in their order. *)
Fixpoint serve (self : t) (arrivals : list arrival)
  : option (t * list outcome) :=
  match arrivals with
  | [] => Some (self, [])
  | a :: rest =>
      step <- dispatch self (request a) (clock a) ;;
      let (self, answer) := step in
      run <- serve self rest ;;
      let (self, answers) := run in
      Some (self, answer :: answers)
  end.

(** The clock does not go back: each reading is at least the one
    before. *)
Fixpoint chronological (now : Q) (arrivals : list arrival) : Prop :=
  match arrivals with
  | [] => True
  | a :: rest =>
      now <= at_cleanup (clock a)
      /\ at_cleanup (clock a) <= at_check (clock a)
      /\ at_check (clock a) <= at_record (clock a)
      /\ chronological (at_record (clock a)) rest
  end.

(** The requests that count against the limits. *)
Definition limited_path (a : arrival) : bool :=
  negb (PyStr.mem (Request.path (request a))
                  [ "/"%string; "/health"%string; "/api/v1/health"%string ]).

(** The times recorded for a client: those of its requests on a limited
    path that went on to the next handler. *)
Fixpoint served_times (client_ip : string) (arrivals : list arrival)
         (answers : list outcome) : list Q :=
  match arrivals, answers with
  | a :: rest, answer :: others =>
      let later := served_times client_ip rest others in
      match answer, _get_client_ip (request a) with
      | call_next, Some ip =>
          if limited_path a && String.eqb ip client_ip
          then at_record (clock a) :: later
          else later
      | _, _ => later
      end
  | _, _ => []
  end.

(** The number of times of a list in the window that ends at [now] and is
    [length] seconds long, its start excluded. *)
Definition in_window (length now : Q) (times : list Q) : nat :=
  List.length
    (filter (fun timestamp =>
               Qlt_bool (now - length) timestamp && Qle_bool timestamp now)
            times).

(** The number of times of a list later than [now - length]: what
    [_is_rate_limited] counts. *)
Definition recent (length now : Q) (times : list Q) : nat :=
  List.length (later_than (now - length) times).

(** The times kept for a client in [self.request_counts]. *)
Definition minute_of (self : t) (client_ip : string) : list Q :=
  match PyDict.get String.eqb (request_counts self) client_ip with
  | Some client_data => minute client_data
  | None => []
  end.

Definition hour_of (self : t) (client_ip : string) : list Q :=
  match PyDict.get String.eqb (request_counts self) client_ip with
  | Some client_data => hour client_data
  | None => []
  end.

(** What the middleware keeps, when the clock has read [now], of the
    times [served] recorded so far for each client: the keys of the
    dictionary are distinct, and the lists of a client hold the recorded
    times that can still count, in their order. *)
Record tracks (self : t) (now : Q) (served : string -> list Q) : Prop := {
  tracks_keys : NoDup (map fst (request_counts self));
  tracks_minute :
    forall client_ip cutoff, now - 60 <= cutoff ->
      later_than cutoff (minute_of self client_ip)
      = later_than cutoff (served client_ip);
  tracks_hour :
    forall client_ip cutoff, now - 3600 <= cutoff ->
      later_than cutoff (hour_of self client_ip)
      = later_than cutoff (served client_ip)
}.

(** The times served once the client has one more at [timestamp]. *)
Definition also_served (served : string -> list Q) (client_ip : string)
           (timestamp : Q) : string -> list Q :=
  fun ip =>
    if String.eqb ip client_ip then (served ip ++ [timestamp])%list
    else served ip.

(** The limiter of the docstring of the class ("a simple sliding window
    rate limiter that allows a configurable number of requests per time
    window per client"), with nothing but the times served so far to each
    client: a request is refused when the client was served
    [per_minute] times or more within the last minute, or [per_hour] times
    or more within the last hour. *)
Fixpoint sliding_window (per_minute per_hour : Z) (served : string -> list Q)
         (arrivals : list arrival) : list outcome :=
  match arrivals with
  | [] => []
  | a :: rest =>
      if limited_path a
      then
        match _get_client_ip (request a) with
        | Some client_ip =>
            if (per_minute
                  <=? Z.of_nat (recent 60 (at_check (clock a))
                                       (served client_ip)))%Z
            then
              too_many_requests
                ("Rate limit exceeded: " ++ PyMore.of_int per_minute
                   ++ " requests per minute")
                :: sliding_window per_minute per_hour served rest
            else if (per_hour
                       <=? Z.of_nat (recent 3600 (at_check (clock a))
                                            (served client_ip)))%Z
            then
              too_many_requests
                ("Rate limit exceeded: " ++ PyMore.of_int per_hour
                   ++ " requests per hour")
                :: sliding_window per_minute per_hour served rest
            else
              call_next
                :: sliding_window per_minute per_hour
                     (also_served served client_ip (at_record (clock a)))
                     rest
        | None => []
        end
      else call_next :: sliding_window per_minute per_hour served rest
  end.

(** No window of a minute holds more than [per_minute] of the times, and
    no window of an hour more than [per_hour]. *)
Definition within_limits (per_minute per_hour : Z) (times : list Q) : Prop :=
  forall now,
    (Z.of_nat (in_window 60 now times) <= Z.max 0 per_minute)%Z
    /\ (Z.of_nat (in_window 3600 now times) <= Z.max 0 per_hour)%Z.

End RateLimitingRun.

(** ** The logging and metrics middleware
    ([middleware/logging_middleware.py]) *)

Module LoggingMiddleware.

Open Scope string_scope.

(** The entry ["client_ip"] of the dictionary [_get_client_info]
    returns. *)
Definition _get_client_info_client_ip (request : Request.t)
  : option string :=
  let client_ip := "unknown" in
  let client_ip :=
    match Request.client_host request with
    | Some host => host
    | None => client_ip
    end in
  client_ip <-
    match RateLimitingMiddleware.nonempty (Request.forwarded_for request) with
    | Some forwarded_for =>
        first <- nth_error (PyStr.split_on "," forwarded_for) 0 ;;
        Some (PyStr.strip first)
    | None => Some client_ip
    end ;;
  match RateLimitingMiddleware.nonempty (Request.real_ip request) with
  | Some real_ip => Some real_ip
  | None => Some client_ip
  end.

End LoggingMiddleware.

Module MetricsCollector.

Import PyNum.
Open Scope Q_scope.

(** [self.metrics]. *)
Record t : Type := Build {
  requests_total : Z;
  requests_by_method : list (string * Z);
  requests_by_status : list (Z * Z);
  response_times : list Q;
  errors_total : Z;
  start_time : Q
}.

(** [__init__] when the clock reads [now]. *)
Definition __init__ (now : Q) : t := Build 0 [] [] [] 0 now.

(** [if k not in d: d[k] = 0] followed by [d[k] += 1]; [KeyError] is
    [None]. *)
Definition count_one {K : Type} (eqb : K -> K -> bool)
           (d : list (K * Z)) (k : K) : option (list (K * Z)) :=
  let d := if negb (PyDict.has eqb d k) then PyDict.set eqb d k 0%Z else d in
  n <- PyDict.get eqb d k ;;
  Some (PyDict.set eqb d k (n + 1)%Z).

(** [record_request]; the path is not used. *)
Definition record_request (self : t) (method : string) (status_code : Z)
           (duration : Q) : option t :=
  let requests_total := (requests_total self + 1)%Z in
  requests_by_method <-
    count_one String.eqb (requests_by_method self) method ;;
  requests_by_status <-
    count_one Z.eqb (requests_by_status self) status_code ;;
  let response_times := (response_times self ++ [duration])%list in
  let response_times :=
    if (1000 <? List.length response_times)%nat
    then PyMore.last_n 1000 response_times
    else response_times in
  let errors_total :=
    if (400 <=? status_code)%Z then (errors_total self + 1)%Z
    else errors_total self in
  Some (Build requests_total requests_by_method requests_by_status
              response_times errors_total (start_time self)).

(** The entry ["response_times"] of the summary. *)
Record times_summary : Type := {
  count : nat;
  avg_ms : Q;
  min_ms : Q;
  max_ms : Q
}.

(** The dictionary [get_metrics] returns; [summary_response_times] is
    [None] when the key is not set. *)
Record summary : Type := {
  uptime_seconds : Q;
  summary_requests_total : Z;
  summary_requests_by_method : list (string * Z);
  summary_requests_by_status : list (Z * Z);
  summary_errors_total : Z;
  error_rate : Q;
  summary_response_times : option times_summary
}.

(** [get_metrics] when the clock reads [now]. *)
Definition get_metrics (self : t) (now : Q) : option summary :=
  let response_times := response_times self in
  let uptime := now - start_time self in
  ratio <- div (inject_Z (errors_total self))
               (inject_Z (Zmax2 (requests_total self) 1)) ;;
  times <-
    match response_times with
    | [] => Some None
    | _ :: _ =>
        mean <- div (sum response_times)
                    (inject_Z (Z.of_nat (List.length response_times))) ;;
        least <- PyMore.min_of response_times ;;
        greatest <- max_of response_times ;;
        Some (Some {| count := List.length response_times;
                      avg_ms := PyMore.round2 (mean * 1000);
                      min_ms := PyMore.round2 (least * 1000);
                      max_ms := PyMore.round2 (greatest * 1000) |})
    end ;;
  Some {| uptime_seconds := PyMore.round2 uptime;
          summary_requests_total := requests_total self;
          summary_requests_by_method := requests_by_method self;
          summary_requests_by_status := requests_by_status self;
          summary_errors_total := errors_total self;
          error_rate := ratio * 100;
          summary_response_times := times |}.

(** The requests of a server recorded one after the other: the method,
    the status code and the duration of each. *)
Fixpoint record_all (self : t) (requests : list (string * Z * Q))
  : option t :=
  match requests with
  | [] => Some self
  | (method, status_code, duration) :: rest =>
      self <- record_request self method status_code duration ;;
      record_all self rest
  end.

(** The number of the requests whose key is [k]; the entry a dictionary
    of counts has for it. *)
Definition tally {K : Type} (eqb : K -> K -> bool)
           (key : string * Z * Q -> K) (k : K)
           (requests : list (string * Z * Q)) : Z :=
  Z.of_nat (List.length (filter (fun r => eqb (key r) k) requests)).

Definition counted (n : Z) : option Z :=
  if (n =? 0)%Z then None else Some n.

Definition method_of (r : string * Z * Q) : string := fst (fst r).
Definition status_of (r : string * Z * Q) : Z := snd (fst r).
Definition duration_of (r : string * Z * Q) : Q := snd r.

(** The number of the requests answered with an error status. *)
Definition errors (requests : list (string * Z * Q)) : Z :=
  Z.of_nat
    (List.length (filter (fun r => (400 <=? status_of r)%Z) requests)).

(** The metrics once the requests [requests] have been recorded, one
    after the other. *)
Record holds (self : t) (requests : list (string * Z * Q)) : Prop := {
  holds_total : requests_total self = Z.of_nat (List.length requests);
  holds_methods :
    forall method,
      PyDict.get String.eqb (requests_by_method self) method
      = counted (tally String.eqb method_of method requests);
  holds_statuses :
    forall status_code,
      PyDict.get Z.eqb (requests_by_status self) status_code
      = counted (tally Z.eqb status_of status_code requests);
  holds_times :
    response_times self = PyMore.last_n 1000 (map duration_of requests);
  holds_errors : errors_total self = errors requests
}.

End MetricsCollector.

(** ** The findings of the platform analyzer, by description *)

Module PlatformFindings.

Open Scope string_scope.

(** A risk factor with this description is among the risk factors. *)
Definition reports (description : string) (risk_factors : list RiskFactor.t)
  : bool :=
  existsb
    (fun factor => String.eqb (RiskFactor.description factor) description)
    risk_factors.

(** The keys of [self.platform_patterns] that [pattern_to_platform] maps
    to another name. *)
Definition renamed_keys : list string :=
  map (fun entry : string * list PlatformAnalyzer.alternative * string =>
         fst (fst entry))
      (filter (fun entry : string * list PlatformAnalyzer.alternative * string =>
                 negb (String.eqb (fst (fst entry)) (snd entry)))
              PlatformAnalyzer.platform_patterns).

End PlatformFindings.

(** ** More concrete inputs *)

Module MoreExamples.

Import PyNum.
Open Scope Q_scope.
Open Scope string_scope.

(** A request to the analysis endpoint from a client behind no proxy. *)
Definition analysis_request (host : string) : Request.t :=
  Request.Build "/api/v1/analyze-job" None None (Some host).

(** An arrival whose three readings of the clock are the same. *)
Definition arrival_at (request : Request.t) (now : Q)
  : RateLimitingRun.arrival :=
  {| RateLimitingRun.request := request;
     RateLimitingRun.clock :=
       {| RateLimitingMiddleware.at_cleanup := now;
          RateLimitingMiddleware.at_check := now;
          RateLimitingMiddleware.at_record := now |} |}.

(** Three requests of one client within three seconds, one of another
    client, a health check, and a fourth request of the first client a
    minute later. *)
Definition burst : list RateLimitingRun.arrival :=
  [ arrival_at (analysis_request "10.0.0.1") 1;
    arrival_at (analysis_request "10.0.0.1") 2;
    arrival_at (analysis_request "10.0.0.1") 3;
    arrival_at (analysis_request "10.0.0.2") 4;
    arrival_at (Request.Build "/health" None None (Some "10.0.0.1")) 5;
    arrival_at (analysis_request "10.0.0.1") 62 ].

(** The first client again, more than an hour after the burst. *)
Definition return_visit : RateLimitingRun.arrival :=
  arrival_at (analysis_request "10.0.0.1") 3700.

(** The answer of a pattern of a validator of the request model that
    matches the text [accepted], on the texts of an example. *)
Definition matches_only (accepted v : string) : bool := String.eqb v accepted.

(** A result with the two findings of the email analyzer on the lengths
    of the user name and of the domain. *)
Definition two_email_findings : AnalysisResult.t :=
  AnalysisResult.Build
    [ RiskFactor.Build EMAIL_VALIDATION 60
        "Email username exceeds recommended length" (8 # 10);
      RiskFactor.Build EMAIL_VALIDATION 70
        "Email domain exceeds maximum length" (9 # 10) ]
    (9 # 10) "EmailAnalyzer".

End MoreExamples.
(** * Properties *)

(** ** Numbers *)

Section NumberFacts.

Import PyNum.
Open Scope Q_scope.

Lemma Qlt_bool_true (x y : Q) : Qlt_bool x y = true <-> x < y.
Proof.
  unfold Qlt_bool. rewrite negb_true_iff.
  destruct (Qle_bool y x) eqn:E.
  - apply Qle_bool_iff in E. split; [discriminate | intro H; lra].
  - split; [intros _ | reflexivity].
    destruct (Qlt_le_dec x y) as [H | H]; [exact H |].
    apply Qle_bool_iff in H. congruence.
Qed.

Lemma Qlt_bool_false (x y : Q) : Qlt_bool x y = false <-> y <= x.
Proof.
  destruct (Qlt_bool x y) eqn:E.
  - apply Qlt_bool_true in E. split; [discriminate | intro H; lra].
  - split; [intros _ | reflexivity].
    destruct (Qlt_le_dec x y) as [H | H]; [| exact H].
    apply Qlt_bool_true in H. congruence.
Qed.

Lemma Qle_bool_false (x y : Q) : Qle_bool x y = false <-> y < x.
Proof.
  destruct (Qle_bool x y) eqn:E.
  - apply Qle_bool_iff in E. split; [discriminate | intro H; lra].
  - split; [intros _ | reflexivity].
    destruct (Qlt_le_dec y x) as [H | H]; [exact H |].
    apply Qle_bool_iff in H. congruence.
Qed.

End NumberFacts.

(** [qbool] turns every test on rationals of the goal into a hypothesis,
    one case at a time. *)
Ltac qbool :=
  repeat match goal with
    | |- context [PyNum.Qlt_bool ?x ?y] =>
        let E := fresh "E" in
        destruct (PyNum.Qlt_bool x y) eqn:E;
        [apply Qlt_bool_true in E | apply Qlt_bool_false in E]
    | |- context [Qle_bool ?x ?y] =>
        let E := fresh "E" in
        destruct (Qle_bool x y) eqn:E;
        [apply Qle_bool_iff in E | apply Qle_bool_false in E]
    end.

Section NumberFacts2.

Import PyNum.
Open Scope Q_scope.

Lemma max2_spec (a b : Q) :
  a <= max2 a b /\ b <= max2 a b /\ (max2 a b = a \/ max2 a b = b).
Proof. unfold max2. qbool; repeat split; auto; lra. Qed.

Lemma min2_spec (a b : Q) :
  min2 a b <= a /\ min2 a b <= b /\ (min2 a b = a \/ min2 a b = b).
Proof. unfold min2. qbool; repeat split; auto; lra. Qed.

Lemma min2_glb (m a b : Q) : m <= a -> m <= b -> m <= min2 a b.
Proof. intros. destruct (min2_spec a b) as (_ & _ & [-> | ->]); assumption. Qed.

Lemma max2_lub (m a b : Q) : a <= m -> b <= m -> max2 a b <= m.
Proof. intros. destruct (max2_spec a b) as (_ & _ & [-> | ->]); assumption. Qed.

Lemma max2_mono (a b c d : Q) : a <= c -> b <= d -> max2 a b <= max2 c d.
Proof.
  intros. apply max2_lub.
  - destruct (max2_spec c d) as (? & _). lra.
  - destruct (max2_spec c d) as (_ & ? & _). lra.
Qed.

Lemma Zmax2_spec (a b : Z) : Zmax2 a b = Z.max a b.
Proof. unfold Zmax2. destruct (Z.ltb_spec a b); lia. Qed.

Lemma Zmin2_spec (a b : Z) : Zmin2 a b = Z.min a b.
Proof. unfold Zmin2. destruct (Z.ltb_spec b a); lia. Qed.

(** The final clamp of the score. *)
Lemma clamp_range (z : Z) : (0 <= Zmax2 0 (Zmin2 100 z) <= 100)%Z.
Proof. rewrite Zmax2_spec, Zmin2_spec. lia. Qed.

Lemma clamp_mono (x y : Z) :
  (x <= y)%Z -> (Zmax2 0 (Zmin2 100 x) <= Zmax2 0 (Zmin2 100 y))%Z.
Proof. rewrite !Zmax2_spec, !Zmin2_spec. lia. Qed.

(** [round] stays within a half of its argument. *)
Lemma round_near (x : Q) :
  x - (1 # 2) <= inject_Z (round x) <= x + (1 # 2).
Proof.
  unfold round.
  pose proof (Qfloor_le x) as Hlo.
  pose proof (Qlt_floor x) as Hhi.
  rewrite inject_Z_plus in Hhi. change (inject_Z 1) with 1 in Hhi.
  destruct (Qcompare_spec (x - inject_Z (Qfloor x)) (1 # 2)) as [E | E | E].
  - destruct (Z.even (Qfloor x)); rewrite ?inject_Z_plus;
      change (inject_Z 1) with 1; lra.
  - lra.
  - rewrite inject_Z_plus. change (inject_Z 1) with 1. lra.
Qed.

Lemma round_mono (x y : Q) : x <= y -> (round x <= round y)%Z.
Proof.
  intros Hxy.
  pose proof (Qfloor_resp_le _ _ Hxy) as Hf.
  destruct (Z.eq_dec (Qfloor x) (Qfloor y)) as [Heq | Hne].
  - unfold round. rewrite <- Heq.
    destruct (Qcompare_spec (x - inject_Z (Qfloor x)) (1 # 2)) as [E | E | E];
      destruct (Qcompare_spec (y - inject_Z (Qfloor x)) (1 # 2)) as [F | F | F];
      destruct (Z.even (Qfloor x)); try lia; lra.
  - assert (Hlt : (Qfloor x + 1 <= Qfloor y)%Z) by lia.
    assert (Hx : (round x <= Qfloor x + 1)%Z).
    { unfold round.
      destruct (Qcompare (x - inject_Z (Qfloor x)) (1 # 2));
        destruct (Z.even (Qfloor x)); lia. }
    assert (Hy : (Qfloor y <= round y)%Z).
    { unfold round.
      destruct (Qcompare (y - inject_Z (Qfloor y)) (1 # 2));
        destruct (Z.even (Qfloor y)); lia. }
    lia.
Qed.

Lemma round_inject (z : Z) : round (inject_Z z) = z.
Proof.
  unfold round. rewrite Qfloor_Z.
  destruct (Qcompare_spec (inject_Z z - inject_Z z) (1 # 2)) as [E | E | E];
    try lra; reflexivity.
Qed.

Lemma sum_from (l : list Q) (a : Q) : fold_left Qplus l a == a + sum l.
Proof.
  unfold sum. revert a.
  induction l as [| x l IH]; intros a; simpl.
  - lra.
  - rewrite IH, (IH (0 + x)). lra.
Qed.

Lemma sum_cons (x : Q) (l : list Q) : sum (x :: l) == x + sum l.
Proof. unfold sum at 1. simpl. rewrite sum_from. lra. Qed.

Lemma sum_nonneg (l : list Q) : Forall (fun x => 0 <= x) l -> 0 <= sum l.
Proof.
  induction 1 as [| x l Hx _ IH].
  - unfold sum. simpl. lra.
  - rewrite sum_cons. lra.
Qed.

End NumberFacts2.

(** ** The verdict *)

Section Verdict.

Import JobAnalysisService.
Open Scope Z_scope.

Lemma determine_verdict_cases (risk_score : Z) :
  (risk_score <= 30 /\ _determine_verdict risk_score = SAFE)
  \/ (31 <= risk_score <= 65 /\ _determine_verdict risk_score = CAUTION)
  \/ (66 <= risk_score /\ _determine_verdict risk_score = HIGH_RISK).
Proof.
  unfold _determine_verdict, verdict_threshold_safe, verdict_threshold_caution.
  destruct (Z.leb_spec risk_score 30); [left; split; [lia | reflexivity] |].
  destruct (Z.leb_spec risk_score 65); [right; left | right; right];
    (split; [lia | reflexivity]).
Qed.

(** C3.  For every final risk score (an integer from 0 to 100) the verdict
    is the classification by the two fixed thresholds: Safe exactly when
    the score is at most 30, Caution exactly when it is from 31 to 65,
    High Risk exactly when it is from 66 to 100; in particular 30 is Safe,
    31 and 65 are Caution and 66 is High Risk. *)
Theorem determine_verdict_thresholds (risk_score : Z) :
  0 <= risk_score <= 100 ->
  (_determine_verdict risk_score = SAFE <-> risk_score <= 30)
  /\ (_determine_verdict risk_score = CAUTION <-> 31 <= risk_score <= 65)
  /\ (_determine_verdict risk_score = HIGH_RISK <-> 66 <= risk_score <= 100)
  /\ _determine_verdict 30 = SAFE
  /\ _determine_verdict 31 = CAUTION
  /\ _determine_verdict 65 = CAUTION
  /\ _determine_verdict 66 = HIGH_RISK.
Proof.
  intros Hrange.
  destruct (determine_verdict_cases risk_score) as [[H E] | [[H E] | [H E]]];
    rewrite E; repeat split; intros; try discriminate; try lia; reflexivity.
Qed.

Lemma determine_verdict_thresholds_witness :
  0 <= 66 <= 100
  /\ (_determine_verdict 66 = HIGH_RISK <-> 66 <= 66 <= 100).
Proof.
  split; [lia |].
  apply (determine_verdict_thresholds 66). lia.
Defined.

End Verdict.

(** ** Absent optional fields *)

Section Neutral.

Variable email_match email_search : EmailAnalyzer.regex -> string -> bool.
Variable url_match url_search : URLAnalyzer.regex -> string -> bool.
Variable urlparse : string -> option URLAnalyzer.ParseResult.

(** C9.  For every recruiter email that is missing, empty or made of
    white space only, the email analyzer returns a result with no risk
    factor and confidence 1.0, and for every such company URL so does the
    URL analyzer: an absent optional field contributes no finding. *)
Theorem absent_field_is_neutral (given : option string) :
  blank given = true ->
  EmailAnalyzer.analyze email_match email_search given
  = Some (AnalysisResult.Build [] 1 "EmailAnalyzer")
  /\ URLAnalyzer.analyze url_match url_search urlparse given
     = Some (AnalysisResult.Build [] 1 "URLAnalyzer").
Proof.
  unfold blank, present, EmailAnalyzer.analyze, URLAnalyzer.analyze.
  destruct given as [s |]; [| split; reflexivity].
  intros H. apply negb_true_iff in H.
  rewrite <- negb_andb, H. split; reflexivity.
Qed.

End Neutral.

Lemma absent_field_is_neutral_witness :
  blank (Some "  "%string) = true
  /\ EmailAnalyzer.analyze (fun _ _ => true) (fun _ _ => true) (Some "  "%string)
     = Some (AnalysisResult.Build [] 1 "EmailAnalyzer")
  /\ URLAnalyzer.analyze (fun _ _ => true) (fun _ _ => true) (fun _ => None)
                         (Some "  "%string)
     = Some (AnalysisResult.Build [] 1 "URLAnalyzer").
Proof.
  split; [reflexivity |].
  apply (absent_field_is_neutral (fun _ _ => true) (fun _ _ => true)
           (fun _ _ => true) (fun _ _ => true) (fun _ => None) (Some "  "%string)).
  reflexivity.
Defined.

(** ** The confidence of the text analyzer *)

Section TextConfidence.

Import PyNum.
Open Scope Q_scope.

Variable findall : TextAnalyzer.pattern_name -> string -> list string.

Lemma text_calculate_confidence_range (job_text : string) (n : nat) :
  7 # 10 <= TextAnalyzer._calculate_confidence job_text n <= 1.
Proof.
  unfold TextAnalyzer._calculate_confidence.
  set (w := List.length (PyStr.split job_text)).
  assert (Hn : 0 <= inject_Z (Z.of_nat n) * (5 # 100)).
  { assert (0 <= inject_Z (Z.of_nat n)).
    { change 0 with (inject_Z 0). rewrite <- Zle_Qle. lia. }
    nra. }
  destruct (50 <? w)%nat, (100 <? w)%nat, (0 <? n)%nat;
    unfold min2; qbool; split; lra.
Qed.

(** C10.  For every job text the result of the text analyzer has a
    confidence from 0.7 to 1.0: exactly 1.0 when the text is empty or
    white space only, and otherwise the base 0.7 plus additions that are
    not negative, capped at 1.0.  So the test [text_confidence >= 0.7] of
    the Medium tier of the service holds for every input. *)
Theorem text_confidence_range (job_text : string) :
  let result := TextAnalyzer.analyze findall job_text in
  7 # 10 <= AnalysisResult.confidence result <= 1
  /\ Qle_bool (7 # 10) (AnalysisResult.confidence result) = true
  /\ (blank (Some job_text) = true -> AnalysisResult.confidence result = 1)
  /\ (blank (Some job_text) = false ->
      AnalysisResult.confidence result
      = TextAnalyzer._calculate_confidence job_text
          (List.length (AnalysisResult.risk_factors result))).
Proof.
  intros result.
  assert (Hcases :
            (blank (Some job_text) = true
             /\ AnalysisResult.confidence result = 1)
            \/ (blank (Some job_text) = false
                /\ AnalysisResult.confidence result
                   = TextAnalyzer._calculate_confidence job_text
                       (List.length (AnalysisResult.risk_factors result)))).
  { subst result. unfold TextAnalyzer.analyze, blank, present.
    rewrite negb_andb.
    destruct (negb (PyStr.truthy job_text)
              || negb (PyStr.truthy (PyStr.strip job_text)));
      [left | right]; split; reflexivity. }
  assert (Hrange : 7 # 10 <= AnalysisResult.confidence result <= 1).
  { destruct Hcases as [[_ ->] | [_ ->]].
    - split; lra.
    - apply text_calculate_confidence_range. }
  split; [exact Hrange |].
  split; [apply Qle_bool_iff, Hrange |].
  destruct Hcases as [[Hb E] | [Hb E]]; split; intros Hb';
    congruence.
Qed.

End TextConfidence.

Lemma text_confidence_range_witness :
  blank (Some "   "%string) = true
  /\ AnalysisResult.confidence
       (TextAnalyzer.analyze (fun _ _ => []) "   "%string) = 1%Q.
Proof.
  split; [reflexivity |].
  apply (text_confidence_range (fun _ _ => []) "   "%string).
  reflexivity.
Defined.


(** ** The confidence label *)

Section ConfidenceLevel.

Import PyNum JobAnalysisService.
Open Scope Q_scope.

(** The completeness the code computes is the one of the specification. *)
Lemma count_true_filter (l : list bool) (acc : Z) :
  fold_left (fun a (b : bool) => if b then (a + 1)%Z else a) l acc
  = (acc + Z.of_nat (List.length (filter (fun b : bool => b) l)))%Z.
Proof.
  revert acc. induction l as [| b l IH]; intros acc; simpl.
  - lia.
  - rewrite IH. destruct b; simpl List.length; lia.
Qed.

Lemma completeness_code (request : JobAnalysisRequest.t) :
  inject_Z
    (count_true
       [ present (JobAnalysisRequest.recruiter_email request);
         present (JobAnalysisRequest.company_url request);
         present (Some (JobAnalysisRequest.platform_source request)) ]) / 3
  = Spec.completeness request.
Proof.
  unfold Spec.completeness, Spec.present_fields, count_true.
  rewrite count_true_filter. reflexivity.
Qed.

(** The test [metadata_completeness >= 0.67] holds for three fields out of
    three only. *)
Lemma completeness_threshold (request : JobAnalysisRequest.t) :
  Qle_bool (67 # 100) (Spec.completeness request) = true
  <-> Spec.all_fields_present request.
Proof.
  unfold Spec.completeness, Spec.present_fields, Spec.all_fields_present.
  destruct (present (JobAnalysisRequest.recruiter_email request)),
    (present (JobAnalysisRequest.company_url request)),
    (present (Some (JobAnalysisRequest.platform_source request)));
    simpl; split; intros H; try discriminate; try reflexivity; auto;
    destruct H as (? & ? & ?); discriminate.
Qed.

(** The consistency test of the code is the negation of [contradictory]. *)
Lemma consistency_code (analysis_results : Dict.t AnalysisResult.t) :
  let text_factors :=
    match Dict.get analysis_results "text" with
    | Some r => AnalysisResult.risk_factors r
    | None => []
    end in
  let metadata :=
    (factors_or_empty analysis_results "email"
       ++ factors_or_empty analysis_results "url")%list in
  negb (any_high_risk text_factors && negb (any_high_risk metadata))
  && negb (any_high_risk metadata && negb (any_high_risk text_factors))
  = negb (Spec.contradictory analysis_results).
Proof.
  unfold Spec.contradictory, factors_or_empty, Spec.has_severe, any_high_risk.
  simpl. rewrite negb_orb. reflexivity.
Qed.

Lemma confidence_level_high (analysis_results : Dict.t AnalysisResult.t)
      (request : JobAnalysisRequest.t) :
  _calculate_confidence_level analysis_results request = High
  <-> Qle_bool (67 # 100) (Spec.completeness request) = true
      /\ Qle_bool (8 # 10) (Spec.text_confidence analysis_results) = true
      /\ Spec.contradictory analysis_results = false.
Proof.
  unfold _calculate_confidence_level.
  rewrite completeness_code.
  pose proof (consistency_code analysis_results) as Hc. simpl in Hc.
  rewrite Hc. clear Hc.
  fold (Spec.text_confidence analysis_results).
  destruct (Qle_bool (67 # 100) (Spec.completeness request));
    destruct (Qle_bool (8 # 10) (Spec.text_confidence analysis_results));
    destruct (Spec.contradictory analysis_results); simpl;
    repeat match goal with
      | |- context [if ?c then _ else _] => destruct c
      end;
    split; intros H; try discriminate; try reflexivity; auto;
    destruct H as (? & ? & ?); discriminate.
Qed.

(** C1, as the code has it.  For every request the label is High exactly
    when the three fields email, url and platform are all non-empty (the
    test of the code is completeness >= 0.67, which two fields out of three
    do not reach), the confidence of the text analyzer is at least 0.8, and
    the signals are not contradictory. *)
Theorem confidence_high_iff (analysis_results : Dict.t AnalysisResult.t)
        (request : JobAnalysisRequest.t) :
  _calculate_confidence_level analysis_results request = High
  <-> Spec.all_fields_present request
      /\ 8 # 10 <= Spec.text_confidence analysis_results
      /\ Spec.contradictory analysis_results = false.
Proof.
  rewrite confidence_level_high, completeness_threshold, Qle_bool_iff.
  reflexivity.
Qed.

End ConfidenceLevel.

(** C1, as stated, fails.  The request [two_fields_request] has a company
    URL and a platform but no recruiter email, a completeness of 2/3; the
    text analyzer returns a confidence of 0.9 and no analyzer returns a
    finding, so that the three conditions of the statement hold; yet the
    label is Medium. *)
Lemma confidence_high_two_thirds_counterexample :
  JobAnalysisService._run_all_analyzers
    Examples.no_findall Examples.no_email_pattern Examples.no_email_pattern
    Examples.url_shape_only Examples.no_url_pattern Examples.parse_acme
    Examples.no_domain Examples.two_fields_request
  = Some Examples.two_fields_results
  /\ Spec.high_as_stated Examples.two_fields_results Examples.two_fields_request
  /\ Spec.completeness Examples.two_fields_request == 2 # 3
  /\ JobAnalysisService._calculate_confidence_level
       Examples.two_fields_results Examples.two_fields_request
     = Medium
  /\ ~ (forall analysis_results request,
           JobAnalysisService._calculate_confidence_level
             analysis_results request = High
           <-> Spec.high_as_stated analysis_results request).
Proof.
  assert (Hrun :
            JobAnalysisService._run_all_analyzers
              Examples.no_findall Examples.no_email_pattern
              Examples.no_email_pattern Examples.url_shape_only
              Examples.no_url_pattern Examples.parse_acme
              Examples.no_domain Examples.two_fields_request
            = Some Examples.two_fields_results)
    by (vm_compute; reflexivity).
  assert (Hstated :
            Spec.high_as_stated Examples.two_fields_results
                                Examples.two_fields_request).
  { unfold Spec.high_as_stated. repeat split; vm_compute; discriminate. }
  assert (Hlabel :
            JobAnalysisService._calculate_confidence_level
              Examples.two_fields_results Examples.two_fields_request
            = Medium)
    by (vm_compute; reflexivity).
  split; [exact Hrun |]. split; [exact Hstated |].
  split; [reflexivity |]. split; [exact Hlabel |].
  intros Hall.
  destruct (Hall Examples.two_fields_results Examples.two_fields_request)
    as [_ Hback].
  specialize (Hback Hstated). congruence.
Qed.

(** ** The stable sort *)

Section Sorting.

Import PyNum.
Open Scope Q_scope.

Context {A : Type} (key : A -> Q).

Let after (a b : A) : Prop := key b <= key a.

Lemma insert_desc_perm (x : A) (l : list A) :
  Permutation (x :: l) (insert_desc key x l).
Proof.
  induction l as [| y l IH]; simpl.
  - apply Permutation_refl.
  - destruct (Qlt_bool (key x) (key y)).
    + apply perm_trans with (y :: x :: l); [apply perm_swap |].
      apply perm_skip, IH.
    + apply Permutation_refl.
Qed.

Lemma sorted_desc_perm (l : list A) : Permutation l (sorted_desc key l).
Proof.
  induction l as [| x l IH]; simpl.
  - apply perm_nil.
  - apply perm_trans with (x :: sorted_desc key l).
    + apply perm_skip, IH.
    + apply insert_desc_perm.
Qed.

Lemma sorted_desc_length (l : list A) :
  List.length (sorted_desc key l) = List.length l.
Proof. symmetry. apply Permutation_length, sorted_desc_perm. Qed.

Lemma sorted_desc_In (x : A) (l : list A) :
  In x (sorted_desc key l) <-> In x l.
Proof.
  split; apply Permutation_in;
    [apply Permutation_sym |]; apply sorted_desc_perm.
Qed.

Lemma insert_desc_sorted (x : A) (l : list A) :
  StronglySorted after l -> StronglySorted after (insert_desc key x l).
Proof.
  induction 1 as [| y l Hl IH Hy]; simpl.
  - constructor; constructor.
  - destruct (Qlt_bool (key x) (key y)) eqn:E.
    + apply Qlt_bool_true in E.
      constructor; [exact IH |].
      apply Forall_forall. intros z Hz.
      apply (Permutation_in z (Permutation_sym (insert_desc_perm x l))) in Hz.
      destruct Hz as [<- | Hz].
      * unfold after. lra.
      * rewrite Forall_forall in Hy. apply Hy, Hz.
    + apply Qlt_bool_false in E.
      constructor; [constructor; assumption |].
      constructor; [exact E |].
      apply Forall_forall. intros z Hz.
      rewrite Forall_forall in Hy. specialize (Hy z Hz).
      unfold after in *. lra.
Qed.

Lemma sorted_desc_sorted (l : list A) : StronglySorted after (sorted_desc key l).
Proof.
  induction l as [| x l IH]; simpl.
  - constructor.
  - apply insert_desc_sorted, IH.
Qed.

Lemma insert_desc_stable (k : Q) (x : A) (l : list A) :
  filter (fun a => Qeq_bool (key a) k) (insert_desc key x l)
  = filter (fun a => Qeq_bool (key a) k) (x :: l).
Proof.
  induction l as [| y l IH]; [reflexivity |].
  simpl insert_desc.
  destruct (Qlt_bool (key x) (key y)) eqn:E; [| reflexivity].
  apply Qlt_bool_true in E.
  cbn [filter]. rewrite IH. cbn [filter].
  destruct (Qeq_bool (key x) k) eqn:Ex, (Qeq_bool (key y) k) eqn:Ey;
    try reflexivity.
  apply Qeq_bool_iff in Ex, Ey. lra.
Qed.

Lemma sorted_desc_stable (k : Q) (l : list A) :
  filter (fun a => Qeq_bool (key a) k) (sorted_desc key l)
  = filter (fun a => Qeq_bool (key a) k) l.
Proof.
  induction l as [| x l IH]; [reflexivity |].
  simpl sorted_desc. rewrite insert_desc_stable. simpl. rewrite IH.
  reflexivity.
Qed.

(** A sorted list stays sorted when items are taken out of it. *)
Lemma sorted_firstn (n : nat) (l : list A) :
  StronglySorted after l -> StronglySorted after (firstn n l).
Proof.
  intros H. revert n.
  induction H as [| y l Hl IH Hy]; intros [| n]; simpl; try constructor.
  - apply IH.
  - apply Forall_forall. intros z Hz.
    rewrite Forall_forall in Hy. apply Hy.
    rewrite <- (firstn_skipn n l). apply in_or_app. left. exact Hz.
Qed.

End Sorting.

(** ** Greatest items *)

Section Greatest.

Import PyNum.
Open Scope Q_scope.

Lemma fold_max2 (l : list Q) (a : Q) :
  let m := fold_left max2 l a in
  (m = a \/ In m l) /\ a <= m /\ forall x, In x l -> x <= m.
Proof.
  revert a. induction l as [| y l IH]; intros a; simpl.
  - repeat split; [left; reflexivity | lra | contradiction].
  - destruct (IH (max2 a y)) as ([Hm | Hm] & Hle & Hall).
    + destruct (max2_spec a y) as (Ha & Hy & [E | E]).
      * repeat split.
        -- left. congruence.
        -- lra.
        -- intros x [<- | Hx]; [lra | auto].
      * repeat split.
        -- right. left. congruence.
        -- lra.
        -- intros x [<- | Hx]; [lra | auto].
    + destruct (max2_spec a y) as (Ha & Hy & _).
      repeat split.
      * right. right. exact Hm.
      * lra.
      * intros x [<- | Hx]; [lra | auto].
Qed.

Lemma max_of_greatest (l : list Q) (m : Q) :
  max_of l = Some m -> Spec.greatest l m.
Proof.
  destruct l as [| a l]; simpl; [discriminate |].
  intros [= <-].
  destruct (fold_max2 l a) as ([Hm | Hm] & Hle & Hall).
  - split; [left; congruence |].
    intros x [<- | Hx]; [exact Hle | auto].
  - split; [right; exact Hm |].
    intros x [<- | Hx]; [exact Hle | auto].
Qed.

Lemma max_of_total (l : list Q) : l <> [] -> exists m, max_of l = Some m.
Proof. destruct l; [congruence | intros _; eexists; reflexivity]. Qed.

End Greatest.

(** ** The score and the confidence of a category *)

Section CategoryScores.

Import PyNum JobAnalysisService.
Open Scope Q_scope.

Lemma RiskCategory_eqb_eq (a b : RiskCategory) :
  RiskCategory_eqb a b = true <-> a = b.
Proof. destruct a, b; simpl; split; congruence. Qed.

Lemma div_defined (a b : Q) : ~ b == 0 -> div a b = Some (a / b).
Proof.
  intros H. unfold div.
  destruct (Qeq_bool b 0) eqn:E; [| reflexivity].
  apply Qeq_bool_iff in E. contradiction.
Qed.


Lemma list_empty_dec {A : Type} (l : list A) : l = [] \/ l <> [].
Proof. destruct l; [left; reflexivity | right; discriminate]. Qed.

Lemma match_nonempty {A B : Type} (l : list A) (a b : B) :
  l <> [] -> match l with [] => a | _ :: _ => b end = b.
Proof. destruct l; [congruence | reflexivity]. Qed.

Lemma firstn_nonempty {A : Type} (n : nat) (l : list A) :
  l <> [] -> firstn (S n) l <> [].
Proof. destruct l; [congruence | simpl; discriminate]. Qed.



(** The four ways through [score_category]. *)
Lemma score_category_cases (all : list RiskFactor.t) (category : RiskCategory) :
  let findings :=
    filter (fun f => RiskCategory_eqb (RiskFactor.category f) category) all in
  let top := firstn 3 (sorted_desc RiskFactor.weighted findings) in
  let total := sum (map RiskFactor.confidence findings) in
  (findings = [] /\ score_category all category = Some (0, 0))
  \/ (category = TEXT_ANALYSIS /\ (5 < List.length findings)%nat
      /\ exists score confidence,
           score_category all category = Some (score, confidence)
           /\ Spec.greatest (map RiskFactor.weighted top) score
           /\ Spec.greatest (map RiskFactor.confidence top) confidence)
  \/ (findings <> []
      /\ (category <> TEXT_ANALYSIS \/ (List.length findings <= 5)%nat)
      /\ 0 < total
      /\ score_category all category
         = Some (sum (map RiskFactor.weighted findings) / total,
                 min2 1 (total / inject_Z (Z.of_nat (List.length findings)))))
  \/ (findings <> []
      /\ (category <> TEXT_ANALYSIS \/ (List.length findings <= 5)%nat)
      /\ total <= 0
      /\ score_category all category = Some (0, 0)).
Proof.
  intros findings top total. unfold score_category.
  fold findings. fold top. fold total.
  destruct (list_empty_dec findings) as [Hnil | Hne].
  { left. rewrite Hnil. split; reflexivity. }
  right. rewrite (match_nonempty findings) by exact Hne.
  destruct (RiskCategory_eqb category TEXT_ANALYSIS
            && (5 <? List.length findings)%nat) eqn:Eb.
  - left. apply andb_true_iff in Eb. destruct Eb as [Ec El].
    apply RiskCategory_eqb_eq in Ec. apply Nat.ltb_lt in El.
    split; [exact Ec |]. split; [exact El |].
    assert (Htop : top <> []).
    { subst top. apply firstn_nonempty. intros E.
      apply (f_equal (@List.length _)) in E.
      rewrite sorted_desc_length in E. simpl in E. lia. }
    destruct (max_of_total (map RiskFactor.weighted top)) as [s Hs].
    { destruct top; [congruence | discriminate]. }
    destruct (max_of_total (map RiskFactor.confidence top)) as [c Hc].
    { destruct top; [congruence | discriminate]. }
    exists s, c. rewrite Hs, Hc.
    split; [reflexivity |].
    split; apply max_of_greatest; assumption.
  - right. apply andb_false_iff in Eb.
    assert (Hother : category <> TEXT_ANALYSIS
                     \/ (List.length findings <= 5)%nat).
    { destruct Eb as [Ec | El].
      - left. intros E. apply RiskCategory_eqb_eq in E. congruence.
      - right. apply Nat.ltb_ge in El. exact El. }
    destruct (Qlt_bool 0 total) eqn:Et.
    + left. apply Qlt_bool_true in Et.
      split; [exact Hne |]. split; [exact Hother |]. split; [exact Et |].
      rewrite div_defined by lra.
      rewrite div_defined; [reflexivity |].
      assert (0 < inject_Z (Z.of_nat (List.length findings))).
      { change 0 with (inject_Z 0). rewrite <- Zlt_Qlt.
        destruct (List.length findings) eqn:El; [| lia].
        apply length_zero_iff_nil in El. contradiction. }
      lra.
    + right. apply Qlt_bool_false in Et.
      split; [exact Hne |]. split; [exact Hother |]. split; [exact Et |].
      reflexivity.
Qed.

Lemma score_category_total (all : list RiskFactor.t) (category : RiskCategory) :
  exists entry, score_category all category = Some entry.
Proof.
  destruct (score_category_cases all category)
    as [[_ H] | [(_ & _ & s & c & H & _) | [(_ & _ & _ & H) | (_ & _ & _ & H)]]];
    rewrite H; eexists; reflexivity.
Qed.

Lemma score_categories_total (all : list RiskFactor.t)
      (categories : list RiskCategory) :
  exists scores, score_categories all categories = Some scores.
Proof.
  induction categories as [| c r [scores IH]]; simpl.
  - eexists; reflexivity.
  - destruct (score_category_total all c) as [entry ->].
    rewrite IH. eexists; reflexivity.
Qed.

Lemma normalize_total (blended : Q * Q) :
  exists base_score, normalize blended = Some base_score.
Proof.
  destruct blended as [ws tw]. unfold normalize.
  destruct (Qlt_bool 0 tw) eqn:E.
  - apply Qlt_bool_true in E. rewrite div_defined by lra.
    eexists; reflexivity.
  - eexists; reflexivity.
Qed.

(** The score of [_calculate_overall_risk_score_with_confidence]: the
    category scores and the base score exist, and the score is the rounded
    and clamped product of the offset base score and the platform
    multiplier. *)
Lemma overall_risk_score_shape (analysis_results : Dict.t AnalysisResult.t)
      (request : JobAnalysisRequest.t) :
  exists scores base_score,
    score_categories (collect_risk_factors analysis_results)
                     RiskCategory_members = Some scores
    /\ normalize (blend scores) = Some base_score
    /\ _calculate_overall_risk_score_with_confidence analysis_results request
       = Some
           (Zmax2 0
              (Zmin2 100
                 (round
                    (match Dict.get analysis_results "text" with
                     | Some _ =>
                         max2 0
                           (base_score
                            - inject_Z
                                (_calculate_professional_bonus
                                   (JobAnalysisRequest.job_text request)))
                     | None => base_score
                     end
                     * _get_platform_risk_multiplier
                         (Dict.get analysis_results "platform")))),
            _calculate_confidence_level analysis_results request).
Proof.
  destruct (score_categories_total (collect_risk_factors analysis_results)
                                   RiskCategory_members) as [scores Hs].
  destruct (normalize_total (blend scores)) as [base Hb].
  exists scores, base.
  split; [exact Hs |]. split; [exact Hb |].
  unfold _calculate_overall_risk_score_with_confidence.
  rewrite Hs, Hb. reflexivity.
Qed.

End CategoryScores.

(** ** Totality and range of the risk score *)

(** [fold_all x] folds the local definition [x] in the goal and in every
    hypothesis. *)
Ltac fold_all x :=
  fold x;
  repeat match goal with
    | H : _ |- _ => progress fold x in H
    end.

Section Totality.

Import PyNum JobAnalysisService.
Open Scope Q_scope.

Lemma collect_valid (analysis_results : Dict.t AnalysisResult.t) :
  Forall AnalysisResult.valid (Dict.values analysis_results) ->
  Forall RiskFactor.valid (collect_risk_factors analysis_results).
Proof.
  unfold collect_risk_factors.
  induction 1 as [| r l [Hr _] _ IH]; simpl.
  - constructor.
  - apply Forall_app. split; assumption.
Qed.

Lemma sum_zero (l : list Q) :
  Forall (fun x => 0 <= x) l -> sum l <= 0 -> Forall (fun x => x == 0) l.
Proof.
  induction 1 as [| x l Hx Hl IH]; intros Hs; constructor.
  - rewrite sum_cons in Hs. pose proof (sum_nonneg _ Hl). lra.
  - apply IH. rewrite sum_cons in Hs. lra.
Qed.

Lemma zero_confidence_findings (findings : list RiskFactor.t) :
  Forall RiskFactor.valid findings ->
  sum (map RiskFactor.confidence findings) <= 0 ->
  forall f, In f findings ->
            RiskFactor.confidence f == 0 /\ RiskFactor.weighted f == 0.
Proof.
  intros Hv Hs f Hf.
  assert (Hz : Forall (fun x => x == 0) (map RiskFactor.confidence findings)).
  { apply sum_zero; [| exact Hs].
    apply Forall_map. eapply Forall_impl; [| exact Hv].
    intros g [_ [Hg _]]. exact Hg. }
  rewrite Forall_map, Forall_forall in Hz. specialize (Hz f Hf).
  split; [exact Hz |]. unfold RiskFactor.weighted. rewrite Hz. ring.
Qed.

Lemma zero_confidence_category (all : list RiskFactor.t)
      (category : RiskCategory) :
  Forall RiskFactor.valid all ->
  let findings :=
    filter (fun f => RiskCategory_eqb (RiskFactor.category f) category) all in
  findings = [] \/ sum (map RiskFactor.confidence findings) == 0 ->
  exists score confidence,
    score_category all category = Some (score, confidence)
    /\ score == 0 /\ confidence == 0.
Proof.
  intros Hv findings Hzero.
  assert (Hvf : Forall RiskFactor.valid findings).
  { rewrite Forall_forall in *. intros f Hf.
    apply Hv. apply filter_In in Hf. apply Hf. }
  destruct (score_category_cases all category)
    as [[_ H] | [(_ & Hlen & s & c & H & Hs & Hc)
                | [(Hne & _ & Hpos & _) | (_ & _ & _ & H)]]];
    fold_all findings.
  - exists 0, 0. rewrite H. repeat split; reflexivity.
  - destruct Hzero as [Hnil | Hsum].
    { rewrite Hnil in Hlen. simpl in Hlen. lia. }
    exists s, c. split; [exact H |].
    assert (Hin : forall f,
               In f (firstn 3 (sorted_desc RiskFactor.weighted findings)) ->
               In f findings).
    { intros f Hf. apply (sorted_desc_In RiskFactor.weighted).
      rewrite <- (firstn_skipn 3 (sorted_desc _ findings)).
      apply in_or_app. left. exact Hf. }
    destruct Hs as [Hs _]. destruct Hc as [Hc _].
    apply in_map_iff in Hs. destruct Hs as (f & <- & Hf).
    apply in_map_iff in Hc. destruct Hc as (g & <- & Hg).
    split.
    + apply (zero_confidence_findings _ Hvf); [lra | auto].
    + apply (zero_confidence_findings _ Hvf); [lra | auto].
  - destruct Hzero as [Hnil | Hsum]; [contradiction | lra].
  - exists 0, 0. rewrite H. repeat split; reflexivity.
Qed.

(** C2.  For every set of well-formed results (every finding with a
    severity from 0 to 100 and a confidence from 0.0 to 1.0) the score
    computation returns: no division by zero is reached, a category with no
    finding or with a total confidence of zero has score 0 and confidence
    0, a total effective weight of zero gives the base score 0, and the
    returned risk score is an integer from 0 to 100. *)
Theorem risk_score_total_and_bounded
        (analysis_results : Dict.t AnalysisResult.t)
        (request : JobAnalysisRequest.t) :
  Forall AnalysisResult.valid (Dict.values analysis_results) ->
  let all := collect_risk_factors analysis_results in
  (exists risk_score level,
      _calculate_overall_risk_score_with_confidence analysis_results request
      = Some (risk_score, level)
      /\ (0 <= risk_score <= 100)%Z)
  /\ (forall category,
         let findings :=
           filter (fun f => RiskCategory_eqb (RiskFactor.category f) category)
                  all in
         exists score confidence,
           score_category all category = Some (score, confidence)
           /\ (findings = [] \/ sum (map RiskFactor.confidence findings) == 0 ->
               score == 0 /\ confidence == 0))
  /\ (forall weighted_score total_weight,
         total_weight == 0 -> normalize (weighted_score, total_weight) = Some 0).
Proof.
  intros Hvalid all.
  split; [| split].
  - destruct (overall_risk_score_shape analysis_results request)
      as (scores & base & _ & _ & H).
    eexists. eexists. split; [exact H |]. apply clamp_range.
  - intros category findings.
    destruct (list_empty_dec findings) as [Hnil | Hne].
    + destruct (zero_confidence_category _ category (collect_valid _ Hvalid))
        as (s & c & H & Hz); [left; exact Hnil |].
      exists s, c. split; [exact H | intros _; exact Hz].
    + destruct (Qeq_dec (sum (map RiskFactor.confidence findings)) 0)
        as [Hz | Hnz].
      * destruct (zero_confidence_category _ category (collect_valid _ Hvalid))
          as (s & c & H & Hz'); [right; exact Hz |].
        exists s, c. split; [exact H | intros _; exact Hz'].
      * destruct (score_category_total all category) as [[s c] H].
        exists s, c. split; [exact H |].
        intros [Hnil | Hz]; contradiction.
  - intros ws tw Htw. unfold normalize.
    destruct (Qlt_bool 0 tw) eqn:E; [| reflexivity].
    apply Qlt_bool_true in E. lra.
Qed.

End Totality.

Lemma two_fields_results_valid :
  Forall AnalysisResult.valid (Dict.values Examples.two_fields_results).
Proof.
  repeat constructor; simpl; try lra; try discriminate.
Qed.

Lemma risk_score_total_and_bounded_witness :
  Forall AnalysisResult.valid (Dict.values Examples.two_fields_results)
  /\ exists risk_score level,
       JobAnalysisService._calculate_overall_risk_score_with_confidence
         Examples.two_fields_results Examples.two_fields_request
       = Some (risk_score, level)
       /\ (0 <= risk_score <= 100)%Z.
Proof.
  split; [exact two_fields_results_valid |].
  apply (risk_score_total_and_bounded Examples.two_fields_results
           Examples.two_fields_request two_fields_results_valid).
Defined.

(** ** The two rules of the category score *)

Section CategoryRule.

Import PyNum JobAnalysisService.
Open Scope Q_scope.


End CategoryRule.

(** ** The score in floating point *)

Section RoundedScore.

Import PyNum JobAnalysisService.

Variable sum : list Binary64.t -> Binary64.t.

(** A quotient whose divisor passed the test [0 < b] is defined. *)
Lemma rounded_div_positive (a b : Binary64.t) :
  Binary64.ltb Binary64.zero b = true ->
  exists q, Binary64.div a b = Some q.
Proof.
  intros H. destruct b; try discriminate H; eexists; reflexivity.
Qed.

Lemma rounded_max_of_cons {A : Type} (f : A -> Binary64.t) (l : list A) :
  l <> [] -> exists m, Binary64.max_of (map f l) = Some m.
Proof.
  destruct l as [| x r]; [congruence |]. intros _. eexists. reflexivity.
Qed.

(** The body of the loop over the categories raises nothing: [max] has an
    item and the two quotients have a divisor that is not zero. *)
Lemma rounded_score_category_total (all : list RiskFactor.t)
      (category : RiskCategory) :
  exists entry, Rounded.score_category sum all category = Some entry.
Proof.
  unfold Rounded.score_category.
  destruct (filter _ all) as [| f fs] eqn:Ef; [eexists; reflexivity |].
  destruct (RiskCategory_eqb category TEXT_ANALYSIS
            && (5 <? List.length (f :: fs))%nat) eqn:Etop.
  - apply andb_true_iff in Etop. destruct Etop as [_ Elen].
    apply Nat.ltb_lt in Elen.
    assert (Hne : firstn 3 (sorted_desc RiskFactor.sort_key (f :: fs)) <> []).
    { pose proof (sorted_desc_length RiskFactor.sort_key (f :: fs)) as Hl.
      destruct (sorted_desc RiskFactor.sort_key (f :: fs));
        [simpl in Hl; simpl in Elen; lia | discriminate]. }
    destruct (rounded_max_of_cons RiskFactor.product _ Hne) as [m ->].
    destruct (rounded_max_of_cons RiskFactor.confidence64 _ Hne) as [c ->].
    eexists. reflexivity.
  - destruct (Binary64.ltb Binary64.zero _) eqn:Epos; [| eexists; reflexivity].
    destruct (rounded_div_positive
                (sum (map RiskFactor.product (f :: fs))) _ Epos) as [q ->].
    unfold Binary64.div_int.
    destruct (Z.eqb_spec (Z.of_nat (List.length (f :: fs))) 0) as [E | _];
      [simpl in E; lia |].
    eexists. reflexivity.
Qed.

Lemma rounded_score_categories_total (all : list RiskFactor.t)
      (categories : list RiskCategory) :
  exists scores, Rounded.score_categories sum all categories = Some scores.
Proof.
  induction categories as [| c r [scores IH]]; simpl.
  - eexists. reflexivity.
  - destruct (rounded_score_category_total all c) as [entry ->].
    rewrite IH. eexists. reflexivity.
Qed.

Lemma rounded_normalize_total (blended : Binary64.t * Binary64.t) :
  exists base_score, Rounded.normalize blended = Some base_score.
Proof.
  destruct blended as [ws tw]. unfold Rounded.normalize.
  destruct (Binary64.ltb Binary64.zero tw) eqn:E.
  - apply rounded_div_positive, E.
  - eexists. reflexivity.
Qed.

(** The score of four results: the base score less the bonus, not below
    0, times the multiplier, rounded to an integer and kept in 0..100. *)
Lemma rounded_overall_shape (text email url platform : AnalysisResult.t)
      (request : JobAnalysisRequest.t) :
  let analysis_results := Spec.results text email url platform in
  exists scores base_score,
    Rounded.score_categories sum (collect_risk_factors analysis_results)
                             RiskCategory_members = Some scores
    /\ Rounded.normalize (Rounded.blend scores) = Some base_score
    /\ Rounded._calculate_overall_risk_score_with_confidence
         sum analysis_results request
       = (rounded <-
            Binary64.round
              (Binary64.mul
                 (Binary64.max2 Binary64.zero
                    (Binary64.sub base_score
                       (Binary64.of_Z
                          (_calculate_professional_bonus
                             (JobAnalysisRequest.job_text request)))))
                 (Rounded._get_platform_risk_multiplier (Some platform))) ;;
          Some (Zmax2 0 (Zmin2 100 rounded),
                _calculate_confidence_level analysis_results request)).
Proof.
  intros analysis_results.
  destruct (rounded_score_categories_total
              (collect_risk_factors analysis_results) RiskCategory_members)
    as [scores Hs].
  destruct (rounded_normalize_total (Rounded.blend scores)) as [base Hb].
  exists scores, base. split; [exact Hs |]. split; [exact Hb |].
  unfold Rounded._calculate_overall_risk_score_with_confidence.
  rewrite Hs, Hb. reflexivity.
Qed.

End RoundedScore.

Section RoundedMultiplier.

Import PyNum JobAnalysisService.

Open Scope Q_scope.

Let values : list Q := [ 1; 11 # 10; 12 # 10; 13 # 10; 14 # 10 ].

(** The multiplier in floating point is the float of the multiplier: the
    five values it takes are ordered as their floats are. *)
Lemma rounded_multiplier_step (m : Q) (factor : RiskFactor.t) :
  In m values ->
  In (multiplier_step m factor) values
  /\ Rounded.multiplier_step (Binary64.of_Q m) factor
     = Binary64.of_Q (multiplier_step m factor).
Proof.
  intros Hm. unfold multiplier_step, Rounded.multiplier_step.
  repeat match goal with
    | |- context [PyStr.contains ?p ?d] => destruct (PyStr.contains p d)
    end;
    cbn [In values] in Hm;
    repeat match type of Hm with
      | _ \/ _ => destruct Hm as [<- | Hm]
      | False => destruct Hm
      end;
    (split; [vm_compute; tauto | vm_compute; reflexivity]).
Qed.

Lemma rounded_multiplier_loop (factors : list RiskFactor.t) (m : Q) :
  In m values ->
  fold_left Rounded.multiplier_step factors (Binary64.of_Q m)
  = Binary64.of_Q (fold_left multiplier_step factors m).
Proof.
  revert m. induction factors as [| f r IH]; intros m Hm; simpl.
  - reflexivity.
  - destruct (rounded_multiplier_step m f Hm) as [Hin ->].
    apply IH, Hin.
Qed.

Lemma rounded_multiplier_of_Q (platform_result : option AnalysisResult.t) :
  Rounded._get_platform_risk_multiplier platform_result
  = Binary64.of_Q (_get_platform_risk_multiplier platform_result).
Proof.
  unfold Rounded._get_platform_risk_multiplier, _get_platform_risk_multiplier.
  destruct platform_result as [r |]; [| reflexivity].
  destruct (AnalysisResult.risk_factors r) as [| f fs]; [reflexivity |].
  apply rounded_multiplier_loop. left. reflexivity.
Qed.

End RoundedMultiplier.

Section RoundedFloor.

Open Scope Q_scope.

(** [max(0, x)] is not negative, whatever the float [x]. *)
Lemma rounded_floor_nonneg (x : Binary64.t) :
  0 <= Binary64.to_Q (Binary64.max2 Binary64.zero x).
Proof.
  unfold Binary64.max2, Binary64.ltb, SFltb.
  destruct x as [s | s | | s m e]; cbn [SFcompare Binary64.zero];
    try destruct s; cbn [Binary64.to_Q]; try apply Qle_refl.
  - discriminate.
  - destruct e as [| p | p].
    + change 0 with (inject_Z 0). rewrite <- Zle_Qle. lia.
    + change 0 with (inject_Z 0). rewrite <- Zle_Qle.
      pose proof (Z.pow_nonneg 2 (Z.pos p)). lia.
    + unfold Qle. simpl. lia.
Qed.

End RoundedFloor.

(** ** The professionalism offset *)

Section Offset.

Import PyNum JobAnalysisService.
Open Scope Z_scope.

(** The tiers of the specification, count by count. *)
Lemma tier_values (count : Z) :
  Spec.tier Spec.structural_tiers count
  = (if count <? 1 then 0 else if count <? 2 then 4
     else if count <? 3 then 7 else 10)
  /\ Spec.tier Spec.professional_tiers count
     = (if count <? 1 then 0 else if count <? 3 then 2
        else if count <? 5 then 5 else 8)
  /\ Spec.tier Spec.technical_tiers count
     = (if count <? 1 then 0 else if count <? 2 then 2
        else if count <? 4 then 4 else 7)
  /\ Spec.tier Spec.length_tiers count
     = (if count <? 50 then 0 else if count <? 100 then 1
        else if count <? 200 then 3 else 5).
Proof.
  unfold Spec.tier, Spec.structural_tiers, Spec.professional_tiers,
    Spec.technical_tiers, Spec.length_tiers.
  repeat split;
    repeat match goal with
      | |- context [?a <=? ?b] => destruct (Z.leb_spec a b)
      | |- context [?a <? ?b] => destruct (Z.ltb_spec a b)
      end; lia.
Qed.

Lemma tier_chain (t1 t2 t3 p1 p2 p3 bonus count : Z) :
  t1 <= t2 <= t3 -> 0 <= p1 <= p2 -> p2 <= p3 ->
  (if t3 <=? count then bonus + p3
   else if t2 <=? count then bonus + p2
   else if t1 <=? count then bonus + p1
   else bonus)
  = bonus + Spec.tier [ (t1, p1); (t2, p2); (t3, p3) ] count.
Proof.
  intros Ht Hp Hp3. unfold Spec.tier.
  repeat match goal with
    | |- context [?a <=? ?b] => destruct (Z.leb_spec a b)
    end; lia.
Qed.

Lemma tier_range (count : Z) :
  0 <= Spec.tier Spec.structural_tiers count <= 10
  /\ 0 <= Spec.tier Spec.professional_tiers count <= 8
  /\ 0 <= Spec.tier Spec.technical_tiers count <= 7
  /\ 0 <= Spec.tier Spec.length_tiers count <= 5.
Proof.
  destruct (tier_values count) as (-> & -> & -> & ->).
  repeat split;
    repeat match goal with
      | |- context [?a <? ?b] => destruct (Z.ltb_spec a b)
      end; lia.
Qed.

Lemma professional_bonus_offset (job_text : string) :
  _calculate_professional_bonus job_text = Spec.professionalism_offset job_text
  /\ 0 <= _calculate_professional_bonus job_text <= 25.
Proof.
  assert (H : _calculate_professional_bonus job_text
              = Spec.professionalism_offset job_text).
  { destruct job_text as [| c r]; [reflexivity |].
    unfold _calculate_professional_bonus, Spec.professionalism_offset.
    cbn [PyStr.truthy negb].
    rewrite !tier_chain by lia.
    rewrite Zmin2_spec.
    change Spec.structural_tiers with [ (1, 4); (2, 7); (3, 10) ].
    change Spec.professional_tiers with [ (1, 2); (3, 5); (5, 8) ].
    change Spec.technical_tiers with [ (1, 2); (2, 4); (4, 7) ].
    change Spec.length_tiers with [ (50, 1); (100, 3); (200, 5) ].
    f_equal; try ring. }
  split; [exact H |]. rewrite H. unfold Spec.professionalism_offset.
  set (text := PyStr.lower job_text).
  pose proof (tier_range (count_in structure_indicators text)) as (? & _).
  pose proof (tier_range (count_in professional_terms text)) as (_ & ? & _).
  pose proof (tier_range (count_in technical_skills text)) as (_ & _ & ? & _).
  pose proof (tier_range (Z.of_nat (List.length (PyStr.split job_text))))
    as (_ & _ & _ & ?).
  lia.
Qed.

(** C5.  For every job text the professionalism offset is the sum of the
    four tiered bonuses (structural headers 1/2/3 or more -> 4/7/10,
    professional terms 1-2/3-4/5 or more -> 2/5/8, technical skills
    1/2-3/4 or more -> 2/4/7, word count 50/100/200 or more -> 1/3/5),
    capped at 25; it is taken off the base score with a floor at 0, and the
    platform multiplier is applied to the result of that subtraction.  The
    subtraction and the product are the float operations of the program,
    whatever the built-in [sum] returns for the sums of a category: the
    score is the integer nearest to the product, kept in 0..100, and
    [round] raises exactly when the product is not a finite number. *)
Theorem professional_offset_then_multiplier
        (sum : list Binary64.t -> Binary64.t)
        (text email url platform : AnalysisResult.t)
        (request : JobAnalysisRequest.t) :
  let job_text := JobAnalysisRequest.job_text request in
  let analysis_results := Spec.results text email url platform in
  let offset := Spec.professionalism_offset job_text in
  let multiplier := _get_platform_risk_multiplier (Some platform) in
  _calculate_professional_bonus job_text = offset
  /\ 0 <= offset <= 25
  /\ exists scores base_score,
       Rounded.score_categories sum (collect_risk_factors analysis_results)
                                RiskCategory_members = Some scores
       /\ Rounded.normalize (Rounded.blend scores) = Some base_score
       /\ (0 <= Binary64.to_Q
                  (Binary64.max2 Binary64.zero
                     (Binary64.sub base_score (Binary64.of_Z offset))))%Q
       /\ Rounded._calculate_overall_risk_score_with_confidence
            sum analysis_results request
          = (rounded <-
               Binary64.round
                 (Binary64.mul
                    (Binary64.max2 Binary64.zero
                       (Binary64.sub base_score (Binary64.of_Z offset)))
                    (Binary64.of_Q multiplier)) ;;
             Some (Zmax2 0 (Zmin2 100 rounded),
                   _calculate_confidence_level analysis_results request)).
Proof.
  intros job_text analysis_results offset multiplier.
  destruct (professional_bonus_offset job_text) as [Hbonus Hrange].
  split; [exact Hbonus |]. split; [subst offset; rewrite <- Hbonus; exact Hrange |].
  destruct (rounded_overall_shape sum text email url platform request)
    as (scores & base & Hs & Hb & H).
  exists scores, base. split; [exact Hs |]. split; [exact Hb |].
  split; [apply rounded_floor_nonneg |].
  fold analysis_results in H. rewrite H. fold job_text.
  rewrite Hbonus, rounded_multiplier_of_Q. reflexivity.
Qed.

End Offset.

(** ** The platform multiplier *)

Section Multiplier.

Import PyNum JobAnalysisService.
Open Scope Q_scope.






End Multiplier.

(** ** The flags *)

Section Flags.

Import PyNum JobAnalysisService.
Open Scope Q_scope.

Lemma sorted_app_tail {A : Type} (R : A -> A -> Prop) (front back : list A) :
  StronglySorted R (front ++ back) -> StronglySorted R back.
Proof.
  induction front as [| a front IH]; simpl; [auto |].
  intros H. apply StronglySorted_inv in H. apply IH, H.
Qed.

Lemma mem_In (x : string) (items : list string) :
  PyStr.mem x items = true <-> In x items.
Proof.
  unfold PyStr.mem. rewrite existsb_exists. split.
  - intros (y & Hy & E). apply String.eqb_eq in E. congruence.
  - intros H. exists x. split; [exact H | apply String.eqb_refl].
Qed.

Lemma dedup_In (factors : list RiskFactor.t) (earlier : list string)
      (f : RiskFactor.t) :
  In f (Spec.dedup factors earlier) ->
  In f factors /\ ~ In (RiskFactor.description f) earlier.
Proof.
  revert earlier. induction factors as [| a r IH]; intros earlier; simpl.
  - contradiction.
  - destruct (PyStr.mem (RiskFactor.description a) earlier) eqn:E.
    + intros H. apply IH in H. tauto.
    + intros [<- | H].
      * split; [left; reflexivity |].
        intros Hin. apply mem_In in Hin. congruence.
      * apply IH in H. destruct H as [H1 H2].
        split; [right; exact H1 |].
        intros Hin. apply H2. right. exact Hin.
Qed.

Lemma dedup_NoDup (factors : list RiskFactor.t) (earlier : list string) :
  NoDup (map RiskFactor.description (Spec.dedup factors earlier)).
Proof.
  revert earlier. induction factors as [| a r IH]; intros earlier; simpl.
  - constructor.
  - destruct (PyStr.mem (RiskFactor.description a) earlier); [apply IH |].
    simpl. constructor; [| apply IH].
    intros Hin. apply in_map_iff in Hin. destruct Hin as (g & Eg & Hg).
    apply dedup_In in Hg. destruct Hg as [_ Hg]. apply Hg.
    left. symmetry. exact Eg.
Qed.

(** A finding that is kept is the first of its description. *)
Lemma dedup_first (factors : list RiskFactor.t) (earlier : list string)
      (f : RiskFactor.t) :
  In f (Spec.dedup factors earlier) ->
  exists front back,
    factors = (front ++ f :: back)%list
    /\ forall g, In g front ->
                 RiskFactor.description g <> RiskFactor.description f.
Proof.
  revert earlier. induction factors as [| a r IH]; intros earlier; simpl.
  - contradiction.
  - destruct (PyStr.mem (RiskFactor.description a) earlier) eqn:E.
    + intros H. pose proof (dedup_In _ _ _ H) as [_ Hnot].
      destruct (IH _ H) as (front & back & -> & Hfront).
      exists (a :: front), back. split; [reflexivity |].
      intros g [<- | Hg]; [| auto].
      intros Eq. apply Hnot. rewrite <- Eq. apply mem_In. exact E.
    + intros [<- | H].
      * exists [], r. split; [reflexivity | intros g []].
      * pose proof (dedup_In _ _ _ H) as [_ Hnot].
        destruct (IH _ H) as (front & back & -> & Hfront).
        exists (a :: front), back. split; [reflexivity |].
        intros g [<- | Hg]; [| auto].
        intros Eq. apply Hnot. left. exact Eq.
Qed.

Lemma dedup_sorted (factors : list RiskFactor.t) (earlier : list string) :
  Spec.descending factors -> Spec.descending (Spec.dedup factors earlier).
Proof.
  unfold Spec.descending. intros H. revert earlier.
  induction H as [| a r Hr IH Ha]; intros earlier; simpl.
  - constructor.
  - destruct (PyStr.mem (RiskFactor.description a) earlier); [apply IH |].
    constructor; [apply IH |].
    apply Forall_forall. intros g Hg. apply dedup_In in Hg.
    rewrite Forall_forall in Ha. apply Ha, Hg.
Qed.

(** The loop with its early exit takes the first eight findings of distinct
    descriptions. *)
Lemma flags_loop_dedup (factors : list RiskFactor.t)
      (flags seen : list string) :
  (List.length flags < 8)%nat ->
  flags_loop factors flags seen
  = (flags ++ map RiskFactor.description
                  (firstn (8 - List.length flags) (Spec.dedup factors seen)))%list.
Proof.
  revert flags seen.
  induction factors as [| f r IH]; intros flags seen Hlen;
    cbn [flags_loop Spec.dedup].
  - rewrite firstn_nil, app_nil_r. reflexivity.
  - destruct (PyStr.mem (RiskFactor.description f) seen); cbn [negb].
    + apply IH, Hlen.
    + rewrite length_app. cbn [List.length].
      remember (8 - List.length flags)%nat as k eqn:Ek.
      destruct k as [| k]; [lia |].
      cbn [firstn map].
      destruct (Nat.leb_spec 8 (List.length flags + 1)) as [E8 | E8].
      * assert (k = 0%nat) by lia. subst k. reflexivity.
      * rewrite IH by (rewrite length_app; cbn [List.length]; lia).
        rewrite length_app. cbn [List.length].
        replace (8 - (List.length flags + 1))%nat with k by lia.
        rewrite <- app_assoc. reflexivity.
Qed.

(** C8.  For every four results the flags are obtained by pooling the
    findings in the order text, email, url, platform and then in detection
    order, sorting them by descending severity x confidence with a stable
    sort, keeping of each description the first finding only, and taking
    the first eight descriptions.  So there are at most eight flags, no two
    are equal, and they come by descending severity x confidence, each flag
    being placed by the greatest key of the findings that carry it.  The
    key [severity x confidence] is the float product that the program
    compares, [RiskFactor.sort_key]. *)
Theorem flags_are_first_eight (text email url platform : AnalysisResult.t) :
  let pooled :=
    (AnalysisResult.risk_factors text ++ AnalysisResult.risk_factors email
       ++ AnalysisResult.risk_factors url
       ++ AnalysisResult.risk_factors platform)%list in
  let sorted := sorted_desc RiskFactor.sort_key pooled in
  let kept := firstn 8 (Spec.dedup sorted []) in
  let flags := _generate_flags (Spec.results text email url platform) in
  collect_risk_factors (Spec.results text email url platform) = pooled
  /\ Permutation pooled sorted
  /\ Spec.descending sorted
  /\ Spec.stable sorted pooled
  /\ flags = map RiskFactor.description kept
  /\ (List.length flags <= 8)%nat
  /\ NoDup flags
  /\ Spec.descending kept
  /\ forall f g, In f kept -> In g pooled ->
                 RiskFactor.description g = RiskFactor.description f ->
                 RiskFactor.sort_key g <= RiskFactor.sort_key f.
Proof.
  intros pooled sorted kept flags.
  assert (Hpool : collect_risk_factors (Spec.results text email url platform)
                  = pooled).
  { unfold collect_risk_factors, Spec.results, Dict.values. simpl.
    rewrite app_nil_r. reflexivity. }
  assert (Hsorted : Spec.descending sorted)
    by apply sorted_desc_sorted.
  assert (Hflags : flags = map RiskFactor.description kept).
  { subst flags. unfold _generate_flags. rewrite Hpool.
    fold sorted. rewrite flags_loop_dedup by (simpl; lia). reflexivity. }
  split; [exact Hpool |].
  split; [apply sorted_desc_perm |].
  split; [exact Hsorted |].
  split; [intros key; apply sorted_desc_stable |].
  split; [exact Hflags |].
  split; [rewrite Hflags, length_map; subst kept; rewrite length_firstn; lia |].
  split.
  { rewrite Hflags. subst kept.
    pose proof (dedup_NoDup sorted []) as Hnd.
    rewrite <- (firstn_skipn 8 (Spec.dedup sorted [])) in Hnd.
    rewrite map_app in Hnd. apply NoDup_app_remove_r in Hnd. exact Hnd. }
  split; [apply sorted_firstn, dedup_sorted, Hsorted |].
  intros f g Hf Hg Edesc.
  assert (Hf' : In f (Spec.dedup sorted [])).
  { subst kept. rewrite <- (firstn_skipn 8 (Spec.dedup sorted [])).
    apply in_or_app. left. exact Hf. }
  destruct (dedup_first _ _ _ Hf') as (front & back & Esplit & Hfront).
  assert (Hg' : In g sorted) by (apply sorted_desc_In; exact Hg).
  rewrite Esplit in Hg'. apply in_app_or in Hg'.
  destruct Hg' as [Hg' | [<- | Hg']].
  - exfalso. apply (Hfront g Hg'). exact Edesc.
  - lra.
  - unfold Spec.descending in Hsorted. rewrite Esplit in Hsorted.
    apply sorted_app_tail in Hsorted.
    inversion Hsorted as [| ? ? _ Hall]; subst.
    rewrite Forall_forall in Hall. apply Hall, Hg'.
Qed.

End Flags.

(** ** The findings of the analyzers *)

Section ShapeFacts.

Import Shape.

Lemma choices_app (s1 s2 : list (list Shape.t)) (a b : Shape.t) :
  In a (choices s1) -> In b (choices s2) ->
  In (a ++ b)%list (choices (s1 ++ s2)).
Proof.
  revert a. induction s1 as [| alts s1 IH]; intros a; simpl.
  - intros [<- | []] Hb. exact Hb.
  - intros Ha Hb. apply in_flat_map in Ha. destruct Ha as (x & Hx & Ha).
    apply in_map_iff in Ha. destruct Ha as (r & <- & Hr).
    apply in_flat_map. exists x. split; [exact Hx |].
    rewrite <- app_assoc. apply in_map. apply IH; assumption.
Qed.

Lemma choices_nil (slots : list (list Shape.t)) :
  Forall (In []) slots -> In [] (choices slots).
Proof.
  induction 1 as [| alts slots Ha _ IH]; simpl.
  - left. reflexivity.
  - apply in_flat_map. exists []. split; [exact Ha |].
    apply in_map_iff. exists []. split; [reflexivity | exact IH].
Qed.

Lemma choices_one_slot (alternatives : list Shape.t) (a : Shape.t) :
  In a alternatives -> In a (choices [alternatives]).
Proof.
  intros H. simpl. apply in_flat_map. exists a. split; [exact H |].
  left. apply app_nil_r.
Qed.

Lemma adds_nothing (category : RiskCategory) (l : list RiskFactor.t) :
  adds [] category l l.
Proof.
  exists []. rewrite app_nil_r. repeat split; [left; reflexivity | constructor].
Qed.

Lemma adds_then (s1 s2 : list (list Shape.t)) (category : RiskCategory)
      (a b c : list RiskFactor.t) :
  adds s1 category a b -> adds s2 category b c -> adds (s1 ++ s2) category a c.
Proof.
  intros (n1 & -> & H1 & F1) (n2 & -> & H2 & F2).
  exists (n1 ++ n2)%list. split; [rewrite app_assoc; reflexivity |].
  split.
  - unfold of_factors. rewrite map_app. apply choices_app; assumption.
  - apply Forall_app. split; assumption.
Qed.

(** A slot is filled by one of its alternatives. *)
Lemma adds_slot (alternatives : list Shape.t) (category : RiskCategory)
      (l new : list RiskFactor.t) :
  In (of_factors new) alternatives ->
  Forall (fun f => RiskFactor.category f = category) new ->
  adds [alternatives] category l (l ++ new).
Proof.
  intros H F. exists new. split; [reflexivity |].
  split; [apply choices_one_slot, H | exact F].
Qed.

Lemma adds_skip (alternatives : list Shape.t) (category : RiskCategory)
      (l : list RiskFactor.t) :
  In [] alternatives -> adds [alternatives] category l l.
Proof.
  intros H. rewrite <- (app_nil_r l) at 2.
  apply adds_slot; [exact H | constructor].
Qed.

Lemma adds_optional (condition : bool) (category : RiskCategory)
      (l : list RiskFactor.t) (description : string) (severity : Z)
      (confidence : Q) :
  adds [optional severity confidence] category l
       (if condition
        then (l ++ [RiskFactor.Build category severity description confidence])%list
        else l).
Proof.
  destruct condition.
  - apply adds_slot; [right; left; reflexivity | repeat constructor].
  - apply adds_skip. left. reflexivity.
Qed.

Lemma adds_optional_new (condition : bool) (category : RiskCategory)
      (l : list RiskFactor.t) (description : string) (severity : Z)
      (confidence : Q) :
  adds [optional severity confidence] category l
       (l ++ (if condition
              then [RiskFactor.Build category severity description confidence]
              else []))%list.
Proof.
  destruct condition.
  - apply adds_slot; [right; left; reflexivity | repeat constructor].
  - rewrite app_nil_r. apply adds_skip. left. reflexivity.
Qed.

(** A loop that appends, for every item, a finding or nothing. *)
Lemma adds_flat_map {P : Type} (factor : P -> list RiskFactor.t)
      (slot : P -> list Shape.t) (category : RiskCategory) (items : list P)
      (l : list RiskFactor.t) :
  (forall p l', adds [slot p] category l' (l' ++ factor p)) ->
  adds (map slot items) category l (l ++ flat_map factor items).
Proof.
  intros H. revert l. induction items as [| p items IH]; intros l; simpl.
  - rewrite app_nil_r. apply adds_nothing.
  - rewrite app_assoc.
    apply (adds_then [slot p] (map slot items)) with (b := (l ++ factor p)%list).
    + apply H.
    + apply IH.
Qed.

(** The findings that were added from nothing have one of the shapes. *)
Lemma adds_from_nil (slots : list (list Shape.t)) (category : RiskCategory)
      (l : list RiskFactor.t) :
  adds slots category [] l ->
  In (of_factors l) (choices slots)
  /\ Forall (fun f => RiskFactor.category f = category) l.
Proof. intros (new & -> & H & F). simpl. split; assumption. Qed.

End ShapeFacts.

(** Every slot has the empty alternative. *)
Ltac all_skip :=
  repeat (apply Forall_cons;
          [first [ left; reflexivity
                 | right; apply choices_nil;
                   repeat (apply Forall_cons; [left; reflexivity |]);
                   apply Forall_nil
                 | right; right; apply choices_nil;
                   repeat (apply Forall_cons; [left; reflexivity |]);
                   apply Forall_nil ] |]);
  apply Forall_nil.

Section EmailShape.

Import Shape EmailAnalyzer.

Variable re_match re_search : EmailAnalyzer.regex -> string -> bool.

Lemma email_validate_shape (email : string) (valid : bool)
      (risk_factors : list RiskFactor.t) :
  _validate_email_format re_match email [] = Some (valid, risk_factors) ->
  (valid = false
   /\ In (of_factors risk_factors) [ one 90 1; one 95 1; one 100 1 ]
   /\ Forall (fun f => RiskFactor.category f = EMAIL_VALIDATION) risk_factors)
  \/ (valid = true
      /\ adds [ optional 60 (8 # 10); optional 70 (9 # 10) ]
              EMAIL_VALIDATION [] risk_factors).
Proof.
  unfold _validate_email_format.
  destruct (re_match email_pattern email); simpl negb; cbv iota.
  2:{ intros [= <- <-]. left. simpl. repeat split; auto. }
  destruct (PyStr.count_char "@" email =? 1)%nat; simpl negb; cbv iota.
  2:{ intros [= <- <-]. left. simpl. repeat split; auto. }
  destruct (PyStr.split_on "@" email) as [| username [| domain [| ? ?]]];
    try discriminate.
  destruct (String.length username <? 1)%nat.
  { intros [= <- <-]. left. simpl. repeat split; auto 6. }
  intros [= <- <-]. right. split; [reflexivity |].
  apply (adds_then [optional 60 (8 # 10)] [optional 70 (9 # 10)])
    with (b := if (64 <? String.length username)%nat
               then ([] ++ [RiskFactor.Build EMAIL_VALIDATION 60
                              "Email username exceeds recommended length"
                              (8 # 10)])%list
               else []).
  - apply adds_optional.
  - apply adds_optional.
Qed.

Lemma email_patterns_shape (email : string) (l : list RiskFactor.t) :
  adds [ optional 85 (8 # 10); optional 60 (8 # 10);
         optional 40 (8 # 10); optional 70 (8 # 10) ]
       EMAIL_VALIDATION l (_check_suspicious_patterns re_search email l).
Proof.
  unfold _check_suspicious_patterns.
  apply (adds_flat_map (pattern_factor re_search email)
           (fun p => optional (pattern_severity p) (8 # 10))
           EMAIL_VALIDATION suspicious_patterns).
  intros p l'. unfold pattern_factor. apply adds_optional_new.
Qed.

Lemma email_domain_shape (domain : string) (l : list RiskFactor.t) :
  adds [ one 80 (9 # 10)
           :: choices [ optional 75 (8 # 10); optional 50 (6 # 10);
                        optional 55 (7 # 10) ] ]
       EMAIL_VALIDATION l (_check_domain_reputation re_match domain l).
Proof.
  unfold _check_domain_reputation.
  destruct (PyStr.mem domain disposable_domains).
  { apply adds_slot; [left; reflexivity | repeat constructor]. }
  set (a := if PyStr.mem domain typosquatting then _ else l).
  set (b := match find _ very_new_tlds with Some _ => _ | None => a end).
  assert (Ha : adds [optional 75 (8 # 10)] EMAIL_VALIDATION l a)
    by apply adds_optional.
  assert (Hb : adds [optional 50 (6 # 10)] EMAIL_VALIDATION a b).
  { subst b. destruct (find _ very_new_tlds).
    - apply adds_slot; [right; left; reflexivity | repeat constructor].
    - apply adds_skip. left. reflexivity. }
  pose proof (adds_optional (re_match random_domains domain) EMAIL_VALIDATION b
                "Domain name appears randomly generated" 55 (7 # 10)) as Hc.
  pose proof (adds_then _ _ _ _ _ _ (adds_then _ _ _ _ _ _ Ha Hb) Hc)
    as (new & E & Hin & Hcat).
  rewrite E. apply adds_slot; [right; exact Hin | exact Hcat].
Qed.

Lemma email_disposable_shape (domain : string) (l : list RiskFactor.t) :
  adds [ optional 70 (7 # 10) ] EMAIL_VALIDATION l
       (_check_disposable_email domain l).
Proof.
  unfold _check_disposable_email. destruct (find _ _).
  - apply adds_slot; [right; left; reflexivity | repeat constructor].
  - apply adds_skip. left. reflexivity.
Qed.

Lemma email_characteristics_shape (email domain : string)
      (l after : list RiskFactor.t) :
  _check_suspicious_email_characteristics re_search email domain l = Some after ->
  adds [ optional 60 (7 # 10); optional 50 (7 # 10) ] EMAIL_VALIDATION l after.
Proof.
  unfold _check_suspicious_email_characteristics.
  destruct (nth_error (PyStr.split_on "@" email) 0) as [username |];
    [| discriminate].
  intros [= <-].
  match goal with
  | |- adds _ _ _ (if _ then (?a ++ _)%list else _) =>
      apply (adds_then [optional 60 (7 # 10)] [optional 50 (7 # 10)])
        with (b := a); [| apply adds_optional]
  end.
  match goal with
  | |- adds _ _ _ (if ?c then _ else _) => destruct c
  end.
  - apply adds_optional.
  - apply adds_skip. left. reflexivity.
Qed.

(** The findings of the email analyzer have one of the shapes of
    [email_shapes] and the category of the analyzer. *)
Lemma email_analyze_shape (recruiter_email : option string)
      (result : AnalysisResult.t) :
  analyze re_match re_search recruiter_email = Some result ->
  In (of_factors (AnalysisResult.risk_factors result)) email_shapes
  /\ Forall (fun f => RiskFactor.category f = EMAIL_VALIDATION)
            (AnalysisResult.risk_factors result).
Proof.
  assert (Hnone : In (of_factors []) email_shapes
                  /\ Forall (fun f => RiskFactor.category f = EMAIL_VALIDATION)
                            (@nil RiskFactor.t)).
  { split; [| constructor]. unfold email_shapes.
    apply in_or_app. right. apply choices_nil. all_skip. }
  unfold analyze.
  destruct recruiter_email as [given |]; [| intros [= <-]; exact Hnone].
  destruct (negb (PyStr.truthy given) || negb (PyStr.truthy (PyStr.strip given)));
    [intros [= <-]; exact Hnone |].
  set (email := PyStr.lower (PyStr.strip given)).
  destruct (_validate_email_format re_match email [])
    as [[format_valid validated] |] eqn:Ev; [| discriminate].
  apply email_validate_shape in Ev.
  destruct Ev as [(-> & Hin & Hcat) | (-> & Hadds)].
  - destruct (_calculate_confidence email false (List.length validated));
      [| discriminate].
    intros [= <-]. cbn [AnalysisResult.risk_factors]. split; [| exact Hcat].
    unfold email_shapes. apply in_or_app. left. exact Hin.
  - destruct (nth_error (PyStr.split_on "@" email) 1) as [domain |];
      [| discriminate].
    destruct (_check_suspicious_email_characteristics re_search email domain _)
      as [final |] eqn:Ec; [| discriminate].
    apply email_characteristics_shape in Ec.
    destruct (_calculate_confidence email true (List.length final));
      [| discriminate].
    intros [= <-]. cbn [AnalysisResult.risk_factors].
    pose proof (email_patterns_shape email validated) as Hp.
    pose proof (email_domain_shape domain
                  (_check_suspicious_patterns re_search email validated)) as Hd.
    pose proof (email_disposable_shape domain
                  (_check_domain_reputation re_match domain
                     (_check_suspicious_patterns re_search email validated)))
      as Hk.
    pose proof (adds_then _ _ _ _ _ _
                  (adds_then _ _ _ _ _ _
                     (adds_then _ _ _ _ _ _
                        (adds_then _ _ _ _ _ _ Hadds Hp) Hd) Hk) Ec) as Hall.
    apply adds_from_nil in Hall. destruct Hall as [Hin Hcat].
    split; [| exact Hcat].
    unfold email_shapes. apply in_or_app. right. exact Hin.
Qed.

End EmailShape.

Section UrlShape.

Import Shape URLAnalyzer.

Variable re_match re_search : URLAnalyzer.regex -> string -> bool.
Variable urlparse : string -> option ParseResult.

Lemma url_validate_shape (url : string) (valid : bool)
      (risk_factors : list RiskFactor.t) :
  _validate_url_format re_match urlparse url [] = (valid, risk_factors) ->
  (valid = false
   /\ In (of_factors risk_factors)
         [ one 90 1; one 80 (9 # 10); one 95 1; one 85 (9 # 10) ]
   /\ Forall (fun f => RiskFactor.category f = URL_VALIDATION) risk_factors)
  \/ (valid = true
      /\ adds [ optional 50 (7 # 10) ] URL_VALIDATION [] risk_factors).
Proof.
  unfold _validate_url_format.
  destruct (re_match url_pattern url); cbn [negb].
  2:{ intros [= <- <-]. left. cbn. repeat split; auto. }
  destruct (urlparse url) as [parsed |].
  2:{ intros [= <- <-]. left. cbn. repeat split; auto 6. }
  destruct (negb (PyStr.truthy (scheme parsed))
            || negb (PyStr.mem (scheme parsed) ["http"%string; "https"%string])).
  { intros [= <- <-]. left. cbn. repeat split; auto. }
  destruct (negb (PyStr.truthy (netloc parsed))).
  { intros [= <- <-]. left. cbn. repeat split; auto. }
  destruct (2000 <? String.length url)%nat; intros [= <- <-]; right;
    (split; [reflexivity |]).
  - apply (adds_slot (optional 50 (7 # 10)) URL_VALIDATION []);
      [right; left; reflexivity | repeat constructor].
  - apply adds_skip. left. reflexivity.
Qed.

Lemma url_patterns_shape (url : string) (l : list RiskFactor.t) :
  adds [ optional 70 (8 # 10); optional 60 (8 # 10); optional 75 (8 # 10);
         optional 55 (8 # 10); optional 65 (8 # 10); optional 50 (8 # 10) ]
       URL_VALIDATION l (_check_suspicious_patterns re_search url l).
Proof.
  unfold _check_suspicious_patterns.
  apply (adds_flat_map (pattern_factor re_search url)
           (fun p => optional (pattern_severity p) (8 # 10))
           URL_VALIDATION suspicious_patterns).
  intros p l'. unfold pattern_factor. apply adds_optional_new.
Qed.

Lemma url_domain_shape (parsed_url : ParseResult)
      (l after : list RiskFactor.t) :
  _check_suspicious_domain_characteristics re_match parsed_url l = Some after ->
  adds [ one 85 (9 # 10) :: one 90 (9 # 10)
           :: choices [ optional 70 (8 # 10); optional 50 (7 # 10);
                        optional 65 (8 # 10) ] ]
       URL_VALIDATION l after.
Proof.
  unfold _check_suspicious_domain_characteristics.
  match goal with
  | |- match ?d with Some _ => _ | None => _ end = _ -> _ =>
      destruct d as [domain |]; [| discriminate]
  end.
  unfold suspicious_domains. cbn [find snd].
  match goal with
  | |- context [if ?c then Some _ else _] => destruct c
  end.
  { intros [= <-].
    apply adds_slot; [left; reflexivity | repeat constructor]. }
  match goal with
  | |- context [if ?c then Some _ else _] => destruct c
  end.
  { intros [= <-].
    apply adds_slot; [right; left; reflexivity | repeat constructor]. }
  destruct (nth_error (PyStr.split_on "." domain) 0) as [first_part |];
    [| discriminate].
  intros [= <-].
  match goal with
  | |- adds _ _ _ (if _ then (?b ++ _)%list else _) =>
      match b with
      | (if _ then (?a ++ _)%list else _) =>
          pose proof (adds_optional
                        ((2 <=? List.length (PyStr.split_on "." domain))%nat
                         && PyStr.isdigit first_part)
                        URL_VALIDATION l
                        "Domain name consists only of numbers" 70 (8 # 10))
            as Ha;
          pose proof (adds_optional
                        (4 <? PyStr.count_char "-" first_part)%nat
                        URL_VALIDATION a
                        "Domain contains excessive hyphens" 50 (7 # 10))
            as Hb;
          pose proof (adds_optional
                        (re_match suspicious_tld_pattern domain)
                        URL_VALIDATION b
                        "Random domain with suspicious TLD" 65 (8 # 10))
            as Hc
      end
  end.
  pose proof (adds_then _ _ _ _ _ _ (adds_then _ _ _ _ _ _ Ha Hb) Hc)
    as (new & E & Hin & Hcat).
  rewrite E. apply adds_slot; [right; right; exact Hin | exact Hcat].
Qed.

Lemma url_shorteners_shape (url : string) (l : list RiskFactor.t) :
  adds [ optional 70 (8 # 10) ] URL_VALIDATION l (_check_url_shorteners url l).
Proof.
  unfold _check_url_shorteners. destruct (find _ _).
  - apply adds_slot; [right; left; reflexivity | repeat constructor].
  - apply adds_skip. left. reflexivity.
Qed.

Lemma url_ports_shape (parsed_url : ParseResult)
      (l after : list RiskFactor.t) :
  _check_suspicious_ports parsed_url l = Some after ->
  adds [ optional 45 (6 # 10) ] URL_VALIDATION l after.
Proof.
  unfold _check_suspicious_ports.
  destruct (port parsed_url) as [[number |] |]; try discriminate.
  - destruct (negb (number =? 0)%Z && existsb (Z.eqb number) suspicious_ports);
      intros [= <-].
    + apply adds_slot; [right; left; reflexivity | repeat constructor].
    + apply adds_skip. left. reflexivity.
  - intros [= <-]. apply adds_skip. left. reflexivity.
Qed.

(** The findings of the URL analyzer have one of the shapes of
    [url_shapes] and the category of the analyzer. *)
Lemma url_analyze_shape (company_url : option string)
      (result : AnalysisResult.t) :
  analyze re_match re_search urlparse company_url = Some result ->
  In (of_factors (AnalysisResult.risk_factors result)) url_shapes
  /\ Forall (fun f => RiskFactor.category f = URL_VALIDATION)
            (AnalysisResult.risk_factors result).
Proof.
  assert (Hnone : In (of_factors []) url_shapes
                  /\ Forall (fun f => RiskFactor.category f = URL_VALIDATION)
                            (@nil RiskFactor.t)).
  { split; [| constructor]. unfold url_shapes.
    apply in_or_app. right. apply choices_nil. all_skip. }
  unfold analyze.
  destruct company_url as [given |]; [| intros [= <-]; exact Hnone].
  destruct (negb (PyStr.truthy given) || negb (PyStr.truthy (PyStr.strip given)));
    [intros [= <-]; exact Hnone |].
  set (url := PyStr.strip given).
  destruct (_validate_url_format re_match urlparse url [])
    as [format_valid validated] eqn:Ev.
  apply url_validate_shape in Ev.
  destruct Ev as [(-> & Hin & Hcat) | (-> & Hadds)].
  - intros [= <-]. cbn [AnalysisResult.risk_factors]. split; [| exact Hcat].
    unfold url_shapes. apply in_or_app. left. exact Hin.
  - destruct (urlparse url) as [parsed_url |]; [| discriminate].
    destruct (_check_suspicious_domain_characteristics re_match parsed_url _)
      as [with_domain |] eqn:Ed; [| discriminate].
    apply url_domain_shape in Ed.
    destruct (_check_suspicious_ports parsed_url _) as [final |] eqn:Ep;
      [| discriminate].
    apply url_ports_shape in Ep.
    intros [= <-]. cbn [AnalysisResult.risk_factors].
    pose proof (url_patterns_shape url validated) as Hp.
    pose proof (url_shorteners_shape url with_domain) as Hs.
    pose proof (adds_then _ _ _ _ _ _
                  (adds_then _ _ _ _ _ _
                     (adds_then _ _ _ _ _ _
                        (adds_then _ _ _ _ _ _ Hadds Hp) Ed) Hs) Ep) as Hall.
    apply adds_from_nil in Hall. destruct Hall as [Hin Hcat].
    split; [| exact Hcat].
    unfold url_shapes. apply in_or_app. right. exact Hin.
Qed.

End UrlShape.

Section TextShape.

Import PyNum TextAnalyzer.
Open Scope Q_scope.

Variable findall : TextAnalyzer.pattern_name -> string -> list string.

Lemma keyword_factor_sound (job_text_lower : string)
      (entry : string * list string) :
  In entry fraud_keywords ->
  Forall (Shape.sound TEXT_ANALYSIS) (keyword_factor job_text_lower entry).
Proof.
  intros Hentry. unfold keyword_factor. destruct entry as [category keywords].
  destruct (filter _ keywords) as [| m matches]; [constructor |].
  constructor; [| constructor].
  split; [reflexivity |]. cbn [RiskFactor.severity RiskFactor.confidence].
  split.
  - rewrite Zmin2_spec.
    assert (0 <= keyword_severity category)%Z.
    { unfold keyword_severity.
      repeat match goal with
        | |- context [if ?c then _ else _] => destruct c
        end; lia. }
    cbn [List.length]. lia.
  - destruct (PyStr.mem category _); split; lra.
Qed.

Lemma pattern_factor_sound (job_text : string) (p : pattern_name) :
  Forall (Shape.sound TEXT_ANALYSIS) (pattern_factor findall job_text p).
Proof.
  unfold pattern_factor.
  destruct (findall p job_text) as [| m matches]; [constructor |].
  constructor; [| constructor].
  split; [reflexivity |]. cbn [RiskFactor.severity RiskFactor.confidence].
  split.
  - rewrite Zmin2_spec. cbn [List.length].
    destruct p; cbn [pattern_severity]; lia.
  - destruct (is_unrealistic_salary p); split; lra.
Qed.

Lemma Forall_flat_map {A B : Type} (P : B -> Prop) (f : A -> list B)
      (l : list A) :
  (forall a, In a l -> Forall P (f a)) -> Forall P (flat_map f l).
Proof.
  induction l as [| a l IH]; intros H; simpl; [constructor |].
  apply Forall_app. split; [apply H; left; reflexivity |].
  apply IH. intros b Hb. apply H. right. exact Hb.
Qed.

(** Every finding of the text analyzer has the category of the analyzer, a
    severity from 0 to 100 and a confidence from 0.6 to 1. *)
Lemma text_analyze_sound (job_text : string) :
  Forall (Shape.sound TEXT_ANALYSIS)
         (AnalysisResult.risk_factors (analyze findall job_text)).
Proof.
  unfold analyze.
  destruct (negb (PyStr.truthy job_text)
            || negb (PyStr.truthy (PyStr.strip job_text))).
  { cbn [AnalysisResult.risk_factors]. constructor; [| constructor].
    split; [reflexivity |].
    cbn [RiskFactor.severity RiskFactor.confidence]. split; [lia | split; lra]. }
  cbn [AnalysisResult.risk_factors].
  unfold _check_content_quality, _check_suspicious_patterns,
    _check_fraud_keywords.
  assert (Hbase : Forall (Shape.sound TEXT_ANALYSIS)
                    (([] ++ flat_map (keyword_factor (PyStr.lower job_text))
                                     fraud_keywords)
                       ++ flat_map (pattern_factor findall job_text)
                                   suspicious_patterns)).
  { apply Forall_app. split.
    - apply Forall_flat_map. intros e He. apply keyword_factor_sound, He.
    - apply Forall_flat_map. intros p _. apply pattern_factor_sound. }
  repeat match goal with
    | |- Forall _ (if ?c then _ else _) => destruct c
    | |- Forall _ (_ ++ [_]) => apply Forall_app; split
    | |- Forall _ [_] =>
        constructor; [| constructor];
        split; [reflexivity |];
        cbn [RiskFactor.severity RiskFactor.confidence];
        split; [lia | split; lra]
    end; exact Hbase.
Qed.

End TextShape.

(** ** The category entries of the findings of the analyzers *)

Section Entries.

Import PyNum JobAnalysisService.
Open Scope Q_scope.

Lemma score_category_filter (all all' : list RiskFactor.t)
      (category : RiskCategory) :
  filter (fun f => RiskCategory_eqb (RiskFactor.category f) category) all
  = filter (fun f => RiskCategory_eqb (RiskFactor.category f) category) all' ->
  score_category all category = score_category all' category.
Proof. intros H. unfold score_category. rewrite H. reflexivity. Qed.

Lemma filter_category (c c' : RiskCategory) (l : list RiskFactor.t) :
  Forall (fun f => RiskFactor.category f = c) l ->
  filter (fun f => RiskCategory_eqb (RiskFactor.category f) c') l
  = if RiskCategory_eqb c c' then l else [].
Proof.
  induction 1 as [| f l Hf _ IH]; simpl.
  - destruct (RiskCategory_eqb c c'); reflexivity.
  - rewrite Hf, IH. destruct (RiskCategory_eqb c c'); reflexivity.
Qed.

(** The findings of a category among the pooled findings of four analyzers
    that each find in a category of their own. *)
Lemma pooled_filter (text email url platform : list RiskFactor.t)
      (category : RiskCategory) :
  Forall (fun f => RiskFactor.category f = TEXT_ANALYSIS) text ->
  Forall (fun f => RiskFactor.category f = EMAIL_VALIDATION) email ->
  Forall (fun f => RiskFactor.category f = URL_VALIDATION) url ->
  Forall (fun f => RiskFactor.category f = PLATFORM_CREDIBILITY) platform ->
  filter (fun f => RiskCategory_eqb (RiskFactor.category f) category)
         (text ++ email ++ url ++ platform)
  = match category with
    | TEXT_ANALYSIS => text
    | EMAIL_VALIDATION => email
    | URL_VALIDATION => url
    | PLATFORM_CREDIBILITY => platform
    | GENERAL => []
    end.
Proof.
  intros Ht He Hu Hp.
  rewrite !filter_app.
  rewrite (filter_category _ category _ Ht), (filter_category _ category _ He),
    (filter_category _ category _ Hu), (filter_category _ category _ Hp).
  destruct category; simpl; rewrite ?app_nil_r; reflexivity.
Qed.

Lemma sound_category (category : RiskCategory) (l : list RiskFactor.t) :
  Forall (Shape.sound category) l ->
  Forall (fun f => RiskFactor.category f = category) l.
Proof. apply Forall_impl. intros f H. apply H. Qed.

Lemma sound_weighted (category : RiskCategory) (f : RiskFactor.t) :
  Shape.sound category f ->
  0 <= RiskFactor.weighted f <= 100 * RiskFactor.confidence f
  /\ RiskFactor.weighted f <= 100.
Proof.
  intros (_ & [H0 H100] & Hc). unfold RiskFactor.weighted.
  rewrite Zle_Qle in H0, H100.
  change (inject_Z 0) with 0 in H0. change (inject_Z 100) with 100 in H100.
  nra.
Qed.

Lemma sound_sums (category : RiskCategory) (l : list RiskFactor.t) :
  Forall (Shape.sound category) l ->
  let n := inject_Z (Z.of_nat (List.length l)) in
  0 <= sum (map RiskFactor.weighted l)
  /\ sum (map RiskFactor.weighted l) <= 100 * sum (map RiskFactor.confidence l)
  /\ (6 # 10) * n <= sum (map RiskFactor.confidence l)
  /\ sum (map RiskFactor.confidence l) <= n.
Proof.
  induction 1 as [| f l Hf _ IH]; cbn [map List.length].
  - cbv zeta. change (sum []) with 0.
    change (inject_Z (Z.of_nat 0)) with 0. repeat split; lra.
  - cbv zeta in *. rewrite !sum_cons.
    rewrite Nat2Z.inj_succ. unfold Z.succ. rewrite inject_Z_plus.
    change (inject_Z 1) with 1.
    pose proof (sound_weighted _ _ Hf) as (Hw & _).
    destruct Hf as (_ & _ & Hc).
    repeat split; lra.
Qed.

Lemma of_nat_length_pos {A : Type} (l : list A) :
  l <> [] -> 0 < inject_Z (Z.of_nat (List.length l)).
Proof.
  intros H. change 0 with (inject_Z 0). rewrite <- Zlt_Qlt.
  destruct l; [congruence | simpl List.length; lia].
Qed.

(** The entry of a category whose findings are sound: by the weighted
    average it is the entry of the shape of the findings. *)
Lemma sound_entry (all findings : list RiskFactor.t)
      (category : RiskCategory) :
  filter (fun f => RiskCategory_eqb (RiskFactor.category f) category) all
  = findings ->
  Forall (Shape.sound category) findings ->
  exists score confidence,
    score_category all category = Some (score, confidence)
    /\ Shape.entry_ok score confidence
    /\ (findings = [] -> score == 0 /\ confidence == 0)
    /\ (findings <> [] -> 6 # 10 <= confidence)
    /\ (findings <> [] -> category <> TEXT_ANALYSIS ->
        (score, confidence) = Shape.entry (Shape.of_factors findings)).
Proof.
  intros Hfilter Hsound.
  pose proof (sound_sums _ _ Hsound) as Hsums. cbv zeta in Hsums.
  destruct Hsums as (Hw0 & Hw100 & Hc6 & Hcn).
  destruct (score_category_cases all category)
    as [[Hnil H] | [(Hc & Hlen & s & c & H & Hs & Hcf)
                   | [(Hne & Hother & Hpos & H) | (Hne & _ & Hle & _)]]];
    rewrite Hfilter in *.
  - exists 0, 0. split; [exact H |].
    split; [left; split; reflexivity |].
    split; [intros _; split; reflexivity |].
    split; intros Hne; contradiction.
  - exists s, c. split; [exact H |].
    assert (Hin : forall f,
               In f (firstn 3 (sorted_desc RiskFactor.weighted findings)) ->
               Shape.sound category f).
    { intros f Hf. rewrite Forall_forall in Hsound. apply Hsound.
      apply (sorted_desc_In RiskFactor.weighted).
      rewrite <- (firstn_skipn 3 (sorted_desc _ findings)).
      apply in_or_app. left. exact Hf. }
    destruct Hs as [Hs _]. destruct Hcf as [Hcf _].
    apply in_map_iff in Hs. destruct Hs as (f & <- & Hf).
    apply in_map_iff in Hcf. destruct Hcf as (g & <- & Hg).
    pose proof (sound_weighted _ _ (Hin f Hf)) as ([Hf0 _] & Hf100).
    destruct (Hin g Hg) as (_ & _ & Hgc).
    split; [right; split; [split; assumption | exact Hgc] |].
    split; [intros Hnil; rewrite Hnil in Hlen; simpl in Hlen; lia |].
    split; [intros _; apply Hgc | intros _ Hneq; contradiction].
  - pose proof (of_nat_length_pos _ Hne) as Hn.
    eexists. eexists. split; [exact H |].
    assert (Hscore : 0 <= sum (map RiskFactor.weighted findings)
                          / sum (map RiskFactor.confidence findings) <= 100).
    { split.
      - apply Qle_shift_div_l; [exact Hpos | lra].
      - apply Qle_shift_div_r; [exact Hpos | lra]. }
    assert (Hconf : 6 # 10
                    <= min2 1 (sum (map RiskFactor.confidence findings)
                               / inject_Z (Z.of_nat (List.length findings)))
                    <= 1).
    { split.
      - apply min2_glb; [lra |].
        apply Qle_shift_div_l; [exact Hn | lra].
      - apply min2_spec. }
    split; [right; split; assumption |].
    split; [intros Hnil; contradiction |].
    split; [intros _; apply Hconf |].
    intros _ _. unfold Shape.entry, Shape.of_factors.
    rewrite !map_map, length_map. reflexivity.
  - exfalso. pose proof (of_nat_length_pos _ Hne). lra.
Qed.

(** The findings of a shape that passed [bounded] are sound. *)
Lemma bounded_sound (category : RiskCategory) (l : list RiskFactor.t) :
  Shape.bounded (Shape.of_factors l) = true ->
  Forall (fun f => RiskFactor.category f = category) l ->
  Forall (Shape.sound category) l.
Proof.
  unfold Shape.bounded, Shape.of_factors. rewrite forallb_forall.
  intros Hb Hc. rewrite Forall_forall in *. intros f Hf.
  specialize (Hb _ (in_map _ _ _ Hf)). cbn [fst snd] in Hb.
  apply andb_true_iff in Hb. destruct Hb as [Hb H1].
  apply andb_true_iff in Hb. destruct Hb as [Hb H6].
  apply andb_true_iff in Hb. destruct Hb as [H0 H100].
  apply Z.leb_le in H0, H100. apply Qle_bool_iff in H1, H6.
  split; [apply Hc, Hf |]. split; [lia | split; assumption].
Qed.

(** The shapes of the email and URL analyzers pass the two tests. *)
Lemma email_shapes_checked :
  forallb (fun shape => Shape.bounded shape && Shape.alone_ok (12 # 100) shape)
          Shape.email_shapes = true.
Proof. vm_compute. reflexivity. Qed.

Lemma url_shapes_checked :
  forallb (fun shape => Shape.bounded shape && Shape.alone_ok (10 # 100) shape)
          Shape.url_shapes = true.
Proof. vm_compute. reflexivity. Qed.

(** The entry of the email or URL category when its findings have one of
    the checked shapes. *)
Lemma checked_entry (weight : Q) (shapes : list Shape.t)
      (all findings : list RiskFactor.t) (category : RiskCategory) :
  forallb (fun shape => Shape.bounded shape && Shape.alone_ok weight shape)
          shapes = true ->
  category <> TEXT_ANALYSIS ->
  filter (fun f => RiskCategory_eqb (RiskFactor.category f) category) all
  = findings ->
  In (Shape.of_factors findings) shapes ->
  Forall (fun f => RiskFactor.category f = category) findings ->
  exists score confidence,
    score_category all category = Some (score, confidence)
    /\ Shape.entry_ok score confidence
    /\ (0 < confidence ->
        (score - 25) * ((64 # 1000) - (3 # 10) * (weight * confidence))
        <= 2496 # 1000).
Proof.
  intros Hchecked Hcat Hfilter Hshape Hcategory.
  rewrite forallb_forall in Hchecked. specialize (Hchecked _ Hshape).
  apply andb_true_iff in Hchecked. destruct Hchecked as [Hb Hok].
  pose proof (bounded_sound _ _ Hb Hcategory) as Hsound.
  destruct (sound_entry all findings category Hfilter Hsound)
    as (s & c & H & Hentry & Hnil & _ & Heq).
  exists s, c. split; [exact H |]. split; [exact Hentry |].
  intros Hpos.
  destruct (list_empty_dec findings) as [E | Hne].
  { destruct (Hnil E) as [_ Hc]. lra. }
  specialize (Heq Hne Hcat).
  unfold Shape.alone_ok in Hok.
  destruct (Shape.of_factors findings) as [| p shape] eqn:Es.
  { destruct findings; [congruence | discriminate]. }
  rewrite <- Heq in Hok. apply Qle_bool_iff in Hok. exact Hok.
Qed.

End Entries.

(** ** Telegram against LinkedIn *)

Section PlatformMonotonicity.

Import PyNum JobAnalysisService.
Open Scope Q_scope.

(** With [WS] and [W] the weighted score and the total weight of the text,
    email and URL categories, [BL] the base score of these three alone and
    [BT] the base score once a platform category of score 55 and effective
    weight 0.064 is blended in: the offset base score of the first is at
    most 1.3 times the offset base score of the second. *)
Lemma offset_base_ordered (WS W b BL BT : Q) :
  0 <= WS -> WS <= 100 * W -> 0 < W -> 0 <= b <= 25 ->
  (1024 # 10000 <= W
   \/ (WS - 25 * W) * ((64 # 1000) - (3 # 10) * W) <= (2496 # 1000) * W) ->
  BL * W == WS ->
  BT * (W + (64 # 1000)) == WS + (352 # 100) ->
  0 < BL - b ->
  BL - b <= (13 # 10) * (BT - b).
Proof.
  intros H0 H100 HW Hb Hc HBL HBT Hpos.
  assert (HBL100 : BL <= 100) by nra.
  assert (Hkey : (BL - b) * ((64 # 1000) - (3 # 10) * W)
                 <= (4576 # 1000) - (832 # 10000) * b).
  { destruct Hc as [Hc | Hc].
    - destruct (Qlt_le_dec ((64 # 1000) - (3 # 10) * W) 0) as [Hn | Hp].
      + nra.
      + assert ((BL - b) * ((64 # 1000) - (3 # 10) * W)
                <= (100 - b) * (3328 # 100000)) by nra.
        nra.
    - assert (Hc' : (BL - 25) * ((64 # 1000) - (3 # 10) * W) <= 2496 # 1000).
      { assert (W * ((BL - 25) * ((64 # 1000) - (3 # 10) * W))
                <= W * (2496 # 1000)) by nra.
        nra. }
      nra. }
  assert (Hgoal : (W + (64 # 1000)) * (BL - b)
                  <= (W + (64 # 1000)) * ((13 # 10) * (BT - b))) by nra.
  nra.
Qed.

(** The weighted score and the total weight of the text, email and URL
    categories of the analyzers: the total weight is at least 0.1024 unless
    the email or the URL category stands alone, and then its findings were
    checked. *)
Lemma three_categories_blend (st ct se ce su cu : Q) :
  Shape.entry_ok st ct -> Shape.entry_ok se ce -> Shape.entry_ok su cu ->
  (0 < ce ->
   (se - 25) * ((64 # 1000) - (3 # 10) * ((12 # 100) * ce)) <= 2496 # 1000) ->
  (0 < cu ->
   (su - 25) * ((64 # 1000) - (3 # 10) * ((10 # 100) * cu)) <= 2496 # 1000) ->
  let WS := st * ((70 # 100) * ct) + se * ((12 # 100) * ce)
            + su * ((10 # 100) * cu) in
  let W := (70 # 100) * ct + (12 # 100) * ce + (10 # 100) * cu in
  0 <= WS /\ WS <= 100 * W /\ 0 <= W
  /\ (1024 # 10000 <= W
      \/ (WS - 25 * W) * ((64 # 1000) - (3 # 10) * W) <= (2496 # 1000) * W).
Proof.
  intros Ht He Hu Ae Au WS W. subst WS W.
  destruct Ht as [[Hst Hct] | [Hst Hct]];
    destruct He as [[Hse Hce] | [Hse Hce]];
    destruct Hu as [[Hsu Hcu] | [Hsu Hcu]].
  all: repeat split; nra.
Qed.

Lemma normalize_value (ws tw base : Q) :
  normalize (ws, tw) = Some base ->
  (0 < tw /\ base * tw == ws) \/ (tw <= 0 /\ base = 0).
Proof.
  unfold normalize. destruct (Qlt_bool 0 tw) eqn:E.
  - apply Qlt_bool_true in E. rewrite div_defined by lra.
    intros [= <-]. left. split; [exact E |]. field. lra.
  - apply Qlt_bool_false in E. intros [= <-]. right. split; [exact E |].
    reflexivity.
Qed.

(** The adjusted score with the platform entry of telegram against the
    adjusted score with no platform entry. *)
Lemma adjusted_scores_ordered (st ct se ce su cu sp cp : Q) (bonus : Z)
      (base_L base_T : Q) :
  Shape.entry_ok st ct -> Shape.entry_ok se ce -> Shape.entry_ok su cu ->
  (0 < ce ->
   (se - 25) * ((64 # 1000) - (3 # 10) * ((12 # 100) * ce)) <= 2496 # 1000) ->
  (0 < cu ->
   (su - 25) * ((64 # 1000) - (3 # 10) * ((10 # 100) * cu)) <= 2496 # 1000) ->
  sp == 55 -> cp == 8 # 10 -> (0 <= bonus <= 25)%Z ->
  normalize
    (blend [ (TEXT_ANALYSIS, (st, ct)); (EMAIL_VALIDATION, (se, ce));
             (URL_VALIDATION, (su, cu)); (PLATFORM_CREDIBILITY, (0, 0));
             (GENERAL, (0, 0)) ]) = Some base_L ->
  normalize
    (blend [ (TEXT_ANALYSIS, (st, ct)); (EMAIL_VALIDATION, (se, ce));
             (URL_VALIDATION, (su, cu)); (PLATFORM_CREDIBILITY, (sp, cp));
             (GENERAL, (0, 0)) ]) = Some base_T ->
  max2 0 (base_L - inject_Z bonus) * 1
  <= max2 0 (base_T - inject_Z bonus) * (13 # 10).
Proof.
  intros Ht He Hu Ae Au Hsp Hcp [Hb0 Hb25] HL HT.
  rewrite Zle_Qle in Hb0, Hb25.
  change (inject_Z 0) with 0 in Hb0. change (inject_Z 25) with 25 in Hb25.
  set (b := inject_Z bonus) in *.
  destruct (three_categories_blend st ct se ce su cu Ht He Hu Ae Au)
    as (HWS0 & HWS100 & HW0 & Hcond).
  set (WS := st * ((70 # 100) * ct) + se * ((12 # 100) * ce)
             + su * ((10 # 100) * cu)) in *.
  set (W := (70 # 100) * ct + (12 # 100) * ce + (10 # 100) * cu) in *.
  unfold blend, category_weights in HL, HT.
  cbn [fold_left lookup_category RiskCategory_eqb] in HL, HT.
  apply normalize_value in HL, HT.
  assert (HwsL : 0 + st * ((70 # 100) * ct) + se * ((12 # 100) * ce)
                 + su * ((10 # 100) * cu) + 0 * ((8 # 100) * 0) == WS)
    by (subst WS; ring).
  assert (HtwL : 0 + (70 # 100) * ct + (12 # 100) * ce + (10 # 100) * cu
                 + (8 # 100) * 0 == W)
    by (subst W; ring).
  assert (HwsT : 0 + st * ((70 # 100) * ct) + se * ((12 # 100) * ce)
                 + su * ((10 # 100) * cu) + sp * ((8 # 100) * cp)
                 == WS + (352 # 100))
    by (subst WS; rewrite Hsp, Hcp; ring).
  assert (HtwT : 0 + (70 # 100) * ct + (12 # 100) * ce + (10 # 100) * cu
                 + (8 # 100) * cp == W + (64 # 1000))
    by (subst W; rewrite Hcp; ring).
  rewrite HwsL, HtwL in HL. rewrite HwsT, HtwT in HT.
  destruct HT as [[_ HT] | [HT _]]; [| lra].
  destruct (max2_spec 0 (base_L - b)) as (HmL0 & HmL & HmLv).
  destruct (max2_spec 0 (base_T - b)) as (HmT0 & HmT & _).
  destruct HmLv as [-> | ->]; [nra |].
  destruct HL as [[HWpos HL] | [HWle ->]]; [| nra].
  destruct (Qlt_le_dec 0 (base_L - b)) as [Hpos | Hneg]; [| nra].
  pose proof (offset_base_ordered WS W b base_L base_T
                HWS0 HWS100 HWpos (conj Hb0 Hb25) Hcond HL HT Hpos).
  nra.
Qed.

End PlatformMonotonicity.

Section EmailTotal.

Import EmailAnalyzer.

Variable re_match re_search : EmailAnalyzer.regex -> string -> bool.

Lemma split_on_length (c : ascii) (s : string) (cur : list ascii) :
  List.length (PyStr.split_on_aux c s cur) = S (PyStr.count_char c s).
Proof.
  revert cur. induction s as [| d r IH]; intros cur; simpl.
  - reflexivity.
  - destruct (Ascii.eqb d c); simpl; rewrite IH; reflexivity.
Qed.

Lemma split_one_separator (c : ascii) (s : string) :
  PyStr.count_char c s = 1%nat ->
  exists front back, PyStr.split_on c s = [front; back].
Proof.
  intros H. pose proof (split_on_length c s []) as Hlen.
  fold (PyStr.split_on c s) in Hlen. rewrite H in Hlen.
  destruct (PyStr.split_on c s) as [| front [| back [| ? ?]]];
    try discriminate.
  exists front, back. reflexivity.
Qed.

Lemma contains_cons (needle : string) (c : ascii) (s : string) :
  PyStr.contains needle (String c s) = false -> PyStr.contains needle s = false.
Proof. simpl. intros H. apply orb_false_iff in H. apply H. Qed.

Lemma email_validate_total (email : string) :
  exists valid risk_factors,
    _validate_email_format re_match email [] = Some (valid, risk_factors)
    /\ (valid = true ->
        exists username domain,
          PyStr.split_on "@" email = [username; domain]).
Proof.
  unfold _validate_email_format.
  destruct (re_match email_pattern email); cbn [negb].
  2:{ eexists. eexists. split; [reflexivity | discriminate]. }
  destruct (PyStr.count_char "@" email =? 1)%nat eqn:Ecount; cbn [negb].
  2:{ eexists. eexists. split; [reflexivity | discriminate]. }
  apply Nat.eqb_eq in Ecount.
  destruct (split_one_separator _ _ Ecount) as (username & domain & Esplit).
  rewrite Esplit.
  destruct (String.length username <? 1)%nat.
  { eexists. eexists. split; [reflexivity | discriminate]. }
  eexists. eexists. split; [reflexivity |].
  intros _. exists username, domain. reflexivity.
Qed.

(** The email analyzer raises on no input. *)
Lemma email_analyze_total (recruiter_email : option string) :
  exists result, analyze re_match re_search recruiter_email = Some result.
Proof.
  unfold analyze.
  destruct recruiter_email as [given |]; [| eexists; reflexivity].
  destruct (negb (PyStr.truthy given) || negb (PyStr.truthy (PyStr.strip given)));
    [eexists; reflexivity |].
  set (email := PyStr.lower (PyStr.strip given)).
  destruct (email_validate_total email) as (valid & validated & Ev & Hsplit).
  rewrite Ev. destruct valid.
  - destruct (Hsplit eq_refl) as (username & domain & Esplit).
    unfold _check_suspicious_email_characteristics, _calculate_confidence.
    rewrite Esplit. cbn [nth_error negb].
    destruct (PyStr.contains "@" email); eexists; reflexivity.
  - unfold _calculate_confidence. cbn [negb]. eexists. reflexivity.
Qed.

End EmailTotal.

Section TelegramLinkedIn.

Import PyNum JobAnalysisService.
Open Scope Q_scope.

Variable text_findall : TextAnalyzer.pattern_name -> string -> list string.
Variable email_match email_search : EmailAnalyzer.regex -> string -> bool.
Variable url_match url_search : URLAnalyzer.regex -> string -> bool.
Variable urlparse : string -> option URLAnalyzer.ParseResult.
Variable domain_match : string -> option string.

(** The findings of the platform analyzer on the two platforms. *)
Lemma telegram_findings :
  AnalysisResult.risk_factors (PlatformAnalyzer.analyze domain_match "telegram")
  = [ RiskFactor.Build PLATFORM_CREDIBILITY 50
        "Platform has lower credibility rating" (8 # 10);
      RiskFactor.Build PLATFORM_CREDIBILITY 60
        "Messaging apps are commonly used for scams" (8 # 10) ].
Proof. reflexivity. Qed.

Lemma linkedin_findings :
  AnalysisResult.risk_factors (PlatformAnalyzer.analyze domain_match "LinkedIn")
  = [].
Proof. reflexivity. Qed.

Lemma collect_results (text email url platform : AnalysisResult.t) :
  collect_risk_factors (Spec.results text email url platform)
  = (AnalysisResult.risk_factors text ++ AnalysisResult.risk_factors email
       ++ AnalysisResult.risk_factors url
       ++ AnalysisResult.risk_factors platform)%list.
Proof.
  unfold collect_risk_factors, Spec.results, Dict.values. simpl.
  rewrite app_nil_r. reflexivity.
Qed.

(** The scores of two sets of results that differ by the platform result
    only, the one of telegram against the one of LinkedIn, for findings of
    the text, email and URL analyzers. *)
Lemma platform_scores_ordered (text email url : AnalysisResult.t)
      (request_T request_L : JobAnalysisRequest.t) :
  Forall (Shape.sound TEXT_ANALYSIS) (AnalysisResult.risk_factors text) ->
  In (Shape.of_factors (AnalysisResult.risk_factors email)) Shape.email_shapes ->
  Forall (fun f => RiskFactor.category f = EMAIL_VALIDATION)
         (AnalysisResult.risk_factors email) ->
  In (Shape.of_factors (AnalysisResult.risk_factors url)) Shape.url_shapes ->
  Forall (fun f => RiskFactor.category f = URL_VALIDATION)
         (AnalysisResult.risk_factors url) ->
  JobAnalysisRequest.job_text request_T = JobAnalysisRequest.job_text request_L ->
  exists score_T level_T score_L level_L,
    _calculate_overall_risk_score_with_confidence
      (Spec.results text email url
         (PlatformAnalyzer.analyze domain_match "telegram")) request_T
    = Some (score_T, level_T)
    /\ _calculate_overall_risk_score_with_confidence
         (Spec.results text email url
            (PlatformAnalyzer.analyze domain_match "LinkedIn")) request_L
       = Some (score_L, level_L)
    /\ (score_L <= score_T)%Z.
Proof.
  intros Htext Hemail Hecat Hurl Hucat Hjob.
  set (platform_T := PlatformAnalyzer.analyze domain_match "telegram").
  set (platform_L := PlatformAnalyzer.analyze domain_match "LinkedIn").
  set (all_T := collect_risk_factors (Spec.results text email url platform_T)).
  set (all_L := collect_risk_factors (Spec.results text email url platform_L)).
  assert (Hpcat_T : Forall (fun f => RiskFactor.category f = PLATFORM_CREDIBILITY)
                           (AnalysisResult.risk_factors platform_T))
    by (subst platform_T; rewrite telegram_findings; repeat constructor).
  assert (Hpcat_L : Forall (fun f => RiskFactor.category f = PLATFORM_CREDIBILITY)
                           (AnalysisResult.risk_factors platform_L))
    by (subst platform_L; rewrite linkedin_findings; constructor).
  assert (Hfilter_T : forall category,
             filter (fun f => RiskCategory_eqb (RiskFactor.category f) category)
                    all_T
             = match category with
               | TEXT_ANALYSIS => AnalysisResult.risk_factors text
               | EMAIL_VALIDATION => AnalysisResult.risk_factors email
               | URL_VALIDATION => AnalysisResult.risk_factors url
               | PLATFORM_CREDIBILITY => AnalysisResult.risk_factors platform_T
               | GENERAL => []
               end).
  { intros category. subst all_T. rewrite collect_results.
    apply pooled_filter; auto using sound_category. }
  assert (Hfilter_L : forall category,
             filter (fun f => RiskCategory_eqb (RiskFactor.category f) category)
                    all_L
             = match category with
               | TEXT_ANALYSIS => AnalysisResult.risk_factors text
               | EMAIL_VALIDATION => AnalysisResult.risk_factors email
               | URL_VALIDATION => AnalysisResult.risk_factors url
               | PLATFORM_CREDIBILITY => AnalysisResult.risk_factors platform_L
               | GENERAL => []
               end).
  { intros category. subst all_L. rewrite collect_results.
    apply pooled_filter; auto using sound_category. }
  (* the entries of the three categories, the same on both sides *)
  destruct (sound_entry all_T _ TEXT_ANALYSIS (Hfilter_T TEXT_ANALYSIS) Htext)
    as (st & ct & Hst & Hokt & _).
  destruct (checked_entry (12 # 100) Shape.email_shapes all_T _ EMAIL_VALIDATION
              email_shapes_checked ltac:(discriminate)
              (Hfilter_T EMAIL_VALIDATION) Hemail Hecat)
    as (se & ce & Hse & Hoke & Halone_e).
  destruct (checked_entry (10 # 100) Shape.url_shapes all_T _ URL_VALIDATION
              url_shapes_checked ltac:(discriminate)
              (Hfilter_T URL_VALIDATION) Hurl Hucat)
    as (su & cu & Hsu & Hoku & Halone_u).
  assert (Hst_L : score_category all_L TEXT_ANALYSIS = Some (st, ct)).
  { rewrite <- Hst. apply score_category_filter.
    rewrite Hfilter_T, Hfilter_L. reflexivity. }
  assert (Hse_L : score_category all_L EMAIL_VALIDATION = Some (se, ce)).
  { rewrite <- Hse. apply score_category_filter.
    rewrite Hfilter_T, Hfilter_L. reflexivity. }
  assert (Hsu_L : score_category all_L URL_VALIDATION = Some (su, cu)).
  { rewrite <- Hsu. apply score_category_filter.
    rewrite Hfilter_T, Hfilter_L. reflexivity. }
  (* the platform entries and the entry of the general category *)
  assert (Hsp_T : exists sp cp,
             score_category all_T PLATFORM_CREDIBILITY = Some (sp, cp)
             /\ sp == 55 /\ cp == 8 # 10).
  { rewrite (score_category_filter all_T
               (AnalysisResult.risk_factors platform_T) PLATFORM_CREDIBILITY).
    - subst platform_T. rewrite telegram_findings.
      eexists. eexists. split; [vm_compute; reflexivity |].
      split; reflexivity.
    - rewrite Hfilter_T. subst platform_T. rewrite telegram_findings.
      reflexivity. }
  destruct Hsp_T as (sp & cp & Hsp_T & Hsp & Hcp).
  assert (Hsp_L : score_category all_L PLATFORM_CREDIBILITY = Some (0, 0)).
  { unfold score_category. rewrite Hfilter_L.
    subst platform_L. rewrite linkedin_findings. reflexivity. }
  assert (Hsg_T : score_category all_T GENERAL = Some (0, 0))
    by (unfold score_category; rewrite Hfilter_T; reflexivity).
  assert (Hsg_L : score_category all_L GENERAL = Some (0, 0))
    by (unfold score_category; rewrite Hfilter_L; reflexivity).
  (* the two scores *)
  destruct (overall_risk_score_shape
              (Spec.results text email url platform_T) request_T)
    as (scores_T & base_T & Hscores_T & Hbase_T & Hscore_T).
  destruct (overall_risk_score_shape
              (Spec.results text email url platform_L) request_L)
    as (scores_L & base_L & Hscores_L & Hbase_L & Hscore_L).
  fold all_T in Hscores_T. fold all_L in Hscores_L.
  unfold score_categories, RiskCategory_members in Hscores_T, Hscores_L.
  rewrite Hst, Hse, Hsu, Hsp_T, Hsg_T in Hscores_T.
  rewrite Hst_L, Hse_L, Hsu_L, Hsp_L, Hsg_L in Hscores_L.
  injection Hscores_T as <-. injection Hscores_L as <-.
  eexists. eexists. eexists. eexists.
  split; [exact Hscore_T |]. split; [exact Hscore_L |].
  apply clamp_mono, round_mono.
  cbn [Dict.get Spec.results String.eqb Ascii.eqb Bool.eqb].
  replace (_get_platform_risk_multiplier (Some platform_T)) with (13 # 10)
    by reflexivity.
  replace (_get_platform_risk_multiplier (Some platform_L)) with 1
    by reflexivity.
  rewrite Hjob.
  destruct (professional_bonus_offset (JobAnalysisRequest.job_text request_L))
    as [_ Hbonus].
  apply (adjusted_scores_ordered st ct se ce su cu sp cp); assumption.
Qed.

(** C7.  For every job text, recruiter email and company URL, the request
    with the platform telegram and the request with the platform LinkedIn
    both return (or both raise, which they do exactly when the URL analyzer
    raises on the company URL), and the risk score of the telegram request
    is at least the risk score of the LinkedIn request. *)
Theorem telegram_not_below_linkedin (job_text : string)
        (recruiter_email company_url : option string) :
  let run platform_source :=
    analyze_job_posting text_findall email_match email_search
      url_match url_search urlparse domain_match
      (JobAnalysisRequest.Build job_text company_url recruiter_email
                                platform_source) in
  (URLAnalyzer.analyze url_match url_search urlparse company_url = None
   /\ run "telegram"%string = None /\ run "LinkedIn"%string = None)
  \/ (exists telegram linkedin,
         run "telegram"%string = Some telegram
         /\ run "LinkedIn"%string = Some linkedin
         /\ (JobAnalysisResponse.risk_score linkedin
             <= JobAnalysisResponse.risk_score telegram)%Z).
Proof.
  intros run. subst run. unfold analyze_job_posting, _run_all_analyzers.
  cbn [JobAnalysisRequest.job_text JobAnalysisRequest.recruiter_email
       JobAnalysisRequest.company_url JobAnalysisRequest.platform_source].
  destruct (email_analyze_total email_match email_search recruiter_email)
    as [email Hemail].
  rewrite Hemail.
  destruct (URLAnalyzer.analyze url_match url_search urlparse company_url)
    as [url |] eqn:Hurl; [right | left; repeat split; reflexivity].
  destruct (email_analyze_shape _ _ _ _ Hemail) as [Heshape Hecat].
  destruct (url_analyze_shape _ _ _ _ _ Hurl) as [Hushape Hucat].
  destruct (platform_scores_ordered
              (TextAnalyzer.analyze text_findall job_text) email url
              (JobAnalysisRequest.Build job_text company_url recruiter_email
                                        "telegram")
              (JobAnalysisRequest.Build job_text company_url recruiter_email
                                        "LinkedIn")
              (text_analyze_sound text_findall job_text)
              Heshape Hecat Hushape Hucat eq_refl)
    as (score_T & level_T & score_L & level_L & HT & HL & Hle).
  fold (Spec.results (TextAnalyzer.analyze text_findall job_text) email url
          (PlatformAnalyzer.analyze domain_match "telegram")).
  fold (Spec.results (TextAnalyzer.analyze text_findall job_text) email url
          (PlatformAnalyzer.analyze domain_match "LinkedIn")).
  rewrite HT, HL.
  eexists. eexists. split; [reflexivity |]. split; [reflexivity |].
  exact Hle.
Qed.

End TelegramLinkedIn.

(** ** The statements at concrete requests *)

Section ConcreteRequests.

Import PyNum JobAnalysisService.
Open Scope Q_scope.

(** Six findings of the text category: the greatest severity x confidence
    of the first three, 100 x 0.9, and their greatest confidence.  The first
    five of them: the weighted average and the mean confidence, by their
    exact values. *)
Example category_score_six_and_five :
  (exists score confidence,
      score_category Examples.six_findings TEXT_ANALYSIS
      = Some (score, confidence)
      /\ score == 90 /\ confidence == 9 # 10)
  /\ (exists score confidence,
         score_category (firstn 5 Examples.six_findings) TEXT_ANALYSIS
         = Some (score, confidence)
         /\ score == 2505 # 40 /\ confidence == 8 # 10).
Proof.
  split; eexists; eexists; (split; [vm_compute; reflexivity |]);
    split; reflexivity.
Qed.


(** The posting with the URL https://example.com: 86 on telegram and 81 on
    LinkedIn. *)
Example telegram_linkedin_example :
  let run platform_source :=
    analyze_job_posting Examples.no_findall Examples.no_email_pattern
      Examples.no_email_pattern Examples.url_shape_only Examples.no_url_pattern
      Examples.parse_example Examples.no_domain
      (Examples.example_com_request platform_source) in
  option_map JobAnalysisResponse.risk_score (run "telegram"%string) = Some 86%Z
  /\ option_map JobAnalysisResponse.risk_score (run "LinkedIn"%string)
     = Some 81%Z.
Proof. split; vm_compute; reflexivity. Qed.

(** On that request and telegram the offset is 9 and the multiplier 1.3:
    the score is 86 with the offset taken off first, and would be 89 with
    the multiplier applied first. *)
Example offset_order_matters :
  let request := Examples.example_com_request "telegram"%string in
  exists analysis_results scores base_score,
    _run_all_analyzers Examples.no_findall Examples.no_email_pattern
      Examples.no_email_pattern Examples.url_shape_only Examples.no_url_pattern
      Examples.parse_example Examples.no_domain request
    = Some analysis_results
    /\ Rounded.score_categories Binary64.sum_left
         (collect_risk_factors analysis_results) RiskCategory_members
       = Some scores
    /\ Rounded.normalize (Rounded.blend scores) = Some base_score
    /\ _calculate_professional_bonus Examples.plain_posting = 9%Z
    /\ Rounded._get_platform_risk_multiplier
         (Dict.get analysis_results "platform"%string)
       = Binary64.of_Q (13 # 10)
    /\ Binary64.round
         (Binary64.mul
            (Binary64.max2 Binary64.zero
               (Binary64.sub base_score (Binary64.of_Z 9)))
            (Binary64.of_Q (13 # 10)))
       = Some 86%Z
    /\ Binary64.round
         (Binary64.max2 Binary64.zero
            (Binary64.sub (Binary64.mul base_score (Binary64.of_Q (13 # 10)))
                          (Binary64.of_Z 9)))
       = Some 89%Z
    /\ option_map fst
         (Rounded._calculate_overall_risk_score_with_confidence
            Binary64.sum_left analysis_results request)
       = Some 86%Z.
Proof.
  do 3 eexists.
  split; [vm_compute; reflexivity |].
  split; [vm_compute; reflexivity |].
  split; [vm_compute; reflexivity |].
  repeat split; vm_compute; reflexivity.
Qed.

(** Two findings of the email category, of severities 21 and 40 and of
    confidence 0.9, and no other finding.  The exact average is 30.5, half
    way between two integers; the quotient of the floats is
    30.500000000000004 and the score is 31. *)
Example rounded_score_example :
  let analysis_results :=
    Spec.results
      (AnalysisResult.Build [] 1 "TextAnalyzer")
      (AnalysisResult.Build
         [ RiskFactor.Build EMAIL_VALIDATION 21
             "Email address format is invalid" (9 # 10);
           RiskFactor.Build EMAIL_VALIDATION 40
             "Email uses free email provider" (9 # 10) ]
         1 "EmailAnalyzer")
      (AnalysisResult.Build [] 1 "URLAnalyzer")
      (AnalysisResult.Build [] 1 "PlatformAnalyzer") in
  let request :=
    JobAnalysisRequest.Build "Need worker" None None "linkedin" in
  Spec.weighted_average
    (AnalysisResult.risk_factors
       (AnalysisResult.Build
          [ RiskFactor.Build EMAIL_VALIDATION 21
              "Email address format is invalid" (9 # 10);
            RiskFactor.Build EMAIL_VALIDATION 40
              "Email uses free email provider" (9 # 10) ]
          1 "EmailAnalyzer"))
  == 61 # 2
  /\ option_map fst
       (Rounded._calculate_overall_risk_score_with_confidence
          Binary64.sum_left analysis_results request)
     = Some 31%Z.
Proof. split; vm_compute; reflexivity. Qed.

(** The floats of some products and sums of the source: 90 x 0.7 is below
    63 and 70 x 0.9 is 63, 55 x 1.1 is above 60.5 and is rounded to 61,
    and 0.7 + 0.1 is below 0.8. *)
Example float_values :
  Binary64.ltb (Binary64.mul (Binary64.of_Z 90) (Binary64.of_Q (7 # 10)))
               (Binary64.of_Z 63) = true
  /\ Binary64.mul (Binary64.of_Z 70) (Binary64.of_Q (9 # 10))
     = Binary64.of_Z 63
  /\ Binary64.round (Binary64.mul (Binary64.of_Z 55) (Binary64.of_Q (11 # 10)))
     = Some 61%Z
  /\ Binary64.ltb (Binary64.add (Binary64.of_Q (7 # 10)) (Binary64.of_Q (1 # 10)))
                  (Binary64.of_Q (8 # 10)) = true
  /\ Binary64.of_Q (1 # 2) = S754_finite false 4503599627370496 (-53)
  /\ Binary64.to_Q (Binary64.of_Q (1 # 2)) == 1 # 2
  /\ Binary64.of_Q (Binary64.to_Q (Binary64.of_Q (7 # 10)))
     = Binary64.of_Q (7 # 10).
Proof. repeat split; vm_compute; reflexivity. Qed.

(** The flags of six text findings, one URL finding that repeats a
    description, and the two findings of telegram. *)
Example flags_example :
  _generate_flags
    (Spec.results
       (AnalysisResult.Build Examples.six_findings 1 "TextAnalyzer")
       (AnalysisResult.Build [] 1 "EmailAnalyzer")
       (AnalysisResult.Build
          [ RiskFactor.Build URL_VALIDATION 90
              "Very short job description (12 words)" (9 # 10) ]
          1 "URLAnalyzer")
       (PlatformAnalyzer.analyze Examples.no_domain "telegram"))
  = [ "Contains personal info requests keywords: ssn";
      "Very short job description (12 words)";
      "Contains urgency pressure keywords: asap";
      "Messaging apps are commonly used for scams";
      "Platform has lower credibility rating";
      "No specific requirements or qualifications mentioned";
      "Urgency/instant keywords detected (1 instances)";
      "Multiple exclamation marks (1 instances)" ]%string.
Proof. vm_compute. reflexivity. Qed.

(** Two findings whose exact products are both 63: the float of 90 x 0.7
    is the smaller one, and the finding of severity 70 gives the first
    flag although it was found second. *)
Example flags_by_float_product :
  let exclamation :=
    RiskFactor.Build TEXT_ANALYSIS 90
      "Multiple exclamation marks (8 instances)" (7 # 10) in
  let short :=
    RiskFactor.Build TEXT_ANALYSIS 70
      "Very short job description (8 words)" (9 # 10) in
  RiskFactor.weighted exclamation == RiskFactor.weighted short
  /\ RiskFactor.sort_key exclamation < RiskFactor.sort_key short
  /\ _generate_flags
       (Spec.results
          (AnalysisResult.Build [ exclamation; short ] 1 "TextAnalyzer")
          (AnalysisResult.Build [] 1 "EmailAnalyzer")
          (AnalysisResult.Build [] 1 "URLAnalyzer")
          (AnalysisResult.Build [] 1 "PlatformAnalyzer"))
     = [ "Very short job description (8 words)";
         "Multiple exclamation marks (8 instances)" ]%string.
Proof. repeat split; vm_compute; reflexivity. Qed.

(** Python values of the string and number functions. *)
Example python_values :
  PyStr.split "  Need worker.  Good   pay. "%string
  = [ "Need"; "worker."; "Good"; "pay." ]%string
  /\ PyStr.strip "  a b  "%string = "a b"%string
  /\ PyStr.lower "LinkedIn"%string = "linkedin"%string
  /\ PyStr.contains "high fraud" "known for high fraud rates" = true
  /\ round (5 # 2) = 2%Z /\ round (7 # 2) = 4%Z
  /\ round (6559 # 100) = 66%Z /\ round (- (1 # 2)) = 0%Z
  /\ int_of (40 * (15 # 10)) = 60%Z.
Proof. repeat split; reflexivity. Qed.

End ConcreteRequests.

(** * Properties of the further parts *)

(** ** Dictionaries *)

Section DictFacts.

Variables K V : Type.
Variable eqb : K -> K -> bool.
Hypothesis eqb_eq : forall a b, eqb a b = true <-> a = b.

Lemma eqb_same (k : K) : eqb k k = true.
Proof. apply eqb_eq. reflexivity. Qed.

Lemma eqb_other (a b : K) : a <> b -> eqb a b = false.
Proof.
  intros Hne. destruct (eqb a b) eqn:E; [| reflexivity].
  apply eqb_eq in E. contradiction.
Qed.

Lemma dict_get_set_same (d : list (K * V)) (k : K) (v : V) :
  PyDict.get eqb (PyDict.set eqb d k v) k = Some v.
Proof.
  induction d as [| [k' v'] r IH]; simpl.
  - rewrite eqb_same. reflexivity.
  - destruct (eqb k k') eqn:E; simpl; rewrite E; [reflexivity | exact IH].
Qed.

Lemma dict_get_set_other (d : list (K * V)) (k k' : K) (v : V) :
  k <> k' ->
  PyDict.get eqb (PyDict.set eqb d k v) k' = PyDict.get eqb d k'.
Proof.
  intros Hne. induction d as [| [k0 v0] r IH]; simpl.
  - rewrite eqb_other by congruence. reflexivity.
  - destruct (eqb k k0) eqn:E; simpl.
    + apply eqb_eq in E. subst k0.
      rewrite eqb_other by congruence. reflexivity.
    + destruct (eqb k' k0); [reflexivity | exact IH].
Qed.

Lemma dict_get_absent (d : list (K * V)) (k : K) :
  PyDict.get eqb d k = None <-> ~ In k (map fst d).
Proof.
  induction d as [| [k' v'] r IH]; simpl.
  - split; [intros _ H; exact H | reflexivity].
  - destruct (eqb k k') eqn:E.
    + apply eqb_eq in E. subst k'.
      split; [discriminate | intros H; exfalso; apply H; left; reflexivity].
    + rewrite IH.
      split; [intros H [H' | H'];
                [subst k'; rewrite eqb_same in E; discriminate | exact (H H')]
             | intros H H'; apply H; right; exact H'].
Qed.

Lemma dict_set_keys (d : list (K * V)) (k : K) (v : V) :
  NoDup (map fst d) -> NoDup (map fst (PyDict.set eqb d k v)).
Proof.
  induction d as [| [k' v'] r IH]; simpl; intros Hd.
  - constructor; [intros H; exact H | constructor].
  - destruct (eqb k k') eqn:E; simpl; [exact Hd |].
    inversion Hd as [| ? ? Hnot Hr]; subst.
    constructor; [| exact (IH Hr)].
    intros Hin. apply Hnot.
    assert (Hne : k <> k').
    { intros ->. rewrite eqb_same in E. discriminate. }
    clear - Hin Hne eqb_eq. induction r as [| [k0 v0] r IH]; simpl in *.
    + destruct Hin as [Hin | []]. congruence.
    + destruct (eqb k k0); simpl in Hin; [exact Hin |].
      destruct Hin as [Hin | Hin]; [left; exact Hin | right; exact (IH Hin)].
Qed.

End DictFacts.

Arguments dict_get_set_same {K V eqb} eqb_eq d k v.
Arguments dict_get_set_other {K V eqb} eqb_eq d k k' v.
Arguments dict_get_absent {K V eqb} eqb_eq d k.
Arguments dict_set_keys {K V eqb} eqb_eq d k v.

(** ** The rate-limiting middleware *)

Section RateLimiting.

Import PyNum RateLimitingMiddleware RateLimitingRun.
Open Scope Q_scope.
Open Scope list_scope.

Lemma later_than_app (cutoff : Q) (a b : list Q) :
  later_than cutoff (a ++ b) = later_than cutoff a ++ later_than cutoff b.
Proof. apply filter_app. Qed.

Lemma later_than_later (c b : Q) (times : list Q) :
  c <= b -> later_than b (later_than c times) = later_than b times.
Proof.
  intros Hcb. unfold later_than.
  induction times as [| x r IH]; simpl; [reflexivity |].
  destruct (Qlt_bool c x) eqn:Ec; simpl; rewrite IH; [reflexivity |].
  destruct (Qlt_bool b x) eqn:Eb; [| reflexivity].
  apply Qlt_bool_true in Eb. apply Qlt_bool_false in Ec. lra.
Qed.

Lemma later_than_none (c b : Q) (times : list Q) :
  c <= b -> later_than c times = [] -> later_than b times = [].
Proof.
  intros Hcb H. rewrite <- (later_than_later c b times Hcb), H. reflexivity.
Qed.

(** The dictionary after the loop of [_cleanup_old_entries]. *)
Lemma cleanup_absent (cm ch : Q) (d : list (string * client_data))
      (ip : string) :
  ~ In ip (map fst d) ->
  ~ In ip (map fst (flat_map (cleanup_client cm ch) d)).
Proof.
  induction d as [| [k data] r IH]; simpl; intros Hnot; [exact Hnot |].
  rewrite map_app. intros Hin. apply in_app_or in Hin.
  destruct Hin as [Hin | Hin].
  - destruct (later_than cm (minute data)), (later_than ch (hour data));
      simpl in Hin; try (destruct Hin as [Hin | []]; apply Hnot; left; exact Hin).
    exact Hin.
  - apply IH; [| exact Hin]. intros H. apply Hnot. right. exact H.
Qed.

Lemma cleanup_keys (cm ch : Q) (d : list (string * client_data)) :
  NoDup (map fst d) -> NoDup (map fst (flat_map (cleanup_client cm ch) d)).
Proof.
  induction d as [| [k data] r IH]; simpl; intros Hd; [constructor |].
  inversion Hd as [| ? ? Hnot Hr]; subst.
  rewrite map_app.
  assert (Hrest := cleanup_absent cm ch r k Hnot).
  destruct (later_than cm (minute data)), (later_than ch (hour data));
    simpl; try (constructor; [exact Hrest | exact (IH Hr)]).
  exact (IH Hr).
Qed.

Lemma cleanup_get (cm ch : Q) (d : list (string * client_data))
      (ip : string) :
  NoDup (map fst d) ->
  PyDict.get String.eqb (flat_map (cleanup_client cm ch) d) ip
  = match PyDict.get String.eqb d ip with
    | Some data =>
        match later_than cm (minute data), later_than ch (hour data) with
        | [], [] => None
        | m, h => Some {| minute := m; hour := h |}
        end
    | None => None
    end.
Proof.
  induction d as [| [k data] r IH]; simpl; intros Hd; [reflexivity |].
  inversion Hd as [| ? ? Hnot Hr]; subst.
  destruct (String.eqb ip k) eqn:E.
  - apply String.eqb_eq in E. subst k.
    assert (Hrest : PyDict.get String.eqb
                      (flat_map (cleanup_client cm ch) r) ip = None).
    { apply (dict_get_absent String.eqb_eq), cleanup_absent, Hnot. }
    destruct (later_than cm (minute data)), (later_than ch (hour data));
      simpl; rewrite ?String.eqb_refl; try reflexivity.
    exact Hrest.
  - destruct (later_than cm (minute data)), (later_than ch (hour data));
      simpl; rewrite ?E; exact (IH Hr).
Qed.

Lemma cleanup_minute (self : t) (current_time cutoff : Q) (ip : string) :
  NoDup (map fst (request_counts self)) ->
  current_time - 60 <= cutoff ->
  later_than cutoff (minute_of (_cleanup_old_entries self current_time) ip)
  = later_than cutoff (minute_of self ip).
Proof.
  intros Hd Hc. unfold _cleanup_old_entries.
  destruct (Qlt_bool _ _); [reflexivity |].
  unfold minute_of. cbn [request_counts]. rewrite (cleanup_get _ _ _ _ Hd).
  destruct (PyDict.get String.eqb (request_counts self) ip) as [data |];
    [| reflexivity].
  destruct (later_than (current_time - 60) (minute data)) as [| x m] eqn:Em.
  - rewrite (later_than_none _ _ _ Hc Em).
    destruct (later_than (current_time - 3600) (hour data)); reflexivity.
  - cbn [minute]. rewrite <- Em. apply later_than_later, Hc.
Qed.

Lemma cleanup_hour (self : t) (current_time cutoff : Q) (ip : string) :
  NoDup (map fst (request_counts self)) ->
  current_time - 3600 <= cutoff ->
  later_than cutoff (hour_of (_cleanup_old_entries self current_time) ip)
  = later_than cutoff (hour_of self ip).
Proof.
  intros Hd Hc. unfold _cleanup_old_entries.
  destruct (Qlt_bool _ _); [reflexivity |].
  unfold hour_of. cbn [request_counts]. rewrite (cleanup_get _ _ _ _ Hd).
  destruct (PyDict.get String.eqb (request_counts self) ip) as [data |];
    [| reflexivity].
  destruct (later_than (current_time - 3600) (hour data)) as [| x h] eqn:Eh.
  - rewrite (later_than_none _ _ _ Hc Eh).
    destruct (later_than (current_time - 60) (minute data)); reflexivity.
  - destruct (later_than (current_time - 60) (minute data));
      cbn [hour]; rewrite <- Eh; apply later_than_later, Hc.
Qed.

Lemma cleanup_settings (self : t) (current_time : Q) :
  requests_per_minute (_cleanup_old_entries self current_time)
  = requests_per_minute self
  /\ requests_per_hour (_cleanup_old_entries self current_time)
     = requests_per_hour self
  /\ (NoDup (map fst (request_counts self)) ->
      NoDup (map fst (request_counts
                        (_cleanup_old_entries self current_time)))).
Proof.
  unfold _cleanup_old_entries.
  destruct (Qlt_bool _ _); cbn; repeat split; auto.
  apply cleanup_keys.
Qed.

(** The entry of a client after [if client_ip not in ...]. *)
Lemma with_client_get (d : list (string * client_data)) (ip : string) :
  exists data,
    PyDict.get String.eqb (with_client d ip) ip = Some data
    /\ minute data = match PyDict.get String.eqb d ip with
                     | Some found => minute found
                     | None => []
                     end
    /\ hour data = match PyDict.get String.eqb d ip with
                   | Some found => hour found
                   | None => []
                   end.
Proof.
  unfold with_client, PyDict.has.
  destruct (PyDict.get String.eqb d ip) as [found |] eqn:E; cbn [negb].
  - exists found. rewrite E. repeat split.
  - eexists. rewrite (dict_get_set_same String.eqb_eq). repeat split.
Qed.

Lemma with_client_other (d : list (string * client_data)) (ip ip' : string) :
  ip <> ip' ->
  PyDict.get String.eqb (with_client d ip) ip' = PyDict.get String.eqb d ip'.
Proof.
  intros Hne. unfold with_client.
  destruct (negb (PyDict.has String.eqb d ip)); [| reflexivity].
  apply (dict_get_set_other String.eqb_eq), Hne.
Qed.

Lemma with_client_keys (d : list (string * client_data)) (ip : string) :
  NoDup (map fst d) -> NoDup (map fst (with_client d ip)).
Proof.
  intros Hd. unfold with_client.
  destruct (negb (PyDict.has String.eqb d ip)); [| exact Hd].
  apply (dict_set_keys String.eqb_eq), Hd.
Qed.

Lemma with_client_minute (self : t) (ip ip' : string) :
  minute_of (with_counts self (with_client (request_counts self) ip)) ip'
  = minute_of self ip'
  /\ hour_of (with_counts self (with_client (request_counts self) ip)) ip'
     = hour_of self ip'.
Proof.
  unfold minute_of, hour_of. cbn [with_counts request_counts].
  destruct (String.eqb ip ip') eqn:E.
  - apply String.eqb_eq in E. subst ip'.
    destruct (with_client_get (request_counts self) ip) as (data & Hg & Hm & Hh).
    rewrite Hg, Hm, Hh. split; reflexivity.
  - apply String.eqb_neq in E.
    rewrite (with_client_other _ _ _ E). split; reflexivity.
Qed.

(** The message of [_is_rate_limited] is that of the sliding-window
    limiter on the times the middleware keeps. *)
Lemma is_rate_limited_answer (self : t) (ip : string) (current_time : Q) :
  exists after,
    _is_rate_limited self ip current_time
    = Some (after,
            if (requests_per_minute self
                  <=? Z.of_nat (recent 60 current_time (minute_of self ip)))%Z
            then Some ("Rate limit exceeded: "
                         ++ PyMore.of_int (requests_per_minute self)
                         ++ " requests per minute")%string
            else if (requests_per_hour self
                       <=? Z.of_nat (recent 3600 current_time
                                            (hour_of self ip)))%Z
            then Some ("Rate limit exceeded: "
                         ++ PyMore.of_int (requests_per_hour self)
                         ++ " requests per hour")%string
            else None)
    /\ after = with_counts self (with_client (request_counts self) ip).
Proof.
  unfold _is_rate_limited, recent, minute_of, hour_of.
  cbn [with_counts request_counts requests_per_minute requests_per_hour].
  destruct (with_client_get (request_counts self) ip) as (data & Hg & Hm & Hh).
  rewrite Hg, Hm, Hh.
  eexists. split; [| reflexivity].
  destruct (_ <=? _)%Z; [reflexivity |].
  destruct (_ <=? _)%Z; reflexivity.
Qed.

Lemma record_request_result (self : t) (ip : string) (current_time : Q) :
  exists after,
    _record_request self ip current_time = Some after
    /\ requests_per_minute after = requests_per_minute self
    /\ requests_per_hour after = requests_per_hour self
    /\ (NoDup (map fst (request_counts self)) ->
        NoDup (map fst (request_counts after)))
    /\ (forall ip',
           minute_of after ip'
           = (if String.eqb ip' ip
              then minute_of self ip' ++ [current_time]
              else minute_of self ip')
           /\ hour_of after ip'
              = (if String.eqb ip' ip
                 then hour_of self ip' ++ [current_time]
                 else hour_of self ip')).
Proof.
  unfold _record_request.
  destruct (with_client_get (request_counts self) ip) as (data & Hg & Hm & Hh).
  rewrite Hg. eexists. split; [reflexivity |].
  split; [reflexivity |]. split; [reflexivity |].
  split.
  { intros Hd. cbn [with_counts request_counts].
    apply (dict_set_keys String.eqb_eq), with_client_keys, Hd. }
  intros ip'. unfold minute_of, hour_of. cbn [with_counts request_counts].
  destruct (String.eqb ip' ip) eqn:E.
  - apply String.eqb_eq in E. subst ip'.
    rewrite (dict_get_set_same String.eqb_eq). cbn [minute hour]. rewrite Hm, Hh.
    split; reflexivity.
  - apply String.eqb_neq in E.
    rewrite (dict_get_set_other String.eqb_eq) by congruence.
    rewrite with_client_other by congruence. split; reflexivity.
Qed.

Lemma tracks_later (self : t) (now now' : Q) (served : string -> list Q) :
  now <= now' -> tracks self now served -> tracks self now' served.
Proof.
  intros Hle [Hk Hm Hh]. constructor.
  - exact Hk.
  - intros ip c Hc. apply Hm. lra.
  - intros ip c Hc. apply Hh. lra.
Qed.

Lemma get_client_ip_total (request : Request.t) :
  exists client_ip, _get_client_ip request = Some client_ip.
Proof.
  unfold _get_client_ip.
  destruct (nonempty (Request.forwarded_for request)) as [forwarded_for |].
  - pose proof (split_on_length "," forwarded_for []) as Hlen.
    fold (PyStr.split_on "," forwarded_for) in Hlen.
    destruct (PyStr.split_on "," forwarded_for) as [| first rest];
      [discriminate |].
    eexists. reflexivity.
  - destruct (nonempty (Request.real_ip request)); [eexists; reflexivity |].
    destruct (Request.client_host request); eexists; reflexivity.
Qed.

Lemma tracks_cleanup (self : t) (now current_time : Q)
      (served : string -> list Q) :
  now <= current_time ->
  tracks self now served ->
  tracks (_cleanup_old_entries self current_time) current_time served.
Proof.
  intros Hle [Hk Hm Hh]. constructor.
  - apply cleanup_settings, Hk.
  - intros ip c Hc. rewrite (cleanup_minute _ _ _ _ Hk Hc). apply Hm. lra.
  - intros ip c Hc. rewrite (cleanup_hour _ _ _ _ Hk Hc). apply Hh. lra.
Qed.

Lemma tracks_with_client (self : t) (now : Q) (served : string -> list Q)
      (ip : string) :
  tracks self now served ->
  tracks (with_counts self (with_client (request_counts self) ip)) now served.
Proof.
  intros [Hk Hm Hh]. constructor.
  - cbn [with_counts request_counts]. apply with_client_keys, Hk.
  - intros ip' c Hc.
    rewrite (proj1 (with_client_minute self ip ip')). apply Hm, Hc.
  - intros ip' c Hc.
    rewrite (proj2 (with_client_minute self ip ip')). apply Hh, Hc.
Qed.

Lemma tracks_record (self after : t) (now current_time : Q)
      (served : string -> list Q) (ip : string) :
  now <= current_time ->
  tracks self now served ->
  _record_request self ip current_time = Some after ->
  tracks after current_time (also_served served ip current_time).
Proof.
  intros Hle [Hk Hm Hh] Hrec.
  destruct (record_request_result self ip current_time)
    as (after' & Hrec' & _ & _ & Hkeys & Hlists).
  rewrite Hrec in Hrec'. injection Hrec' as <-.
  constructor.
  - apply Hkeys, Hk.
  - intros ip' c Hc. rewrite (proj1 (Hlists ip')). unfold also_served.
    destruct (String.eqb ip' ip); rewrite ?later_than_app;
      rewrite Hm by lra; reflexivity.
  - intros ip' c Hc. rewrite (proj2 (Hlists ip')). unfold also_served.
    destruct (String.eqb ip' ip); rewrite ?later_than_app;
      rewrite Hh by lra; reflexivity.
Qed.

(** Over a clock that does not go back, the middleware answers as the
    sliding-window limiter on the times served so far. *)
Lemma serve_sliding_window (arrivals : list arrival) :
  forall (self : t) (now : Q) (served : string -> list Q),
    tracks self now served ->
    chronological now arrivals ->
    exists after,
      serve self arrivals
      = Some (after,
              sliding_window (requests_per_minute self)
                             (requests_per_hour self) served arrivals).
Proof.
  induction arrivals as [| a rest IH]; intros self now served Htracks Hclock.
  - eexists. reflexivity.
  - destruct Hclock as (H1 & H2 & H3 & Hrest).
    cbn [serve sliding_window]. unfold dispatch, limited_path.
    destruct (PyStr.mem (Request.path (request a)) _); cbn [negb].
    { destruct (IH self (at_record (clock a)) served) as (after & Hserve);
        [apply (tracks_later self now); [lra | exact Htracks] | exact Hrest |].
      rewrite Hserve. eexists. reflexivity. }
    pose proof (tracks_cleanup self now _ served H1 Htracks) as Hclean.
    destruct (cleanup_settings self (at_cleanup (clock a))) as (Hpm & Hph & _).
    set (cleaned := _cleanup_old_entries self (at_cleanup (clock a))) in *.
    destruct (get_client_ip_total (request a)) as (ip & Hip). rewrite Hip.
    destruct (is_rate_limited_answer cleaned ip (at_check (clock a)))
      as (checked & Hcheck & Hchecked).
    rewrite Hcheck.
    assert (Hminute :
              recent 60 (at_check (clock a)) (minute_of cleaned ip)
              = recent 60 (at_check (clock a)) (served ip)).
    { unfold recent. rewrite (tracks_minute _ _ _ Hclean) by lra.
      reflexivity. }
    assert (Hhour :
              recent 3600 (at_check (clock a)) (hour_of cleaned ip)
              = recent 3600 (at_check (clock a)) (served ip)).
    { unfold recent. rewrite (tracks_hour _ _ _ Hclean) by lra.
      reflexivity. }
    rewrite Hminute, Hhour, Hpm, Hph.
    assert (Htracked : tracks checked (at_check (clock a)) served).
    { subst checked. apply tracks_with_client.
      apply (tracks_later cleaned (at_cleanup (clock a))); [lra | exact Hclean]. }
    assert (Hsettings : requests_per_minute checked = requests_per_minute self
                        /\ requests_per_hour checked = requests_per_hour self).
    { subst checked. cbn [with_counts requests_per_minute requests_per_hour].
      split; assumption. }
    destruct Hsettings as (Hpm' & Hph').
    destruct (requests_per_minute self <=? _)%Z.
    { cbn [nonempty PyStr.truthy append].
      destruct (IH checked (at_record (clock a)) served) as (after & Hserve);
        [apply (tracks_later checked (at_check (clock a)));
           [lra | exact Htracked] | exact Hrest |].
      rewrite Hserve, Hpm', Hph'. eexists. reflexivity. }
    destruct (requests_per_hour self <=? _)%Z.
    { cbn [nonempty PyStr.truthy append].
      destruct (IH checked (at_record (clock a)) served) as (after & Hserve);
        [apply (tracks_later checked (at_check (clock a)));
           [lra | exact Htracked] | exact Hrest |].
      rewrite Hserve, Hpm', Hph'. eexists. reflexivity. }
    cbn [nonempty].
    destruct (record_request_result checked ip (at_record (clock a)))
      as (recorded & Hrec & Hpm'' & Hph'' & _).
    rewrite Hrec.
    destruct (IH recorded (at_record (clock a))
                 (also_served served ip (at_record (clock a))))
      as (after & Hserve);
      [apply (tracks_record checked recorded (at_check (clock a)));
         [lra | exact Htracked | exact Hrec] | exact Hrest |].
    rewrite Hserve, Hpm'', Hph'', Hpm', Hph'. eexists. reflexivity.
Qed.

Lemma filter_length_le {A : Type} (p q : A -> bool) (l : list A) :
  (forall x, p x = true -> q x = true) ->
  (List.length (filter p l) <= List.length (filter q l))%nat.
Proof.
  intros Hpq. induction l as [| x r IH]; simpl; [lia |].
  destruct (p x) eqn:Ep.
  - rewrite (Hpq x Ep). simpl. lia.
  - destruct (q x); simpl; lia.
Qed.

Lemma in_window_app (length now : Q) (a b : list Q) :
  in_window length now (a ++ b)
  = (in_window length now a + in_window length now b)%nat.
Proof. unfold in_window. rewrite filter_app. apply length_app. Qed.

Lemma in_window_recent (length now checked : Q) (times : list Q) :
  checked <= now ->
  (in_window length now times <= recent length checked times)%nat.
Proof.
  intros Hle. unfold in_window, recent, later_than.
  apply filter_length_le. intros x Hx.
  apply andb_true_iff in Hx. destruct Hx as [Hx _].
  apply Qlt_bool_true in Hx. apply Qlt_bool_true. lra.
Qed.

Lemma within_limits_append (per_minute per_hour : Z) (times : list Q)
      (checked recorded : Q) :
  checked <= recorded ->
  (Z.of_nat (recent 60 checked times) < per_minute)%Z ->
  (Z.of_nat (recent 3600 checked times) < per_hour)%Z ->
  within_limits per_minute per_hour times ->
  within_limits per_minute per_hour (times ++ [recorded]).
Proof.
  intros Hle Hm Hh Hin now. rewrite !in_window_app.
  destruct (Hin now) as [Hin60 Hin3600].
  split.
  - unfold in_window at 2. cbn [filter].
    destruct (Qlt_bool (now - 60) recorded && Qle_bool recorded now) eqn:E;
      cbn [List.length]; [| lia].
    apply andb_true_iff in E. destruct E as [_ E].
    apply Qle_bool_iff in E.
    assert (H := in_window_recent 60 now checked times).
    specialize (H ltac:(lra)). lia.
  - unfold in_window at 2. cbn [filter].
    destruct (Qlt_bool (now - 3600) recorded && Qle_bool recorded now) eqn:E;
      cbn [List.length]; [| lia].
    apply andb_true_iff in E. destruct E as [_ E].
    apply Qle_bool_iff in E.
    assert (H := in_window_recent 3600 now checked times).
    specialize (H ltac:(lra)). lia.
Qed.

(** The times the sliding-window limiter serves to a client stay within
    the limits. *)
Lemma sliding_window_within (per_minute per_hour : Z)
      (arrivals : list arrival) :
  forall (served : string -> list Q) (now : Q),
    chronological now arrivals ->
    (forall ip, within_limits per_minute per_hour (served ip)) ->
    forall ip,
      within_limits per_minute per_hour
        (served ip
           ++ served_times ip arrivals
                (sliding_window per_minute per_hour served arrivals)).
Proof.
  induction arrivals as [| a rest IH]; intros served now Hclock Hserved ip.
  - cbn. rewrite app_nil_r. apply Hserved.
  - destruct Hclock as (H1 & H2 & H3 & Hrest).
    cbn [sliding_window].
    destruct (limited_path a) eqn:Epath.
    2:{ cbn [served_times]. rewrite Epath. cbn [andb].
        destruct (_get_client_ip (request a));
          apply (IH served _ Hrest Hserved). }
    destruct (get_client_ip_total (request a)) as (client & Hclient).
    rewrite Hclient.
    destruct (per_minute <=? _)%Z eqn:Em.
    { cbn [served_times]. apply (IH served _ Hrest Hserved). }
    destruct (per_hour <=? _)%Z eqn:Eh.
    { cbn [served_times]. apply (IH served _ Hrest Hserved). }
    apply Z.leb_gt in Em, Eh.
    cbn [served_times]. rewrite Hclient, Epath. cbn [andb].
    assert (Hnext : forall ip',
               within_limits per_minute per_hour
                 (also_served served client (at_record (clock a)) ip')).
    { intros ip'. unfold also_served.
      destruct (String.eqb ip' client) eqn:E; [| apply Hserved].
      apply String.eqb_eq in E. subst ip'.
      apply (within_limits_append _ _ _ (at_check (clock a)));
        [exact H3 | exact Em | exact Eh | apply Hserved]. }
    pose proof (IH _ _ Hrest Hnext ip) as Hip.
    unfold also_served at 1 in Hip.
    rewrite (String.eqb_sym client ip).
    destruct (String.eqb ip client); [| exact Hip].
    rewrite <- app_assoc in Hip. exact Hip.
Qed.

(** X1.  Over a clock that does not go back, the middleware answers every
    sequence of requests as the sliding-window limiter of its docstring
    does on the full history of the times served to each client: the
    periodic cleanup, the entries made for clients that are refused and
    the requests of other clients change no answer, and no call
    raises. *)
Theorem rate_limiter_is_sliding_window
        (per_minute per_hour interval : Z) (started : Q)
        (arrivals : list arrival) :
  chronological started arrivals ->
  exists after,
    serve (__init__ per_minute per_hour interval started) arrivals
    = Some (after,
            sliding_window per_minute per_hour (fun _ => []) arrivals).
Proof.
  intros Hclock.
  apply (serve_sliding_window arrivals
           (__init__ per_minute per_hour interval started) started);
    [| exact Hclock].
  constructor.
  - cbn. constructor.
  - intros ip c _. reflexivity.
  - intros ip c _. reflexivity.
Qed.

Lemma rate_limiter_is_sliding_window_witness :
  chronological 0 MoreExamples.burst
  /\ exists after,
       serve (__init__ 2 1000 300 0) MoreExamples.burst
       = Some (after,
               sliding_window 2 1000 (fun _ => []) MoreExamples.burst).
Proof.
  assert (H : chronological 0 MoreExamples.burst).
  { cbn. repeat split; lra. }
  split; [exact H |].
  exact (rate_limiter_is_sliding_window 2 1000 300 0 MoreExamples.burst H).
Defined.

(** X2.  Over a clock that does not go back, the requests of a client
    that the middleware lets through to the next handler on a limited
    path are never more than [requests_per_minute] in any window of 60
    seconds, nor more than [requests_per_hour] in any window of 3600
    seconds (none at all for a limit of zero or less). *)
Theorem rate_limiter_bounds_every_window
        (per_minute per_hour interval : Z) (started : Q)
        (arrivals : list arrival) :
  chronological started arrivals ->
  exists after answers,
    serve (__init__ per_minute per_hour interval started) arrivals
    = Some (after, answers)
    /\ forall client_ip,
         within_limits per_minute per_hour
           (served_times client_ip arrivals answers).
Proof.
  intros Hclock.
  destruct (serve_sliding_window arrivals
              (__init__ per_minute per_hour interval started) started
              (fun _ => [])) as (after & Hserve); [| exact Hclock |].
  { constructor.
    - cbn. constructor.
    - intros ip c _. reflexivity.
    - intros ip c _. reflexivity. }
  exists after. eexists. split; [exact Hserve |].
  intros client_ip. cbn [__init__ requests_per_minute requests_per_hour].
  apply (sliding_window_within per_minute per_hour arrivals
           (fun _ => []) started Hclock).
  intros ip now. cbn. lia.
Qed.

Lemma rate_limiter_bounds_every_window_witness :
  chronological 0 MoreExamples.burst
  /\ exists after answers,
       serve (__init__ 2 1000 300 0) MoreExamples.burst
       = Some (after, answers)
       /\ forall client_ip,
            within_limits 2 1000
              (served_times client_ip MoreExamples.burst answers).
Proof.
  assert (H : chronological 0 MoreExamples.burst).
  { cbn. repeat split; lra. }
  split; [exact H |].
  exact (rate_limiter_bounds_every_window 2 1000 300 0 MoreExamples.burst H).
Defined.

(** The answers to the burst: the third request of the first client is
    refused, the other client and the health check are not, and the first
    client is served again a minute later. *)
Example burst_answers :
  option_map snd (serve (__init__ 2 1000 300 0) MoreExamples.burst)
  = Some [ call_next; call_next;
           too_many_requests "Rate limit exceeded: 2 requests per minute";
           call_next; call_next; call_next ].
Proof. vm_compute. reflexivity. Qed.

End RateLimiting.

(** ** The addresses of a client *)

Section ClientAddress.

Import RateLimitingMiddleware.

(** X3.  The address the rate limiter counts a request under and the
    address the logging middleware logs for it are both defined, and they
    are the same unless the request carries both an [X-Forwarded-For] and
    an [X-Real-IP] header, neither of them empty: then the limiter takes
    the first address of [X-Forwarded-For], stripped, and the log shows
    [X-Real-IP]. *)
Theorem limited_and_logged_client_ip (request : Request.t) :
  exists limited logged,
    _get_client_ip request = Some limited
    /\ LoggingMiddleware._get_client_info_client_ip request = Some logged
    /\ match nonempty (Request.forwarded_for request),
             nonempty (Request.real_ip request) with
       | Some forwarded_for, Some real_ip =>
           logged = real_ip
           /\ Some limited
              = option_map PyStr.strip
                  (nth_error (PyStr.split_on "," forwarded_for) 0)
       | _, _ => limited = logged
       end.
Proof.
  unfold _get_client_ip, LoggingMiddleware._get_client_info_client_ip.
  destruct (nonempty (Request.forwarded_for request)) as [forwarded_for |].
  - pose proof (split_on_length "," forwarded_for []) as Hlen.
    fold (PyStr.split_on "," forwarded_for) in Hlen.
    destruct (PyStr.split_on "," forwarded_for) as [| first rest];
      [discriminate |].
    cbn [nth_error option_map].
    destruct (nonempty (Request.real_ip request)) as [real_ip |];
      eexists; eexists; repeat split; reflexivity.
  - destruct (nonempty (Request.real_ip request)) as [real_ip |];
      destruct (Request.client_host request);
      eexists; eexists; repeat split; reflexivity.
Qed.

End ClientAddress.

(** ** The metrics collector *)

Section Metrics.

Import PyNum MetricsCollector.
Open Scope Q_scope.
Open Scope list_scope.

Lemma count_one_result {K : Type} (eqb : K -> K -> bool)
      (eqb_eq : forall a b, eqb a b = true <-> a = b)
      (d : list (K * Z)) (k : K) :
  exists d',
    count_one eqb d k = Some d'
    /\ PyDict.get eqb d' k
       = Some (match PyDict.get eqb d k with
               | Some n => (n + 1)%Z
               | None => 1%Z
               end)
    /\ forall k', k' <> k -> PyDict.get eqb d' k' = PyDict.get eqb d k'.
Proof.
  unfold count_one, PyDict.has.
  destruct (PyDict.get eqb d k) as [n |] eqn:E; cbn [negb].
  - rewrite E. eexists. split; [reflexivity |].
    split; [apply (dict_get_set_same eqb_eq) |].
    intros k' Hne. apply (dict_get_set_other eqb_eq). congruence.
  - rewrite (dict_get_set_same eqb_eq). eexists. split; [reflexivity |].
    split; [apply (dict_get_set_same eqb_eq) |].
    intros k' Hne.
    rewrite !(dict_get_set_other eqb_eq) by congruence. reflexivity.
Qed.

Lemma tally_last {K : Type} (eqb : K -> K -> bool)
      (key : string * Z * Q -> K) (k : K)
      (requests : list (string * Z * Q)) (r : string * Z * Q) :
  tally eqb key k (requests ++ [r])
  = (tally eqb key k requests + (if eqb (key r) k then 1 else 0))%Z.
Proof.
  unfold tally. rewrite filter_app, length_app. cbn [filter].
  destruct (eqb (key r) k); cbn [List.length]; lia.
Qed.

Lemma counted_next (n : Z) :
  (0 <= n)%Z ->
  Some (match counted n with Some m => (m + 1)%Z | None => 1%Z end)
  = counted (n + 1).
Proof.
  intros Hn. unfold counted.
  destruct (n =? 0)%Z eqn:E.
  - apply Z.eqb_eq in E. subst n. reflexivity.
  - apply Z.eqb_neq in E.
    destruct (n + 1 =? 0)%Z eqn:E'; [| reflexivity].
    apply Z.eqb_eq in E'. lia.
Qed.

Lemma last_n_next {A : Type} (items : list A) (x : A) :
  (let times := PyMore.last_n 1000 items ++ [x] in
   if (1000 <? List.length times)%nat then PyMore.last_n 1000 times
   else times)
  = PyMore.last_n 1000 (items ++ [x]).
Proof.
  unfold PyMore.last_n. cbn zeta.
  rewrite !length_app, length_skipn. cbn [List.length].
  destruct (1000 <? _)%nat eqn:E.
  - apply Nat.ltb_lt in E.
    rewrite !skipn_app, length_skipn, skipn_skipn.
    replace (List.length items - (List.length items - 1000) + 1 - 1000
             + (List.length items - 1000))%nat
      with (List.length items + 1 - 1000)%nat by lia.
    f_equal. f_equal. lia.
  - apply Nat.ltb_ge in E.
    replace (List.length items - 1000)%nat with 0%nat by lia.
    replace (List.length items + 1 - 1000)%nat with 0%nat by lia.
    reflexivity.
Qed.

Lemma record_request_holds (self : t) (requests : list (string * Z * Q))
      (method : string) (status_code : Z) (duration : Q) :
  holds self requests ->
  exists after,
    record_request self method status_code duration = Some after
    /\ holds after (requests ++ [(method, status_code, duration)])
    /\ start_time after = start_time self.
Proof.
  intros [Htotal Hmethods Hstatuses Htimes Herrors].
  unfold record_request.
  destruct (count_one_result String.eqb String.eqb_eq
              (requests_by_method self) method) as (dm & Em & Hm & Hm').
  destruct (count_one_result Z.eqb Z.eqb_eq
              (requests_by_status self) status_code) as (ds & Es & Hs & Hs').
  rewrite Em, Es. eexists. split; [reflexivity |].
  split; [| reflexivity].
  constructor; cbn [requests_total requests_by_method requests_by_status
                      response_times errors_total].
  - rewrite Htotal, length_app. cbn [List.length]. lia.
  - intros m. rewrite tally_last. cbn [method_of fst].
    destruct (String.eqb method m) eqn:E.
    + apply String.eqb_eq in E. subst m.
      rewrite Hm, Hmethods. apply counted_next. unfold tally. lia.
    + apply String.eqb_neq in E.
      rewrite Hm' by congruence. rewrite Hmethods, Z.add_0_r. reflexivity.
  - intros c. rewrite tally_last. cbn [status_of fst snd].
    destruct (Z.eqb status_code c) eqn:E.
    + apply Z.eqb_eq in E. subst c.
      rewrite Hs, Hstatuses. apply counted_next. unfold tally. lia.
    + apply Z.eqb_neq in E.
      rewrite Hs' by congruence. rewrite Hstatuses, Z.add_0_r. reflexivity.
  - rewrite Htimes, map_app. cbn [map duration_of snd].
    apply (last_n_next (map duration_of requests) duration).
  - rewrite Herrors. unfold errors. rewrite filter_app, length_app.
    cbn [filter status_of fst snd].
    destruct (400 <=? status_code)%Z; cbn [List.length]; lia.
Qed.

Lemma record_all_holds (rest : list (string * Z * Q)) :
  forall (self : t) (requests : list (string * Z * Q)),
    holds self requests ->
    exists after,
      record_all self rest = Some after
      /\ holds after (requests ++ rest)
      /\ start_time after = start_time self.
Proof.
  induction rest as [| [[method status_code] duration] rest IH];
    intros self requests Hholds.
  - exists self. rewrite app_nil_r.
    split; [reflexivity | split; [exact Hholds | reflexivity]].
  - cbn [record_all].
    destruct (record_request_holds self requests method status_code duration
                Hholds) as (next & Hnext & Hheld & Hstart).
    rewrite Hnext.
    destruct (IH next _ Hheld) as (after & Hafter & Hfinal & Hstart').
    exists after. rewrite <- app_assoc in Hfinal.
    split; [exact Hafter | split; [exact Hfinal | congruence]].
Qed.

Lemma init_holds (started : Q) : holds (__init__ started) [].
Proof. constructor; reflexivity. Qed.

(** X4.  Recording never raises, and after any sequence of requests the
    counters are exact: the total is the number of requests, the entry of
    a method or of a status code is the number of requests with it (no
    entry when there is none), and the error count is the number of
    requests with a status of 400 or more. *)
Theorem metrics_counters_are_exact (started : Q)
        (requests : list (string * Z * Q)) :
  exists self,
    record_all (__init__ started) requests = Some self
    /\ requests_total self = Z.of_nat (List.length requests)
    /\ errors_total self = errors requests
    /\ (forall method,
           PyDict.get String.eqb (requests_by_method self) method
           = counted (tally String.eqb method_of method requests))
    /\ (forall status_code,
           PyDict.get Z.eqb (requests_by_status self) status_code
           = counted (tally Z.eqb status_of status_code requests)).
Proof.
  destruct (record_all_holds requests (__init__ started) []
              (init_holds started)) as (self & Hrun & Hholds & _).
  cbn [app] in Hholds. destruct Hholds.
  exists self. repeat split; assumption.
Qed.

(** X5.  The response times kept are those of the last 1000 requests, in
    their order. *)
Theorem metrics_keep_last_thousand (started : Q)
        (requests : list (string * Z * Q)) :
  exists self,
    record_all (__init__ started) requests = Some self
    /\ response_times self
       = skipn (List.length requests - 1000) (map duration_of requests)
    /\ List.length (response_times self)
       = Nat.min (List.length requests) 1000.
Proof.
  destruct (record_all_holds requests (__init__ started) []
              (init_holds started)) as (self & Hrun & Hholds & _).
  cbn [app] in Hholds. destruct Hholds as [_ _ _ Htimes _].
  exists self. split; [exact Hrun |].
  rewrite Htimes. unfold PyMore.last_n. rewrite length_map.
  split; [reflexivity |].
  rewrite length_skipn, length_map. lia.
Qed.

Lemma fold_min2 (l : list Q) (a : Q) :
  let m := fold_left min2 l a in
  m <= a /\ forall x, In x l -> m <= x.
Proof.
  revert a. induction l as [| y l IH]; intros a; simpl.
  - split; [lra | contradiction].
  - destruct (IH (min2 a y)) as (Hle & Hall).
    destruct (min2_spec a y) as (Ha & Hy & _).
    split; [lra |].
    intros x [<- | Hx]; [lra | auto].
Qed.

Lemma round2_mono (x y : Q) : x <= y -> PyMore.round2 x <= PyMore.round2 y.
Proof.
  intros Hxy. unfold PyMore.round2.
  assert (H : (round (x * 100) <= round (y * 100))%Z)
    by (apply round_mono; lra).
  rewrite Zle_Qle in H. unfold Qdiv.
  apply Qmult_le_compat_r; [exact H | discriminate].
Qed.

(** The summary of the metrics holding a list of requests. *)
Lemma get_metrics_holds (self : t) (requests : list (string * Z * Q))
      (now : Q) :
  holds self requests ->
  exists summary,
    get_metrics self now = Some summary
    /\ 0 <= error_rate summary <= 100
    /\ match summary_response_times summary with
       | None => requests = []
       | Some times =>
           count times = Nat.min (List.length requests) 1000
           /\ min_ms times <= max_ms times
       end.
Proof.
  intros [Htotal _ _ Htimes Herrors]. unfold get_metrics.
  set (total := Zmax2 (requests_total self) 1).
  assert (Hbound : (0 <= errors_total self <= total)%Z /\ (1 <= total)%Z).
  { subst total. rewrite Zmax2_spec, Herrors, Htotal. unfold errors.
    pose proof (filter_length_le (fun r => (400 <=? status_of r)%Z)
                  (fun _ => true) requests (fun _ _ => eq_refl)) as Hle.
    rewrite (forallb_filter_id (fun _ => true)) in Hle
      by (apply forallb_forall; reflexivity).
    lia. }
  destruct Hbound as ((He0 & He1) & Ht).
  rewrite Zle_Qle in He0, He1, Ht. change (inject_Z 0) with 0 in He0.
  change (inject_Z 1) with 1 in Ht.
  rewrite div_defined by lra. cbn beta iota.
  assert (Hrate : 0 <= inject_Z (errors_total self) / inject_Z total * 100
                  <= 100).
  { split.
    - apply Qmult_le_0_compat; [| lra].
      apply Qle_shift_div_l; lra.
    - assert (inject_Z (errors_total self) / inject_Z total <= 1)
        by (apply Qle_shift_div_r; lra).
      lra. }
  destruct (response_times self) as [| first others] eqn:Etimes.
  - eexists. split; [reflexivity |]. split; [exact Hrate |].
    cbn [summary_response_times].
    unfold PyMore.last_n in Htimes. rewrite length_map in Htimes.
    destruct requests as [| r rest]; [reflexivity |].
    exfalso.
    assert (Hlen : List.length
                     (skipn (List.length (r :: rest) - 1000)
                            (map duration_of (r :: rest))) = 0%nat)
      by (rewrite <- Htimes; reflexivity).
    rewrite length_skipn, length_map in Hlen. cbn [List.length] in Hlen. lia.
  - assert (Hlen : List.length (first :: others)
                   = Nat.min (List.length requests) 1000).
    { rewrite Htimes. unfold PyMore.last_n.
      rewrite length_skipn, !length_map. lia. }
    cbn beta iota. cbn [PyMore.min_of max_of].
    destruct (fold_min2 others first) as (Hmin & Hmins).
    destruct (fold_max2 others first) as (_ & Hmax & Hmaxs).
    set (least := fold_left min2 others first) in *.
    set (greatest := fold_left max2 others first) in *.
    set (times := first :: others) in *.
    assert (Hpos : 1 <= inject_Z (Z.of_nat (List.length times))).
    { subst times. cbn [List.length]. rewrite Nat2Z.inj_succ.
      unfold Z.succ. rewrite inject_Z_plus. change (inject_Z 1) with 1.
      assert (H := Nat2Z.is_nonneg (List.length others)).
      rewrite Zle_Qle in H. change (inject_Z 0) with 0 in H. lra. }
    rewrite div_defined by lra.
    eexists. split; [reflexivity |]. split; [exact Hrate |].
    cbn [summary_response_times count avg_ms min_ms max_ms].
    split; [exact Hlen |].
    apply round2_mono. lra.
Qed.

(** X6.  The summary of the metrics is defined after any sequence of
    requests: the error rate is between 0 and 100, the response times are
    left out exactly when no request was recorded, their count is the
    number of requests up to 1000, and the minimum is not above the
    maximum. *)
Theorem metrics_summary_ranges (started now : Q)
        (requests : list (string * Z * Q)) :
  exists self summary,
    record_all (__init__ started) requests = Some self
    /\ get_metrics self now = Some summary
    /\ 0 <= error_rate summary <= 100
    /\ match summary_response_times summary with
       | None => requests = []
       | Some times =>
           count times = Nat.min (List.length requests) 1000
           /\ min_ms times <= max_ms times
       end.
Proof.
  destruct (record_all_holds requests (__init__ started) []
              (init_holds started)) as (self & Hrun & Hholds & _).
  cbn [app] in Hholds.
  destruct (get_metrics_holds self requests now Hholds)
    as (summary & Hsummary & Hrate & Htimes).
  exists self, summary. repeat split; try assumption; apply Hrate.
Qed.

(** Four requests, one of them answered with an error, of durations an
    eighth and a quarter of a second: an error rate of 25, and an average
    of 187.5 ms between 125 ms and 250 ms. *)
Example metrics_of_four_requests :
  option_map
    (fun summary =>
       (Qred (error_rate summary),
        option_map (fun times => (count times, Qred (min_ms times),
                                  Qred (avg_ms times), Qred (max_ms times)))
                   (summary_response_times summary)))
    (self <- record_all (__init__ 0)
               [ ("GET"%string, 200%Z, 1 # 8); ("POST"%string, 200%Z, 1 # 4);
                 ("POST"%string, 422%Z, 1 # 8); ("GET"%string, 200%Z, 1 # 4) ] ;;
     get_metrics self 10)
  = Some (25, Some (4%nat, 125, 375 # 2, 250)).
Proof. vm_compute. reflexivity. Qed.

End Metrics.

(** ** Strings *)

Section StringFacts.

Import PyStr PyMore.
Open Scope string_scope.

Lemma rstrip_ends_ok (s : string) : ends_ok s = true -> rstrip s = s.
Proof.
  unfold ends_ok. induction s as [| c r IH]; simpl; [discriminate |].
  destruct (last_char r) as [d |] eqn:Hl.
  - intros H. rewrite (IH H). destruct r; [discriminate | reflexivity].
  - destruct r; [| simpl in Hl; destruct (last_char r); discriminate].
    simpl. intros H. apply negb_true_iff in H. rewrite H. reflexivity.
Qed.

Lemma lstrip_starts_ok (s : string) : starts_ok s = true -> lstrip s = s.
Proof.
  destruct s as [| c r]; simpl; [discriminate |].
  intros H. apply negb_true_iff in H. rewrite H. reflexivity.
Qed.

Lemma tidy_parts (s : string) :
  tidy s = true <-> starts_ok s = true /\ ends_ok s = true.
Proof. unfold tidy. apply andb_true_iff. Qed.

Lemma strip_tidy (s : string) : tidy s = true -> strip s = s.
Proof.
  intros H. apply tidy_parts in H. destruct H as [Hs He].
  unfold strip. rewrite (lstrip_starts_ok _ Hs).
  apply rstrip_ends_ok, He.
Qed.

Lemma tidy_truthy (s : string) : tidy s = true -> truthy s = true.
Proof.
  intros H. apply tidy_parts in H. destruct H as [Hs _].
  destruct s; [discriminate | reflexivity].
Qed.

Lemma lstrip_cases (s : string) : lstrip s = "" \/ starts_ok (lstrip s) = true.
Proof.
  induction s as [| c r IH]; simpl; [left; reflexivity |].
  destruct (isspace c) eqn:Hc; [exact IH |].
  right. simpl. rewrite Hc. reflexivity.
Qed.

Lemma rstrip_cases (s : string) : rstrip s = "" \/ ends_ok (rstrip s) = true.
Proof.
  unfold ends_ok.
  induction s as [| c r IH]; simpl; [left; reflexivity |].
  destruct (rstrip r) as [| d r'] eqn:Hr.
  - destruct (isspace c) eqn:Hc; [left; reflexivity |].
    right. simpl. rewrite Hc. reflexivity.
  - right. destruct IH as [IH | IH]; [discriminate |].
    change (last_char (String c (String d r')))
      with (match last_char (String d r') with
            | Some e => Some e
            | None => Some c
            end).
    destruct (last_char (String d r')); [exact IH | discriminate].
Qed.

Lemma rstrip_starts_ok (s : string) :
  starts_ok s = true -> starts_ok (rstrip s) = true.
Proof.
  destruct s as [| c r]; simpl; [discriminate |].
  intros H. destruct (rstrip r).
  - apply negb_true_iff in H. rewrite H. simpl. rewrite H. reflexivity.
  - simpl. exact H.
Qed.

(** What [strip] returns is empty or tidy. *)
Lemma strip_cases (s : string) : strip s = "" \/ tidy (strip s) = true.
Proof.
  unfold strip.
  destruct (lstrip_cases s) as [H | H].
  - rewrite H. left. reflexivity.
  - destruct (rstrip_cases (lstrip s)) as [H' | H'].
    + left. exact H'.
    + right. apply tidy_parts. split; [apply rstrip_starts_ok, H | exact H'].
Qed.

Lemma strip_idempotent (s : string) : strip (strip s) = strip s.
Proof.
  destruct (strip_cases s) as [H | H].
  - rewrite H. reflexivity.
  - apply strip_tidy, H.
Qed.

Lemma truthy_strip_tidy (s : string) :
  truthy (strip s) = true -> tidy (strip s) = true.
Proof.
  destruct (strip_cases s) as [H | H]; [rewrite H; discriminate | auto].
Qed.

(** Lower case keeps white space where it is. *)
Lemma isspace_lower (c : ascii) : isspace (lower_char c) = isspace c.
Proof.
  destruct c as [[] [] [] [] [] [] [] []]; reflexivity.
Qed.

Lemma lower_char_idempotent (c : ascii) :
  lower_char (lower_char c) = lower_char c.
Proof.
  destruct c as [[] [] [] [] [] [] [] []]; reflexivity.
Qed.

Lemma lower_idempotent (s : string) : lower (lower s) = lower s.
Proof.
  induction s as [| c r IH]; simpl; [reflexivity |].
  rewrite lower_char_idempotent, IH. reflexivity.
Qed.

Lemma last_char_lower (s : string) :
  last_char (lower s) = option_map lower_char (last_char s).
Proof.
  induction s as [| c r IH]; simpl; [reflexivity |].
  rewrite IH. destruct (last_char r); reflexivity.
Qed.

Lemma tidy_lower (s : string) : tidy (lower s) = tidy s.
Proof.
  unfold tidy, starts_ok, ends_ok. rewrite last_char_lower.
  destruct s as [| c r]; [reflexivity |].
  cbn [lower]. rewrite isspace_lower.
  destruct (last_char (String c r)); cbn [option_map];
    rewrite ?isspace_lower; reflexivity.
Qed.

Lemma starts_ok_app (a b : string) :
  starts_ok a = true -> starts_ok (a ++ b) = true.
Proof. destruct a; [discriminate | intros H; exact H]. Qed.

Lemma last_char_app (a b : string) :
  last_char (a ++ b)
  = match last_char b with
    | Some c => Some c
    | None => last_char a
    end.
Proof.
  induction a as [| c r IH]; simpl.
  - destruct (last_char b); reflexivity.
  - rewrite IH. destruct (last_char b); reflexivity.
Qed.

Lemma ends_ok_cons (c : ascii) (s : string) :
  ends_ok s = true -> ends_ok (String c s) = true.
Proof.
  unfold ends_ok. cbn [last_char].
  destruct (last_char s); [intros H; exact H | discriminate].
Qed.

Lemma ends_ok_app (a b : string) :
  ends_ok b = true -> ends_ok (a ++ b) = true.
Proof.
  unfold ends_ok. rewrite last_char_app.
  destruct (last_char b); [intros H; exact H | discriminate].
Qed.

(** A text between a tidy start and a tidy end is tidy. *)
Lemma tidy_between (a b c : string) :
  starts_ok a = true -> ends_ok c = true -> tidy (a ++ b ++ c) = true.
Proof.
  intros Ha Hc. apply tidy_parts. split.
  - apply starts_ok_app, Ha.
  - apply ends_ok_app, ends_ok_app, Hc.
Qed.

Lemma tidy_app (a b : string) :
  starts_ok a = true -> ends_ok b = true -> tidy (a ++ b) = true.
Proof.
  intros Ha Hb. apply tidy_parts. split.
  - apply starts_ok_app, Ha.
  - apply ends_ok_app, Hb.
Qed.

Lemma prefix_app (x b : string) : prefix x (x ++ b) = true.
Proof.
  induction x as [| c r IH]; simpl; [destruct b; reflexivity |].
  destruct (ascii_dec c c); [exact IH | contradiction].
Qed.

Lemma contains_prefix (x hay : string) :
  prefix x hay = true -> contains x hay = true.
Proof. destruct hay; cbn [contains]; intros ->; reflexivity. Qed.

Lemma contains_here (x b : string) : contains x (x ++ b) = true.
Proof. apply contains_prefix, prefix_app. Qed.

Lemma contains_after (x a b : string) :
  contains x b = true -> contains x (a ++ b) = true.
Proof.
  intros H. induction a as [| c r IH]; simpl; [exact H |].
  rewrite IH. apply orb_true_r.
Qed.

(** A text that holds [x] somewhere holds it. *)
Lemma contains_between (x a b : string) : contains x (a ++ x ++ b) = true.
Proof. apply contains_after, contains_here. Qed.

Lemma append_assoc (a b c : string) : (a ++ b) ++ c = a ++ b ++ c.
Proof.
  induction a as [| x r IH]; simpl; [reflexivity | rewrite IH; reflexivity].
Qed.

End StringFacts.

(** ** The descriptions of the risk factors *)

(** [worded_list] proves that a list built by appending risk factors with
    constant descriptions to a list of worded risk factors is worded. *)
Ltac worded_list :=
  repeat match goal with
    | H : Forall _ ?l |- Forall _ ?l => exact H
    | |- Forall _ (_ ++ _)%list => apply Forall_app; split
    | |- Forall _ (_ :: _) => constructor
    | |- Forall _ [] => constructor
    | |- Forall _ (if ?c then _ else _) => destruct c
    | |- RiskFactorValidators.worded _ => reflexivity
    end.

(** [worded_text] proves that a description that starts with a constant
    text and ends with a constant text, or with a text [finish] proves to
    end well, is tidy. *)
Ltac worded_text finish :=
  apply tidy_parts; split;
  [ reflexivity
  | cbn [RiskFactor.description];
    repeat apply ends_ok_cons; repeat apply ends_ok_app;
    first [ reflexivity | finish ] ].

Section WordedFacts.

Import PyStr PyMore RiskFactorValidators.
Open Scope string_scope.

Lemma worded_accepted (f : RiskFactor.t) :
  worded f ->
  validate_description (RiskFactor.description f)
  = Some (RiskFactor.description f).
Proof.
  unfold worded, validate_description. intros H.
  rewrite (strip_tidy _ H), (tidy_truthy _ H). reflexivity.
Qed.

Lemma worded_flat_map {A : Type} (factor : A -> list RiskFactor.t)
      (items : list A) :
  (forall a, In a items -> Forall worded (factor a)) ->
  Forall worded (flat_map factor items).
Proof.
  intros H. induction items as [| a r IH]; simpl; [constructor |].
  apply Forall_app. split.
  - apply H. left. reflexivity.
  - apply IH. intros b Hb. apply H. right. exact Hb.
Qed.

Lemma Forall_first {A : Type} (P : A -> Prop) (n : nat) (l : list A) :
  Forall P l -> Forall P (firstn n l).
Proof.
  intros H. revert n. induction H as [| x l Hx Hl IH]; intros [| n]; simpl;
    constructor; auto.
Qed.

Lemma join_ends_ok (sep : string) (items : list string) :
  items <> [] ->
  Forall (fun item => ends_ok item = true) items ->
  ends_ok (join sep items) = true.
Proof.
  induction items as [| x r IH]; [congruence |].
  intros _ Hall. inversion Hall as [| ? ? Hx Hr]; subst.
  destruct r as [| y r']; [exact Hx |].
  change (join sep (x :: y :: r')) with (x ++ sep ++ join sep (y :: r')).
  apply ends_ok_app, ends_ok_app, IH; [discriminate | exact Hr].
Qed.

End WordedFacts.

Section TextWorded.

Import PyStr PyMore RiskFactorValidators TextAnalyzer.
Open Scope string_scope.

Variable findall : pattern_name -> string -> list string.

Lemma fraud_keywords_end_ok (entry : string * list string) (keyword : string) :
  In entry fraud_keywords -> In keyword (snd entry) ->
  ends_ok keyword = true.
Proof.
  intros He Hk.
  assert (H : forallb (fun e : string * list string =>
                         forallb ends_ok (snd e)) fraud_keywords = true)
    by reflexivity.
  rewrite forallb_forall in H. specialize (H _ He).
  rewrite forallb_forall in H. apply H, Hk.
Qed.

Lemma keyword_factor_worded (job_text_lower : string)
      (entry : string * list string) :
  In entry fraud_keywords ->
  Forall worded (keyword_factor job_text_lower entry).
Proof.
  intros He. unfold keyword_factor. destruct entry as [category keywords].
  set (matches := filter _ keywords).
  assert (Hm : Forall (fun item => ends_ok item = true) matches).
  { apply Forall_forall. intros k Hk. subst matches.
    apply filter_In in Hk. destruct Hk as [Hk _].
    apply (fraud_keywords_end_ok (category, keywords) k He Hk). }
  destruct matches as [| first rest] eqn:Em; [constructor |].
  constructor; [| constructor].
  worded_text ltac:(apply join_ends_ok;
                    [discriminate | apply Forall_first, Hm]).
Qed.

Lemma pattern_factor_worded (job_text : string) (p : pattern_name) :
  Forall worded (pattern_factor findall job_text p).
Proof.
  unfold pattern_factor. destruct (findall p job_text) as [| first rest];
    [constructor |].
  constructor; [| constructor].
  destruct p; worded_text fail.
Qed.

Lemma text_analyze_worded (job_text : string) :
  Forall worded (AnalysisResult.risk_factors (analyze findall job_text)).
Proof.
  unfold analyze.
  destruct (negb (truthy job_text) || negb (truthy (strip job_text))).
  { constructor; [reflexivity | constructor]. }
  cbn [AnalysisResult.risk_factors].
  unfold _check_content_quality, _check_suspicious_patterns,
    _check_fraud_keywords.
  assert (Hk : Forall worded
                 (flat_map (keyword_factor (lower job_text)) fraud_keywords)).
  { apply worded_flat_map. intros e He. apply keyword_factor_worded, He. }
  assert (Hp : Forall worded
                 (flat_map (pattern_factor findall job_text)
                           suspicious_patterns)).
  { apply worded_flat_map. intros p _. apply pattern_factor_worded. }
  cbn [app].
  repeat match goal with
    | H : Forall _ ?l |- Forall _ ?l => exact H
    | |- Forall _ (_ ++ _)%list => apply Forall_app; split
    | |- Forall _ (_ :: _) => constructor
    | |- Forall _ [] => constructor
    | |- Forall _ (if ?c then _ else _) => destruct c
    | |- worded _ => first [reflexivity | worded_text fail]
    end.
Qed.

End TextWorded.

Section NumberWords.

Import PyStr PyMore.

Lemma digits_end_ok (u : Decimal.uint) :
  u <> Decimal.Nil -> ends_ok (NilEmpty.string_of_uint u) = true.
Proof.
  unfold ends_ok.
  induction u as [| u IH | u IH | u IH | u IH | u IH | u IH | u IH | u IH
                  | u IH | u IH];
    intros Hu; [congruence | ..];
    cbn [NilEmpty.string_of_uint last_char];
    (destruct u; [reflexivity | ..]);
    (match type of IH with
     | ?P -> _ => assert (H : P) by discriminate; specialize (IH H)
     end);
    (match goal with
     | |- context [last_char ?s] =>
         destruct (last_char s); [exact IH | discriminate]
     end).
Qed.

Lemma revapp_not_nil (d d' : Decimal.uint) :
  d' <> Decimal.Nil -> Decimal.revapp d d' <> Decimal.Nil.
Proof.
  revert d'. induction d; intros d' Hd'; cbn [Decimal.revapp];
    [exact Hd' | ..]; apply IHd; discriminate.
Qed.

Lemma little_succ_not_nil (d : Decimal.uint) :
  Decimal.Little.succ d <> Decimal.Nil.
Proof. destruct d; discriminate. Qed.

Lemma to_little_uint_not_nil (n : nat) (acc : Decimal.uint) :
  acc <> Decimal.Nil -> Nat.to_little_uint n acc <> Decimal.Nil.
Proof.
  revert acc. induction n as [| n IH]; intros acc Hacc; cbn; [exact Hacc |].
  apply IH, little_succ_not_nil.
Qed.

(** [str(n)] ends with a digit. *)
Lemma of_nat_ends_ok (n : nat) : ends_ok (of_nat n) = true.
Proof.
  unfold of_nat. apply digits_end_ok. unfold Nat.to_uint, Decimal.rev.
  pose proof (to_little_uint_not_nil n (Decimal.D0 Decimal.Nil)) as H.
  destruct (Nat.to_little_uint n (Decimal.D0 Decimal.Nil));
    [exfalso; apply H; [discriminate | reflexivity] | ..];
    cbn [Decimal.revapp]; apply revapp_not_nil; discriminate.
Qed.

End NumberWords.

Section EmailWorded.

Import PyStr PyMore RiskFactorValidators EmailAnalyzer.
Open Scope string_scope.

Variable re_match re_search : EmailAnalyzer.regex -> string -> bool.

Lemma email_validate_worded (email : string) (valid : bool)
      (l after : list RiskFactor.t) :
  _validate_email_format re_match email l = Some (valid, after) ->
  Forall worded l -> Forall worded after.
Proof.
  unfold _validate_email_format. intros H Hl.
  destruct (negb (re_match email_pattern email));
    [injection H as <- <-; worded_list |].
  destruct (negb (count_char "@" email =? 1)%nat);
    [injection H as <- <-; worded_list |].
  destruct (split_on "@" email) as [| username [| domain [| ? ?]]];
    try discriminate.
  destruct (String.length username <? 1)%nat;
    injection H as <- <-; worded_list.
Qed.

Lemma email_patterns_worded (email : string) (l : list RiskFactor.t) :
  Forall worded l ->
  Forall worded (_check_suspicious_patterns re_search email l).
Proof.
  intros Hl. unfold _check_suspicious_patterns.
  apply Forall_app. split; [exact Hl |].
  apply worded_flat_map. intros p _. unfold pattern_factor.
  destruct (re_search p email); [| constructor].
  constructor; [destruct p; reflexivity | constructor].
Qed.

Lemma email_domain_worded (domain : string) (l : list RiskFactor.t) :
  Forall worded l ->
  Forall worded (_check_domain_reputation re_match domain l).
Proof.
  intros Hl. unfold _check_domain_reputation.
  destruct (mem domain disposable_domains); [worded_list |].
  destruct (find _ very_new_tlds) as [tld |] eqn:E; [| worded_list].
  apply find_some in E. destruct E as [Hin _].
  assert (Htld : ends_ok tld = true).
  { assert (H : forallb ends_ok very_new_tlds = true) by reflexivity.
    rewrite forallb_forall in H. apply H, Hin. }
  assert (Hw : worded (RiskFactor.Build EMAIL_VALIDATION 50
                         ("Uses potentially suspicious TLD: " ++ tld)
                         (6 # 10)))
    by (worded_text ltac:(exact Htld)).
  repeat match goal with
    | H : Forall _ ?l |- Forall _ ?l => exact H
    | |- Forall _ (_ ++ _)%list => apply Forall_app; split
    | |- Forall _ (_ :: _) => constructor
    | |- Forall _ [] => constructor
    | |- Forall _ (if ?c then _ else _) => destruct c
    | |- worded _ => first [exact Hw | reflexivity]
    end.
Qed.

Lemma email_disposable_worded (domain : string) (l : list RiskFactor.t) :
  Forall worded l -> Forall worded (_check_disposable_email domain l).
Proof.
  intros Hl. unfold _check_disposable_email.
  destruct (find _ _) as [keyword |]; [| exact Hl].
  apply Forall_app. split; [exact Hl |].
  constructor; [| constructor].
  worded_text fail.
Qed.

Lemma email_characteristics_worded (email domain : string)
      (l after : list RiskFactor.t) :
  _check_suspicious_email_characteristics re_search email domain l
  = Some after ->
  Forall worded l -> Forall worded after.
Proof.
  unfold _check_suspicious_email_characteristics. intros H Hl.
  destruct (nth_error (split_on "@" email) 0) as [username |];
    [| discriminate].
  injection H as <-. worded_list.
Qed.

Lemma email_analyze_worded (recruiter_email : option string)
      (result : AnalysisResult.t) :
  analyze re_match re_search recruiter_email = Some result ->
  Forall worded (AnalysisResult.risk_factors result).
Proof.
  unfold analyze.
  destruct recruiter_email as [given |]; [| intros [= <-]; constructor].
  destruct (negb (truthy given) || negb (truthy (strip given)));
    [intros [= <-]; constructor |].
  set (email := lower (strip given)).
  destruct (_validate_email_format re_match email [])
    as [[format_valid validated] |] eqn:Ev; [| discriminate].
  apply email_validate_worded in Ev; [| constructor].
  destruct format_valid.
  - destruct (nth_error (split_on "@" email) 1) as [domain |];
      [| discriminate].
    destruct (_check_suspicious_email_characteristics _ _ _ _)
      as [after |] eqn:Ec; [| discriminate].
    apply email_characteristics_worded in Ec.
    + destruct (_calculate_confidence _ _ _); [| discriminate].
      intros [= <-]. exact Ec.
    + apply email_disposable_worded, email_domain_worded,
        email_patterns_worded, Ev.
  - destruct (_calculate_confidence _ _ _); [| discriminate].
    intros [= <-]. exact Ev.
Qed.

End EmailWorded.

Section UrlWorded.

Import PyStr PyMore RiskFactorValidators URLAnalyzer.
Open Scope string_scope.

Variable re_match re_search : URLAnalyzer.regex -> string -> bool.
Variable urlparse : string -> option ParseResult.

Lemma url_validate_worded (url : string) (l : list RiskFactor.t) :
  Forall worded l ->
  Forall worded (snd (_validate_url_format re_match urlparse url l)).
Proof.
  intros Hl. unfold _validate_url_format.
  destruct (negb (re_match url_pattern url)); [cbn [snd]; worded_list |].
  destruct (urlparse url) as [parsed |]; [| cbn [snd]; worded_list].
  destruct (negb (truthy (scheme parsed)) || _); [cbn [snd]; worded_list |].
  destruct (negb (truthy (netloc parsed))); [cbn [snd]; worded_list |].
  destruct (2000 <? String.length url)%nat; cbn [snd]; worded_list.
Qed.

Lemma url_patterns_worded (url : string) (l : list RiskFactor.t) :
  Forall worded l ->
  Forall worded (_check_suspicious_patterns re_search url l).
Proof.
  intros Hl. unfold _check_suspicious_patterns.
  apply Forall_app. split; [exact Hl |].
  apply worded_flat_map. intros p _. unfold pattern_factor.
  destruct (re_search p url); [| constructor].
  constructor; [destruct p; reflexivity | constructor].
Qed.

Lemma url_domain_worded (parsed_url : ParseResult)
      (l after : list RiskFactor.t) :
  _check_suspicious_domain_characteristics re_match parsed_url l
  = Some after ->
  Forall worded l -> Forall worded after.
Proof.
  unfold _check_suspicious_domain_characteristics. intros H Hl.
  match type of H with
  | match ?d with _ => _ end = _ => destruct d as [domain |]; [| discriminate]
  end.
  destruct (find _ suspicious_domains) as [[category names] |].
  - injection H as <-. apply Forall_app. split; [exact Hl |].
    constructor; [| constructor]. worded_text fail.
  - destruct (nth_error (split_on "." domain) 0) as [first_part |];
      [| discriminate].
    injection H as <-. worded_list.
Qed.

Lemma url_shorteners_worded (url : string) (l : list RiskFactor.t) :
  Forall worded l -> Forall worded (_check_url_shorteners url l).
Proof.
  intros Hl. unfold _check_url_shorteners.
  destruct (find _ _) as [service |]; [| exact Hl].
  apply Forall_app. split; [exact Hl |].
  constructor; [| constructor]. worded_text fail.
Qed.

Lemma url_ports_worded (parsed_url : ParseResult)
      (l after : list RiskFactor.t) :
  _check_suspicious_ports parsed_url l = Some after ->
  Forall worded l -> Forall worded after.
Proof.
  unfold _check_suspicious_ports. intros H Hl.
  destruct (port parsed_url) as [[number |] |]; try discriminate.
  - destruct (negb (number =? 0)%Z && _); injection H as <-; [| exact Hl].
    apply Forall_app. split; [exact Hl |].
    constructor; [| constructor].
    worded_text ltac:(apply of_nat_ends_ok).
  - injection H as <-. exact Hl.
Qed.

Lemma url_analyze_worded (company_url : option string)
      (result : AnalysisResult.t) :
  analyze re_match re_search urlparse company_url = Some result ->
  Forall worded (AnalysisResult.risk_factors result).
Proof.
  unfold analyze.
  destruct company_url as [given |]; [| intros [= <-]; constructor].
  destruct (negb (truthy given) || negb (truthy (strip given)));
    [intros [= <-]; constructor |].
  set (url := strip given).
  pose proof (url_validate_worded url [] (Forall_nil _)) as Hv.
  destruct (_validate_url_format re_match urlparse url [])
    as [format_valid validated].
  cbn [snd] in Hv.
  destruct format_valid.
  - destruct (urlparse url) as [parsed_url |]; [| discriminate].
    destruct (_check_suspicious_domain_characteristics _ _ _)
      as [checked |] eqn:Ed; [| discriminate].
    apply url_domain_worded in Ed; [| apply url_patterns_worded, Hv].
    destruct (_check_suspicious_ports _ _) as [after |] eqn:Ep;
      [| discriminate].
    apply url_ports_worded in Ep; [| apply url_shorteners_worded, Ed].
    intros [= <-]. exact Ep.
  - intros [= <-]. exact Hv.
Qed.

End UrlWorded.

Section PlatformWorded.

Import PyStr PyMore PyNum RiskFactorValidators PlatformAnalyzer.
Open Scope string_scope.

Variable domain_match : string -> option string.

(** A finding of the platform analyzer as the models accept it. *)
Let fine (f : RiskFactor.t) : Prop :=
  Shape.sound PLATFORM_CREDIBILITY f /\ worded f.

Lemma fine_constant (severity : Z) (description : string) (confidence : Q) :
  (0 <=? severity)%Z && (severity <=? 100)%Z
  && Qle_bool (6 # 10) confidence && Qle_bool confidence 1
  && tidy description = true ->
  fine (RiskFactor.Build PLATFORM_CREDIBILITY severity description confidence).
Proof.
  intros H.
  apply andb_true_iff in H. destruct H as [H Ht].
  apply andb_true_iff in H. destruct H as [H H1].
  apply andb_true_iff in H. destruct H as [H H6].
  apply andb_true_iff in H. destruct H as [H0 H100].
  apply Z.leb_le in H0, H100. apply Qle_bool_iff in H1, H6.
  split; [| exact Ht].
  unfold Shape.sound.
  cbn [RiskFactor.category RiskFactor.severity RiskFactor.confidence].
  repeat split; assumption.
Qed.

Lemma fine_append_if (condition : bool) (f : RiskFactor.t)
      (l : list RiskFactor.t) :
  fine f -> Forall fine l -> Forall fine (append_if condition f l).
Proof.
  intros Hf Hl. unfold append_if. destruct condition; [| exact Hl].
  apply Forall_app. split; [exact Hl | constructor; [exact Hf | constructor]].
Qed.

Lemma platform_credibility_fine (normalized_platform : string)
      (l : list RiskFactor.t) :
  Forall fine l ->
  Forall fine (_get_platform_credibility normalized_platform l).
Proof.
  intros Hl. unfold _get_platform_credibility.
  destruct (Dict.get all_platforms normalized_platform) as [score |].
  - destruct (score <? 50)%Z; [| destruct (score <? 70)%Z;
                                  [| destruct (score <? 85)%Z; [| exact Hl]]];
      (apply Forall_app; split;
       [exact Hl | constructor; [apply fine_constant; reflexivity
                                | constructor]]).
  - apply Forall_app. split; [exact Hl |].
    constructor; [apply fine_constant; reflexivity | constructor].
Qed.

Lemma platform_patterns_fine (normalized_platform : string)
      (l : list RiskFactor.t) :
  Forall fine l ->
  Forall fine (_check_platform_risk_patterns normalized_platform l).
Proof.
  intros Hl. unfold _check_platform_risk_patterns.
  apply Forall_app. split; [exact Hl |].
  unfold platform_risk_patterns. cbn [flat_map].
  unfold risk_pattern_factor.
  repeat match goal with
    | |- Forall _ (_ ++ _)%list => apply Forall_app; split
    | |- Forall _ [] => constructor
    | |- Forall _ (if ?c then _ else _) => destruct c
    | |- Forall _ [_] =>
        constructor; [apply fine_constant; reflexivity | constructor]
    end.
Qed.

Lemma platform_indicators_fine (normalized_platform original : string)
      (l : list RiskFactor.t) :
  Forall fine l ->
  Forall fine (_check_suspicious_indicators normalized_platform original l).
Proof.
  intros Hl. unfold _check_suspicious_indicators.
  repeat (apply fine_append_if; [apply fine_constant; reflexivity |]).
  exact Hl.
Qed.

Lemma platform_adjustments_fine (normalized_platform : string)
      (l : list RiskFactor.t) :
  Forall fine l ->
  Forall fine (_apply_platform_risk_adjustments normalized_platform l).
Proof.
  intros Hl. unfold _apply_platform_risk_adjustments.
  destruct (mem normalized_platform _); [| exact Hl].
  apply fine_append_if; [apply fine_constant; reflexivity | exact Hl].
Qed.

Lemma platform_confidence_range (normalized_platform : string) (n : nat) :
  (8 # 10 <= _calculate_confidence normalized_platform n <= 1)%Q.
Proof.
  unfold _calculate_confidence.
  assert (Hn : (0 <= inject_Z (Z.of_nat n) * (2 # 100))%Q).
  { assert (0 <= inject_Z (Z.of_nat n))%Q.
    { change 0%Q with (inject_Z 0). rewrite <- Zle_Qle. lia. }
    nra. }
  destruct (in_all_platforms normalized_platform), (0 <? n)%nat,
    (existsb _ platform_patterns);
    unfold min2; qbool; split; lra.
Qed.

(** The findings of the platform analyzer are of its category, with a
    severity from 0 to 100, a confidence from 0.6 to 1 and a tidy
    description. *)
Lemma platform_analyze_fine (platform_source : string) :
  Forall (fun f => Shape.sound PLATFORM_CREDIBILITY f /\ worded f)
         (AnalysisResult.risk_factors (analyze domain_match platform_source))
  /\ (8 # 10
      <= AnalysisResult.confidence (analyze domain_match platform_source)
      <= 1)%Q.
Proof.
  unfold analyze.
  destruct (negb (truthy platform_source)
            || negb (truthy (strip platform_source))).
  { cbn [AnalysisResult.risk_factors AnalysisResult.confidence].
    split; [| split; lra].
    constructor; [apply fine_constant; reflexivity | constructor]. }
  cbn [AnalysisResult.risk_factors AnalysisResult.confidence].
  split; [| apply platform_confidence_range].
  apply platform_adjustments_fine, platform_indicators_fine,
    platform_patterns_fine, platform_credibility_fine.
  constructor.
Qed.

End PlatformWorded.

(** ** The results of the analyzers *)

Section AnalyzerResults.

Import PyStr PyMore PyNum RiskFactorValidators.
Open Scope Q_scope.

Variable text_findall : TextAnalyzer.pattern_name -> string -> list string.
Variable email_match email_search : EmailAnalyzer.regex -> string -> bool.
Variable url_match url_search : URLAnalyzer.regex -> string -> bool.
Variable urlparse : string -> option URLAnalyzer.ParseResult.
Variable domain_match : string -> option string.

Lemma email_confidence_range (recruiter_email : option string)
      (result : AnalysisResult.t) :
  EmailAnalyzer.analyze email_match email_search recruiter_email
  = Some result ->
  8 # 10 <= AnalysisResult.confidence result <= 1.
Proof.
  unfold EmailAnalyzer.analyze.
  assert (Hneutral : 8 # 10 <= AnalysisResult.confidence EmailAnalyzer.neutral
                     <= 1) by (cbn; lra).
  destruct recruiter_email as [given |]; [| intros [= <-]; exact Hneutral].
  destruct (negb (truthy given) || negb (truthy (strip given)));
    [intros [= <-]; exact Hneutral |].
  destruct (EmailAnalyzer._validate_email_format _ _ _)
    as [[format_valid validated] |]; [| discriminate].
  match goal with
  | |- match ?x with _ => _ end = _ -> _ =>
      destruct x as [risk_factors |]; [| discriminate]
  end.
  destruct (EmailAnalyzer._calculate_confidence _ _ _) as [c |] eqn:Ec;
    [| discriminate].
  intros [= <-]. cbn [AnalysisResult.confidence].
  revert Ec. unfold EmailAnalyzer._calculate_confidence.
  set (n := List.length risk_factors).
  assert (Hn : 0 <= inject_Z (Z.of_nat n) * (2 # 100)).
  { assert (0 <= inject_Z (Z.of_nat n)).
    { change 0 with (inject_Z 0). rewrite <- Zle_Qle. lia. }
    nra. }
  destruct (negb format_valid).
  { intros [= <-]. unfold min2. qbool; split; lra. }
  destruct (contains "@" _).
  - destruct (nth_error _ 1) as [domain |]; [| discriminate].
    destruct (0 <? String.length domain)%nat, (0 <? n)%nat;
      intros [= <-]; unfold min2; qbool; split; lra.
  - destruct (0 <? n)%nat; intros [= <-]; unfold min2; qbool; split; lra.
Qed.

Lemma url_confidence_range (company_url : option string)
      (result : AnalysisResult.t) :
  URLAnalyzer.analyze url_match url_search urlparse company_url
  = Some result ->
  8 # 10 <= AnalysisResult.confidence result <= 1.
Proof.
  unfold URLAnalyzer.analyze.
  assert (Hneutral : 8 # 10 <= AnalysisResult.confidence URLAnalyzer.neutral
                     <= 1) by (cbn; lra).
  destruct company_url as [given |]; [| intros [= <-]; exact Hneutral].
  destruct (negb (truthy given) || negb (truthy (strip given)));
    [intros [= <-]; exact Hneutral |].
  destruct (URLAnalyzer._validate_url_format _ _ _ _)
    as [format_valid validated].
  match goal with
  | |- match ?x with _ => _ end = _ -> _ =>
      destruct x as [risk_factors |]; [| discriminate]
  end.
  intros [= <-]. cbn [AnalysisResult.confidence].
  unfold URLAnalyzer._calculate_confidence.
  set (n := List.length risk_factors).
  assert (Hn : 0 <= inject_Z (Z.of_nat n) * (2 # 100)).
  { assert (0 <= inject_Z (Z.of_nat n)).
    { change 0 with (inject_Z 0). rewrite <- Zle_Qle. lia. }
    nra. }
  destruct (negb format_valid); [unfold min2; qbool; split; lra |].
  destruct (urlparse _) as [parsed |].
  - destruct (truthy (URLAnalyzer.netloc parsed)
              && truthy (URLAnalyzer.scheme parsed)), (0 <? n)%nat;
      unfold min2; qbool; split; lra.
  - destruct (0 <? n)%nat; unfold min2; qbool; split; lra.
Qed.

Lemma shaped_sound (weight : Q) (shapes : list Shape.t)
      (category : RiskCategory) (l : list RiskFactor.t) :
  forallb (fun shape => Shape.bounded shape && Shape.alone_ok weight shape)
          shapes = true ->
  In (Shape.of_factors l) shapes ->
  Forall (fun f => RiskFactor.category f = category) l ->
  Forall (Shape.sound category) l.
Proof.
  intros Hall Hin Hcat. rewrite forallb_forall in Hall.
  specialize (Hall _ Hin). apply andb_true_iff in Hall.
  apply bounded_sound; [apply Hall | exact Hcat].
Qed.

Lemma sound_constructs (category : RiskCategory) (l : list RiskFactor.t) :
  Forall (Shape.sound category) l -> Forall worded l ->
  Forall constructs l
  /\ Forall (fun f => RiskFactor.category f = category) l.
Proof.
  intros Hs Hw. rewrite Forall_forall in Hs, Hw.
  split; apply Forall_forall; intros f Hf;
    destruct (Hs f Hf) as (Hc & Hsev & Hconf).
  - split; [split; [exact Hsev | lra] | apply worded_accepted, Hw, Hf].
  - exact Hc.
Qed.

(** What [_run_all_analyzers] returns. *)
Lemma run_all_analyzers_results (request : JobAnalysisRequest.t)
      (results : Dict.t AnalysisResult.t) :
  JobAnalysisService._run_all_analyzers text_findall email_match email_search
    url_match url_search urlparse domain_match request = Some results ->
  exists email url,
    EmailAnalyzer.analyze email_match email_search
      (JobAnalysisRequest.recruiter_email request) = Some email
    /\ URLAnalyzer.analyze url_match url_search urlparse
         (JobAnalysisRequest.company_url request) = Some url
    /\ results
       = Spec.results
           (TextAnalyzer.analyze text_findall
              (JobAnalysisRequest.job_text request))
           email url
           (PlatformAnalyzer.analyze domain_match
              (JobAnalysisRequest.platform_source request)).
Proof.
  unfold JobAnalysisService._run_all_analyzers.
  destruct (EmailAnalyzer.analyze _ _ _) as [email |]; [| discriminate].
  destruct (URLAnalyzer.analyze _ _ _ _) as [url |]; [| discriminate].
  intros [= <-]. exists email, url. repeat split.
Qed.

Lemma text_analyze_name (job_text : string) :
  AnalysisResult.analyzer_name (TextAnalyzer.analyze text_findall job_text)
  = "TextAnalyzer"%string.
Proof.
  unfold TextAnalyzer.analyze. destruct (_ || _); reflexivity.
Qed.

Lemma email_analyze_name (recruiter_email : option string)
      (result : AnalysisResult.t) :
  EmailAnalyzer.analyze email_match email_search recruiter_email
  = Some result ->
  AnalysisResult.analyzer_name result = "EmailAnalyzer"%string.
Proof.
  unfold EmailAnalyzer.analyze.
  destruct recruiter_email as [given |]; [| intros [= <-]; reflexivity].
  destruct (_ || _); [intros [= <-]; reflexivity |].
  destruct (EmailAnalyzer._validate_email_format _ _ _) as [[v l] |];
    [| discriminate].
  match goal with
  | |- match ?x with _ => _ end = _ -> _ =>
      destruct x; [| discriminate]
  end.
  destruct (EmailAnalyzer._calculate_confidence _ _ _); [| discriminate].
  intros [= <-]. reflexivity.
Qed.

Lemma url_analyze_name (company_url : option string)
      (result : AnalysisResult.t) :
  URLAnalyzer.analyze url_match url_search urlparse company_url
  = Some result ->
  AnalysisResult.analyzer_name result = "URLAnalyzer"%string.
Proof.
  unfold URLAnalyzer.analyze.
  destruct company_url as [given |]; [| intros [= <-]; reflexivity].
  destruct (_ || _); [intros [= <-]; reflexivity |].
  destruct (URLAnalyzer._validate_url_format _ _ _ _) as [v l].
  match goal with
  | |- match ?x with _ => _ end = _ -> _ =>
      destruct x; [| discriminate]
  end.
  intros [= <-]. reflexivity.
Qed.

Lemma platform_analyze_name (platform_source : string) :
  AnalysisResult.analyzer_name
    (PlatformAnalyzer.analyze domain_match platform_source)
  = "PlatformAnalyzer"%string.
Proof.
  unfold PlatformAnalyzer.analyze. destruct (_ || _); reflexivity.
Qed.

(** The four results of a request, with what the models ask of them. *)
Lemma results_construct (request : JobAnalysisRequest.t)
      (results : Dict.t AnalysisResult.t) :
  JobAnalysisService._run_all_analyzers text_findall email_match email_search
    url_match url_search urlparse domain_match request = Some results ->
  exists text email url platform,
    results = Spec.results text email url platform
    /\ (AnalysisResultMethods.constructs text
        /\ Forall (fun f => RiskFactor.category f = TEXT_ANALYSIS)
                  (AnalysisResult.risk_factors text)
        /\ 7 # 10 <= AnalysisResult.confidence text)
    /\ (AnalysisResultMethods.constructs email
        /\ Forall (fun f => RiskFactor.category f = EMAIL_VALIDATION)
                  (AnalysisResult.risk_factors email)
        /\ 8 # 10 <= AnalysisResult.confidence email)
    /\ (AnalysisResultMethods.constructs url
        /\ Forall (fun f => RiskFactor.category f = URL_VALIDATION)
                  (AnalysisResult.risk_factors url)
        /\ 8 # 10 <= AnalysisResult.confidence url)
    /\ (AnalysisResultMethods.constructs platform
        /\ Forall (fun f => RiskFactor.category f = PLATFORM_CREDIBILITY)
                  (AnalysisResult.risk_factors platform)
        /\ 8 # 10 <= AnalysisResult.confidence platform).
Proof.
  intros Hrun.
  destruct (run_all_analyzers_results request results Hrun)
    as (email & url & Hemail & Hurl & ->).
  eexists. exists email, url. eexists. split; [reflexivity |].
  split; [| split; [| split]].
  - destruct (sound_constructs TEXT_ANALYSIS _
                (text_analyze_sound text_findall _)
                (text_analyze_worded text_findall
                   (JobAnalysisRequest.job_text request)))
      as [Hc Hcat].
    pose proof (text_calculate_confidence_range
                  (JobAnalysisRequest.job_text request)) as Hrange.
    assert (Hconf : 7 # 10
                    <= AnalysisResult.confidence
                         (TextAnalyzer.analyze text_findall
                            (JobAnalysisRequest.job_text request)) <= 1).
    { unfold TextAnalyzer.analyze. destruct (_ || _).
      - cbn [AnalysisResult.confidence]. lra.
      - cbn [AnalysisResult.confidence]. apply Hrange. }
    split; [| split; [exact Hcat | apply Hconf]].
    split; [exact Hc |]. split; [lra |].
    rewrite text_analyze_name. reflexivity.
  - destruct (email_analyze_shape _ _ _ _ Hemail) as [Hshape Hcat].
    destruct (sound_constructs EMAIL_VALIDATION _
                (shaped_sound _ _ _ _ email_shapes_checked Hshape Hcat)
                (email_analyze_worded _ _ _ _ Hemail)) as [Hc _].
    pose proof (email_confidence_range _ _ Hemail) as Hconf.
    split; [| split; [exact Hcat | apply Hconf]].
    split; [exact Hc |]. split; [lra |].
    rewrite (email_analyze_name _ _ Hemail). reflexivity.
  - destruct (url_analyze_shape _ _ _ _ _ Hurl) as [Hshape Hcat].
    destruct (sound_constructs URL_VALIDATION _
                (shaped_sound _ _ _ _ url_shapes_checked Hshape Hcat)
                (url_analyze_worded _ _ _ _ _ Hurl)) as [Hc _].
    pose proof (url_confidence_range _ _ Hurl) as Hconf.
    split; [| split; [exact Hcat | apply Hconf]].
    split; [exact Hc |]. split; [lra |].
    rewrite (url_analyze_name _ _ Hurl). reflexivity.
  - destruct (platform_analyze_fine domain_match
                (JobAnalysisRequest.platform_source request))
      as [Hfine Hconf].
    assert (Hs : Forall (Shape.sound PLATFORM_CREDIBILITY)
                   (AnalysisResult.risk_factors
                      (PlatformAnalyzer.analyze domain_match
                         (JobAnalysisRequest.platform_source request)))).
    { eapply Forall_impl; [| exact Hfine]. cbn. intros f Hf. apply Hf. }
    assert (Hw : Forall worded
                   (AnalysisResult.risk_factors
                      (PlatformAnalyzer.analyze domain_match
                         (JobAnalysisRequest.platform_source request)))).
    { eapply Forall_impl; [| exact Hfine]. cbn. intros f Hf. apply Hf. }
    destruct (sound_constructs PLATFORM_CREDIBILITY _ Hs Hw) as [Hc Hcat].
    split; [| split; [exact Hcat | apply Hconf]].
    split; [exact Hc |]. split; [lra |].
    rewrite platform_analyze_name. reflexivity.
Qed.

(** X7.  Whenever the four analyzers return, the risk factors and the
    results they built are within the ranges of the data models and pass
    their validators unchanged: each risk factor has the category of its analyzer, a severity from 0 to 100, a
    confidence from 0 to 1 and a description that is not blank and that
    [validate_description] returns unchanged; each result has a confidence
    from 0 to 1 (of 0.7 at least for the text analyzer and 0.8 at least
    for the three others) and a name that [validate_analyzer_name] returns
    unchanged. *)
Theorem analyzers_build_valid_models (request : JobAnalysisRequest.t)
        (results : Dict.t AnalysisResult.t) :
  JobAnalysisService._run_all_analyzers text_findall email_match email_search
    url_match url_search urlparse domain_match request = Some results ->
  exists text email url platform,
    results = Spec.results text email url platform
    /\ (AnalysisResultMethods.constructs text
        /\ Forall (fun f => RiskFactor.category f = TEXT_ANALYSIS)
                  (AnalysisResult.risk_factors text)
        /\ 7 # 10 <= AnalysisResult.confidence text)
    /\ (AnalysisResultMethods.constructs email
        /\ Forall (fun f => RiskFactor.category f = EMAIL_VALIDATION)
                  (AnalysisResult.risk_factors email)
        /\ 8 # 10 <= AnalysisResult.confidence email)
    /\ (AnalysisResultMethods.constructs url
        /\ Forall (fun f => RiskFactor.category f = URL_VALIDATION)
                  (AnalysisResult.risk_factors url)
        /\ 8 # 10 <= AnalysisResult.confidence url)
    /\ (AnalysisResultMethods.constructs platform
        /\ Forall (fun f => RiskFactor.category f = PLATFORM_CREDIBILITY)
                  (AnalysisResult.risk_factors platform)
        /\ 8 # 10 <= AnalysisResult.confidence platform).
Proof. apply results_construct. Qed.

End AnalyzerResults.

Lemma analyzers_build_valid_models_witness :
  JobAnalysisService._run_all_analyzers Examples.no_findall
    Examples.no_email_pattern Examples.no_email_pattern
    Examples.url_shape_only Examples.no_url_pattern Examples.parse_example
    Examples.no_domain (Examples.example_com_request "telegram")
  <> None
  /\ exists results text email url platform,
       JobAnalysisService._run_all_analyzers Examples.no_findall
         Examples.no_email_pattern Examples.no_email_pattern
         Examples.url_shape_only Examples.no_url_pattern
         Examples.parse_example Examples.no_domain
         (Examples.example_com_request "telegram")
       = Some results
       /\ results = Spec.results text email url platform
       /\ AnalysisResultMethods.constructs platform
       /\ Forall (fun f => RiskFactor.category f = PLATFORM_CREDIBILITY)
                 (AnalysisResult.risk_factors platform).
Proof.
  destruct (JobAnalysisService._run_all_analyzers Examples.no_findall
              Examples.no_email_pattern Examples.no_email_pattern
              Examples.url_shape_only Examples.no_url_pattern
              Examples.parse_example Examples.no_domain
              (Examples.example_com_request "telegram"))
    as [results |] eqn:Hrun; [| vm_compute in Hrun; discriminate].
  split; [discriminate |].
  destruct (analyzers_build_valid_models _ _ _ _ _ _ _ _ _ Hrun)
    as (text & email & url & platform & Hresults & _ & _ & _ & Hp & Hc & _).
  exists results, text, email, url, platform.
  split; [reflexivity |]. split; [exact Hresults |].
  split; [exact Hp | exact Hc].
Defined.

(** ** When the service raises, and what its response holds *)

Section ServiceResponse.

Import PyStr PyMore PyNum RiskFactorValidators JobAnalysisService.
Open Scope Q_scope.

Variable text_findall : TextAnalyzer.pattern_name -> string -> list string.
Variable email_match email_search : EmailAnalyzer.regex -> string -> bool.
Variable url_match url_search : URLAnalyzer.regex -> string -> bool.
Variable urlparse : string -> option URLAnalyzer.ParseResult.
Variable domain_match : string -> option string.

Lemma split_on_first (c : ascii) (s : string) :
  exists first, nth_error (split_on c s) 0 = Some first.
Proof.
  pose proof (split_on_length c s []) as Hlen.
  fold (split_on c s) in Hlen.
  destruct (split_on c s) as [| first rest]; [discriminate |].
  exists first. reflexivity.
Qed.

Lemma url_domain_total (parsed_url : URLAnalyzer.ParseResult)
      (l : list RiskFactor.t) :
  exists after,
    URLAnalyzer._check_suspicious_domain_characteristics url_match
      parsed_url l = Some after.
Proof.
  unfold URLAnalyzer._check_suspicious_domain_characteristics.
  set (lowered := lower (URLAnalyzer.netloc parsed_url)).
  assert (Hd : exists domain,
             (if contains ":" lowered
              then nth_error (split_on ":" lowered) 0
              else Some lowered) = Some domain).
  { destruct (contains ":" lowered); [apply split_on_first |].
    eexists. reflexivity. }
  destruct Hd as (domain & ->).
  destruct (find _ URLAnalyzer.suspicious_domains) as [[category names] |];
    [eexists; reflexivity |].
  destruct (split_on_first "." domain) as (first_part & ->).
  eexists. reflexivity.
Qed.

Lemma scheme_truthy (scheme : string) :
  mem scheme [ "http"%string; "https"%string ] = true -> truthy scheme = true.
Proof. destruct scheme; [discriminate | reflexivity]. Qed.

(** X8.  The URL analyzer raises on exactly the company URLs that pass its
    format validation (not blank, matched by the URL pattern, parsed with
    the scheme http or https and a network location) and whose port
    cannot be read from the parsed URL; on every other input it returns a
    result. *)
Theorem url_analyzer_raises_on_unreadable_port (company_url : option string) :
  URLAnalyzer.analyze url_match url_search urlparse company_url = None
  <-> exists given parsed,
        company_url = Some given
        /\ present (Some given) = true
        /\ url_match URLAnalyzer.url_pattern (strip given) = true
        /\ urlparse (strip given) = Some parsed
        /\ mem (URLAnalyzer.scheme parsed) [ "http"%string; "https"%string ]
           = true
        /\ truthy (URLAnalyzer.netloc parsed) = true
        /\ URLAnalyzer.port parsed = None.
Proof.
  unfold URLAnalyzer.analyze, present.
  destruct company_url as [given |].
  2:{ split; [discriminate | intros (g & p & H & _); discriminate]. }
  destruct (truthy given) eqn:Eg; cbn [negb orb andb].
  2:{ split; [discriminate |].
      intros (g & p & [= <-] & H & _). rewrite Eg in H. discriminate. }
  destruct (truthy (strip given)) eqn:Es; cbn [negb].
  2:{ split; [discriminate |].
      intros (g & p & [= <-] & H & _). rewrite Eg, Es in H. discriminate. }
  set (url := strip given).
  unfold URLAnalyzer._validate_url_format.
  destruct (url_match URLAnalyzer.url_pattern url) eqn:Em; cbn [negb].
  2:{ split; [discriminate |].
      intros (g & p & [= <-] & _ & H & _). fold url in H. congruence. }
  destruct (urlparse url) as [parsed |] eqn:Ep.
  2:{ split; [discriminate |].
      intros (g & p & [= <-] & _ & _ & H & _). fold url in H. congruence. }
  destruct (mem (URLAnalyzer.scheme parsed) [ "http"%string; "https"%string ])
    eqn:Esch.
  2:{ rewrite orb_true_r.
      split; [discriminate |].
      intros (g & p & [= <-] & _ & _ & H & H' & _). fold url in H.
      rewrite Ep in H. injection H as <-. congruence. }
  rewrite (scheme_truthy _ Esch). cbn [negb orb].
  destruct (truthy (URLAnalyzer.netloc parsed)) eqn:En; cbn [negb].
  2:{ split; [discriminate |].
      intros (g & p & [= <-] & _ & _ & H & _ & H' & _). fold url in H.
      rewrite Ep in H. injection H as <-. congruence. }
  assert (Hports :
            forall l,
              match
                (checked <-
                   URLAnalyzer._check_suspicious_domain_characteristics
                     url_match parsed
                     (URLAnalyzer._check_suspicious_patterns url_search url l) ;;
                 URLAnalyzer._check_suspicious_ports parsed
                   (URLAnalyzer._check_url_shorteners url checked))
              with
              | Some _ => URLAnalyzer.port parsed <> None
              | None => URLAnalyzer.port parsed = None
              end).
  { intros l.
    destruct (url_domain_total parsed
                (URLAnalyzer._check_suspicious_patterns url_search url l))
      as (checked & ->).
    unfold URLAnalyzer._check_suspicious_ports.
    destruct (URLAnalyzer.port parsed) as [[number |] |];
      [| discriminate | reflexivity].
    destruct (negb (number =? 0)%Z && _); discriminate. }
  destruct (2000 <? String.length url)%nat;
    match goal with
    | |- context [URLAnalyzer._check_suspicious_patterns url_search url ?l] =>
        specialize (Hports l)
    end;
    (destruct (checked <-
                 URLAnalyzer._check_suspicious_domain_characteristics
                   url_match parsed _ ;; _) eqn:E;
     [split; [discriminate |];
      intros (g & p & [= <-] & _ & _ & H & _ & _ & H'); fold url in H;
      rewrite Ep in H; injection H as <-; contradiction
     | split; [intros _ | reflexivity];
       exists given, parsed; rewrite Eg, Es; repeat split; assumption]).
Qed.

Lemma validate_flags_tidy (flags : list string) :
  Forall (fun flag => tidy flag = true) flags ->
  JobAnalysisResponseValidators.validate_flags flags = flags.
Proof.
  unfold JobAnalysisResponseValidators.validate_flags.
  induction 1 as [| flag rest Hflag Hrest IH]; cbn [flat_map];
    [reflexivity |].
  rewrite (strip_tidy _ Hflag), (tidy_truthy _ Hflag), IH. reflexivity.
Qed.

(** The flags are descriptions of risk factors of the results, no two the
    same and eight at most. *)
Lemma flags_of_results (results : Dict.t AnalysisResult.t) :
  let flags := _generate_flags results in
  (forall flag,
      In flag flags ->
      exists f, In f (collect_risk_factors results)
                /\ RiskFactor.description f = flag)
  /\ NoDup flags
  /\ (List.length flags <= 8)%nat.
Proof.
  intros flags. subst flags. unfold _generate_flags.
  rewrite flags_loop_dedup by (cbn; lia).
  cbn [app List.length]. rewrite Nat.sub_0_r.
  set (sorted := sorted_desc RiskFactor.sort_key (collect_risk_factors results)).
  split; [| split].
  - intros flag Hin. apply in_map_iff in Hin.
    destruct Hin as (f & Hf & Hin). exists f. split; [| exact Hf].
    assert (Hin' : In f (Spec.dedup sorted [])).
    { rewrite <- (firstn_skipn 8 (Spec.dedup sorted [])).
      apply in_or_app. left. exact Hin. }
    apply dedup_In in Hin'. destruct Hin' as [Hin' _].
    apply (sorted_desc_In RiskFactor.sort_key). exact Hin'.
  - pose proof (dedup_NoDup sorted []) as Hnd.
    rewrite <- (firstn_skipn 8 (Spec.dedup sorted [])) in Hnd.
    rewrite map_app in Hnd. apply NoDup_app_remove_r in Hnd. exact Hnd.
  - rewrite length_map, length_firstn. lia.
Qed.

Lemma join_starts_ok (sep first : string) (rest : list string) :
  starts_ok first = true -> starts_ok (join sep (first :: rest)) = true.
Proof.
  intros H. destruct rest as [| second rest]; [exact H |].
  change (join sep (first :: second :: rest))
    with (first ++ sep ++ join sep (second :: rest))%string.
  apply starts_ok_app, H.
Qed.

Lemma join_last_ends_ok (sep last : string) (front : list string) :
  ends_ok last = true -> ends_ok (join sep (front ++ [last])) = true.
Proof.
  intros H. induction front as [| x r IH]; [exact H |].
  cbn [app]. destruct (r ++ [last])%list as [| y r'] eqn:E.
  - destruct r; discriminate.
  - change (join sep (x :: y :: r'))
      with (x ++ sep ++ join sep (y :: r'))%string.
    apply ends_ok_app, ends_ok_app, IH.
Qed.

(** The explanation is tidy: [validate_explanation] returns it as it
    is. *)
Lemma explanation_tidy (results : Dict.t AnalysisResult.t) (risk_score : Z)
      (verdict : VerdictEnum) (confidence_level : ConfidenceEnum) :
  tidy (JobAnalysisServiceExplanation._generate_explanation results
          risk_score verdict confidence_level) = true.
Proof.
  unfold JobAnalysisServiceExplanation._generate_explanation.
  set (concerns := JobAnalysisServiceExplanation.concerns_sentence _).
  set (insights := JobAnalysisServiceExplanation._get_category_insights _).
  set (opening := JobAnalysisServiceExplanation.opening _ _ _).
  assert (Hopening : starts_ok opening = true)
    by (subst opening; destruct verdict; reflexivity).
  assert (Hlast : ends_ok (JobAnalysisServiceExplanation.recommendation verdict)
                  = true)
    by (destruct verdict; reflexivity).
  apply tidy_parts. split.
  - destruct (truthy insights); cbn [app]; apply join_starts_ok, Hopening.
  - apply join_last_ends_ok, Hlast.
Qed.

(** The service raises when the URL analyzer does, and only then; what
    it returns is a response the response model accepts as it is. *)
Lemma service_response (request : JobAnalysisRequest.t) :
  (URLAnalyzer.analyze url_match url_search urlparse
     (JobAnalysisRequest.company_url request) = None
   /\ analyze_job_posting text_findall email_match email_search url_match
        url_search urlparse domain_match request = None
   /\ JobAnalysisServiceExplanation.explanation_of text_findall email_match
        email_search url_match url_search urlparse domain_match request
      = None)
  \/ (exists url response explanation,
         URLAnalyzer.analyze url_match url_search urlparse
           (JobAnalysisRequest.company_url request) = Some url
         /\ analyze_job_posting text_findall email_match email_search
              url_match url_search urlparse domain_match request
            = Some response
         /\ JobAnalysisServiceExplanation.explanation_of text_findall
              email_match email_search url_match url_search urlparse
              domain_match request = Some explanation
         /\ JobAnalysisResponseValidators.constructs response explanation
         /\ JobAnalysisResponse.verdict response
            = _determine_verdict (JobAnalysisResponse.risk_score response)
         /\ (List.length (JobAnalysisResponse.flags response) <= 8)%nat
         /\ NoDup (JobAnalysisResponse.flags response)).
Proof.
  unfold analyze_job_posting, JobAnalysisServiceExplanation.explanation_of.
  destruct (_run_all_analyzers text_findall email_match email_search
              url_match url_search urlparse domain_match request)
    as [results |] eqn:Hrun.
  - right.
    destruct (results_construct _ _ _ _ _ _ _ _ _ Hrun)
      as (text & email & url & platform & Hresults & Ht & He & Hu & Hp).
    destruct (run_all_analyzers_results _ _ _ _ _ _ _ _ _ Hrun)
      as (email' & url' & _ & Hurl & _).
    destruct (overall_risk_score_shape results request)
      as (scores & base & _ & _ & Hscore).
    rewrite Hscore. cbn beta iota.
    exists url'. eexists. eexists.
    split; [exact Hurl |]. split; [reflexivity |]. split; [reflexivity |].
    destruct (flags_of_results results) as (Hflags & Hnodup & Hlen).
    cbn [JobAnalysisResponse.verdict JobAnalysisResponse.risk_score
         JobAnalysisResponse.flags].
    split; [| split; [reflexivity | split; [exact Hlen | exact Hnodup]]].
    split; [apply clamp_range |].
    cbn [JobAnalysisResponse.flags]. split.
    + apply validate_flags_tidy. apply Forall_forall. intros flag Hflag.
      destruct (Hflags flag Hflag) as (f & Hf & <-).
      assert (Hall : Forall constructs (collect_risk_factors results)).
      { rewrite Hresults, collect_results.
        destruct Ht as ((Ht & _) & _), He as ((He & _) & _),
          Hu as ((Hu & _) & _), Hp as ((Hp & _) & _).
        repeat (apply Forall_app; split); assumption. }
      rewrite Forall_forall in Hall. destruct (Hall f Hf) as [_ Hd].
      unfold validate_description in Hd.
      destruct (negb (truthy (RiskFactor.description f))
                || negb (truthy (strip (RiskFactor.description f))))
        eqn:E; [discriminate |].
      apply orb_false_iff in E. destruct E as [_ E].
      apply negb_false_iff in E. apply truthy_strip_tidy in E.
      injection Hd as Hd. rewrite Hd in E. exact E.
    + unfold JobAnalysisResponseValidators.validate_explanation.
      rewrite (strip_tidy _ (explanation_tidy _ _ _ _)),
        (tidy_truthy _ (explanation_tidy _ _ _ _)).
      reflexivity.
  - left. split; [| split; reflexivity].
    revert Hrun. unfold _run_all_analyzers.
    destruct (email_analyze_total email_match email_search
                (JobAnalysisRequest.recruiter_email request)) as [email ->].
    destruct (URLAnalyzer.analyze _ _ _ _); [discriminate | reflexivity].
Qed.

(** X9.  The service raises on exactly the requests on which the URL
    analyzer raises.  On every other request it returns a response the
    response model accepts as it is: a risk score from 0 to 100, the
    verdict of that score, at most eight flags, no two the same, each one
    not blank and returned unchanged by [validate_flags], and an
    explanation that is not blank and that [validate_explanation] returns
    unchanged. *)
Theorem service_raises_with_url_analyzer_only
        (request : JobAnalysisRequest.t) :
  (URLAnalyzer.analyze url_match url_search urlparse
     (JobAnalysisRequest.company_url request) = None
   /\ analyze_job_posting text_findall email_match email_search url_match
        url_search urlparse domain_match request = None
   /\ JobAnalysisServiceExplanation.explanation_of text_findall email_match
        email_search url_match url_search urlparse domain_match request
      = None)
  \/ (exists url response explanation,
         URLAnalyzer.analyze url_match url_search urlparse
           (JobAnalysisRequest.company_url request) = Some url
         /\ analyze_job_posting text_findall email_match email_search
              url_match url_search urlparse domain_match request
            = Some response
         /\ JobAnalysisServiceExplanation.explanation_of text_findall
              email_match email_search url_match url_search urlparse
              domain_match request = Some explanation
         /\ JobAnalysisResponseValidators.constructs response explanation
         /\ JobAnalysisResponse.verdict response
            = _determine_verdict (JobAnalysisResponse.risk_score response)
         /\ (List.length (JobAnalysisResponse.flags response) <= 8)%nat
         /\ NoDup (JobAnalysisResponse.flags response)).
Proof. apply service_response. Qed.

End ServiceResponse.

(** ** The validators and the methods of the data models *)

Section RequestValidators.

Import PyStr PyMore JobAnalysisRequestValidators.
Open Scope string_scope.

Variable url_pattern_match : string -> bool.
Variable email_pattern_match : string -> bool.

(** The test [not v or not v.strip()] is the test that [v.strip()] is
    empty. *)
Lemma blank_test (v : string) :
  negb (truthy v) || negb (truthy (strip v)) = negb (truthy (strip v)).
Proof. destruct v; reflexivity. Qed.

Lemma eqb_empty (s : string) : String.eqb s "" = negb (truthy s).
Proof. destruct s; reflexivity. Qed.

(** The validator of a text that must not be blank: the text stripped. *)
Lemma validate_text_cases (v : string) :
  (strip v = "" /\ validate_job_text v = None)
  \/ (tidy (strip v) = true /\ validate_job_text v = Some (strip v)).
Proof.
  unfold validate_job_text. rewrite blank_test.
  destruct (strip_cases v) as [H | H].
  - left. rewrite H. split; reflexivity.
  - right. rewrite (tidy_truthy _ H). split; [exact H | reflexivity].
Qed.

Lemma validate_text_normal (v w : string) :
  validate_job_text v = Some w ->
  w = strip v /\ strip w = w /\ truthy w = true
  /\ validate_job_text w = Some w.
Proof.
  intros H. destruct (validate_text_cases v) as [[_ H'] | [Ht H']];
    [congruence |].
  assert (E : w = strip v) by congruence. subst w.
  split; [reflexivity |]. split; [apply strip_tidy, Ht |].
  split; [apply tidy_truthy, Ht |].
  destruct (validate_text_cases (strip v)) as [[H0 _] | [_ H1]].
  - rewrite (strip_tidy _ Ht) in H0. apply tidy_truthy in Ht.
    rewrite H0 in Ht. discriminate.
  - rewrite H1, (strip_tidy _ Ht). reflexivity.
Qed.

Lemma validate_url_normal (v : option string) (w : string) :
  validate_company_url url_pattern_match v = Some (Some w) ->
  (exists given, v = Some given /\ w = strip given)
  /\ strip w = w /\ truthy w = true
  /\ url_pattern_match w = true
  /\ validate_company_url url_pattern_match (Some w) = Some (Some w).
Proof.
  unfold validate_company_url. destruct v as [given |]; [| discriminate].
  rewrite eqb_empty.
  destruct (strip_cases given) as [H | H]; [rewrite H; discriminate |].
  rewrite (tidy_truthy _ H). cbn [negb].
  destruct (url_pattern_match (strip given)) eqn:Hm; [| discriminate].
  intros [= <-]. split; [exists given; split; reflexivity |].
  rewrite (strip_tidy _ H), eqb_empty, (tidy_truthy _ H), Hm.
  repeat split; reflexivity.
Qed.

Lemma validate_email_normal (v : option string) (w : string) :
  validate_recruiter_email email_pattern_match v = Some (Some w) ->
  (exists given, v = Some given /\ w = lower (strip given))
  /\ strip w = w /\ truthy w = true /\ lower w = w
  /\ email_pattern_match w = true
  /\ validate_recruiter_email email_pattern_match (Some w) = Some (Some w).
Proof.
  unfold validate_recruiter_email. destruct v as [given |]; [| discriminate].
  rewrite eqb_empty.
  destruct (strip_cases given) as [H | H]; [rewrite H; discriminate |].
  rewrite (tidy_truthy _ H). cbn [negb].
  destruct (email_pattern_match (lower (strip given))) eqn:Hm;
    [| discriminate].
  intros [= <-]. split; [exists given; split; reflexivity |].
  assert (Hl : tidy (lower (strip given)) = true)
    by (rewrite tidy_lower; exact H).
  rewrite (strip_tidy _ Hl), eqb_empty, (tidy_truthy _ Hl),
    lower_idempotent, Hm.
  repeat split; reflexivity.
Qed.

(** X10.  What a validator of the request model returns is in normal
    form: the job text and the platform source are the given text
    stripped, not empty, and the validator returns them unchanged when it
    is given them again; a company URL and a recruiter email that are
    kept are the given text stripped (and put in lower case, for the
    email), not empty, matched by the pattern, and validated to
    themselves again.  A text or platform that is blank is refused; a URL
    or email that is missing or blank is [None], whatever the pattern. *)
Theorem request_validators_normal_form :
  (forall v w,
      validate_job_text v = Some w ->
      w = strip v /\ strip w = w /\ truthy w = true
      /\ validate_job_text w = Some w)
  /\ (forall v w,
         validate_platform_source v = Some w ->
         w = strip v /\ strip w = w /\ truthy w = true
         /\ validate_platform_source w = Some w)
  /\ (forall v w,
         validate_company_url url_pattern_match v = Some (Some w) ->
         (exists given, v = Some given /\ w = strip given)
         /\ strip w = w /\ truthy w = true
         /\ url_pattern_match w = true
         /\ validate_company_url url_pattern_match (Some w) = Some (Some w))
  /\ (forall v w,
         validate_recruiter_email email_pattern_match v = Some (Some w) ->
         (exists given, v = Some given /\ w = lower (strip given))
         /\ strip w = w /\ truthy w = true /\ lower w = w
         /\ email_pattern_match w = true
         /\ validate_recruiter_email email_pattern_match (Some w)
            = Some (Some w))
  /\ (forall v,
         strip v = "" ->
         validate_job_text v = None
         /\ validate_platform_source v = None
         /\ validate_company_url url_pattern_match (Some v) = Some None
         /\ validate_recruiter_email email_pattern_match (Some v) = Some None)
  /\ validate_company_url url_pattern_match None = Some None
  /\ validate_recruiter_email email_pattern_match None = Some None.
Proof.
  split; [exact validate_text_normal |].
  split; [exact validate_text_normal |].
  split; [exact validate_url_normal |].
  split; [exact validate_email_normal |].
  split; [| split; reflexivity].
  intros v Hv.
  unfold validate_job_text, validate_platform_source, validate_company_url,
    validate_recruiter_email.
  rewrite blank_test, Hv. repeat split; reflexivity.
Qed.

End RequestValidators.

Lemma request_validators_normal_form_witness :
  JobAnalysisRequestValidators.validate_recruiter_email
    (MoreExamples.matches_only "hr@example.com")
    (Some "  HR@Example.com "%string)
  = Some (Some "hr@example.com"%string)
  /\ JobAnalysisRequestValidators.validate_recruiter_email
       (MoreExamples.matches_only "hr@example.com")
       (Some "hr@example.com"%string)
     = Some (Some "hr@example.com"%string).
Proof.
  assert (H : JobAnalysisRequestValidators.validate_recruiter_email
                (MoreExamples.matches_only "hr@example.com")
                (Some "  HR@Example.com "%string)
              = Some (Some "hr@example.com"%string)) by reflexivity.
  split; [exact H |].
  destruct (request_validators_normal_form
              (MoreExamples.matches_only "https://example.com")
              (MoreExamples.matches_only "hr@example.com"))
    as (_ & _ & _ & Hemail & _).
  apply (Hemail _ _ H).
Defined.

Section ResponseValidators.

Import PyStr PyMore JobAnalysisResponseValidators.
Open Scope string_scope.

Lemma validate_flags_length (v : list string) :
  (List.length (validate_flags v) <= List.length v)%nat.
Proof.
  unfold validate_flags. induction v as [| flag rest IH]; simpl; [lia |].
  destruct (truthy (strip flag)); simpl; lia.
Qed.

Lemma validate_flags_all_tidy (v : list string) :
  Forall (fun flag => tidy flag = true) (validate_flags v).
Proof.
  unfold validate_flags. induction v as [| flag rest IH]; simpl;
    [constructor |].
  destruct (truthy (strip flag)) eqn:E; [| exact IH].
  constructor; [apply truthy_strip_tidy, E | exact IH].
Qed.

Lemma validate_flags_fixed (v : list string) :
  validate_flags v = v -> Forall (fun flag => tidy flag = true) v.
Proof.
  intros H. rewrite <- H. apply validate_flags_all_tidy.
Qed.

(** X11.  [validate_flags] keeps the flags that are not blank, stripped
    and in their order: each flag it returns is stripped and not empty,
    there are no more of them than were given, validating its result again
    changes nothing, and it returns the given list unchanged exactly when
    every flag of it is stripped and not empty. *)
Theorem validate_flags_normal_form (v : list string) :
  Forall (fun flag => strip flag = flag /\ truthy flag = true)
         (validate_flags v)
  /\ (List.length (validate_flags v) <= List.length v)%nat
  /\ validate_flags (validate_flags v) = validate_flags v
  /\ (validate_flags v = v
      <-> Forall (fun flag => strip flag = flag /\ truthy flag = true) v).
Proof.
  assert (Htidy : forall l,
             Forall (fun flag => tidy flag = true) l
             <-> Forall (fun flag => strip flag = flag /\ truthy flag = true) l).
  { intros l. split; intros H; eapply Forall_impl; try exact H;
      cbn beta; intros flag.
    - intros Hf. split; [apply strip_tidy, Hf | apply tidy_truthy, Hf].
    - intros [Hs Ht]. rewrite <- Hs. apply truthy_strip_tidy.
      rewrite Hs. exact Ht. }
  split; [apply Htidy, validate_flags_all_tidy |].
  split; [apply validate_flags_length |].
  split; [apply validate_flags_tidy, validate_flags_all_tidy |].
  split.
  - intros H. apply Htidy, validate_flags_fixed, H.
  - intros H. apply validate_flags_tidy, Htidy, H.
Qed.

End ResponseValidators.

Section ResultMethods.

Import PyNum AnalysisResultMethods.
Open Scope Q_scope.

Lemma fold_Zmax2 (l : list Z) (a : Z) :
  let m := fold_left Zmax2 l a in
  (a <= m)%Z /\ (forall x, In x l -> (x <= m)%Z) /\ (m = a \/ In m l).
Proof.
  revert a. induction l as [| y l IH]; intros a; simpl.
  - split; [lia |]. split; [contradiction | left; reflexivity].
  - destruct (IH (Zmax2 a y)) as (Ha & Hall & Hin).
    rewrite Zmax2_spec in *.
    split; [lia |]. split.
    + intros x [<- | Hx]; [lia | apply Hall, Hx].
    + destruct Hin as [Hm | Hm]; [| right; right; exact Hm].
      destruct (Z.max_spec a y) as [[_ E] | [_ E]].
      * right. left. congruence.
      * left. congruence.
Qed.

(** The maximal severity is the severity of a risk factor, and none has a
    greater one. *)
Lemma max_severity_greatest (self : AnalysisResult.t) :
  AnalysisResult.risk_factors self <> [] ->
  (exists f, In f (AnalysisResult.risk_factors self)
             /\ RiskFactor.severity f = get_max_severity self)
  /\ forall f, In f (AnalysisResult.risk_factors self) ->
               (RiskFactor.severity f <= get_max_severity self)%Z.
Proof.
  unfold get_max_severity.
  destruct (AnalysisResult.risk_factors self) as [| first rest];
    [congruence |].
  intros _.
  destruct (fold_Zmax2 (map RiskFactor.severity rest)
                       (RiskFactor.severity first)) as (Ha & Hall & Hin).
  cbn beta zeta in *. split.
  - destruct Hin as [E | Hin].
    + exists first. split; [left; reflexivity | symmetry; exact E].
    + apply in_map_iff in Hin. destruct Hin as (f & Hf & Hin).
      exists f. split; [right; exact Hin | exact Hf].
  - intros f [<- | Hf]; [exact Ha |].
    apply Hall, in_map, Hf.
Qed.

Lemma weighted_sum_nonneg (l : list RiskFactor.t) :
  Forall RiskFactor.valid l ->
  0 <= sum (map RiskFactor.weighted l)
  /\ 0 <= sum (map RiskFactor.confidence l).
Proof.
  induction l as [| f l IH]; intros Hv.
  - unfold sum. simpl. lra.
  - inversion Hv as [| ? ? [Hs Hc] Hl]; subst.
    destruct (IH Hl) as (H0 & H1).
    cbn [map]. rewrite !sum_cons. unfold RiskFactor.weighted at 1.
    assert (Hlo : 0 <= inject_Z (RiskFactor.severity f)).
    { change 0 with (inject_Z 0). rewrite <- Zle_Qle. lia. }
    assert (Hp : 0 <= inject_Z (RiskFactor.severity f)
                      * RiskFactor.confidence f)
      by (apply Qmult_le_0_compat; [exact Hlo | apply Hc]).
    split; lra.
Qed.

(** The division of [get_weighted_severity] is guarded, and the quotient
    of two sums that are not negative is not negative. *)
Lemma weighted_severity_defined (self : AnalysisResult.t) :
  Forall RiskFactor.valid (AnalysisResult.risk_factors self) ->
  exists weighted,
    get_weighted_severity self = Some weighted /\ 0 <= weighted.
Proof.
  intros Hvalid.
  destruct (AnalysisResult.risk_factors self) as [| first rest] eqn:E.
  { unfold get_weighted_severity. rewrite E.
    exists 0. split; [reflexivity | lra]. }
  unfold get_weighted_severity. rewrite E. rewrite <- E.
  destruct (weighted_sum_nonneg (AnalysisResult.risk_factors self))
    as (H0 & H2); [rewrite E; exact Hvalid |].
  set (total_weighted := sum (map RiskFactor.weighted _)) in *.
  set (total_confidence := sum (map RiskFactor.confidence _)) in *.
  destruct (Qeq_bool total_confidence 0) eqn:Hz.
  - exists 0. split; [reflexivity | lra].
  - unfold div. rewrite Hz. eexists. split; [reflexivity |].
    assert (Hpos : 0 < total_confidence).
    { apply Qeq_bool_neq in Hz. lra. }
    apply Qle_shift_div_l; lra.
Qed.

(** X12.  For a result whose risk factors have a severity from 0 to 100
    and a confidence from 0 to 1, [get_weighted_severity] raises nothing
    and returns a value that is not negative; [get_max_severity] is from 0
    to 100, is the severity of one of the risk factors, the greatest one,
    and both are 0 without risk factors. *)
Theorem weighted_severity_defined_max_severity_greatest
        (self : AnalysisResult.t) :
  Forall RiskFactor.valid (AnalysisResult.risk_factors self) ->
  exists weighted,
    get_weighted_severity self = Some weighted
    /\ 0 <= weighted
    /\ (0 <= get_max_severity self <= 100)%Z
    /\ (forall f, In f (AnalysisResult.risk_factors self) ->
                  (RiskFactor.severity f <= get_max_severity self)%Z)
    /\ match AnalysisResult.risk_factors self with
       | [] => get_max_severity self = 0%Z /\ weighted = 0
       | _ :: _ =>
           exists f, In f (AnalysisResult.risk_factors self)
                     /\ RiskFactor.severity f = get_max_severity self
       end.
Proof.
  intros Hvalid.
  destruct (weighted_severity_defined self Hvalid) as (weighted & Hw & H0).
  exists weighted. split; [exact Hw |]. split; [exact H0 |].
  destruct (AnalysisResult.risk_factors self) as [| first rest] eqn:E.
  - unfold get_weighted_severity, get_max_severity in *. rewrite E in *.
    split; [lia |]. split; [intros f [] |].
    split; [reflexivity | congruence].
  - assert (Hne : AnalysisResult.risk_factors self <> [])
      by (rewrite E; discriminate).
    destruct (max_severity_greatest self Hne) as ((top & Htop & Hsev) & Hall).
    rewrite E in Htop, Hall.
    split; [| split; [exact Hall | exists top; split; assumption]].
    rewrite Forall_forall in Hvalid.
    destruct (Hvalid top Htop) as [Hs _]. lia.
Qed.

End ResultMethods.

Lemma weighted_severity_defined_max_severity_greatest_witness :
  Forall RiskFactor.valid
         (AnalysisResult.risk_factors MoreExamples.two_email_findings)
  /\ exists weighted,
       AnalysisResultMethods.get_weighted_severity
         MoreExamples.two_email_findings = Some weighted
       /\ (0 <= weighted)%Q
       /\ (0 <= AnalysisResultMethods.get_max_severity
                  MoreExamples.two_email_findings <= 100)%Z.
Proof.
  assert (H : Forall RiskFactor.valid
                (AnalysisResult.risk_factors MoreExamples.two_email_findings)).
  { repeat constructor; cbn; lia || lra. }
  split; [exact H |].
  destruct (weighted_severity_defined_max_severity_greatest
              MoreExamples.two_email_findings H)
    as (weighted & Hw & H0 & Hrange & _).
  exists weighted. split; [exact Hw |]. split; [exact H0 | exact Hrange].
Defined.

(** ** The names of the platforms *)

Section PlatformNames.

Import PyNum PyStr PlatformAnalyzer PlatformFindings.
Open Scope string_scope.

Variable domain_match : string -> option string.

Lemma renamed_keys_value :
  renamed_keys
  = [ "linkedin"; "indeed"; "glassdoor"; "monster"; "craigslist";
      "facebook"; "twitter"; "telegram"; "whatsapp" ].
Proof. reflexivity. Qed.

(** Where the normalized name comes from: the database of platforms, the
    table of the patterns, or the name itself when no pattern is found in
    it. *)
Lemma normalize_cases (platform : string) :
  in_all_platforms (_normalize_platform_name domain_match platform) = true
  \/ (exists entry,
         In entry platform_patterns
         /\ _normalize_platform_name domain_match platform = snd entry)
  \/ (_normalize_platform_name domain_match platform = lower platform
      /\ forall entry,
           In entry platform_patterns ->
           search (snd (fst entry)) platform = false).
Proof.
  unfold _normalize_platform_name.
  destruct (in_all_platforms platform) eqn:Hin; [left; exact Hin |].
  set (found := find _ platform_patterns).
  assert (Htail :
            let n := match found with
                     | Some (_, _, platform_name) => platform_name
                     | None => lower platform
                     end in
            in_all_platforms n = true
            \/ (exists entry, In entry platform_patterns /\ n = snd entry)
            \/ (n = lower platform
                /\ forall entry,
                     In entry platform_patterns ->
                     search (snd (fst entry)) platform = false)).
  { subst found.
    destruct (find _ platform_patterns) as [[[key alternatives] name] |]
      eqn:Hf; cbn zeta.
    - apply find_some in Hf. right. left.
      exists (key, alternatives, name). split; [apply Hf | reflexivity].
    - right. right. split; [reflexivity |].
      intros entry He. apply (find_none _ _ Hf entry He). }
  cbn zeta in Htail.
  destruct (contains "." platform
            && (contains "http" platform || contains "www" platform));
    [| exact Htail].
  destruct (domain_match platform) as [group |]; [| exact Htail].
  destruct (in_all_platforms (lower group)) eqn:Hg; [| exact Htail].
  left. exact Hg.
Qed.

Lemma mem_false_In (x : string) (items : list string) :
  mem x items = false -> forall y, In y items -> String.eqb x y = false.
Proof.
  unfold mem. intros H y Hy. destruct (String.eqb x y) eqn:E; [| reflexivity].
  rewrite <- H. symmetry. apply existsb_exists. exists y. split; assumption.
Qed.

Lemma renamed_not_in_database (name : string) :
  In name renamed_keys -> in_all_platforms name = false.
Proof.
  rewrite renamed_keys_value. cbn [In]. intros H.
  repeat destruct H as [<- | H]; try reflexivity. contradiction.
Qed.

Lemma renamed_not_values :
  forallb (fun entry : string * list alternative * string =>
             negb (mem (snd entry) renamed_keys))
          platform_patterns = true.
Proof. reflexivity. Qed.

(** A renamed key is found by the pattern of that key. *)
Lemma renamed_found (platform : string) :
  In (lower platform) renamed_keys ->
  existsb (fun entry : string * list alternative * string =>
             search (snd (fst entry)) platform)
          platform_patterns = true.
Proof.
  rewrite renamed_keys_value. unfold search. cbn [In]. intros H.
  repeat destruct H as [H | H]; try contradiction;
    rewrite <- H; reflexivity.
Qed.

Lemma normalized_not_renamed (platform : string) :
  mem (_normalize_platform_name domain_match platform) renamed_keys = false.
Proof.
  destruct (mem _ renamed_keys) eqn:Hm; [| reflexivity]. exfalso.
  apply mem_In in Hm.
  destruct (normalize_cases platform)
    as [H | [(entry & He & Hn) | (Hn & Hnone)]].
  - rewrite (renamed_not_in_database _ Hm) in H. discriminate.
  - pose proof renamed_not_values as Hv. rewrite forallb_forall in Hv.
    specialize (Hv entry He). rewrite <- Hn in Hv.
    apply mem_In in Hm. rewrite Hm in Hv. discriminate.
  - rewrite Hn in Hm. apply renamed_found in Hm.
    apply existsb_exists in Hm. destruct Hm as (entry & He & Hs).
    rewrite (Hnone entry He) in Hs. discriminate.
Qed.

Lemma reports_app (d : string) (l l' : list RiskFactor.t) :
  reports d (l ++ l') = reports d l || reports d l'.
Proof. apply existsb_app. Qed.

Lemma reports_append_if (d : string) (c : bool) (f : RiskFactor.t)
      (l : list RiskFactor.t) :
  reports d (append_if c f l)
  = reports d l || (c && String.eqb (RiskFactor.description f) d).
Proof.
  unfold append_if. destruct c.
  - rewrite reports_app. cbn. rewrite orb_false_r. reflexivity.
  - cbn. rewrite orb_false_r. reflexivity.
Qed.

(** The four findings of [_check_suspicious_indicators] and
    [_apply_platform_risk_adjustments] that depend on the normalized
    name, and the finding on a blank platform source. *)
Let by_name : list string :=
  [ "Contact only through messaging apps (red flag)";
    "Job posting only on social media platforms";
    "Platform lacks employer verification processes";
    "Platform is associated with higher fraud rates";
    "Platform source is empty or missing" ].

Lemma credibility_reports (n d : string) :
  In d by_name -> reports d (_get_platform_credibility n []) = false.
Proof.
  intros Hd. unfold _get_platform_credibility.
  destruct (Dict.get all_platforms n) as [score |];
    [destruct (score <? 50)%Z;
     [| destruct (score <? 70)%Z; [| destruct (score <? 85)%Z]] |];
    cbn [In by_name] in Hd;
    repeat destruct Hd as [<- | Hd]; try contradiction; reflexivity.
Qed.

Lemma patterns_reports (n d : string) (l : list RiskFactor.t) :
  In d by_name ->
  reports d (_check_platform_risk_patterns n l) = reports d l.
Proof.
  intros Hd. unfold _check_platform_risk_patterns. rewrite reports_app.
  assert (H : reports d (flat_map (risk_pattern_factor n)
                                  platform_risk_patterns) = false).
  { unfold platform_risk_patterns. cbn [flat_map].
    unfold risk_pattern_factor. cbn [platforms].
    repeat match goal with
      | |- context [if mem n ?l then _ else _] => destruct (mem n l)
      end;
      cbn [In by_name] in Hd;
      repeat destruct Hd as [<- | Hd]; try contradiction; reflexivity. }
  rewrite H. apply orb_false_r.
Qed.

Lemma indicators_reports (n original d : string) (l : list RiskFactor.t) :
  In d by_name ->
  reports d (_check_suspicious_indicators n original l)
  = reports d l
    || (mem n [ "telegram"; "whatsapp"; "discord"; "sms" ]
        && String.eqb "Contact only through messaging apps (red flag)" d)
    || (mem n [ "facebook"; "twitter"; "instagram"; "tiktok"; "snapchat" ]
        && String.eqb "Job posting only on social media platforms" d)
    || (mem n [ "email"; "sms"; "phone"; "craigslist" ]
        && String.eqb "Platform lacks employer verification processes" d).
Proof.
  intros Hd. unfold _check_suspicious_indicators. cbv zeta.
  rewrite !reports_append_if. cbn [RiskFactor.description].
  set (vague := existsb _ _ && _).
  assert (E : String.eqb "Platform description is vague or non-specific" d
              = false).
  { cbn [In by_name] in Hd.
    repeat destruct Hd as [<- | Hd]; try contradiction; reflexivity. }
  rewrite E, andb_false_r, orb_false_r. reflexivity.
Qed.

Lemma adjustments_reports (n d : string) (l : list RiskFactor.t) :
  reports d (_apply_platform_risk_adjustments n l)
  = reports d l
    || (mem n [ "telegram"; "whatsapp"; "tiktok"; "snapchat" ]
        && negb (existsb
                   (fun factor =>
                      (70 <=? RiskFactor.severity factor)%Z
                      && contains "high fraud"
                           (lower (RiskFactor.description factor)))
                   l)
        && String.eqb "Platform is associated with higher fraud rates" d).
Proof.
  unfold _apply_platform_risk_adjustments. cbv zeta.
  destruct (mem n [ "telegram"; "whatsapp"; "tiktok"; "snapchat" ]).
  - rewrite reports_append_if. reflexivity.
  - cbn [andb]. rewrite orb_false_r. reflexivity.
Qed.

(** On tiktok and snapchat no finding made before the adjustments warns
    of high fraud. *)
Lemma no_warning_yet (n original : string) :
  mem n [ "tiktok"; "snapchat" ] = true ->
  existsb
    (fun factor =>
       (70 <=? RiskFactor.severity factor)%Z
       && contains "high fraud" (lower (RiskFactor.description factor)))
    (_check_suspicious_indicators n original
       (_check_platform_risk_patterns n (_get_platform_credibility n [])))
  = false.
Proof.
  intros H. apply mem_In in H. unfold _check_suspicious_indicators.
  cbv zeta. set (vague := existsb _ _ && _).
  destruct H as [<- | [<- | []]]; destruct vague; reflexivity.
Qed.

Lemma blank_normalized (platform_source : string) :
  negb (truthy platform_source) || negb (truthy (strip platform_source))
  = true ->
  _normalize_platform_name domain_match (lower (strip platform_source)) = "".
Proof.
  intros H.
  assert (E : strip platform_source = "").
  { destruct platform_source as [| c r]; [reflexivity |].
    cbn [truthy negb orb] in H. destruct (strip (String c r));
      [reflexivity | discriminate]. }
  rewrite E. reflexivity.
Qed.

(** The finding on a blank platform source is made for a blank one
    only. *)
Lemma platform_missing_reported (platform_source : string) :
  reports "Platform source is empty or missing"
          (AnalysisResult.risk_factors (analyze domain_match platform_source))
  = negb (truthy platform_source) || negb (truthy (strip platform_source)).
Proof.
  unfold analyze.
  destruct (negb (truthy platform_source)
            || negb (truthy (strip platform_source))); [reflexivity |].
  cbv zeta. cbn [AnalysisResult.risk_factors].
  assert (Hd : In "Platform source is empty or missing" by_name)
    by (cbn [In by_name]; tauto).
  rewrite adjustments_reports, (indicators_reports _ _ _ _ Hd),
    (patterns_reports _ _ _ Hd), (credibility_reports _ _ Hd).
  repeat match goal with
    | |- context [mem ?x ?l] => destruct (mem x l)
    end;
    rewrite ?andb_false_r; reflexivity.
Qed.

Lemma names_reported (platform_source : string) :
  let normalized :=
    _normalize_platform_name domain_match (lower (strip platform_source)) in
  let risk_factors :=
    AnalysisResult.risk_factors (analyze domain_match platform_source) in
  reports "Contact only through messaging apps (red flag)" risk_factors
  = mem normalized [ "discord"; "sms" ]
  /\ reports "Job posting only on social media platforms" risk_factors
     = mem normalized [ "instagram"; "tiktok"; "snapchat" ]
  /\ reports "Platform lacks employer verification processes" risk_factors
     = mem normalized [ "email"; "sms"; "phone" ]
  /\ reports "Platform is associated with higher fraud rates" risk_factors
     = mem normalized [ "tiktok"; "snapchat" ].
Proof.
  cbv zeta. unfold analyze.
  destruct (negb (truthy platform_source)
            || negb (truthy (strip platform_source))) eqn:Hblank.
  { rewrite (blank_normalized _ Hblank). repeat split; reflexivity. }
  cbv zeta. cbn [AnalysisResult.risk_factors].
  pose proof (normalized_not_renamed (lower (strip platform_source)))
    as Hfree.
  set (n := _normalize_platform_name domain_match
              (lower (strip platform_source))) in *.
  set (original := lower (strip platform_source)).
  clearbody n original.
  rewrite renamed_keys_value in Hfree.
  assert (Hnot : forall name,
             In name [ "craigslist"; "facebook"; "twitter"; "telegram";
                       "whatsapp" ] ->
             String.eqb n name = false).
  { intros name Hname. apply (mem_false_In _ _ Hfree).
    cbn [In] in *. tauto. }
  pose proof (Hnot "craigslist" ltac:(cbn; tauto)) as Hc.
  pose proof (Hnot "facebook" ltac:(cbn; tauto)) as Hf.
  pose proof (Hnot "twitter" ltac:(cbn; tauto)) as Ht.
  pose proof (Hnot "telegram" ltac:(cbn; tauto)) as Hg.
  pose proof (Hnot "whatsapp" ltac:(cbn; tauto)) as Hw.
  assert (Hin : forall d, In d by_name ->
             reports d (_apply_platform_risk_adjustments n
                          (_check_suspicious_indicators n original
                             (_check_platform_risk_patterns n
                                (_get_platform_credibility n []))))
             = (mem n [ "discord"; "sms" ]
                && String.eqb
                     "Contact only through messaging apps (red flag)" d)
               || (mem n [ "instagram"; "tiktok"; "snapchat" ]
                   && String.eqb
                        "Job posting only on social media platforms" d)
               || (mem n [ "email"; "sms"; "phone" ]
                   && String.eqb
                        "Platform lacks employer verification processes" d)
               || (mem n [ "tiktok"; "snapchat" ]
                   && String.eqb
                        "Platform is associated with higher fraud rates" d)).
  { intros d Hd.
    assert (Hm1 : mem n [ "telegram"; "whatsapp"; "discord"; "sms" ]
                  = mem n [ "discord"; "sms" ])
      by (unfold mem; cbn [existsb]; rewrite Hg, Hw; reflexivity).
    assert (Hm2 : mem n [ "facebook"; "twitter"; "instagram"; "tiktok";
                          "snapchat" ]
                  = mem n [ "instagram"; "tiktok"; "snapchat" ])
      by (unfold mem; cbn [existsb]; rewrite Hf, Ht; reflexivity).
    assert (Hm3 : mem n [ "email"; "sms"; "phone"; "craigslist" ]
                  = mem n [ "email"; "sms"; "phone" ])
      by (unfold mem; cbn [existsb]; rewrite Hc; reflexivity).
    assert (Hm4 : mem n [ "telegram"; "whatsapp"; "tiktok"; "snapchat" ]
                  = mem n [ "tiktok"; "snapchat" ])
      by (unfold mem; cbn [existsb]; rewrite Hg, Hw; reflexivity).
    rewrite adjustments_reports, (indicators_reports _ _ _ _ Hd),
      (patterns_reports _ _ _ Hd), (credibility_reports _ _ Hd).
    rewrite Hm1, Hm2, Hm3, Hm4.
    destruct (mem n [ "tiktok"; "snapchat" ]) eqn:Hhigh.
    - rewrite (no_warning_yet n original Hhigh). reflexivity.
    - reflexivity. }
  repeat split;
    match goal with
    | |- reports ?d _ = _ => rewrite (Hin d) by (cbn [In by_name]; tauto)
    end;
    destruct (mem n [ "discord"; "sms" ]),
      (mem n [ "instagram"; "tiktok"; "snapchat" ]),
      (mem n [ "email"; "sms"; "phone" ]), (mem n [ "tiktok"; "snapchat" ]);
    reflexivity.
Qed.

(** X13.  [_normalize_platform_name] never returns a key of
    [platform_patterns] that [pattern_to_platform] renames (linkedin,
    indeed, glassdoor, monster, craigslist, facebook, twitter, telegram,
    whatsapp): such a name is not in the database, is no value of the
    table, and is found by its own pattern.  So the lists of names of
    [_check_suspicious_indicators] and [_apply_platform_risk_adjustments]
    are reached by part of their names only: the finding on messaging
    apps is made for discord and sms and never for telegram or whatsapp,
    the finding on social media for instagram, tiktok and snapchat, the
    finding on missing verification for email, sms and phone, and the
    warning of higher fraud rates for tiktok and snapchat. *)
Theorem platform_names_never_normalized (platform_source : string) :
  (forall platform,
      mem (_normalize_platform_name domain_match platform)
          [ "linkedin"; "indeed"; "glassdoor"; "monster"; "craigslist";
            "facebook"; "twitter"; "telegram"; "whatsapp" ] = false)
  /\ let normalized :=
       _normalize_platform_name domain_match
         (lower (strip platform_source)) in
     let risk_factors :=
       AnalysisResult.risk_factors (analyze domain_match platform_source) in
     reports "Contact only through messaging apps (red flag)" risk_factors
     = mem normalized [ "discord"; "sms" ]
     /\ reports "Job posting only on social media platforms" risk_factors
        = mem normalized [ "instagram"; "tiktok"; "snapchat" ]
     /\ reports "Platform lacks employer verification processes" risk_factors
        = mem normalized [ "email"; "sms"; "phone" ]
     /\ reports "Platform is associated with higher fraud rates" risk_factors
        = mem normalized [ "tiktok"; "snapchat" ].
Proof.
  split; [| apply names_reported].
  intros platform. rewrite <- renamed_keys_value.
  apply normalized_not_renamed.
Qed.

End PlatformNames.

(** ** The multiplier of the platform analyzer *)

Section PlatformMultiplier.

Import PyNum PyStr PlatformAnalyzer PlatformAnalyzerMultiplier.
Open Scope string_scope.

Variable domain_match : string -> option string.

Lemma dict_get_In {V : Type} (d : Dict.t V) (k : string) (v : V) :
  Dict.get d k = Some v -> In (k, v) d.
Proof.
  induction d as [| [k' v'] r IH]; simpl; [discriminate |].
  destruct (String.eqb k k') eqn:E.
  - apply String.eqb_eq in E. intros [= <-]. left. congruence.
  - intros H. right. apply IH, H.
Qed.

(** The multiplier by the normalized name. *)
Lemma multiplier_of_name (n : string) :
  In (match find (fun risk_data => mem n (platforms risk_data))
                 platform_risk_patterns with
      | Some risk_data => risk_multiplier risk_data
      | None =>
          let credibility_score :=
            match Dict.get all_platforms n with
            | Some score => score
            | None => 50%Z
            end in
          if (90 <=? credibility_score)%Z then 8 # 10
          else if (80 <=? credibility_score)%Z then 9 # 10
          else if (credibility_score <? 50)%Z then 14 # 10
          else if (credibility_score <? 70)%Z then 12 # 10
          else 1
      end)
     [ 8 # 10; 9 # 10; 1; 11 # 10; 12 # 10; 13 # 10; 15 # 10 ].
Proof.
  destruct (find _ platform_risk_patterns) as [risk_data |] eqn:Hf.
  - apply find_some in Hf. destruct Hf as [Hin _].
    unfold platform_risk_patterns in Hin. cbn [In] in Hin.
    repeat destruct Hin as [<- | Hin]; try contradiction;
      cbn [risk_multiplier In]; tauto.
  - destruct (Dict.get all_platforms n) as [score |] eqn:Hg.
    + apply dict_get_In in Hg. unfold all_platforms in Hg. cbn [In] in Hg.
      repeat destruct Hg as [Hg | Hg]; try contradiction;
        injection Hg as <- <-;
        first [ discriminate Hf | cbn; tauto ].
    + cbn. tauto.
Qed.

(** A platform that is not in the database is in no risk pattern. *)
Lemma unknown_in_no_pattern (n : string) :
  in_all_platforms n = false ->
  find (fun risk_data => mem n (platforms risk_data)) platform_risk_patterns
  = None.
Proof.
  intros Hdb.
  destruct (find _ platform_risk_patterns) as [risk_data |] eqn:Hf;
    [| reflexivity].
  apply find_some in Hf. destruct Hf as [Hin Hmem]. exfalso.
  unfold platform_risk_patterns in Hin. cbn [In] in Hin.
  repeat destruct Hin as [<- | Hin]; try contradiction;
    apply mem_In in Hmem; cbn [platforms In] in Hmem;
    repeat destruct Hmem as [<- | Hmem]; try contradiction;
    discriminate Hdb.
Qed.

(** X14.  [get_platform_risk_multiplier] returns 0.8, 0.9, 1.0, 1.1,
    1.2, 1.3 or 1.5 and never the 1.4 of its branch for a credibility
    below 50: every platform of the database with such a score is in a
    risk pattern, which is looked up first.  An empty platform source
    gives 1.0; one of white space only gives 1.2, as does every platform
    source whose normalized name is not in the database. *)
Theorem platform_risk_multiplier_values (platform_source : string) :
  In (get_platform_risk_multiplier domain_match platform_source)
     [ 8 # 10; 9 # 10; 1; 11 # 10; 12 # 10; 13 # 10; 15 # 10 ]
  /\ get_platform_risk_multiplier domain_match platform_source <> 14 # 10
  /\ get_platform_risk_multiplier domain_match "" = 1
  /\ (truthy platform_source = true ->
      strip platform_source = "" ->
      get_platform_risk_multiplier domain_match platform_source = 12 # 10)
  /\ (truthy platform_source = true ->
      in_all_platforms
        (_normalize_platform_name domain_match
           (lower (strip platform_source))) = false ->
      get_platform_risk_multiplier domain_match platform_source = 12 # 10).
Proof.
  assert (Hin : In (get_platform_risk_multiplier domain_match platform_source)
                   [ 8 # 10; 9 # 10; 1; 11 # 10; 12 # 10; 13 # 10;
                     15 # 10 ]).
  { unfold get_platform_risk_multiplier.
    destruct (negb (truthy platform_source)); [cbn; tauto |].
    apply multiplier_of_name. }
  split; [exact Hin |]. split.
  - intros E. rewrite E in Hin. cbn [In] in Hin.
    repeat destruct Hin as [Hin | Hin]; try discriminate. contradiction.
  - split; [reflexivity |]. split.
    + intros Ht Hs. unfold get_platform_risk_multiplier.
      rewrite Ht, Hs. reflexivity.
    + intros Ht Hdb. unfold get_platform_risk_multiplier.
      rewrite Ht. cbn [negb]. cbv zeta.
      rewrite (unknown_in_no_pattern _ Hdb).
      unfold in_all_platforms in Hdb.
      destruct (Dict.get all_platforms _); [discriminate | reflexivity].
Qed.

End PlatformMultiplier.

Lemma platform_risk_multiplier_values_witness :
  PyStr.truthy " " = true
  /\ PyStr.strip " " = ""%string
  /\ PlatformAnalyzerMultiplier.get_platform_risk_multiplier
       Examples.no_domain " " = 12 # 10.
Proof.
  assert (Ht : PyStr.truthy " " = true) by reflexivity.
  assert (Hs : PyStr.strip " " = ""%string) by reflexivity.
  split; [exact Ht |]. split; [exact Hs |].
  destruct (platform_risk_multiplier_values Examples.no_domain " ")
    as (_ & _ & _ & H & _).
  exact (H Ht Hs).
Defined.

(** ** The length of the descriptions *)

(** [brief_list] proves that a list built by appending risk factors with
    constant descriptions to a list of brief risk factors is brief. *)
Ltac brief_list :=
  repeat match goal with
    | H : Forall _ ?l |- Forall _ ?l => exact H
    | |- Forall _ (_ ++ _)%list => apply Forall_app; split
    | |- Forall _ (_ :: _) => constructor
    | |- Forall _ [] => constructor
    | |- Forall _ (if ?c then _ else _) => destruct c
    | |- RiskFactorValidators.brief _ =>
        unfold RiskFactorValidators.brief; apply Nat.leb_le; reflexivity
    end.

Section LengthFacts.

Import PyStr PyMore RiskFactorValidators.
Open Scope string_scope.

Lemma length_app (a b : string) :
  String.length (a ++ b) = (String.length a + String.length b)%nat.
Proof.
  induction a as [| c r IH]; simpl; [reflexivity | rewrite IH; reflexivity].
Qed.

Lemma replace_char_length (old new : ascii) (s : string) :
  String.length (replace_char old new s) = String.length s.
Proof.
  induction s as [| c r IH]; simpl; [reflexivity | rewrite IH; reflexivity].
Qed.

Lemma join_length_le (sep : string) (items : list string) (m : nat) :
  Forall (fun item => (String.length item <= m)%nat) items ->
  (String.length (join sep items)
   <= List.length items * (m + String.length sep))%nat.
Proof.
  induction 1 as [| x r Hx Hr IH]; [simpl; lia |].
  destruct r as [| y r'].
  - cbn [join List.length]. lia.
  - change (join sep (x :: y :: r')) with (x ++ sep ++ join sep (y :: r')).
    rewrite !length_app. cbn [List.length] in *. lia.
Qed.

(** [str(n)] of a number up to 10000 has five digits at most. *)
Lemma of_nat_short (n : nat) :
  (Z.of_nat n <= 10000)%Z -> (String.length (of_nat n) <= 5)%nat.
Proof.
  intros Hn.
  assert (H : forallb (fun k => (String.length (of_nat k) <=? 5)%nat)
                      (seq 0 (Z.to_nat 10001)) = true)
    by (vm_compute; reflexivity).
  rewrite forallb_forall in H. apply Nat.leb_le, H, in_seq. lia.
Qed.

Lemma split_aux_length (s : string) (cur : list ascii) :
  (List.length (split_aux s cur)
   <= String.length s + match cur with [] => 0 | _ :: _ => 1 end)%nat.
Proof.
  revert cur. induction s as [| c r IH]; intros cur; cbn [split_aux].
  - destruct cur; cbn; lia.
  - destruct (isspace c).
    + specialize (IH []). destruct cur; cbn [List.length String.length] in *;
        lia.
    + specialize (IH (c :: cur)). cbn [String.length] in *.
      destruct cur; lia.
Qed.

(** A text has no more words than characters. *)
Lemma split_length (s : string) :
  (List.length (split s) <= String.length s)%nat.
Proof.
  pose proof (split_aux_length s []) as H. cbv beta iota in H.
  unfold split. lia.
Qed.

Lemma brief_flat_map {A : Type} (factor : A -> list RiskFactor.t)
      (items : list A) :
  (forall a, In a items -> Forall brief (factor a)) ->
  Forall brief (flat_map factor items).
Proof.
  intros H. induction items as [| a r IH]; simpl; [constructor |].
  apply Forall_app. split.
  - apply H. left. reflexivity.
  - apply IH. intros b Hb. apply H. right. exact Hb.
Qed.

Lemma tidy_length (s : string) :
  tidy s = true -> (1 <= String.length s)%nat.
Proof.
  intros H. apply tidy_truthy in H. destruct s; [discriminate |].
  cbn. lia.
Qed.

End LengthFacts.

Section TextBrief.

Import PyStr PyMore RiskFactorValidators TextAnalyzer.
Open Scope string_scope.

Variable findall : pattern_name -> string -> list string.

Lemma fraud_keywords_short (entry : string * list string) :
  In entry fraud_keywords ->
  (String.length (fst entry) <= 30)%nat
  /\ Forall (fun keyword => (String.length keyword <= 40)%nat) (snd entry).
Proof.
  intros He.
  assert (H : forallb (fun e : string * list string =>
                         (String.length (fst e) <=? 30)%nat
                         && forallb (fun k => (String.length k <=? 40)%nat)
                                    (snd e))
                      fraud_keywords = true) by reflexivity.
  rewrite forallb_forall in H. specialize (H _ He).
  apply andb_true_iff in H. destruct H as [Hc Hk].
  split; [apply Nat.leb_le, Hc |].
  rewrite forallb_forall in Hk. apply Forall_forall.
  intros k Hin. apply Nat.leb_le, Hk, Hin.
Qed.

Lemma keyword_factor_brief (job_text_lower : string)
      (entry : string * list string) :
  In entry fraud_keywords ->
  Forall brief (keyword_factor job_text_lower entry).
Proof.
  intros He. destruct (fraud_keywords_short entry He) as [Hc Hk].
  unfold keyword_factor. destruct entry as [category keywords].
  cbn [fst snd] in Hc, Hk.
  set (matches := filter _ keywords).
  assert (Hm : Forall (fun keyword => (String.length keyword <= 40)%nat)
                      (firstn 3 matches)).
  { apply Forall_first. subst matches. apply Forall_forall.
    intros k Hin. apply filter_In in Hin. rewrite Forall_forall in Hk.
    apply Hk, Hin. }
  pose proof (join_length_le ", " (firstn 3 matches) 40 Hm) as Hj.
  pose proof (firstn_le_length 3 matches) as H3.
  assert (Hlen : (List.length (firstn 3 matches) <= 3)%nat)
    by (rewrite length_firstn; lia).
  destruct matches as [| first rest] eqn:Em; [constructor |].
  rewrite <- Em in *. constructor; [| constructor].
  unfold brief. cbn [RiskFactor.description].
  rewrite !length_app, replace_char_length.
  cbn [String.length] in *. nia.
Qed.

Lemma pattern_factor_brief (job_text : string) (p : pattern_name) :
  (Z.of_nat (List.length (findall p job_text)) <= 10000)%Z ->
  Forall brief (pattern_factor findall job_text p).
Proof.
  intros Hn. unfold pattern_factor.
  pose proof (of_nat_short _ Hn) as Hd.
  destruct (findall p job_text) as [| first rest] eqn:E; [constructor |].
  rewrite <- E in *. constructor; [| constructor].
  unfold brief. cbn [RiskFactor.description].
  destruct p; unfold pattern_description; rewrite !length_app;
    cbn [String.length]; lia.
Qed.

Lemma text_analyze_brief (job_text : string) :
  (Z.of_nat (String.length job_text) <= 10000)%Z ->
  (forall p,
      (List.length (findall p job_text) <= String.length job_text)%nat) ->
  Forall brief (AnalysisResult.risk_factors (analyze findall job_text)).
Proof.
  intros Hlen Hfind. unfold analyze.
  destruct (negb (truthy job_text) || negb (truthy (strip job_text))).
  { cbn [AnalysisResult.risk_factors]. brief_list. }
  cbn [AnalysisResult.risk_factors].
  unfold _check_content_quality, _check_suspicious_patterns,
    _check_fraud_keywords.
  assert (Hk : Forall brief
                 (flat_map (keyword_factor (lower job_text)) fraud_keywords)).
  { apply brief_flat_map. intros e He. apply keyword_factor_brief, He. }
  assert (Hp : Forall brief
                 (flat_map (pattern_factor findall job_text)
                           suspicious_patterns)).
  { apply brief_flat_map. intros p _. apply pattern_factor_brief.
    specialize (Hfind p). lia. }
  assert (Hw : (String.length (of_nat (List.length (split job_text))) <= 5)%nat).
  { apply of_nat_short. pose proof (split_length job_text). lia. }
  cbn [app].
  repeat match goal with
    | H : Forall _ ?l |- Forall _ ?l => exact H
    | |- Forall _ (_ ++ _)%list => apply Forall_app; split
    | |- Forall _ (_ :: _) => constructor
    | |- Forall _ [] => constructor
    | |- Forall _ (if ?c then _ else _) => destruct c
    | |- brief _ =>
        unfold brief; cbn [RiskFactor.description];
        first [ apply Nat.leb_le; reflexivity
              | rewrite !length_app; cbn [String.length]; lia ]
    end.
Qed.

End TextBrief.

Section EmailBrief.

Import PyStr PyMore RiskFactorValidators EmailAnalyzer.
Open Scope string_scope.

Variable re_match re_search : EmailAnalyzer.regex -> string -> bool.

Lemma email_validate_brief (email : string) (valid : bool)
      (l after : list RiskFactor.t) :
  _validate_email_format re_match email l = Some (valid, after) ->
  Forall brief l -> Forall brief after.
Proof.
  unfold _validate_email_format. intros H Hl.
  destruct (negb (re_match email_pattern email));
    [injection H as <- <-; brief_list |].
  destruct (negb (count_char "@" email =? 1)%nat);
    [injection H as <- <-; brief_list |].
  destruct (split_on "@" email) as [| username [| domain [| ? ?]]];
    try discriminate.
  destruct (String.length username <? 1)%nat;
    injection H as <- <-; brief_list.
Qed.

Lemma email_patterns_brief (email : string) (l : list RiskFactor.t) :
  Forall brief l ->
  Forall brief (_check_suspicious_patterns re_search email l).
Proof.
  intros Hl. unfold _check_suspicious_patterns.
  apply Forall_app. split; [exact Hl |].
  apply brief_flat_map. intros p _. unfold pattern_factor.
  destruct (re_search p email); [| constructor].
  destruct p; brief_list.
Qed.

Lemma email_domain_brief (domain : string) (l : list RiskFactor.t) :
  Forall brief l ->
  Forall brief (_check_domain_reputation re_match domain l).
Proof.
  intros Hl. unfold _check_domain_reputation.
  destruct (mem domain disposable_domains); [brief_list |].
  destruct (find _ very_new_tlds) as [tld |] eqn:E; [| brief_list].
  apply find_some in E. destruct E as [Hin _].
  unfold very_new_tlds in Hin. cbn [In] in Hin.
  repeat destruct Hin as [<- | Hin]; try contradiction; brief_list.
Qed.

Lemma email_disposable_brief (domain : string) (l : list RiskFactor.t) :
  Forall brief l -> Forall brief (_check_disposable_email domain l).
Proof.
  intros Hl. unfold _check_disposable_email.
  destruct (find _ _) as [keyword |] eqn:E; [| exact Hl].
  apply find_some in E. destruct E as [Hin _]. cbn [In] in Hin.
  repeat destruct Hin as [<- | Hin]; try contradiction; brief_list.
Qed.

Lemma email_characteristics_brief (email domain : string)
      (l after : list RiskFactor.t) :
  _check_suspicious_email_characteristics re_search email domain l
  = Some after ->
  Forall brief l -> Forall brief after.
Proof.
  unfold _check_suspicious_email_characteristics. intros H Hl.
  destruct (nth_error (split_on "@" email) 0) as [username |];
    [| discriminate].
  injection H as <-. brief_list.
Qed.

Lemma email_analyze_brief (recruiter_email : option string)
      (result : AnalysisResult.t) :
  analyze re_match re_search recruiter_email = Some result ->
  Forall brief (AnalysisResult.risk_factors result).
Proof.
  unfold analyze.
  destruct recruiter_email as [given |]; [| intros [= <-]; constructor].
  destruct (negb (truthy given) || negb (truthy (strip given)));
    [intros [= <-]; constructor |].
  set (email := lower (strip given)).
  destruct (_validate_email_format re_match email [])
    as [[format_valid validated] |] eqn:Ev; [| discriminate].
  apply email_validate_brief in Ev; [| constructor].
  destruct format_valid.
  - destruct (nth_error (split_on "@" email) 1) as [domain |];
      [| discriminate].
    destruct (_check_suspicious_email_characteristics _ _ _ _)
      as [after |] eqn:Ec; [| discriminate].
    apply email_characteristics_brief in Ec.
    + destruct (_calculate_confidence _ _ _); [| discriminate].
      intros [= <-]. exact Ec.
    + apply email_disposable_brief, email_domain_brief,
        email_patterns_brief, Ev.
  - destruct (_calculate_confidence _ _ _); [| discriminate].
    intros [= <-]. exact Ev.
Qed.

End EmailBrief.

Section UrlBrief.

Import PyStr PyMore RiskFactorValidators URLAnalyzer.
Open Scope string_scope.

Variable re_match re_search : URLAnalyzer.regex -> string -> bool.
Variable urlparse : string -> option ParseResult.

Lemma url_validate_brief (url : string) (l : list RiskFactor.t) :
  Forall brief l ->
  Forall brief (snd (_validate_url_format re_match urlparse url l)).
Proof.
  intros Hl. unfold _validate_url_format.
  destruct (negb (re_match url_pattern url)); [cbn [snd]; brief_list |].
  destruct (urlparse url) as [parsed |]; [| cbn [snd]; brief_list].
  destruct (negb (truthy (scheme parsed)) || _); [cbn [snd]; brief_list |].
  destruct (negb (truthy (netloc parsed))); [cbn [snd]; brief_list |].
  destruct (2000 <? String.length url)%nat; cbn [snd]; brief_list.
Qed.

Lemma url_patterns_brief (url : string) (l : list RiskFactor.t) :
  Forall brief l ->
  Forall brief (_check_suspicious_patterns re_search url l).
Proof.
  intros Hl. unfold _check_suspicious_patterns.
  apply Forall_app. split; [exact Hl |].
  apply brief_flat_map. intros p _. unfold pattern_factor.
  destruct (re_search p url); [| constructor].
  destruct p; brief_list.
Qed.

Lemma url_domain_brief (parsed_url : ParseResult)
      (l after : list RiskFactor.t) :
  _check_suspicious_domain_characteristics re_match parsed_url l
  = Some after ->
  Forall brief l -> Forall brief after.
Proof.
  unfold _check_suspicious_domain_characteristics. intros H Hl.
  match type of H with
  | match ?d with _ => _ end = _ => destruct d as [domain |]; [| discriminate]
  end.
  destruct (find _ suspicious_domains) as [[category names] |] eqn:E.
  - injection H as <-. apply find_some in E. destruct E as [Hin _].
    unfold suspicious_domains in Hin. cbn [In] in Hin.
    repeat destruct Hin as [Hin | Hin]; try contradiction;
      injection Hin as <- <-; brief_list.
  - destruct (nth_error (split_on "." domain) 0) as [first_part |];
      [| discriminate].
    injection H as <-. brief_list.
Qed.

Lemma url_shorteners_brief (url : string) (l : list RiskFactor.t) :
  Forall brief l -> Forall brief (_check_url_shorteners url l).
Proof.
  intros Hl. unfold _check_url_shorteners.
  destruct (find _ _) as [service |] eqn:E; [| exact Hl].
  apply find_some in E. destruct E as [Hin _]. cbn [In] in Hin.
  repeat destruct Hin as [<- | Hin]; try contradiction; brief_list.
Qed.

Lemma url_ports_brief (parsed_url : ParseResult)
      (l after : list RiskFactor.t) :
  _check_suspicious_ports parsed_url l = Some after ->
  Forall brief l -> Forall brief after.
Proof.
  unfold _check_suspicious_ports. intros H Hl.
  destruct (port parsed_url) as [[number |] |]; try discriminate.
  - destruct (negb (number =? 0)%Z && existsb (Z.eqb number) suspicious_ports)
      eqn:E; injection H as <-; [| exact Hl].
    apply andb_true_iff in E. destruct E as [_ E].
    apply existsb_exists in E. destruct E as (x & Hin & Hx).
    apply Z.eqb_eq in Hx. subst x.
    unfold suspicious_ports in Hin. cbn [In] in Hin.
    repeat destruct Hin as [<- | Hin]; try contradiction; brief_list.
  - injection H as <-. exact Hl.
Qed.

Lemma url_analyze_brief (company_url : option string)
      (result : AnalysisResult.t) :
  analyze re_match re_search urlparse company_url = Some result ->
  Forall brief (AnalysisResult.risk_factors result).
Proof.
  unfold analyze.
  destruct company_url as [given |]; [| intros [= <-]; constructor].
  destruct (negb (truthy given) || negb (truthy (strip given)));
    [intros [= <-]; constructor |].
  set (url := strip given).
  pose proof (url_validate_brief url [] (Forall_nil _)) as Hv.
  destruct (_validate_url_format re_match urlparse url [])
    as [format_valid validated].
  cbn [snd] in Hv.
  destruct format_valid.
  - destruct (urlparse url) as [parsed_url |]; [| discriminate].
    destruct (_check_suspicious_domain_characteristics _ _ _)
      as [checked |] eqn:Ed; [| discriminate].
    apply url_domain_brief in Ed; [| apply url_patterns_brief, Hv].
    destruct (_check_suspicious_ports _ _) as [after |] eqn:Ep;
      [| discriminate].
    apply url_ports_brief in Ep; [| apply url_shorteners_brief, Ed].
    intros [= <-]. exact Ep.
  - intros [= <-]. exact Hv.
Qed.

End UrlBrief.

Section PlatformBrief.

Import PyStr PyMore RiskFactorValidators PlatformAnalyzer.
Open Scope string_scope.

Variable domain_match : string -> option string.

Lemma platform_analyze_brief (platform_source : string) :
  Forall brief
         (AnalysisResult.risk_factors (analyze domain_match platform_source)).
Proof.
  unfold analyze.
  destruct (negb (truthy platform_source)
            || negb (truthy (strip platform_source)));
    [cbn [AnalysisResult.risk_factors]; brief_list |].
  cbv zeta. cbn [AnalysisResult.risk_factors].
  set (n := _normalize_platform_name _ _). set (original := lower _).
  clearbody n original.
  assert (H1 : Forall brief (_get_platform_credibility n [])).
  { unfold _get_platform_credibility.
    destruct (Dict.get all_platforms n) as [score |]; brief_list. }
  assert (H2 : Forall brief
                 (_check_platform_risk_patterns n
                    (_get_platform_credibility n []))).
  { unfold _check_platform_risk_patterns.
    apply Forall_app. split; [exact H1 |].
    unfold platform_risk_patterns. cbn [flat_map].
    unfold risk_pattern_factor. brief_list. }
  assert (H3 : Forall brief
                 (_check_suspicious_indicators n original
                    (_check_platform_risk_patterns n
                       (_get_platform_credibility n [])))).
  { unfold _check_suspicious_indicators, append_if. cbv zeta. brief_list. }
  unfold _apply_platform_risk_adjustments, append_if. cbv zeta. brief_list.
Qed.

End PlatformBrief.

Section DescriptionsFit.

Import RiskFactorValidators.

Variable text_findall : TextAnalyzer.pattern_name -> string -> list string.
Variable email_match email_search : EmailAnalyzer.regex -> string -> bool.
Variable url_match url_search : URLAnalyzer.regex -> string -> bool.
Variable urlparse : string -> option URLAnalyzer.ParseResult.
Variable domain_match : string -> option string.

Lemma descriptions_fit (request : JobAnalysisRequest.t)
      (results : Dict.t AnalysisResult.t) :
  (Z.of_nat (String.length (JobAnalysisRequest.job_text request))
   <= 10000)%Z ->
  (forall p,
      (List.length (text_findall p (JobAnalysisRequest.job_text request))
       <= String.length (JobAnalysisRequest.job_text request))%nat) ->
  JobAnalysisService._run_all_analyzers text_findall email_match email_search
    url_match url_search urlparse domain_match request = Some results ->
  Forall fits (JobAnalysisService.collect_risk_factors results).
Proof.
  intros Hlen Hfind Hrun.
  destruct (results_construct _ _ _ _ _ _ _ _ _ Hrun)
    as (text & email & url & platform & Hresults & Ht & He & Hu & Hp).
  destruct (run_all_analyzers_results _ _ _ _ _ _ _ _ _ Hrun)
    as (email' & url' & Hemail & Hurl & Hresults').
  assert (Hall : Forall constructs
                   (JobAnalysisService.collect_risk_factors results)).
  { rewrite Hresults, collect_results.
    destruct Ht as ((Ht & _) & _), He as ((He & _) & _),
      Hu as ((Hu & _) & _), Hp as ((Hp & _) & _).
    repeat (apply Forall_app; split); assumption. }
  assert (Hbrief : Forall brief
                     (JobAnalysisService.collect_risk_factors results)).
  { rewrite Hresults', collect_results.
    repeat (apply Forall_app; split).
    - apply text_analyze_brief; assumption.
    - apply (email_analyze_brief _ _ _ _ Hemail).
    - apply (url_analyze_brief _ _ _ _ _ Hurl).
    - apply platform_analyze_brief. }
  rewrite Forall_forall in *. intros f Hf.
  specialize (Hall f Hf). specialize (Hbrief f Hf).
  destruct Hall as [_ Hd]. unfold fits. split; [| exact Hbrief].
  unfold validate_description in Hd.
  destruct (negb (PyStr.truthy (RiskFactor.description f))
            || negb (PyStr.truthy (PyStr.strip (RiskFactor.description f))))
    eqn:E; [discriminate |].
  apply orb_false_iff in E. destruct E as [E _].
  apply negb_false_iff in E.
  destruct (RiskFactor.description f); [discriminate | cbn; lia].
Qed.

(** X15.  For a request whose job text has at most 10000 characters, the
    limit of the request model, and patterns that find no more matches in
    the text than it has characters, the description of every risk factor
    the four analyzers build has from 1 to 500 characters, the limits of
    the field [description] of [RiskFactor]: no risk factor is refused
    for its description. *)
Theorem risk_factor_descriptions_fit (request : JobAnalysisRequest.t)
        (results : Dict.t AnalysisResult.t) :
  (Z.of_nat (String.length (JobAnalysisRequest.job_text request))
   <= 10000)%Z ->
  (forall p,
      (List.length (text_findall p (JobAnalysisRequest.job_text request))
       <= String.length (JobAnalysisRequest.job_text request))%nat) ->
  JobAnalysisService._run_all_analyzers text_findall email_match email_search
    url_match url_search urlparse domain_match request = Some results ->
  Forall fits (JobAnalysisService.collect_risk_factors results).
Proof. apply descriptions_fit. Qed.

End DescriptionsFit.

Lemma risk_factor_descriptions_fit_witness :
  (Z.of_nat (String.length
               (JobAnalysisRequest.job_text
                  (Examples.example_com_request "telegram"))) <= 10000)%Z
  /\ (forall p,
         (List.length
            (Examples.no_findall p
               (JobAnalysisRequest.job_text
                  (Examples.example_com_request "telegram")))
          <= String.length
               (JobAnalysisRequest.job_text
                  (Examples.example_com_request "telegram")))%nat)
  /\ exists results,
       JobAnalysisService._run_all_analyzers Examples.no_findall
         Examples.no_email_pattern Examples.no_email_pattern
         Examples.url_shape_only Examples.no_url_pattern
         Examples.parse_example Examples.no_domain
         (Examples.example_com_request "telegram")
       = Some results
       /\ JobAnalysisService.collect_risk_factors results <> []
       /\ Forall RiskFactorValidators.fits
                 (JobAnalysisService.collect_risk_factors results).
Proof.
  assert (Hlen : (Z.of_nat (String.length
                              (JobAnalysisRequest.job_text
                                 (Examples.example_com_request "telegram")))
                  <= 10000)%Z)
    by (apply Z.leb_le; vm_compute; reflexivity).
  assert (Hfind : forall p,
             (List.length
                (Examples.no_findall p
                   (JobAnalysisRequest.job_text
                      (Examples.example_com_request "telegram")))
              <= String.length
                   (JobAnalysisRequest.job_text
                      (Examples.example_com_request "telegram")))%nat)
    by (intros p; apply Nat.le_0_l).
  split; [exact Hlen |]. split; [exact Hfind |].
  destruct (JobAnalysisService._run_all_analyzers Examples.no_findall
              Examples.no_email_pattern Examples.no_email_pattern
              Examples.url_shape_only Examples.no_url_pattern
              Examples.parse_example Examples.no_domain
              (Examples.example_com_request "telegram"))
    as [results |] eqn:Hrun; [| vm_compute in Hrun; discriminate].
  exists results. split; [reflexivity |]. split.
  - vm_compute in Hrun. injection Hrun as <-. discriminate.
  - exact (risk_factor_descriptions_fit _ _ _ _ _ _ _ _ _ Hlen Hfind Hrun).
Defined.

(** ** The category scores and the methods of the results *)

Section CategoryScores.

Import PyNum JobAnalysisService AnalysisResultMethods RiskFactorValidators.
Open Scope Q_scope.

Variable text_findall : TextAnalyzer.pattern_name -> string -> list string.
Variable email_match email_search : EmailAnalyzer.regex -> string -> bool.
Variable url_match url_search : URLAnalyzer.regex -> string -> bool.
Variable urlparse : string -> option URLAnalyzer.ParseResult.
Variable domain_match : string -> option string.

(** The score of a category whose findings are the risk factors of a
    result is the weighted severity of the result, where the service
    takes the average. *)
Lemma category_score_weighted (all : list RiskFactor.t)
      (category : RiskCategory) (result : AnalysisResult.t) :
  filter (fun f => RiskCategory_eqb (RiskFactor.category f) category) all
  = AnalysisResult.risk_factors result ->
  Forall RiskFactor.valid (AnalysisResult.risk_factors result) ->
  (category = TEXT_ANALYSIS ->
   (List.length (AnalysisResult.risk_factors result) <= 5)%nat) ->
  exists score confidence,
    score_category all category = Some (score, confidence)
    /\ get_weighted_severity result = Some score.
Proof.
  intros Hfilter Hvalid Htext.
  pose proof (score_category_cases all category) as Hcases.
  cbv zeta in Hcases. rewrite Hfilter in Hcases.
  unfold get_weighted_severity.
  destruct Hcases as [[Hnil Hs] | [(Hc & Hlen & _) | [(Hne & _ & Hpos & Hs)
                                                     | (Hne & _ & Hzero & Hs)]]].
  - rewrite Hnil. eexists. eexists. split; [exact Hs | reflexivity].
  - specialize (Htext Hc). lia.
  - destruct (AnalysisResult.risk_factors result) as [| first rest] eqn:E;
      [congruence |].
    rewrite <- E in *. eexists. eexists. split; [exact Hs |].
    assert (Hq : Qeq_bool (sum (map RiskFactor.confidence
                                    (AnalysisResult.risk_factors result))) 0
                 = false).
    { destruct (Qeq_bool _ 0) eqn:Eq; [| reflexivity].
      apply Qeq_bool_iff in Eq. lra. }
    rewrite Hq. unfold div. rewrite Hq. reflexivity.
  - destruct (AnalysisResult.risk_factors result) as [| first rest] eqn:E;
      [congruence |].
    rewrite <- E in *. eexists. eexists. split; [exact Hs |].
    assert (Hq : Qeq_bool (sum (map RiskFactor.confidence
                                    (AnalysisResult.risk_factors result))) 0
                 = true).
    { apply Qeq_bool_iff.
      assert (0 <= sum (map RiskFactor.confidence
                            (AnalysisResult.risk_factors result))).
      { apply sum_nonneg. apply Forall_forall. intros x Hx.
        apply in_map_iff in Hx. destruct Hx as (f & <- & Hf).
        rewrite Forall_forall in Hvalid. apply (Hvalid f Hf). }
      lra. }
    rewrite Hq. reflexivity.
Qed.

Lemma constructs_valid (l : list RiskFactor.t) :
  Forall constructs l -> Forall RiskFactor.valid l.
Proof.
  intros H. eapply Forall_impl; [| exact H]. intros f [Hf _]. exact Hf.
Qed.

Lemma analyzers_scores_weighted (request : JobAnalysisRequest.t)
      (results : Dict.t AnalysisResult.t) :
  _run_all_analyzers text_findall email_match email_search url_match
    url_search urlparse domain_match request = Some results ->
  exists text email url platform,
    results = Spec.results text email url platform
    /\ ((List.length (AnalysisResult.risk_factors text) <= 5)%nat ->
        exists score confidence,
          score_category (collect_risk_factors results) TEXT_ANALYSIS
          = Some (score, confidence)
          /\ get_weighted_severity text = Some score)
    /\ (exists score confidence,
           score_category (collect_risk_factors results) EMAIL_VALIDATION
           = Some (score, confidence)
           /\ get_weighted_severity email = Some score)
    /\ (exists score confidence,
           score_category (collect_risk_factors results) URL_VALIDATION
           = Some (score, confidence)
           /\ get_weighted_severity url = Some score)
    /\ (exists score confidence,
           score_category (collect_risk_factors results) PLATFORM_CREDIBILITY
           = Some (score, confidence)
           /\ get_weighted_severity platform = Some score).
Proof.
  intros Hrun.
  destruct (results_construct _ _ _ _ _ _ _ _ _ Hrun)
    as (text & email & url & platform & Hresults
        & ((Ht & _) & Htc & _) & ((He & _) & Hec & _)
        & ((Hu & _) & Huc & _) & ((Hp & _) & Hpc & _)).
  exists text, email, url, platform. split; [exact Hresults |].
  rewrite Hresults, collect_results.
  pose proof (fun category =>
                pooled_filter _ _ _ _ category Htc Hec Huc Hpc) as Hpool.
  split; [| split; [| split]].
  - intros Hlen.
    apply category_score_weighted;
      [apply Hpool | apply constructs_valid, Ht | intros _; exact Hlen].
  - apply category_score_weighted;
      [apply Hpool | apply constructs_valid, He | discriminate].
  - apply category_score_weighted;
      [apply Hpool | apply constructs_valid, Hu | discriminate].
  - apply category_score_weighted;
      [apply Hpool | apply constructs_valid, Hp | discriminate].
Qed.

(** X16.  For the four results of a request, the score the service gives
    to the email, URL and platform categories is the
    [get_weighted_severity] of the result of that analyzer, and so is the
    score of the text category when the text analyzer has five risk
    factors at most: the service and the method of the model compute the
    same weighted average, and neither raises. *)
Theorem category_scores_are_weighted_severities
        (request : JobAnalysisRequest.t)
        (results : Dict.t AnalysisResult.t) :
  _run_all_analyzers text_findall email_match email_search url_match
    url_search urlparse domain_match request = Some results ->
  exists text email url platform,
    results = Spec.results text email url platform
    /\ ((List.length (AnalysisResult.risk_factors text) <= 5)%nat ->
        exists score confidence,
          score_category (collect_risk_factors results) TEXT_ANALYSIS
          = Some (score, confidence)
          /\ get_weighted_severity text = Some score)
    /\ (exists score confidence,
           score_category (collect_risk_factors results) EMAIL_VALIDATION
           = Some (score, confidence)
           /\ get_weighted_severity email = Some score)
    /\ (exists score confidence,
           score_category (collect_risk_factors results) URL_VALIDATION
           = Some (score, confidence)
           /\ get_weighted_severity url = Some score)
    /\ (exists score confidence,
           score_category (collect_risk_factors results) PLATFORM_CREDIBILITY
           = Some (score, confidence)
           /\ get_weighted_severity platform = Some score).
Proof. apply analyzers_scores_weighted. Qed.

End CategoryScores.

Lemma category_scores_are_weighted_severities_witness :
  exists results platform score confidence,
    JobAnalysisService._run_all_analyzers Examples.no_findall
      Examples.no_email_pattern Examples.no_email_pattern
      Examples.url_shape_only Examples.no_url_pattern
      Examples.parse_example Examples.no_domain
      (Examples.example_com_request "telegram")
    = Some results
    /\ JobAnalysisService.score_category
         (JobAnalysisService.collect_risk_factors results)
         PLATFORM_CREDIBILITY
       = Some (score, confidence)
    /\ AnalysisResultMethods.get_weighted_severity platform = Some score
    /\ AnalysisResult.risk_factors platform <> [].
Proof.
  destruct (JobAnalysisService._run_all_analyzers Examples.no_findall
              Examples.no_email_pattern Examples.no_email_pattern
              Examples.url_shape_only Examples.no_url_pattern
              Examples.parse_example Examples.no_domain
              (Examples.example_com_request "telegram"))
    as [results |] eqn:Hrun; [| vm_compute in Hrun; discriminate].
  destruct (category_scores_are_weighted_severities _ _ _ _ _ _ _ _ _ Hrun)
    as (text & email & url & platform & Hresults & _ & _ & _
        & score & confidence & Hscore & Hweighted).
  exists results, platform, score, confidence.
  split; [reflexivity |]. split; [exact Hscore |].
  split; [exact Hweighted |].
  vm_compute in Hrun. injection Hrun as <-.
  injection Hresults as _ _ _ <-. discriminate.
Defined.

(** ** A request without findings *)

Section NothingFound.

Import PyNum JobAnalysisService.
Open Scope Q_scope.

Lemma no_factors_of_results (results : Dict.t AnalysisResult.t)
      (key : string) (result : AnalysisResult.t) :
  collect_risk_factors results = [] ->
  Dict.get results key = Some result ->
  AnalysisResult.risk_factors result = [].
Proof.
  unfold collect_risk_factors, Dict.values.
  induction results as [| [k r] rest IH]; simpl; [discriminate |].
  intros H. apply app_eq_nil in H. destruct H as [Hr Hrest].
  destruct (String.eqb key k); [intros [= <-]; exact Hr | apply IH, Hrest].
Qed.

Lemma professional_bonus_nonneg (job_text : string) :
  (0 <= _calculate_professional_bonus job_text)%Z.
Proof.
  unfold _calculate_professional_bonus.
  destruct (negb (PyStr.truthy job_text)); [lia |].
  cbv zeta. rewrite Zmin2_spec.
  repeat match goal with
    | |- context [if ?c then _ else _] => destruct c
    end; lia.
Qed.

Lemma nothing_found (results : Dict.t AnalysisResult.t)
      (request : JobAnalysisRequest.t) :
  collect_risk_factors results = [] ->
  _calculate_overall_risk_score_with_confidence results request
  = Some (0%Z, _calculate_confidence_level results request)
  /\ _generate_flags results = [].
Proof.
  intros Hnone. split.
  - unfold _calculate_overall_risk_score_with_confidence. rewrite Hnone.
    cbn [score_categories RiskCategory_members score_category filter].
    cbv beta iota zeta.
    change (normalize (blend _)) with (Some 0).
    cbv beta iota.
    assert (Hm : _get_platform_risk_multiplier (Dict.get results "platform")
                 = 1).
    { unfold _get_platform_risk_multiplier.
      destruct (Dict.get results "platform") as [r |] eqn:E; [| reflexivity].
      rewrite (no_factors_of_results _ _ _ Hnone E). reflexivity. }
    rewrite Hm.
    assert (Hb : match Dict.get results "text" with
                 | Some _ =>
                     max2 0 (0 - inject_Z
                                   (_calculate_professional_bonus
                                      (JobAnalysisRequest.job_text request)))
                 | None => 0
                 end == 0).
    { destruct (Dict.get results "text"); [| reflexivity].
      pose proof (professional_bonus_nonneg
                    (JobAnalysisRequest.job_text request)) as Hbonus.
      unfold max2. destruct (Qlt_bool 0 _) eqn:E; [| reflexivity].
      apply Qlt_bool_true in E. rewrite Zle_Qle in Hbonus.
      change (inject_Z 0) with 0 in Hbonus. lra. }
    set (base := match Dict.get results "text" with
                 | Some _ =>
                     max2 0 (0 - inject_Z
                                   (_calculate_professional_bonus
                                      (JobAnalysisRequest.job_text request)))
                 | None => 0
                 end) in *.
    assert (Hr : round (base * 1) = 0%Z).
    { assert (E : base * 1 == inject_Z 0) by (rewrite Hb; reflexivity).
      apply Z.le_antisymm.
      - rewrite <- (round_inject 0). apply round_mono. rewrite E. lra.
      - rewrite <- (round_inject 0). apply round_mono. rewrite E. lra. }
    rewrite Hr. reflexivity.
  - unfold _generate_flags. rewrite Hnone. reflexivity.
Qed.

(** X17.  When no analyzer has a finding, the risk score is 0, whatever
    the professional bonus of the text and the platform are, the verdict
    is Safe and there is no flag. *)
Theorem nothing_found_scores_zero (results : Dict.t AnalysisResult.t)
        (request : JobAnalysisRequest.t) :
  collect_risk_factors results = [] ->
  _calculate_overall_risk_score_with_confidence results request
  = Some (0%Z, _calculate_confidence_level results request)
  /\ _determine_verdict 0 = SAFE
  /\ _generate_flags results = [].
Proof.
  intros Hnone. destruct (nothing_found results request Hnone) as [Hs Hf].
  split; [exact Hs |]. split; [reflexivity | exact Hf].
Qed.

End NothingFound.

Lemma nothing_found_scores_zero_witness :
  JobAnalysisService.collect_risk_factors Examples.two_fields_results = []
  /\ exists level,
       JobAnalysisService._calculate_overall_risk_score_with_confidence
         Examples.two_fields_results Examples.two_fields_request
       = Some (0%Z, level).
Proof.
  assert (H : JobAnalysisService.collect_risk_factors
                Examples.two_fields_results = []) by reflexivity.
  split; [exact H |].
  destruct (nothing_found_scores_zero Examples.two_fields_results
              Examples.two_fields_request H) as [Hs _].
  eexists. exact Hs.
Defined.

(** ** A client that has been quiet *)

Section QuietClient.

Import PyNum RateLimitingMiddleware RateLimitingRun.
Open Scope Q_scope.
Open Scope list_scope.

(** The answers to a sequence of requests followed by one more: the
    answers to the sequence, then the answer to the last request on the
    times served by then, which are the times served before and the times
    of requests of the sequence on a limited path. *)
Lemma sliding_window_last (per_minute per_hour : Z) (a : arrival)
      (arrivals : list arrival) :
  forall served : string -> list Q,
  exists front served',
    sliding_window per_minute per_hour served (arrivals ++ [a])
    = front ++ sliding_window per_minute per_hour served' [a]
    /\ forall ip t,
         In t (served' ip) ->
         In t (served ip)
         \/ exists b,
              In b arrivals /\ limited_path b = true
              /\ _get_client_ip (request b) = Some ip
              /\ t = at_record (clock b).
Proof.
  induction arrivals as [| b rest IH]; intros served.
  - exists [], served. split; [reflexivity |]. intros ip t Ht. left. exact Ht.
  - cbn [app sliding_window].
    assert (Hsame : exists front served',
               sliding_window per_minute per_hour served (rest ++ [a])
               = front ++ sliding_window per_minute per_hour served' [a]
               /\ forall ip t,
                    In t (served' ip) ->
                    In t (served ip)
                    \/ exists b0,
                         In b0 (b :: rest) /\ limited_path b0 = true
                         /\ _get_client_ip (request b0) = Some ip
                         /\ t = at_record (clock b0)).
    { destruct (IH served) as (front & served' & Heq & Hin).
      exists front, served'. split; [exact Heq |].
      intros ip t Ht. destruct (Hin ip t Ht) as [H | (b0 & Hb0 & H)];
        [left; exact H | right; exists b0; split; [right; exact Hb0 | exact H]]. }
    destruct (limited_path b) eqn:Epath.
    2:{ destruct Hsame as (front & served' & Heq & Hin).
        exists (call_next :: front), served'. rewrite Heq.
        split; [reflexivity | exact Hin]. }
    destruct (get_client_ip_total (request b)) as (client & Hclient).
    rewrite Hclient.
    destruct (per_minute <=? _)%Z.
    { destruct Hsame as (front & served' & Heq & Hin).
      eexists (_ :: front), served'. rewrite Heq.
      split; [reflexivity | exact Hin]. }
    destruct (per_hour <=? _)%Z.
    { destruct Hsame as (front & served' & Heq & Hin).
      eexists (_ :: front), served'. rewrite Heq.
      split; [reflexivity | exact Hin]. }
    destruct (IH (also_served served client (at_record (clock b))))
      as (front & served' & Heq & Hin).
    exists (call_next :: front), served'. rewrite Heq.
    split; [reflexivity |].
    intros ip t Ht. destruct (Hin ip t Ht) as [H | (b0 & Hb0 & H)].
    + unfold also_served in H. destruct (String.eqb ip client) eqn:E.
      * apply in_app_or in H. destruct H as [H | [<- | []]];
          [left; exact H |].
        apply String.eqb_eq in E. subst ip.
        right. exists b. repeat split; try assumption. left. reflexivity.
      * left. exact H.
    + right. exists b0. split; [right; exact Hb0 | exact H].
Qed.

(** No time later than the cutoff among times that are not later. *)
Lemma recent_none (length now : Q) (times : list Q) :
  (forall t, In t times -> t + length <= now) ->
  recent length now times = 0%nat.
Proof.
  intros H. unfold recent, later_than.
  induction times as [| x r IH]; [reflexivity |].
  cbn [filter]. destruct (Qlt_bool (now - length) x) eqn:E.
  - apply Qlt_bool_true in E. specialize (H x (or_introl eq_refl)). lra.
  - apply IH. intros t Ht. apply H. right. exact Ht.
Qed.

Lemma quiet_client_served (per_minute per_hour interval : Z) (started : Q)
      (arrivals : list arrival) (a : arrival) (client_ip : string) :
  chronological started (arrivals ++ [a]) ->
  (0 < per_minute)%Z -> (0 < per_hour)%Z ->
  _get_client_ip (request a) = Some client_ip ->
  exists after answers answer,
    serve (__init__ per_minute per_hour interval started) (arrivals ++ [a])
    = Some (after, answers ++ [answer])
    /\ ((forall b,
            In b arrivals -> limited_path b = true ->
            _get_client_ip (request b) = Some client_ip ->
            at_record (clock b) + 60 <= at_check (clock a)) ->
        answer
        <> too_many_requests
             ("Rate limit exceeded: " ++ PyMore.of_int per_minute
                ++ " requests per minute")%string)
    /\ ((forall b,
            In b arrivals -> limited_path b = true ->
            _get_client_ip (request b) = Some client_ip ->
            at_record (clock b) + 3600 <= at_check (clock a)) ->
        answer = call_next).
Proof.
  intros Hclock Hpm Hph Hip.
  destruct (serve_sliding_window (arrivals ++ [a])
              (__init__ per_minute per_hour interval started) started
              (fun _ => [])) as (after & Hserve); [| exact Hclock |].
  { constructor.
    - cbn. constructor.
    - intros ip c _. reflexivity.
    - intros ip c _. reflexivity. }
  cbn [__init__ requests_per_minute requests_per_hour] in Hserve.
  destruct (sliding_window_last per_minute per_hour a arrivals (fun _ => []))
    as (front & served' & Heq & Hin).
  rewrite Heq in Hserve. exists after, front.
  assert (Hquiet : forall length,
             (forall b,
                 In b arrivals -> limited_path b = true ->
                 _get_client_ip (request b) = Some client_ip ->
                 at_record (clock b) + length <= at_check (clock a)) ->
             recent length (at_check (clock a)) (served' client_ip) = 0%nat).
  { intros length Hb. apply recent_none. intros t Ht.
    destruct (Hin client_ip t Ht) as [[] | (b & Hb0 & Hpath & Hclient & ->)].
    apply (Hb b Hb0 Hpath Hclient). }
  cbn [sliding_window] in Hserve. rewrite Hip in Hserve.
  destruct (limited_path a).
  2:{ exists call_next. split; [exact Hserve |].
      split; [discriminate | reflexivity]. }
  destruct (per_minute <=? _)%Z eqn:Em.
  { eexists. split; [exact Hserve |]. apply Z.leb_le in Em. split.
    - intros Hb. rewrite (Hquiet 60 Hb) in Em. lia.
    - intros Hb. exfalso.
      assert (Hb' : forall b,
                 In b arrivals -> limited_path b = true ->
                 _get_client_ip (request b) = Some client_ip ->
                 at_record (clock b) + 60 <= at_check (clock a)).
      { intros b H1 H2 H3. specialize (Hb b H1 H2 H3). lra. }
      rewrite (Hquiet 60 Hb') in Em. lia. }
  destruct (per_hour <=? _)%Z eqn:Eh.
  { eexists. split; [exact Hserve |]. apply Z.leb_le in Eh. split.
    - intros _ E. injection E as E.
      apply (f_equal PyMore.last_char) in E.
      rewrite !last_char_app in E. cbn in E. discriminate E.
    - intros Hb. rewrite (Hquiet 3600 Hb) in Eh. lia. }
  exists call_next. split; [exact Hserve |].
  split; [discriminate | reflexivity].
Qed.

End QuietClient.

Section QuietClientServed.

Import PyNum RateLimitingMiddleware RateLimitingRun.
Open Scope Q_scope.
Open Scope list_scope.

(** X18.  With limits above zero and a clock that does not go back, the
    middleware does not shut a client out: a request of a client whose
    earlier requests on limited paths are all 60 seconds old or more is
    not refused for the limit per minute, and when they are all 3600
    seconds old or more it goes on to the next handler, whatever was
    served or refused before and whatever other clients did. *)
Theorem rate_limiter_serves_a_quiet_client
        (per_minute per_hour interval : Z) (started : Q)
        (arrivals : list arrival) (a : arrival) (client_ip : string) :
  chronological started (arrivals ++ [a]) ->
  (0 < per_minute)%Z -> (0 < per_hour)%Z ->
  _get_client_ip (request a) = Some client_ip ->
  exists after answers answer,
    serve (__init__ per_minute per_hour interval started) (arrivals ++ [a])
    = Some (after, answers ++ [answer])
    /\ ((forall b,
            In b arrivals -> limited_path b = true ->
            _get_client_ip (request b) = Some client_ip ->
            at_record (clock b) + 60 <= at_check (clock a)) ->
        answer
        <> too_many_requests
             ("Rate limit exceeded: " ++ PyMore.of_int per_minute
                ++ " requests per minute")%string)
    /\ ((forall b,
            In b arrivals -> limited_path b = true ->
            _get_client_ip (request b) = Some client_ip ->
            at_record (clock b) + 3600 <= at_check (clock a)) ->
        answer = call_next).
Proof. apply quiet_client_served. Qed.

Lemma rate_limiter_serves_a_quiet_client_witness :
  chronological 0 (MoreExamples.burst ++ [MoreExamples.return_visit])
  /\ (forall b,
         In b MoreExamples.burst -> limited_path b = true ->
         _get_client_ip (request b) = Some "10.0.0.1"%string ->
         at_record (clock b) + 3600
         <= at_check (clock MoreExamples.return_visit))
  /\ exists after answers,
       serve (__init__ 2 1000 300 0)
             (MoreExamples.burst ++ [MoreExamples.return_visit])
       = Some (after, answers ++ [call_next]).
Proof.
  assert (Hclock : chronological 0
                     (MoreExamples.burst ++ [MoreExamples.return_visit])).
  { cbn. repeat split; lra. }
  assert (Hquiet : forall b,
             In b MoreExamples.burst -> limited_path b = true ->
             _get_client_ip (request b) = Some "10.0.0.1"%string ->
             at_record (clock b) + 3600
             <= at_check (clock MoreExamples.return_visit)).
  { intros b Hb _ _. unfold MoreExamples.burst in Hb. cbn [In] in Hb.
    repeat destruct Hb as [<- | Hb]; try contradiction; cbn; lra. }
  split; [exact Hclock |]. split; [exact Hquiet |].
  destruct (rate_limiter_serves_a_quiet_client 2 1000 300 0
              MoreExamples.burst MoreExamples.return_visit "10.0.0.1"
              Hclock ltac:(lia) ltac:(lia) eq_refl)
    as (after & answers & answer & Hserve & _ & Hhour).
  exists after, answers. rewrite Hserve, (Hhour Hquiet). reflexivity.
Defined.

End QuietClientServed.

(** ** The explanation and the flags *)

Section Explanation.

Import PyStr PyMore JobAnalysisService JobAnalysisServiceExplanation.
Open Scope string_scope.

Lemma prefix_app_l (x a b : string) :
  prefix x a = true -> prefix x (a ++ b) = true.
Proof.
  revert a. induction x as [| c r IH]; intros a;
    [intros _; destruct (a ++ b); reflexivity |].
  destruct a as [| d a']; cbn [prefix append]; [discriminate |].
  destruct (ascii_dec c d); [apply IH | discriminate].
Qed.

Lemma contains_app_l (x a b : string) :
  contains x a = true -> contains x (a ++ b) = true.
Proof.
  induction a as [| c r IH].
  - cbn [contains append]. rewrite orb_false_r. intros H.
    destruct x; [| discriminate]. destruct b; reflexivity.
  - cbn [contains append]. intros H. apply orb_true_iff in H.
    destruct H as [H | H].
    + change (String c (r ++ b)) with (String c r ++ b).
      rewrite (prefix_app_l _ _ _ H). reflexivity.
    + rewrite (IH H). apply orb_true_r.
Qed.

(** What an item of a joined list holds, the joined text holds. *)
Lemma contains_join (x sep : string) (items : list string) (item : string) :
  In item items -> contains x item = true ->
  contains x (join sep items) = true.
Proof.
  intros Hin Hx. induction items as [| a r IH]; [contradiction |].
  destruct r as [| b r'].
  - destruct Hin as [<- | []]. exact Hx.
  - change (join sep (a :: b :: r')) with (a ++ sep ++ join sep (b :: r')).
    destruct Hin as [<- | Hin].
    + apply contains_app_l, Hx.
    + apply contains_after, contains_after, IH, Hin.
Qed.

(** The opening states the score. *)
Lemma opening_states_score (risk_score : Z) (verdict : VerdictEnum)
      (confidence_level : ConfidenceEnum) :
  contains (of_int risk_score) (opening risk_score verdict confidence_level)
  = true.
Proof. unfold opening. destruct verdict; apply contains_between. Qed.

(** The sentence on the concerns quotes the first risk factor. *)
Lemma concerns_quote_first (first : RiskFactor.t) (rest : list RiskFactor.t) :
  exists sentence,
    concerns_sentence (first :: rest) = [sentence]
    /\ contains (lower (RiskFactor.description first)) sentence = true.
Proof.
  unfold concerns_sentence.
  destruct rest as [| second [| third rest]]; cbn [firstn map removelast last].
  - eexists. split; [reflexivity | apply contains_between].
  - eexists. split; [reflexivity | apply contains_between].
  - eexists. split; [reflexivity |].
    cbn [join]. apply contains_after, contains_app_l, contains_here.
Qed.

(** The first flag is the description of the first of the sorted risk
    factors. *)
Lemma flags_first (first : RiskFactor.t) (rest : list RiskFactor.t) :
  exists others,
    flags_loop (first :: rest) [] [] = RiskFactor.description first :: others.
Proof.
  cbn [flags_loop mem existsb negb app List.length Nat.leb].
  rewrite flags_loop_dedup by (cbn; lia).
  eexists. reflexivity.
Qed.

Lemma explanation_and_flags (results : Dict.t AnalysisResult.t)
      (risk_score : Z) (verdict : VerdictEnum)
      (confidence_level : ConfidenceEnum) :
  collect_risk_factors results <> [] ->
  exists flag others,
    _generate_flags results = flag :: others
    /\ contains (lower flag)
                (_generate_explanation results risk_score verdict
                   confidence_level) = true
    /\ contains (of_int risk_score)
                (_generate_explanation results risk_score verdict
                   confidence_level) = true.
Proof.
  intros Hne. unfold _generate_flags, _generate_explanation. cbv zeta.
  destruct (sorted_desc RiskFactor.sort_key (collect_risk_factors results))
    as [| first rest] eqn:Es.
  { exfalso. apply Hne. apply length_zero_iff_nil.
    rewrite <- (sorted_desc_length RiskFactor.sort_key), Es. reflexivity. }
  destruct (flags_first first rest) as (others & Hflags).
  destruct (concerns_quote_first first rest) as (sentence & Hs & Hquote).
  exists (RiskFactor.description first), others.
  split; [exact Hflags |]. rewrite Hs. split.
  - apply (contains_join _ _ _ sentence); [| exact Hquote].
    destruct (truthy (_get_category_insights results)); cbn [app In]; tauto.
  - apply (contains_join _ _ _
             (opening risk_score verdict confidence_level));
      [| apply opening_states_score].
    destruct (truthy (_get_category_insights results)); cbn [app In]; tauto.
Qed.

(** X19.  When the results hold a risk factor, the first flag is the
    description of the first of the risk factors in the order of the
    service (sorted by severity times confidence, the greatest first),
    and the explanation quotes that flag in lower case; the explanation
    also states the risk score. *)
Theorem explanation_quotes_first_flag (results : Dict.t AnalysisResult.t)
        (risk_score : Z) (verdict : VerdictEnum)
        (confidence_level : ConfidenceEnum) :
  collect_risk_factors results <> [] ->
  exists flag others top rest,
    _generate_flags results = flag :: others
    /\ sorted_desc RiskFactor.sort_key (collect_risk_factors results)
       = top :: rest
    /\ flag = RiskFactor.description top
    /\ contains (lower flag)
                (_generate_explanation results risk_score verdict
                   confidence_level) = true
    /\ contains (of_int risk_score)
                (_generate_explanation results risk_score verdict
                   confidence_level) = true.
Proof.
  intros Hne.
  destruct (explanation_and_flags results risk_score verdict
              confidence_level Hne) as (flag & others & Hflags & Hq & Hs).
  destruct (sorted_desc RiskFactor.sort_key (collect_risk_factors results))
    as [| top rest] eqn:Es.
  { exfalso. apply Hne. apply length_zero_iff_nil.
    rewrite <- (sorted_desc_length RiskFactor.sort_key), Es. reflexivity. }
  exists flag, others, top, rest.
  split; [exact Hflags |]. split; [reflexivity |].
  split; [| split; [exact Hq | exact Hs]].
  unfold _generate_flags in Hflags. cbv zeta in Hflags. rewrite Es in Hflags.
  destruct (flags_first top rest) as (others' & Hf).
  rewrite Hf in Hflags. congruence.
Qed.

End Explanation.

Lemma explanation_quotes_first_flag_witness :
  JobAnalysisService.collect_risk_factors
    (Spec.results (AnalysisResult.Build [] 1 "TextAnalyzer")
                  MoreExamples.two_email_findings
                  (AnalysisResult.Build [] 1 "URLAnalyzer")
                  (AnalysisResult.Build [] 1 "PlatformAnalyzer"))
  <> []
  /\ exists others,
       JobAnalysisService._generate_flags
         (Spec.results (AnalysisResult.Build [] 1 "TextAnalyzer")
                       MoreExamples.two_email_findings
                       (AnalysisResult.Build [] 1 "URLAnalyzer")
                       (AnalysisResult.Build [] 1 "PlatformAnalyzer"))
       = "Email domain exceeds maximum length"%string :: others
       /\ PyStr.contains "email domain exceeds maximum length"
            (JobAnalysisServiceExplanation._generate_explanation
               (Spec.results (AnalysisResult.Build [] 1 "TextAnalyzer")
                             MoreExamples.two_email_findings
                             (AnalysisResult.Build [] 1 "URLAnalyzer")
                             (AnalysisResult.Build [] 1 "PlatformAnalyzer"))
               8 SAFE Medium) = true.
Proof.
  assert (H : JobAnalysisService.collect_risk_factors
                (Spec.results (AnalysisResult.Build [] 1 "TextAnalyzer")
                              MoreExamples.two_email_findings
                              (AnalysisResult.Build [] 1 "URLAnalyzer")
                              (AnalysisResult.Build [] 1 "PlatformAnalyzer"))
              <> []) by discriminate.
  split; [exact H |].
  destruct (explanation_quotes_first_flag _ 8%Z SAFE Medium H)
    as (flag & others & top & rest & Hflags & Hsorted & Hflag & Hquote & _).
  vm_compute in Hsorted. injection Hsorted as <- _.
  cbn [RiskFactor.description] in Hflag. subst flag.
  exists others. split; [exact Hflags | exact Hquote].
Defined.

(** ** The findings on missing fields *)

Section MissingFields.

Import PyStr PlatformFindings JobAnalysisRequestValidators.
Open Scope string_scope.

Variable findall : TextAnalyzer.pattern_name -> string -> list string.
Variable domain_match : string -> option string.

Lemma reports_flat_map {A : Type} (d : string)
      (factor : A -> list RiskFactor.t) (items : list A) :
  (forall a, In a items -> reports d (factor a) = false) ->
  reports d (flat_map factor items) = false.
Proof.
  intros H. induction items as [| a r IH]; [reflexivity |].
  cbn [flat_map]. rewrite reports_app, (H a (or_introl eq_refl)).
  apply IH. intros b Hb. apply H. right. exact Hb.
Qed.

(** The finding on a blank job text is made for a blank one only. *)
Lemma text_missing_reported (job_text : string) :
  reports "Job text is empty or missing"
          (AnalysisResult.risk_factors (TextAnalyzer.analyze findall job_text))
  = negb (truthy job_text) || negb (truthy (strip job_text)).
Proof.
  unfold TextAnalyzer.analyze.
  destruct (negb (truthy job_text) || negb (truthy (strip job_text)));
    [reflexivity |].
  cbv zeta. cbn [AnalysisResult.risk_factors].
  unfold TextAnalyzer._check_content_quality,
    TextAnalyzer._check_suspicious_patterns,
    TextAnalyzer._check_fraud_keywords.
  cbn [app].
  assert (Hk : reports "Job text is empty or missing"
                 (flat_map (TextAnalyzer.keyword_factor (lower job_text))
                           TextAnalyzer.fraud_keywords) = false).
  { apply reports_flat_map. intros [category keywords] _.
    unfold TextAnalyzer.keyword_factor.
    destruct (filter _ keywords); reflexivity. }
  assert (Hp : reports "Job text is empty or missing"
                 (flat_map (TextAnalyzer.pattern_factor findall job_text)
                           TextAnalyzer.suspicious_patterns) = false).
  { apply reports_flat_map. intros p _.
    unfold TextAnalyzer.pattern_factor.
    destruct (findall p job_text); [reflexivity |].
    destruct p; reflexivity. }
  cbv zeta.
  repeat match goal with
    | |- context [if ?c then _ else _] => destruct c
    end;
    rewrite ?reports_app, Hk, Hp; reflexivity.
Qed.

Lemma validated_not_blank (v w : string) :
  validate_job_text v = Some w ->
  negb (truthy w) || negb (truthy (strip w)) = false.
Proof.
  intros H. destruct (validate_text_normal v w H) as (_ & Hs & Ht & _).
  rewrite Hs, Ht. reflexivity.
Qed.

(** X20.  The text analyzer makes its finding "Job text is empty or
    missing" for a blank job text and for no other, and the platform
    analyzer its finding "Platform source is empty or missing" for a
    blank platform source and for no other: a request that passed the
    validators of the request model never gets either. *)
Theorem missing_field_findings_need_blank_input
        (job_text platform_source : string) :
  reports "Job text is empty or missing"
          (AnalysisResult.risk_factors (TextAnalyzer.analyze findall job_text))
  = negb (truthy job_text) || negb (truthy (strip job_text))
  /\ reports "Platform source is empty or missing"
             (AnalysisResult.risk_factors
                (PlatformAnalyzer.analyze domain_match platform_source))
     = negb (truthy platform_source) || negb (truthy (strip platform_source))
  /\ ((exists given, validate_job_text given = Some job_text) ->
      reports "Job text is empty or missing"
              (AnalysisResult.risk_factors
                 (TextAnalyzer.analyze findall job_text)) = false)
  /\ ((exists given, validate_platform_source given = Some platform_source) ->
      reports "Platform source is empty or missing"
              (AnalysisResult.risk_factors
                 (PlatformAnalyzer.analyze domain_match platform_source))
      = false).
Proof.
  split; [apply text_missing_reported |].
  split; [apply platform_missing_reported |]. split.
  - intros (given & H). rewrite text_missing_reported.
    apply (validated_not_blank given), H.
  - intros (given & H). rewrite platform_missing_reported.
    apply (validated_not_blank given), H.
Qed.

End MissingFields.

Lemma missing_field_findings_need_blank_input_witness :
  (exists given,
      JobAnalysisRequestValidators.validate_platform_source given
      = Some "telegram"%string)
  /\ PlatformFindings.reports "Platform source is empty or missing"
       (AnalysisResult.risk_factors
          (PlatformAnalyzer.analyze Examples.no_domain "telegram"))
     = false.
Proof.
  assert (H : exists given,
             JobAnalysisRequestValidators.validate_platform_source given
             = Some "telegram"%string)
    by (exists " telegram "%string; reflexivity).
  split; [exact H |].
  destruct (missing_field_findings_need_blank_input Examples.no_findall
              Examples.no_domain Examples.plain_posting "telegram")
    as (_ & _ & _ & Hplatform).
  exact (Hplatform H).
Defined.
